(* ===== verification/_CoqProject ===== *)
-Q . S2P
Prelude.v
Pricing.v
Ledger.v
Lock.v
PyJson.v
Store.v
Billing.v
Auth.v
Site.v
Social.v
Worker.v
Dispatch.v
Chapters.v
System.v
Queue.v
