(* ===== verification/Prelude.v ===== *)
(** * A verification library for the novelapp credit-metered generation pipeline

    novelapp is a Flask application in which a user writes a story and asks
    a language model to generate its metadata, story arcs, chapter
    summaries, a detailed chapter guide, chapter texts and images.  Every
    generation is paid for in credits.  An HTTP endpoint
    ([src/api/generation.py]) checks the user, estimates the cost
    ([src/predictions.py]), checks and takes a per-user Redis lock, queues
    a Celery job and writes a [pending] row of the generation log
    ([models/GenerationLog.py]).  A worker ([src/tasks.py]) runs the job:
    it calls the model, writes the result, reconciles the cost from the
    measured output, debits the user ([src/helpers.py]), marks the log row
    and, in a [finally] block, clears the lock.  Credits are bought through
    a Stripe webhook ([src/api/profile.py]), and an admin back office
    ([src/api/admin.py]) edits prices, roles, packages and balances.
    Users sign up, verify their email and sign in ([src/views/auth.py],
    [src/api/auth.py]); a JWT in a cookie names the current user.  At
    startup [src/app.py] seeds the price rows, the roles and an admin, and
    before every request its hook [check_maintenance_mode] refreshes the
    site settings and, during maintenance, turns away everyone but admins.

    ** Files

    - [Prelude] (this file): Python's [round] (half to even) on exact
      rationals, with its characterisation [round_spec]; the exception and
      state monad [st] that models [try/except/finally] ([try_except_finally])
      and Python exceptions ([PyExc]); [st_for]/[st_enumerate] for [for]
      loops; the hint databases [novel] and [novel_rw].
    - [Pricing] (Module [Pricing]): [src/predictions.py].  [credit_cost] is
      the arithmetic block every estimator repeats; each
      [calculate_predicted_*_cost] / [calculate_actual_*_cost] is its
      instance with the kind's model tier, floor, action names and output
      heuristic; [calculate_predicted_all_chapters_cost] is the loop of the
      source.  Prompt rendering and [count_tokens] are collaborators: the
      estimators take the token counts.
    - [Ledger] (Module [Ledger]): the three credit counters of
      [models/User.py], [can_spend_credits] and the body of [spend_credits]
      ([helpers.py]), the Stripe webhook's credit updates and the admin's
      [adjust_credits]; the abstract ledger (a balance per category) and
      the refinement of the record by it; a setoid equivalence with
      [Proper] instances.
    - [Lock] (Module [Lock]): the generation lock, the typeclass
      [LockStore] with its laws [LockStoreLaws] (the interface the
      dispatcher and the worker rely on) and the Redis key space
      [RedisLock] (user to expiry, [SET .. EX 2000 NX] and [DEL]).
    - [PyJson] (Module [PyJson]): the decoded JSON values and the Python
      operations the tasks apply to them ([dict.get], [len], iteration,
      [.items()], [str.strip]), each raising as Python does on the wrong type.
    - [Store] (Module [Store]): the rows of [src/models] as records, the
      database [DB] (users, stories with their characters, locations, arcs
      and chapters, chapter guides, the generation log, the price rows), the
      world [World] (committed database, the session's view with pending
      writes, the lock store, the job queue, the emitted events, the clock,
      the next task id) and the session operations ([work], [commit],
      [rollback], [session_remove]); the log operations and
      [is_last_generation_and_negative_creds].
    - [Worker] (Module [Worker]): each Celery task of [tasks.py] as a
      computation in the world monad, and [run_task], the worker's entry.
      The model provider's reply is an input ([Reply]); [json_loads] and
      [count_tokens] are section variables.
    - [Dispatch] (Module [Dispatch]): the endpoints of [generation.py] with
      the decorator [is_story_author_or_admin], the overdraft guard, the
      lock, the estimate, the affordability check and
      [try: .delay(); GenerationLog(); commit() except: ...]; the
      [predict_*_cost] endpoints; [flask_request] (fresh session, removed at
      teardown).
    - [Chapters] (Module [Chapters]): the endpoints of [api/story.py]
      that write chapter rows ([update_chapter_order],
      [update_chapter_summaries], [save_chapter], [delete_story]), behind
      the same decorator; the generation endpoints and the chapter task
      read those rows by [chapter_number].
    - [System] (Module [System]): the whole pipeline as a step relation
      [step] (a generation, prediction or chapter-editing request, a
      worker run of any queued job in any order, a clock tick, a credit
      purchase) with [reachable] its reflexive
      transitive closure; a small logic of invariants for the monad
      ([preserves]) and the class [LogInvariant] of predicates on the log.
    - [Queue] (Module [Queue]): the Celery broker as the world's FIFO of
      (task id, job) pairs.  Frame classes ([DbFrame], [LockFrame]) state
      which part of the world an operation leaves alone; [QueueInvariant]
      is the interface a predicate on the queue meets to be preserved by
      [.delay] and by a worker taking a job; [drain] runs the queued jobs
      in order, as one worker does.  The interleaving of a metadata
      request, whose job takes no lock, with a queued chapter job is
      proved here, where both the dispatcher and the worker are in scope.
    - [Billing] (Module [Billing]): the Stripe webhook and the two checkout
      endpoints of [api/profile.py] and the admin handlers of
      [api/admin.py] that change credits, price rows, roles and packages.
      Its state [Backoffice] pairs the [DB] of [Store] with a [Shop]
      (accounts' billing columns, roles, packages, revenue rows); Stripe's
      answers are inputs; [handle_admin] routes a request to its handler
      and [bo_step] is the back office's transition relation.  Billing
      sits beside [Dispatch] and [System]: it shares their database but
      not the lock or the queue.
    - [Auth] (Module [Auth]): the sign-in columns of [models/User.py] as
      [Credential], JWTs as their [Claims] (signatures and bcrypt are not
      modelled: a token is one the application made, a password is
      compared as given), [is_valid_password] as Python's [re] matches
      its pattern, [get_current_user] and [is_admin], the views [login]
      (split at [login_attempt]: the 24-hour memory, the lock, the
      15-minute lockout after five failures), [register], [verify_email],
      [forgot_password], [reset_password], [resend_verification],
      [update_profile] ([api/profile.py]), and the admin's
      [toggle_lock_user], [toggle_under_review] and [delete_user].  The state [Site] pairs the credentials with the
      back office of [Billing]; [auth_step] is its transition relation.
    - [Site] (Module [Site]): [src/app.py] on top of [Auth].  [App] adds
      the [SiteConfig] table and the two [app.config] flags; [serve] runs
      the [before_request] hook [check_maintenance_mode], then the
      route's view with its decorator ([handle_route]); [app_step] is the
      relation; [bootstrap] is the startup block with its single commit;
      [update_site_config] is the admin's settings form.
    - [Social] (Module [Social]): favorites, flags, comments and
      notifications ([api/story.py], [api/profile.py], the admin's
      [unflag_story] and [toggle_spotlight]) on the Auth site, with the
      Story columns they use and the association tables as sets of users
      per story; [social_step] is its transition relation, and
      [delete_user_community] is the admin's user deletion seen from it.
      The views [read_story] and [story_comments] of [views/story.py]
      and [search_public_stories] (its filters, with SQL [LIKE]) are the
      reads another user can make of a story.

    ** Theorems

    - Worker: the lock is released however a job ends; a failing provider
      debits nothing; a successful chapter job debits exactly the
      reconciled cost and marks its row; the failure paths the code has
      (missing chapter billed then failed; empty metadata left pending;
      half-applied metadata replacement committed).
    - Dispatch: Scenario B (insufficient credits: no job, no row, lock
      released) and Scenario C (lock held: rejected) of the specification;
      the overdraft guard, from the user's last log row and the kind's
      counter; a successful request queues one job with one pending row;
      the summaries endpoint keeps its lock on insufficient credits; "generate
      all chapters" numbers its jobs [1..n] by position, whatever the
      chapters' numbers.
    - System: along every run the generation log only evolves (rows keep
      their identity, terminal rows stay terminal, rows are appended).
    - Pricing: Scenario A; the modifier fallback; the [max(1, .)] floor;
      monotonicity of reconciliation in the output; a zero price raises;
      the all-chapters total is the sum of the per-chapter estimates; the
      chapter estimate can be zero.
    - Ledger and Lock: the refinement of the abstract debit, the
      affordability check, a debit undone by a purchase; mutual exclusion of
      the lock store.
    - Queue: liveness of the lock (once the queue is drained, every queued
      user's lock is free); task ids stay fresh along every run; in any
      world where a user holds the lock with a chapter job queued, a
      metadata request is accepted and its job, run first, frees the lock
      while the chapter job is still queued.  The all-chapters dispatch logs exactly the
      per-chapter breakdown the prediction endpoint returns (Dispatch).
    - Chapters: a summaries save numbers the chapters by payload
      position and keeps chapter ids distinct and fresh; with the Dispatch
      numbering theorem, an untitled summary item makes "generate all
      chapters" queue a job for a number no chapter has (a witness in
      System shows it), which Worker proves is billed and then failed.
      The log and queue invariants of System and Queue cover the chapter
      edits as steps.
    - Billing: the shop stays well formed along every run of the back
      office (roles of accounts exist, ids below the next id) and
      protected roles persist; the webhook's package purchase, the
      cancellation reset, [adjust_credits] and the modifier edit read back
      by the estimator; the error paths (no price row: [NameError]; a
      modifier for a new action: [IntegrityError]); a package edited
      between checkout and payment, and an invoice without a subscription.
    - Auth: the lockout bounds password guessing (at most five checks plus
      one per 15 minutes within a day, by an invariant over any sequence
      of attempts); a locked account answers the same for every password;
      registration, verification and sign-in round trip; the findings that
      an emailed verification token is a session, that locking a user
      leaves their sessions alive, that a username with a capital can
      never sign in.
    - Site: well-formedness of users (unique names and emails, ids below
      the next, roles of accounts exist) from startup along every run of
      requests; startup is idempotent when the admin is named "admin" and
      fails on restart otherwise; during maintenance a non-admin changes
      nothing except by signing in, Stripe's webhook is turned away for
      every event whenever the flag is on, and the API answers 503; closing registration applies to the next
      request.
    - Social: every story's favorites counter equals its number of
      favorites and no story keeps five flags, along every run; the fifth
      flag takes a story down and puts its author under review; the
      findings that a favorite of an unshared story cannot be removed,
      that deleting a user leaves the counters too high, and that the
      comments of a private story are shown to every signed-in user.

    ** Bounds and fuel

    No definition needs fuel: the tasks' loops are [st_for]/[st_enumerate]
    over the decoded lists and [dispatch_chapters] recurses on the chapter
    list.  Money is exact ([Q]); token counts and credit totals are
    unbounded integers ([Z]) as Python's are.  The lock's expiry is the
    source's 2000 seconds ([Lock.default_expire]); the clock only advances
    by [StepTick].  [Queue.drain] needs no fuel either: it recurses on the
    queue it is given, one worker run per job, and a run of [run_task]
    always returns (every loop of a task is over a finite list).
    [Model.query.filter_by(..).first()] without [order_by] returns the
    matching row of least id ([Billing.first_key]); [Site.first_key_least]
    proves it.  The lockout bound counts attempts between two times less
    than 24 hours apart, the window over which [login] remembers failures.
    Times are seconds ([datetime.utcnow()]).

    ** Not modelled

    The model provider and the object storage (their answers are inputs of
    a run), the prompt texts and the tokenizer ([prompt_templates.py],
    [openai_handler.py]: collaborators [render_prompt] and
    [count_tokens]), the JSON decoder (collaborator [json_loads]), the
    e-mail helpers (they send what [Auth] computes), JWT signatures and
    bcrypt, [logout] (it only deletes the cookie), the HTML views other
    than [read_story] and [story_comments] ([views/*]: they render for the
    author or an admin and change nothing), the Socket.IO room
    wiring, the story endpoints that write neither chapters nor the
    community tables (arcs, characters, story fields and tags, search,
    EPUB export), the admin pages for feedback, news and tags, the
    admin's [delete_story], [edit_story] and [new_story], the Stripe billing portal (a
    redirect) and Stripe's own state (its answers are inputs); foreign
    keys without a relationship (the database enforces them or not); the
    database's coercion
    of a float to an integer column; the sort of the chapter guide payload
    after it is committed; concurrency inside a job (each worker run is one
    atomic step, jobs of different runs interleave freely). *)

From Stdlib Require Import ZArith QArith Lia Lqa.
From stdpp Require Import base gmap strings list.

Declare Scope novel_scope.
Delimit Scope novel_scope with novel.

Create HintDb novel discriminated.
Create Rewrite HintDb novel_rw.

Local Open Scope Z_scope.

(** ** Python's [round] on exact rationals

    [round(x)] in Python returns the integer nearest to [x], breaking a tie
    towards the even neighbour.  The money values of the source are floats;
    the development reads them as the exact rationals they denote. *)

Definition py_round (q : Q) : Z :=
  let n := Qnum q in
  let d := Z.pos (Qden q) in
  let f := n / d in
  match Z.compare (2 * (n mod d)) d with
  | Lt => f
  | Gt => f + 1
  | Eq => if Z.even f then f else f + 1
  end.

(** [round(x, 2)]: rounding to two decimal places, again ties to even. *)
Definition py_round2 (q : Q) : Q := Qmake (py_round (q * (100 # 1))) 100.

(** The characterisation of round-half-even: [z] is within one half of
    [q = n/d], and an exact half only when [z] is even. *)
Definition round_spec (q : Q) (z : Z) : Prop :=
  let n := Qnum q in
  let d := Z.pos (Qden q) in
  let e := 2 * (n - z * d) in
  (- d < e < d) \/ ((e = d \/ e = - d) /\ Z.even z = true).

(** ** Python exceptions and the exception-and-state monad

    A task body runs in a world [S]; it either returns a value or raises
    one of the exceptions the modelled code can raise.  The world is kept
    in both cases, as Python keeps every side effect made before a raise. *)

Inductive PyExc :=
  | ModelCallError (msg : string)      (* the model provider raised *)
  | HttpError (msg : string)           (* requests.get / object storage failed *)
  | JSONDecodeError                    (* json.loads on malformed text *)
  | ValueError (msg : string)          (* raise ValueError(...) in the code *)
  | AttributeError (attr : string)     (* attribute access on None, or a
                                          method the value's type lacks *)
  | TypeError (msg : string)           (* len(None), iterating a number *)
  | ZeroDivisionError                  (* x / 0.0 in the cost arithmetic *)
  | IndexError                         (* list index out of range *)
  | NameError (name : string)          (* an undefined local name *)
  | IntegrityError (column : string)   (* a NOT NULL or UNIQUE column violated at commit *)
  | NotFound.                          (* abort(404) from get_or_404 *)

Inductive res (A : Type) :=
  | Ok (a : A)
  | Raise (e : PyExc).
Arguments Ok {A} a.
Arguments Raise {A} e.

Definition st (S A : Type) : Type := S -> res A * S.

Definition st_ret {S A} (a : A) : st S A := fun s => (Ok a, s).

Definition st_bind {S A B} (m : st S A) (k : A -> st S B) : st S B :=
  fun s => match m s with
           | (Ok a, s') => k a s'
           | (Raise e, s') => (Raise e, s')
           end.

Definition st_raise {S A} (e : PyExc) : st S A := fun s => (Raise e, s).
Definition st_get {S} : st S S := fun s => (Ok s, s).
Definition st_modify {S} (f : S -> S) : st S unit := fun s => (Ok tt, f s).

(** A pure computation that may raise, run inside the monad. *)
Definition st_of_res {S A} (r : res A) : st S A := fun s => (r, s).

(** [for x in l: body(x)]. *)
Fixpoint st_for {S A} (l : list A) (body : A -> st S unit) : st S unit :=
  match l with
  | [] => st_ret tt
  | x :: rest => st_bind (body x) (fun _ => st_for rest body)
  end.

(** [for i, x in enumerate(l, start)]. *)
Fixpoint st_enumerate {S A} (start : Z) (l : list A) (body : Z -> A -> st S unit) : st S unit :=
  match l with
  | [] => st_ret tt
  | x :: rest => st_bind (body start x) (fun _ => st_enumerate (start + 1) rest body)
  end.

(** [x.attr] where [x] may be [None]. *)
Definition st_some {S A} (attr : string) (o : option A) : st S A :=
  match o with Some a => st_ret a | None => st_raise (AttributeError attr) end.

(** [try: body except Exception as e: handler(e) finally: fin]. An exception
    raised by [fin] replaces the outcome of the first two blocks. *)
Definition try_except_finally {S A}
    (body : st S A) (handler : PyExc -> st S A) (fin : st S unit) : st S A :=
  fun s =>
    let '(r1, s1) := body s in
    let '(r2, s2) := match r1 with
                     | Ok a => (Ok a, s1)
                     | Raise e => handler e s1
                     end in
    match fin s2 with
    | (Ok _, s3) => (r2, s3)
    | (Raise e, s3) => (Raise e, s3)
    end.

Notation "x <- m ;; k" := (st_bind m (fun x => k))
  (at level 100, m at next level, right associativity) : novel_scope.
Notation "m ;; k" := (st_bind m (fun _ => k))
  (at level 100, right associativity) : novel_scope.

Open Scope novel_scope.

Lemma py_round_spec (q : Q) : round_spec q (py_round q).
Proof.
  destruct q as [n d]. unfold round_spec, py_round; simpl.
  pose proof (Z.div_mod n (Z.pos d) ltac:(lia)) as Hdm.
  pose proof (Z.mod_pos_bound n (Z.pos d) ltac:(lia)) as Hb.
  set (f := n / Z.pos d) in *. set (r := n mod Z.pos d) in *.
  destruct (Z.compare_spec (2 * r) (Z.pos d)).
  - destruct (Z.even f) eqn:He.
    + right. split; [lia | exact He].
    + right. split; [lia |]. rewrite Z.even_add, He. reflexivity.
  - left. lia.
  - left. lia.
Qed.

Lemma round_spec_unique (q : Q) (z1 z2 : Z) :
  round_spec q z1 -> round_spec q z2 -> z1 = z2.
Proof.
  destruct q as [n d]. unfold round_spec; simpl. intros H1 H2.
  assert (Hd : 0 < Z.pos d) by lia.
  assert (Hle : z1 - z2 <= 1 /\ z2 - z1 <= 1) by (split; nia).
  destruct (Z.eq_dec z1 z2) as [|Hne]; [assumption | exfalso].
  assert (Hz : z1 = z2 + 1 \/ z2 = z1 + 1) by lia.
  destruct H1 as [H1 | [H1 E1]], H2 as [H2 | [H2 E2]];
    destruct Hz as [-> | ->]; try nia.
  - rewrite Z.even_add in E1. rewrite E2 in E1. discriminate.
  - rewrite Z.even_add in E2. rewrite E1 in E2. discriminate.
Qed.

Lemma round_spec_iff (q : Q) (z : Z) : round_spec q z <-> py_round q = z.
Proof.
  split.
  - intros H. exact (round_spec_unique q _ _ (py_round_spec q) H).
  - intros <-. apply py_round_spec.
Qed.

Lemma round_spec_Qeq (q1 q2 : Q) (z : Z) :
  (q1 == q2)%Q -> round_spec q1 z -> round_spec q2 z.
Proof.
  destruct q1 as [n1 d1], q2 as [n2 d2]. unfold Qeq, round_spec; simpl.
  intros Heq H.
  assert (0 < Z.pos d1) by lia. assert (0 < Z.pos d2) by lia.
  destruct H as [H | [H E]]; [left | right; split; [| exact E]]; nia.
Qed.

#[export] Instance py_round_proper : Proper (Qeq ==> eq) py_round.
Proof.
  intros q1 q2 Heq. apply round_spec_iff.
  apply (round_spec_Qeq q2 q1); [symmetry; exact Heq | apply py_round_spec].
Qed.

Lemma round_mono_core (n1 n2 d1 d2 z1 z2 : Z) :
  0 < d1 -> 0 < d2 -> n1 * d2 <= n2 * d1 ->
  - d1 <= 2 * (n1 - z1 * d1) -> 2 * (n2 - z2 * d2) <= d2 ->
  (2 * z1 - 1) * (d1 * d2) <= (2 * z2 + 1) * (d1 * d2)
  /\ (- d1 < 2 * (n1 - z1 * d1) \/ 2 * (n2 - z2 * d2) < d2 ->
      (2 * z1 - 1) * (d1 * d2) < (2 * z2 + 1) * (d1 * d2)).
Proof.
  intros Hd1 Hd2 Hle H1 H2.
  assert (A : (2 * z1 - 1) * d1 * d2 <= 2 * n1 * d2) by (apply Z.mul_le_mono_pos_r; lia).
  assert (B : 2 * n2 * d1 <= (2 * z2 + 1) * d2 * d1) by (apply Z.mul_le_mono_pos_r; lia).
  split; [nia |]. intros [C | C].
  - assert ((2 * z1 - 1) * d1 * d2 < 2 * n1 * d2) by (apply Z.mul_lt_mono_pos_r; lia). nia.
  - assert (2 * n2 * d1 < (2 * z2 + 1) * d2 * d1) by (apply Z.mul_lt_mono_pos_r; lia). nia.
Qed.

Lemma py_round_mono (q1 q2 : Q) : (q1 <= q2)%Q -> py_round q1 <= py_round q2.
Proof.
  intros Hle. destruct (Z.le_gt_cases (py_round q1) (py_round q2)) as [|Hgt]; [assumption | exfalso].
  pose proof (py_round_spec q1) as S1. pose proof (py_round_spec q2) as S2.
  destruct q1 as [n1 d1], q2 as [n2 d2]. unfold Qle, round_spec in *; simpl in *.
  set (z1 := py_round (n1 # d1)) in *. set (z2 := py_round (n2 # d2)) in *.
  assert (0 < Z.pos d1) by lia. assert (0 < Z.pos d2) by lia.
  assert (Hp : 0 < Z.pos d1 * Z.pos d2) by lia.
  destruct (round_mono_core n1 n2 (Z.pos d1) (Z.pos d2) z1 z2) as [W Sx]; try lia.
  apply Z.mul_le_mono_pos_r in W; [| exact Hp].
  destruct S1 as [S1 | [S1 E1]].
  - specialize (Sx (or_introl (proj1 S1))). apply Z.mul_lt_mono_pos_r in Sx; lia.
  - destruct S2 as [S2 | [S2 E2]].
    + specialize (Sx (or_intror (proj2 S2))). apply Z.mul_lt_mono_pos_r in Sx; lia.
    + assert (z1 = z2 + 1) by lia. rewrite H1, Z.even_add, E2 in E1. discriminate.
Qed.

Lemma py_round_Z (z : Z) : py_round (inject_Z z) = z.
Proof. apply round_spec_iff. left. simpl. lia. Qed.

Lemma py_round_lower (z : Z) (q : Q) : (inject_Z z <= q)%Q -> z <= py_round q.
Proof. intros H. rewrite <- (py_round_Z z) at 1. now apply py_round_mono. Qed.

Lemma py_round_upper (z : Z) (q : Q) : (q <= inject_Z z)%Q -> py_round q <= z.
Proof. intros H. rewrite <- (py_round_Z z). now apply py_round_mono. Qed.

Lemma py_round_nonneg (q : Q) : (0 <= q)%Q -> 0 <= py_round q.
Proof. apply py_round_lower. Qed.

#[export] Hint Resolve py_round_mono py_round_nonneg py_round_lower py_round_upper : novel.
#[export] Hint Rewrite py_round_Z : novel_rw.

(** ** Laws of the monad *)

Section MonadLaws.
Context {S : Type}.

Lemma st_bind_ok {A B} (m : st S A) (k : A -> st S B) s a s' :
  m s = (Ok a, s') -> st_bind m k s = k a s'.
Proof. intros H. unfold st_bind. now rewrite H. Qed.

Lemma st_bind_raise {A B} (m : st S A) (k : A -> st S B) s e s' :
  m s = (Raise e, s') -> st_bind m k s = (Raise e, s').
Proof. intros H. unfold st_bind. now rewrite H. Qed.

(** Whatever the body and the handler do, the final world is one that the
    [finally] block produced: the guarantee Python gives to cleanup. *)
Lemma try_finally_runs {A} (body : st S A) (h : PyExc -> st S A) (fin : st S unit) s :
  exists s2, snd (try_except_finally body h fin s) = snd (fin s2).
Proof.
  unfold try_except_finally.
  destruct (body s) as [r1 s1].
  destruct (match r1 with Ok a => (Ok a, s1) | Raise e => h e s1 end) as [r2 s2].
  exists s2. destruct (fin s2) as [[] s3]; reflexivity.
Qed.

Lemma try_except_finally_ok {A} (body : st S A) h (fin : st S unit) s a s1 s2 :
  body s = (Ok a, s1) -> fin s1 = (Ok tt, s2) ->
  try_except_finally body h fin s = (Ok a, s2).
Proof. intros Hb Hf. unfold try_except_finally. now rewrite Hb, Hf. Qed.

Lemma try_except_finally_raise {A} (body : st S A) h (fin : st S unit) s e s1 :
  body s = (Raise e, s1) ->
  try_except_finally body h fin s =
    let '(r2, s2) := h e s1 in
    match fin s2 with (Ok _, s3) => (r2, s3) | (Raise e', s3) => (Raise e', s3) end.
Proof. intros Hb. unfold try_except_finally. now rewrite Hb. Qed.
End MonadLaws.

(** ** Python list indexing: [l[i]] is defined for [-len(l) <= i < len(l)]. *)

Definition py_index_ok (len i : Z) : bool := (- len <=? i) && (i <? len).

(** ** Sums of integer lists *)

Definition sumZ (l : list Z) : Z := fold_right Z.add 0 l.

Lemma sumZ_app (l1 l2 : list Z) : sumZ (l1 ++ l2) = sumZ l1 + sumZ l2.
Proof. induction l1 as [|x l IH]; simpl; [reflexivity | rewrite IH; lia]. Qed.

(** [seqZ] over the indices of a non-empty list. *)
Lemma seqZ_succ_len {A} (i : Z) (x : A) (rest : list A) :
  seqZ i (Z.of_nat (length (x :: rest))) = i :: seqZ (i + 1) (Z.of_nat (length rest)).
Proof. rewrite seqZ_cons by (simpl; lia). f_equal. f_equal; simpl; lia. Qed.


#[export] Hint Rewrite sumZ_app : novel_rw.

(** ** Shared tactics *)

Ltac inv_clear H := inversion H; subst; clear H.
