(* ===== verification/Pricing.v ===== *)
(** * Cost Estimator: [src/predictions.py]

    Every [calculate_predicted_*_cost] and [calculate_actual_*_cost] of the
    source repeats one arithmetic block: read the [TokenCostConfig] row of
    the model tier, turn the dollar prices into tokens per credit rounded to
    two places, divide the token counts by them and round (with [max(1, .)]
    for some kinds), multiply by the [CreditConfig] modifiers of the action
    (fallback 2) and round again.  [credit_cost] is that block once, and each
    source function is its instance.  Prompt rendering and [count_tokens]
    are the tokenizer collaborator: the functions here take the token
    counts they produce. *)

From Stdlib Require Import ZArith QArith Lia Lqa.
From stdpp Require Import base strings list.
From S2P Require Import Prelude.

Local Open Scope Z_scope.

Module Pricing.

(** [models/TokenCostConfig.py]: the singleton price row. *)
Record TokenCostConfig := {
  cost_per_credit : Q;
  cost_per_1m_input : Q;
  cost_per_1m_output : Q;
  o1_cost_per_credit : Q;
  o1_cost_per_1m_input : Q;
  o1_cost_per_1m_output : Q;
  dall_e_price_per_image : Q
}.

(** [models/CreditConfig.py]: one modifier per named action. *)
Record CreditConfig := {
  cc_type : string;
  cc_action : string;
  cc_modifier : Q
}.

(** [CreditConfig.query.filter_by(action=a).first()]. *)
Fixpoint credit_config_first (rows : list CreditConfig) (action : string)
    : option CreditConfig :=
  match rows with
  | [] => None
  | c :: rest => if String.eqb (cc_action c) action then Some c
                 else credit_config_first rest action
  end.

(** [modifier = config.modifier if config else 2]. *)
Definition lookup_modifier (rows : list CreditConfig) (action : string) : Q :=
  match credit_config_first rows action with
  | Some c => cc_modifier c
  | None => 2%Q
  end.

(** The two model tiers: ['gpt-4o-mini'] prices the [cost_per_*] columns,
    ['o1-mini'] the [o1_cost_per_*] columns. *)
Inductive ModelTier := Gpt4oMini | O1Mini.

#[export] Instance ModelTier_eq_dec : EqDecision ModelTier.
Proof. solve_decision. Defined.

Definition tier_credit_dollar (cfg : TokenCostConfig) (m : ModelTier) : Q :=
  match m with Gpt4oMini => cost_per_credit cfg | O1Mini => o1_cost_per_credit cfg end.
Definition tier_per_million_input (cfg : TokenCostConfig) (m : ModelTier) : Q :=
  match m with Gpt4oMini => cost_per_1m_input cfg | O1Mini => o1_cost_per_1m_input cfg end.
Definition tier_per_million_output (cfg : TokenCostConfig) (m : ModelTier) : Q :=
  match m with Gpt4oMini => cost_per_1m_output cfg | O1Mini => o1_cost_per_1m_output cfg end.

(** [round((credit_cost_dollar * 1_000_000) / cost_per_million, 2)]; a zero
    price raises [ZeroDivisionError]. *)
Definition tokens_per_credit (credit_dollar per_million : Q) : res Q :=
  if Qeq_bool per_million 0 then Raise ZeroDivisionError
  else Ok (py_round2 (credit_dollar * (1000000 # 1) / per_million)).

(** [round(tokens / tokens_per_credit)], wrapped in [max(1, .)] when
    [floor1] holds. *)
Definition base_credit_cost (floor1 : bool) (tokens : Z) (tpc : Q) : res Z :=
  if Qeq_bool tpc 0 then Raise ZeroDivisionError
  else let r := py_round (inject_Z tokens / tpc) in
       Ok (if floor1 then Z.max 1 r else r).

(** The dictionary every estimator returns. *)
Record CostBreakdown := {
  cb_input_tokens : Z;
  cb_output_tokens : Z;
  cb_model : ModelTier;
  cb_input_tokens_per_credit : Q;
  cb_output_tokens_per_credit : Q;
  cb_base_credit_cost_input : Z;
  cb_modified_credit_cost_input : Z;
  cb_base_credit_cost_output : Z;
  cb_modified_credit_cost_output : Z;
  cb_total_credit_cost : Z
}.

(** The shared block of lines 63-82 (and of each of its copies). *)
Definition credit_cost (cfg : option TokenCostConfig) (rows : list CreditConfig)
    (m : ModelTier) (floor1 : bool) (action_in action_out : string)
    (input_tokens output_tokens : Z) : res CostBreakdown :=
  match cfg with
  | None => Raise (AttributeError "cost_per_1m_input")
  | Some c =>
    match tokens_per_credit (tier_credit_dollar c m) (tier_per_million_input c m),
          tokens_per_credit (tier_credit_dollar c m) (tier_per_million_output c m) with
    | Raise e, _ | _, Raise e => Raise e
    | Ok tin, Ok tout =>
      match base_credit_cost floor1 input_tokens tin,
            base_credit_cost floor1 output_tokens tout with
      | Raise e, _ | _, Raise e => Raise e
      | Ok bin, Ok bout =>
        let min := py_round (inject_Z bin * lookup_modifier rows action_in) in
        let mout := py_round (inject_Z bout * lookup_modifier rows action_out) in
        Ok {| cb_input_tokens := input_tokens;
              cb_output_tokens := output_tokens;
              cb_model := m;
              cb_input_tokens_per_credit := tin;
              cb_output_tokens_per_credit := tout;
              cb_base_credit_cost_input := bin;
              cb_modified_credit_cost_input := min;
              cb_base_credit_cost_output := bout;
              cb_modified_credit_cost_output := mout;
              cb_total_credit_cost := min + mout |}
      end
    end
  end.

(** The generation kinds, with the [generation_type] strings of the log. *)
Inductive GenKind := KMeta | KStoryArcs | KSummaries | KChapterGuide | KChapter | KImage.

#[export] Instance GenKind_eq_dec : EqDecision GenKind.
Proof. solve_decision. Defined.

Definition generation_type (k : GenKind) : string :=
  match k with
  | KMeta => "meta" | KStoryArcs => "story_arcs" | KSummaries => "summaries"
  | KChapterGuide => "chapter_guide" | KChapter => "chapter" | KImage => "image"
  end.

(** [calculate_image_cost()]: a dollar price times the ["image"] modifier. *)
Record ImageCost := {
  ic_base_credit_cost : Q;
  ic_modifier : Q;
  ic_total_credit_cost : Q
}.

Definition calculate_image_cost (cfg : option TokenCostConfig) (rows : list CreditConfig)
    : res ImageCost :=
  match cfg with
  | None => Raise (AttributeError "dall_e_price_per_image")
  | Some c =>
    let base := dall_e_price_per_image c in
    let modifier := lookup_modifier rows "image" in
    Ok {| ic_base_credit_cost := base; ic_modifier := modifier;
          ic_total_credit_cost := base * modifier |}
  end.

(** The prediction of each text kind: the prompt's token count and the
    fixed output heuristic of the kind. *)
Definition calculate_predicted_meta_cost cfg rows (input_tokens : Z) :=
  credit_cost cfg rows Gpt4oMini true "meta_input" "meta_output" input_tokens 200.

Definition calculate_predicted_summaries_cost cfg rows (input_tokens chapters_count : Z) :=
  credit_cost cfg rows O1Mini false "summary_input" "summary_output"
    input_tokens (chapters_count * 50).

Definition calculate_predicted_story_arcs_cost cfg rows (input_tokens : Z) :=
  credit_cost cfg rows O1Mini true "arcs_input" "arcs_output" input_tokens 250.

Definition calculate_predicted_chapter_guide_cost cfg rows (input_tokens : Z) :=
  credit_cost cfg rows O1Mini true "chapter_guide_input" "chapter_guide_output"
    input_tokens 250.

(** [calculate_predicted_chapter_cost(story, chapter_index)]: reading
    [chapters[chapter_index]] (Python indexing, negative from the end) and
    [chapters[chapter_index - 1]] raises [IndexError] when the index is
    more than one past the last chapter, or below [-len(chapters)]. *)
Definition calculate_predicted_chapter_cost cfg rows (n_chapters chapter_index input_tokens : Z)
    : res CostBreakdown :=
  if ((chapter_index <? n_chapters) && (chapter_index <? - n_chapters))
     || ((0 <=? chapter_index - 1) && (n_chapters <=? chapter_index - 1))
  then Raise IndexError
  else credit_cost cfg rows O1Mini false "chapter_input" "chapter_output" input_tokens 300.

(** Reconciliation: the measured output token count replaces the heuristic. *)
Definition calculate_actual_meta_cost cfg rows (input_tokens output_tokens : Z) :=
  credit_cost cfg rows Gpt4oMini true "meta_input" "meta_output" input_tokens output_tokens.

Definition calculate_actual_summaries_cost cfg rows (input_tokens output_tokens : Z) :=
  credit_cost cfg rows O1Mini false "summary_input" "summary_output" input_tokens output_tokens.

Definition calculate_actual_story_arcs_cost cfg rows (input_tokens output_tokens : Z) :=
  credit_cost cfg rows O1Mini true "arcs_input" "arcs_output" input_tokens output_tokens.

Definition calculate_actual_chapter_guide_cost cfg rows (input_tokens output_tokens : Z) :=
  credit_cost cfg rows O1Mini true "chapter_guide_input" "chapter_guide_output"
    input_tokens output_tokens.

Definition calculate_actual_chapter_cost cfg rows (input_tokens output_tokens : Z) :=
  credit_cost cfg rows O1Mini false "chapter_input" "chapter_output" input_tokens output_tokens.

(** [calculate_predicted_all_chapters_cost(story)]: the loop over the
    chapters in order, [chapter_tokens] holding the prompt token count of
    each; it accumulates the total and the breakdown as the source does. *)
Record ChapterPrediction := {
  cp_chapter_index : Z;
  cp_predicted_cost : Z;
  cp_details : CostBreakdown
}.

Fixpoint all_chapters_loop cfg rows (n_chapters : Z) (chapter_tokens : list Z) (i : Z)
    (total_cost : Z) (breakdown : list ChapterPrediction)
    : res (Z * list ChapterPrediction) :=
  match chapter_tokens with
  | [] => Ok (total_cost, breakdown)
  | t :: rest =>
    match calculate_predicted_chapter_cost cfg rows n_chapters i t with
    | Raise e => Raise e
    | Ok info =>
      all_chapters_loop cfg rows n_chapters rest (i + 1)
        (total_cost + cb_total_credit_cost info)
        (breakdown ++ [{| cp_chapter_index := i;
                          cp_predicted_cost := cb_total_credit_cost info;
                          cp_details := info |}])
    end
  end.

Definition calculate_predicted_all_chapters_cost cfg rows (chapter_tokens : list Z) :=
  all_chapters_loop cfg rows (Z.of_nat (length chapter_tokens)) chapter_tokens 0 0 [].

(** ** Lemmas of the arithmetic block *)

Lemma tokens_per_credit_ok (dollar pm t : Q) :
  tokens_per_credit dollar pm = Ok t ->
  Qeq_bool pm 0 = false /\ t = py_round2 (dollar * (1000000 # 1) / pm).
Proof.
  unfold tokens_per_credit. destruct (Qeq_bool pm 0); intros H; inv_clear H; auto.
Qed.

Lemma base_credit_cost_ok (f : bool) (tokens z : Z) (tpc : Q) :
  base_credit_cost f tokens tpc = Ok z ->
  Qeq_bool tpc 0 = false /\
  z = (if f then Z.max 1 (py_round (inject_Z tokens / tpc))
       else py_round (inject_Z tokens / tpc)).
Proof.
  unfold base_credit_cost. destruct (Qeq_bool tpc 0); intros H; inv_clear H; auto.
Qed.

(** The record an estimator returns, read back into the block's steps. *)
Lemma credit_cost_ok cfg rows m f ai ao ti to b :
  credit_cost cfg rows m f ai ao ti to = Ok b ->
  exists c, cfg = Some c /\
    tokens_per_credit (tier_credit_dollar c m) (tier_per_million_input c m)
      = Ok (cb_input_tokens_per_credit b) /\
    tokens_per_credit (tier_credit_dollar c m) (tier_per_million_output c m)
      = Ok (cb_output_tokens_per_credit b) /\
    base_credit_cost f ti (cb_input_tokens_per_credit b) = Ok (cb_base_credit_cost_input b) /\
    base_credit_cost f to (cb_output_tokens_per_credit b) = Ok (cb_base_credit_cost_output b) /\
    cb_modified_credit_cost_input b
      = py_round (inject_Z (cb_base_credit_cost_input b) * lookup_modifier rows ai) /\
    cb_modified_credit_cost_output b
      = py_round (inject_Z (cb_base_credit_cost_output b) * lookup_modifier rows ao) /\
    cb_total_credit_cost b
      = cb_modified_credit_cost_input b + cb_modified_credit_cost_output b /\
    cb_input_tokens b = ti /\ cb_output_tokens b = to.
Proof.
  unfold credit_cost. destruct cfg as [c|]; [| discriminate].
  destruct (tokens_per_credit (tier_credit_dollar c m) (tier_per_million_input c m)) as [tin|] eqn:E1;
  destruct (tokens_per_credit (tier_credit_dollar c m) (tier_per_million_output c m)) as [tout|] eqn:E2;
  try discriminate.
  destruct (base_credit_cost f ti tin) as [bin|] eqn:E3;
  destruct (base_credit_cost f to tout) as [bout|] eqn:E4; try discriminate.
  intros H. inv_clear H. exists c. simpl. auto 10.
Qed.

Lemma py_round2_nonneg (q : Q) : (0 <= q)%Q -> (0 <= py_round2 q)%Q.
Proof.
  intros H. unfold py_round2, Qle; simpl.
  assert (0 <= py_round (q * (100 # 1))) by (apply py_round_nonneg; lra). lia.
Qed.

(** With positive prices the rate is non-negative; a rate that rounds to
    zero is caught by the division by it, which raises. *)
Lemma tokens_per_credit_nonneg (dollar pm t : Q) :
  (0 < dollar)%Q -> (0 < pm)%Q -> tokens_per_credit dollar pm = Ok t -> (0 <= t)%Q.
Proof.
  intros Hd Hp H. apply tokens_per_credit_ok in H as [_ ->].
  apply py_round2_nonneg. apply Qle_shift_div_l; [exact Hp | lra].
Qed.

Lemma rate_pos (t : Q) : (0 <= t)%Q -> Qeq_bool t 0 = false -> (0 < t)%Q.
Proof.
  intros Ht Hz. apply Qle_lt_or_eq in Ht. destruct Ht as [Ht | Ht]; [exact Ht |].
  apply Qeq_bool_neq in Hz. exfalso. apply Hz. now symmetry.
Qed.

(** Rounding a quotient by a positive rate is monotone in the numerator,
    with or without the [max(1, .)] floor. *)
Lemma base_credit_cost_mono (f : bool) (t1 t2 : Z) (tpc : Q) (b1 b2 : Z) :
  (0 <= tpc)%Q -> t1 <= t2 ->
  base_credit_cost f t1 tpc = Ok b1 -> base_credit_cost f t2 tpc = Ok b2 -> b1 <= b2.
Proof.
  intros Ht Hle H1 H2.
  apply base_credit_cost_ok in H1 as [Hz ->]. apply base_credit_cost_ok in H2 as [_ ->].
  assert (Hq : (inject_Z t1 / tpc <= inject_Z t2 / tpc)%Q).
  { apply Qmult_le_compat_r; [rewrite <- Zle_Qle; exact Hle | apply Qinv_le_0_compat, Ht]. }
  apply py_round_mono in Hq. destruct f; lia.
Qed.

Lemma modified_cost_mono (b1 b2 : Z) (modifier : Q) :
  (0 <= modifier)%Q -> b1 <= b2 ->
  py_round (inject_Z b1 * modifier) <= py_round (inject_Z b2 * modifier).
Proof.
  intros Hm Hb. apply py_round_mono. apply Qmult_le_compat_r; [rewrite <- Zle_Qle; exact Hb | exact Hm].
Qed.

#[export] Hint Resolve base_credit_cost_mono modified_cost_mono rate_pos : novel.

Lemma credit_config_first_none (rows : list CreditConfig) (action : string) :
  (forall c, In c rows -> cc_action c <> action) -> credit_config_first rows action = None.
Proof.
  induction rows as [|c rest IH]; intros Hn; simpl; [reflexivity |].
  destruct (String.eqb_spec (cc_action c) action) as [E|_].
  - exfalso. exact (Hn c (or_introl eq_refl) E).
  - apply IH. intros c' Hc'. apply Hn. now right.
Qed.

Lemma py_round_double (z : Z) : py_round (inject_Z z * 2) = 2 * z.
Proof.
  rewrite <- (py_round_Z (2 * z)). apply py_round_proper.
  rewrite inject_Z_mult. simpl. ring.
Qed.

Lemma all_chapters_loop_sum cfg rows n toks i tot bd tot' bd' :
  all_chapters_loop cfg rows n toks i tot bd = Ok (tot', bd') ->
  tot' - sumZ (map cp_predicted_cost bd') = tot - sumZ (map cp_predicted_cost bd) /\
  length bd' = (length bd + length toks)%nat.
Proof.
  revert i tot bd. induction toks as [|t rest IH]; intros i tot bd H; simpl in H.
  - inv_clear H. simpl. split; lia.
  - destruct (calculate_predicted_chapter_cost cfg rows n i t) as [info|] eqn:E; [| discriminate].
    apply IH in H as [H1 H2]. rewrite map_app, sumZ_app in H1.
    rewrite length_app in H2. simpl in *. split; lia.
Qed.

(** ** Properties of the estimator *)

(** Scenario A of the specification.  With [cost_per_credit = 0.000999]
    and [cost_per_1m_input = 0.150], a 10,000-token metadata prompt gives
    6660 tokens per credit, a base input cost of [round(10000/6660) = 2]
    credits and, under the [meta_input] modifier 50, 100 credits. *)
Theorem scenario_A_meta_input_cost :
  exists b,
    calculate_predicted_meta_cost
      (Some {| cost_per_credit := 999 # 1000000; cost_per_1m_input := 150 # 1000;
               cost_per_1m_output := 600 # 1000; o1_cost_per_credit := 1 # 1000;
               o1_cost_per_1m_input := 3 # 1; o1_cost_per_1m_output := 12 # 1;
               dall_e_price_per_image := 4 # 100 |})
      [{| cc_type := "text"; cc_action := "meta_input"; cc_modifier := 50 # 1 |}]
      10000 = Ok b /\
    (cb_input_tokens_per_credit b == 6660 # 1)%Q /\
    cb_base_credit_cost_input b = 2 /\
    cb_modified_credit_cost_input b = 100.
Proof. eexists. split; [vm_compute; reflexivity | vm_compute; repeat split; reflexivity]. Qed.

(** C29: modifier fallback.  When no [CreditConfig] row names the input or
    output action, a successful estimate multiplies both base costs by 2. *)
Theorem estimator_modifier_fallback cfg rows m f ai ao ti to b :
  (forall c, In c rows -> cc_action c <> ai /\ cc_action c <> ao) ->
  credit_cost cfg rows m f ai ao ti to = Ok b ->
  cb_modified_credit_cost_input b = 2 * cb_base_credit_cost_input b /\
  cb_modified_credit_cost_output b = 2 * cb_base_credit_cost_output b.
Proof.
  intros Hn H. apply credit_cost_ok in H as (c & _ & _ & _ & _ & _ & Hi & Ho & _).
  unfold lookup_modifier in Hi, Ho.
  rewrite credit_config_first_none in Hi by (intros c' Hc'; apply Hn, Hc').
  rewrite credit_config_first_none in Ho by (intros c' Hc'; apply Hn, Hc').
  rewrite Hi, Ho, !py_round_double. auto.
Qed.

(** A price row used by the witnesses: gpt-4o-mini at $0.15 / $0.60 per
    million tokens and o1-mini at $3 / $12, a credit worth $0.001. *)
Definition sample_config : TokenCostConfig :=
  {| cost_per_credit := 1 # 1000; cost_per_1m_input := 15 # 100;
     cost_per_1m_output := 6 # 10; o1_cost_per_credit := 1 # 1000;
     o1_cost_per_1m_input := 3 # 1; o1_cost_per_1m_output := 12 # 1;
     dall_e_price_per_image := 4 # 100 |}.

Lemma estimator_modifier_fallback_witness :
  (forall c, In c [] -> cc_action c <> "meta_input" /\ cc_action c <> "meta_output") /\
  match credit_cost (Some sample_config) [] Gpt4oMini true
          "meta_input" "meta_output" 10000 200 with
  | Ok b => cb_modified_credit_cost_input b = 2 * cb_base_credit_cost_input b /\
            cb_modified_credit_cost_output b = 2 * cb_base_credit_cost_output b
  | Raise _ => False
  end.
Proof.
  split; [intros c Hc; simpl in Hc; contradiction |].
  destruct (credit_cost (Some sample_config) [] Gpt4oMini true
              "meta_input" "meta_output" 10000 200) as [b|e] eqn:E; [| vm_compute in E; discriminate].
  apply (estimator_modifier_fallback (Some sample_config) [] Gpt4oMini true
           "meta_input" "meta_output" 10000 200); [intros c Hc; simpl in Hc; contradiction | exact E].
Defined.

(** C38: Reconciliation is monotone in the measured output.  With positive
    prices for the tier and a non-negative output modifier, more output
    tokens never cost fewer credits. *)
Theorem actual_cost_monotone_in_output c rows m f ai ao ti o1 o2 b1 b2 :
  (0 < tier_credit_dollar c m)%Q -> (0 < tier_per_million_output c m)%Q ->
  (0 <= lookup_modifier rows ao)%Q -> o1 <= o2 ->
  credit_cost (Some c) rows m f ai ao ti o1 = Ok b1 ->
  credit_cost (Some c) rows m f ai ao ti o2 = Ok b2 ->
  cb_total_credit_cost b1 <= cb_total_credit_cost b2.
Proof.
  intros Hd Hp Hm Ho H1 H2.
  apply credit_cost_ok in H1 as (c1 & E1 & Ti1 & To1 & Bi1 & Bo1 & Mi1 & Mo1 & T1 & _).
  apply credit_cost_ok in H2 as (c2 & E2 & Ti2 & To2 & Bi2 & Bo2 & Mi2 & Mo2 & T2 & _).
  inv_clear E1. inv_clear E2.
  rewrite Ti1 in Ti2. injection Ti2 as Ei.
  rewrite To1 in To2. injection To2 as Eo.
  rewrite <- Ei in Bi2. rewrite Bi1 in Bi2. injection Bi2 as Eb.
  rewrite <- Eo in Bo2.
  pose proof (tokens_per_credit_nonneg _ _ _ Hd Hp To1) as Hr.
  pose proof (base_credit_cost_mono f o1 o2 _ _ _ Hr Ho Bo1 Bo2) as Hb.
  pose proof (modified_cost_mono _ _ _ Hm Hb).
  rewrite T1, T2, Mi1, Mi2, Mo1, Mo2, <- Eb. lia.
Qed.

Lemma actual_cost_monotone_in_output_witness :
  match credit_cost (Some sample_config) [] O1Mini false "chapter_input" "chapter_output" 5000 300,
        credit_cost (Some sample_config) [] O1Mini false "chapter_input" "chapter_output" 5000 2400 with
  | Ok b1, Ok b2 => cb_total_credit_cost b1 <= cb_total_credit_cost b2
  | _, _ => False
  end.
Proof.
  destruct (credit_cost (Some sample_config) [] O1Mini false "chapter_input" "chapter_output" 5000 300)
    as [b1|] eqn:E1; [| vm_compute in E1; discriminate].
  destruct (credit_cost (Some sample_config) [] O1Mini false "chapter_input" "chapter_output" 5000 2400)
    as [b2|] eqn:E2; [| vm_compute in E2; discriminate].
  apply (actual_cost_monotone_in_output sample_config [] O1Mini false "chapter_input" "chapter_output"
           5000 300 2400); [vm_compute; reflexivity | vm_compute; reflexivity
                           | vm_compute; discriminate | lia | exact E1 | exact E2].
Defined.

(** C39: The [max(1, .)] floor.  For the kinds whose source floors both base
    costs at one credit (metadata, story arcs, chapter guide), an estimate
    is never below the rounded modifiers themselves. *)
Theorem floored_estimate_lower_bound cfg rows m ai ao ti to b :
  (0 <= lookup_modifier rows ai)%Q -> (0 <= lookup_modifier rows ao)%Q ->
  credit_cost cfg rows m true ai ao ti to = Ok b ->
  py_round (lookup_modifier rows ai) + py_round (lookup_modifier rows ao)
    <= cb_total_credit_cost b.
Proof.
  intros Hi Ho H.
  apply credit_cost_ok in H as (c & _ & _ & _ & Bi & Bo & Mi & Mo & T & _).
  apply base_credit_cost_ok in Bi as [_ Bi]. apply base_credit_cost_ok in Bo as [_ Bo].
  assert (Li : py_round (lookup_modifier rows ai) <= cb_modified_credit_cost_input b).
  { rewrite Mi. apply py_round_mono. rewrite <- (Qmult_1_l (lookup_modifier rows ai)) at 1.
    apply Qmult_le_compat_r; [| exact Hi]. change 1%Q with (inject_Z 1). rewrite <- Zle_Qle. lia. }
  assert (Lo : py_round (lookup_modifier rows ao) <= cb_modified_credit_cost_output b).
  { rewrite Mo. apply py_round_mono. rewrite <- (Qmult_1_l (lookup_modifier rows ao)) at 1.
    apply Qmult_le_compat_r; [| exact Ho]. change 1%Q with (inject_Z 1). rewrite <- Zle_Qle. lia. }
  lia.
Qed.

Lemma floored_estimate_lower_bound_witness :
  match calculate_predicted_meta_cost (Some sample_config) [] 3 with
  | Ok b => 4 <= cb_total_credit_cost b
  | Raise _ => False
  end.
Proof.
  destruct (calculate_predicted_meta_cost (Some sample_config) [] 3) as [b|] eqn:E;
    [| vm_compute in E; discriminate].
  exact (floored_estimate_lower_bound (Some sample_config) [] Gpt4oMini "meta_input" "meta_output"
           3 200 b ltac:(vm_compute; discriminate) ltac:(vm_compute; discriminate) E).
Defined.

(** The chapter-content and chapter-summaries estimates have no floor:
    a short chapter prompt under cheap o1-mini prices is predicted to cost
    zero credits (the specification says a prediction is never zero). *)
Theorem chapter_prediction_can_be_zero :
  exists b,
    calculate_predicted_chapter_cost
      (Some {| cost_per_credit := 1 # 1000; cost_per_1m_input := 15 # 100;
               cost_per_1m_output := 6 # 10; o1_cost_per_credit := 1 # 100;
               o1_cost_per_1m_input := 10 # 1; o1_cost_per_1m_output := 10 # 1;
               dall_e_price_per_image := 4 # 100 |}) [] 3 0 400 = Ok b /\
    cb_total_credit_cost b = 0.
Proof. eexists. split; [vm_compute; reflexivity | reflexivity]. Qed.

(** A zero output price is fatal: every reconciliation raises
    [ZeroDivisionError], whatever the token counts and modifiers. *)
Theorem zero_output_price_raises c rows m f ai ao ti to :
  Qeq_bool (tier_per_million_output c m) 0 = true ->
  credit_cost (Some c) rows m f ai ao ti to = Raise ZeroDivisionError.
Proof.
  intros Hz. unfold credit_cost.
  assert (E : tokens_per_credit (tier_credit_dollar c m) (tier_per_million_output c m)
              = Raise ZeroDivisionError) by (unfold tokens_per_credit; now rewrite Hz).
  rewrite E. destruct (tokens_per_credit (tier_credit_dollar c m) (tier_per_million_input c m)) eqn:Ei;
    [reflexivity |].
  unfold tokens_per_credit in Ei. destruct (Qeq_bool (tier_per_million_input c m) 0); congruence.
Qed.

Lemma zero_output_price_raises_witness :
  Qeq_bool (tier_per_million_output {| cost_per_credit := 1 # 1000; cost_per_1m_input := 15 # 100;
      cost_per_1m_output := 0; o1_cost_per_credit := 1 # 1000; o1_cost_per_1m_input := 3 # 1;
      o1_cost_per_1m_output := 12 # 1; dall_e_price_per_image := 4 # 100 |} Gpt4oMini) 0 = true /\
  calculate_actual_meta_cost (Some {| cost_per_credit := 1 # 1000; cost_per_1m_input := 15 # 100;
      cost_per_1m_output := 0; o1_cost_per_credit := 1 # 1000; o1_cost_per_1m_input := 3 # 1;
      o1_cost_per_1m_output := 12 # 1; dall_e_price_per_image := 4 # 100 |}) [] 1000 50
    = Raise ZeroDivisionError.
Proof.
  split; [reflexivity |]. apply zero_output_price_raises. reflexivity.
Defined.

(** The aggregate prediction for "generate all chapters" is the sum of
    the per-chapter predictions it lists, one per chapter. *)
Theorem all_chapters_total_is_sum cfg rows toks total breakdown :
  calculate_predicted_all_chapters_cost cfg rows toks = Ok (total, breakdown) ->
  total = sumZ (map cp_predicted_cost breakdown) /\ length breakdown = length toks.
Proof.
  unfold calculate_predicted_all_chapters_cost. intros H.
  apply all_chapters_loop_sum in H as [H1 H2]. simpl in *. split; lia.
Qed.

Lemma all_chapters_total_is_sum_witness :
  match calculate_predicted_all_chapters_cost (Some sample_config) [] [1200; 900; 4000] with
  | Ok (total, breakdown) =>
      total = sumZ (map cp_predicted_cost breakdown) /\ length breakdown = 3%nat
  | Raise _ => False
  end.
Proof.
  destruct (calculate_predicted_all_chapters_cost (Some sample_config) [] [1200; 900; 4000])
    as [[total breakdown]|] eqn:E; [| vm_compute in E; discriminate].
  exact (all_chapters_total_is_sum _ _ _ _ _ E).
Defined.

End Pricing.
