(* ===== verification/Ledger.v ===== *)
(** * Credit Ledger: the three credit counters of a user

    [models/User.py] keeps [text_credits], [image_credits] and
    [audio_credits]; [helpers.py] reads them in [can_spend_credits] and
    debits them in [spend_credits]; [api/profile.py] ([stripe_webhook]) and
    [api/admin.py] ([adjust_credits]) credit or reset them.  A counter may go
    negative.  The image path debits a float price, so the counters are
    read as rationals; the database's coercion of the stored value to its
    integer column is not modelled.

    The abstract ledger is a function from category to balance; the record
    of counters refines it ([spend_refines_debit]).  Two records with the
    same balances are equivalent ([ledger_equiv]), and the operations respect
    that equivalence. *)

From Stdlib Require Import ZArith QArith Lia Lqa Morphisms.
From stdpp Require Import base strings.
From S2P Require Import Prelude.

Module Ledger.

Inductive CreditType := Text | ImageCredits | Audio.

#[export] Instance CreditType_eq_dec : EqDecision CreditType.
Proof. solve_decision. Defined.

(** The source compares [credit_type] against the strings "text", "image"
    and "audio"; any other string selects no counter. *)
Definition credit_type_of_string (s : string) : option CreditType :=
  if String.eqb s "text" then Some Text
  else if String.eqb s "image" then Some ImageCredits
  else if String.eqb s "audio" then Some Audio
  else None.

Record UserCredits := {
  text_credits : Q;
  image_credits : Q;
  audio_credits : Q
}.

Definition balance (u : UserCredits) (t : CreditType) : Q :=
  match t with
  | Text => text_credits u
  | ImageCredits => image_credits u
  | Audio => audio_credits u
  end.

(** Writes one counter, leaving the other two. *)
Definition set_balance (u : UserCredits) (t : CreditType) (v : Q) : UserCredits :=
  match t with
  | Text => {| text_credits := v; image_credits := image_credits u; audio_credits := audio_credits u |}
  | ImageCredits => {| text_credits := text_credits u; image_credits := v; audio_credits := audio_credits u |}
  | Audio => {| text_credits := text_credits u; image_credits := image_credits u; audio_credits := v |}
  end.

(** [can_spend_credits(user, credit_type, cost)]: [counter >= cost]. *)
Definition can_spend_credits (u : UserCredits) (credit_type : string) (cost : Q) : bool :=
  match credit_type_of_string credit_type with
  | Some t => Qle_bool cost (balance u t)
  | None => false
  end.

(** The body of [spend_credits] once the user row is loaded:
    [counter -= cost], no check, so the counter may go negative. *)
Definition spend_on (u : UserCredits) (credit_type : string) (cost : Q) : UserCredits :=
  match credit_type_of_string credit_type with
  | Some t => set_balance u t (balance u t - cost)
  | None => u
  end.

(** [adjust_credits] of the admin API: the counter is overwritten. *)
Definition adjust_on (u : UserCredits) (credit_type : string) (new_credits : Z) : UserCredits :=
  match credit_type_of_string credit_type with
  | Some t => set_balance u t (inject_Z new_credits)
  | None => u
  end.

(** [stripe_webhook], ['checkout.session.completed'] with a package: the
    package's credits are added to the named counter. *)
Definition add_package_credits (u : UserCredits) (credit_type : string) (credits : Z) : UserCredits :=
  match credit_type_of_string credit_type with
  | Some t => set_balance u t (balance u t + inject_Z credits)
  | None => u
  end.

(** The default allowance of a role ([models/Role.py]). *)
Record RoleDefaults := {
  default_text_credits : Z;
  default_image_credits : Z;
  default_audio_credits : Z
}.

(** ['invoice.payment_succeeded']: every counter grows by the role's
    default allowance. *)
Definition renew_subscription (u : UserCredits) (r : RoleDefaults) : UserCredits :=
  {| text_credits := text_credits u + inject_Z (default_text_credits r);
     image_credits := image_credits u + inject_Z (default_image_credits r);
     audio_credits := audio_credits u + inject_Z (default_audio_credits r) |}.

(** ['customer.subscription.deleted']: every counter is reset to the
    default role's allowance, discarding what was left or owed. *)
Definition reset_to_role (r : RoleDefaults) : UserCredits :=
  {| text_credits := inject_Z (default_text_credits r);
     image_credits := inject_Z (default_image_credits r);
     audio_credits := inject_Z (default_audio_credits r) |}.

(** ** The abstract ledger and the equivalence of records *)

Definition ledger_equiv (u1 u2 : UserCredits) : Prop :=
  forall t, (balance u1 t == balance u2 t)%Q.

#[export] Instance ledger_equiv_Equivalence : Equivalence ledger_equiv.
Proof.
  split.
  - intros u t. reflexivity.
  - intros u1 u2 H t. symmetry. apply H.
  - intros u1 u2 u3 H1 H2 t. rewrite (H1 t). apply H2.
Qed.

Lemma balance_set_balance_eq (u : UserCredits) (t : CreditType) (v : Q) :
  balance (set_balance u t v) t = v.
Proof. destruct t; reflexivity. Qed.

Lemma balance_set_balance_ne (u : UserCredits) (t t' : CreditType) (v : Q) :
  t <> t' -> balance (set_balance u t v) t' = balance u t'.
Proof. intros H. destruct t, t'; simpl; congruence. Qed.

#[export] Hint Rewrite balance_set_balance_eq : novel_rw.
#[export] Hint Resolve balance_set_balance_ne : novel.

#[export] Instance set_balance_proper :
  Proper (ledger_equiv ==> eq ==> Qeq ==> ledger_equiv) set_balance.
Proof.
  intros u1 u2 Hu t ? <- v1 v2 Hv t'.
  destruct (decide (t = t')) as [<-|Hne].
  - rewrite !balance_set_balance_eq. exact Hv.
  - rewrite !balance_set_balance_ne by exact Hne. apply Hu.
Qed.

#[export] Instance can_spend_credits_proper :
  Proper (ledger_equiv ==> eq ==> Qeq ==> eq) can_spend_credits.
Proof.
  intros u1 u2 Hu s ? <- c1 c2 Hc. unfold can_spend_credits.
  destruct (credit_type_of_string s) as [t|]; [| reflexivity].
  apply Bool.eq_iff_eq_true. rewrite !Qle_bool_iff, (Hu t), Hc. reflexivity.
Qed.

#[export] Instance spend_on_proper :
  Proper (ledger_equiv ==> eq ==> Qeq ==> ledger_equiv) spend_on.
Proof.
  intros u1 u2 Hu s ? <- c1 c2 Hc. unfold spend_on.
  destruct (credit_type_of_string s) as [t|]; [| exact Hu].
  apply set_balance_proper; [exact Hu | reflexivity | rewrite (Hu t), Hc; reflexivity].
Qed.

(** ** Properties of the ledger *)

(** C17: [spend_credits] refines the abstract debit: for a known credit type
    it lowers exactly the named counter by exactly the cost, with no check,
    and leaves the other two counters as they were. *)
Theorem spend_refines_debit (u : UserCredits) (s : string) (t : CreditType) (cost : Q) :
  credit_type_of_string s = Some t ->
  forall t', balance (spend_on u s cost) t'
             = if decide (t = t') then (balance u t - cost)%Q else balance u t'.
Proof.
  intros Hs t'. unfold spend_on. rewrite Hs.
  destruct (decide (t = t')) as [<-|Hne].
  - apply balance_set_balance_eq.
  - now apply balance_set_balance_ne.
Qed.

Lemma spend_refines_debit_witness :
  credit_type_of_string "text" = Some Text /\
  balance (spend_on {| text_credits := 5; image_credits := 3; audio_credits := 0 |} "text" 8) Text
    = (5 - 8)%Q.
Proof.
  split; [reflexivity |].
  rewrite (spend_refines_debit _ "text" Text 8 eq_refl Text). reflexivity.
Defined.

(** The affordability check is a plain [>=] on the named counter, and
    an unknown credit type is never affordable. *)
Theorem can_spend_credits_iff (u : UserCredits) (s : string) (cost : Q) :
  can_spend_credits u s cost = true <->
  exists t, credit_type_of_string s = Some t /\ (cost <= balance u t)%Q.
Proof.
  unfold can_spend_credits. destruct (credit_type_of_string s) as [t|].
  - rewrite Qle_bool_iff. split; [eauto | intros (t' & Ht & H); congruence].
  - split; [discriminate | intros (t' & Ht & _); discriminate].
Qed.

(** A debit followed by a package purchase of the same size restores
    the balances, up to the equality of rationals. *)
Theorem spend_then_package_restores (u : UserCredits) (s : string) (c : Z) :
  ledger_equiv (add_package_credits (spend_on u s (inject_Z c)) s c) u.
Proof.
  unfold add_package_credits, spend_on. destruct (credit_type_of_string s) as [t|]; [| reflexivity].
  intros t'. destruct (decide (t = t')) as [<-|Hne].
  - rewrite !balance_set_balance_eq. ring.
  - rewrite !balance_set_balance_ne by exact Hne. reflexivity.
Qed.

End Ledger.
