(* ===== verification/Lock.v ===== *)
(** * Generation Lock: [api/generation.py], lines 27-62

    [set_user_generation_lock(user_id, expire=2000)] issues the Redis command
    [SET generation_lock:<user> 1 EX expire NX]; [clear_user_generation_lock]
    issues [DEL].  The class [LockStore] is what the dispatcher and the worker
    rely on, with its laws in [LockStoreLaws]; [RedisLock] is the key space of
    the source (user id to absolute expiry time) and discharges the laws. *)

From Stdlib Require Import ZArith Lia.
From stdpp Require Import base gmap.
From S2P Require Import Prelude.

Local Open Scope Z_scope.

Module Lock.

(** The lock's expiry in seconds, [expire=2000] in the source. *)
Definition default_expire : Z := 2000.

Class LockStore (L : Type) := {
  (** is the key present (and not expired) at time [now]? *)
  lock_held : L -> Z -> Z -> bool;
  (** [set_user_generation_lock(user_id, expire)] at time [now] *)
  set_lock : L -> Z -> Z -> Z -> bool * L;
  (** [clear_user_generation_lock(user_id)] *)
  clear_lock : L -> Z -> L
}.

Class LockStoreLaws (L : Type) `{LockStore L} := {
  set_lock_held : forall l now u ex,
    lock_held l now u = true -> set_lock l now u ex = (false, l);
  set_lock_free : forall l now u ex,
    lock_held l now u = false -> 0 < ex ->
    fst (set_lock l now u ex) = true /\ lock_held (snd (set_lock l now u ex)) now u = true;
  set_lock_other : forall l now t u u' ex,
    u <> u' -> lock_held (snd (set_lock l now u ex)) t u' = lock_held l t u';
  clear_lock_frees : forall l t u, lock_held (clear_lock l u) t u = false;
  clear_lock_other : forall l t u u',
    u <> u' -> lock_held (clear_lock l u) t u' = lock_held l t u'
}.

(** ** The Redis key space *)

(** The key space: user id to expiry time. *)
Definition RedisLock : Type := gmap Z Z.

Definition redis_held (l : gmap Z Z) (now u : Z) : bool :=
  match l !! u with
  | Some expiry => now <? expiry
  | None => false
  end.

(** [SET key 1 EX expire NX]: succeeds only when the key is absent or has
    expired, and then stores the new expiry. *)
Definition redis_set_nx (l : gmap Z Z) (now u expire : Z) : bool * gmap Z Z :=
  if redis_held l now u then (false, l) else (true, <[u := now + expire]> l).

Definition redis_del (l : gmap Z Z) (u : Z) : gmap Z Z := delete u l.

#[export] Instance RedisLock_store : LockStore RedisLock := {|
  lock_held := redis_held;
  set_lock := redis_set_nx;
  clear_lock := redis_del
|}.

#[export] Instance RedisLock_laws : LockStoreLaws RedisLock.
Proof.
  split; simpl.
  - intros l now u ex H. unfold redis_set_nx. now rewrite H.
  - intros l now u ex H Hex. unfold redis_set_nx. rewrite H. simpl.
    split; [reflexivity |]. unfold redis_held. rewrite lookup_insert_eq. apply Z.ltb_lt. lia.
  - intros l now t u u' ex Hne. unfold redis_set_nx.
    destruct (redis_held l now u); simpl; [reflexivity |].
    unfold redis_held. now rewrite lookup_insert_ne.
  - intros l t u. unfold redis_held, redis_del. now rewrite lookup_delete_eq.
  - intros l t u u' Hne. unfold redis_held, redis_del. now rewrite lookup_delete_ne.
Qed.

(** ** Properties of the lock, from its laws *)

Section LockProperties.
Context {L : Type} `{LockStoreLaws L}.

(** Mutual exclusion.  Once a user's lock has been set, a second
    [set_user_generation_lock] for the same user at the same time fails
    and leaves the store unchanged, until the lock is cleared. *)
Theorem second_set_lock_fails (l : L) (now u ex : Z) :
  lock_held l now u = false -> 0 < ex ->
  set_lock (snd (set_lock l now u ex)) now u ex = (false, snd (set_lock l now u ex)).
Proof.
  intros Hfree Hex. apply set_lock_held. now apply set_lock_free.
Qed.

(** Clearing the lock makes the next set succeed. *)
Lemma set_after_clear (l : L) (now u ex : Z) :
  0 < ex -> fst (set_lock (clear_lock l u) now u ex) = true.
Proof. intros Hex. apply set_lock_free; [apply clear_lock_frees | exact Hex]. Qed.
End LockProperties.

(** Mutual exclusion of the Redis lock.  Once [SET generation_lock:<u>
    1 EX ex NX] has succeeded on a free key, the same command for the same
    user fails, and leaves the key space unchanged, until the key expires or
    is deleted. *)
Theorem redis_second_set_lock_fails (l : RedisLock) (now later u ex : Z) :
  redis_held l now u = false -> 0 < ex -> now <= later < now + ex ->
  redis_set_nx (snd (redis_set_nx l now u ex)) later u ex = (false, snd (redis_set_nx l now u ex)).
Proof.
  intros Hfree Hex Hlater.
  assert (Hheld : redis_held (snd (redis_set_nx l now u ex)) later u = true).
  { unfold redis_set_nx. rewrite Hfree. simpl. unfold redis_held.
    rewrite lookup_insert_eq. apply Z.ltb_lt. lia. }
  unfold redis_set_nx at 1. rewrite Hheld. reflexivity.
Qed.

Lemma redis_second_set_lock_fails_witness :
  redis_held (∅ : RedisLock) 100 7 = false /\ 0 < default_expire /\
  100 <= 1500 < 100 + default_expire /\
  redis_set_nx (snd (redis_set_nx (∅ : RedisLock) 100 7 default_expire)) 1500 7 default_expire
    = (false, snd (redis_set_nx (∅ : RedisLock) 100 7 default_expire)).
Proof.
  split; [reflexivity |]. split; [unfold default_expire; lia |]. split; [unfold default_expire; lia |].
  apply redis_second_set_lock_fails; [reflexivity | unfold default_expire; lia | unfold default_expire; lia].
Defined.

End Lock.
