(* ===== verification/PyJson.v ===== *)
(** * Python built-ins the worker tasks apply to decoded JSON

    [json.loads] is the decoding collaborator (a parameter of the tasks);
    what the tasks do with the decoded value is Python's: [.get] on a dict,
    [len], iteration by [for]/[enumerate], [str.strip].  These definitions
    give those built-ins their Python meaning, errors included. *)

From Stdlib Require Import ZArith QArith Lia.
From stdpp Require Import base strings list pretty.
From S2P Require Import Prelude.

Local Open Scope Z_scope.

Local Set Warnings "-register-all".

Module PyJson.

(** A decoded JSON value; [JNull] is Python's [None]. *)
Inductive Json :=
  | JNull
  | JBool (b : bool)
  | JNum (q : Q)
  | JStr (s : string)
  | JArr (l : list Json)
  | JObj (kvs : list (string * Json)).

(** A JSON object becomes a Python dict: a repeated key keeps its first
    position and its last value. *)
Fixpoint dict_insert (k : string) (v : Json) (d : list (string * Json)) : list (string * Json) :=
  match d with
  | [] => [(k, v)]
  | (k', v') :: rest => if String.eqb k k' then (k, v) :: rest else (k', v') :: dict_insert k v rest
  end.

Definition py_dict (kvs : list (string * Json)) : list (string * Json) :=
  fold_left (fun d kv => dict_insert kv.1 kv.2 d) kvs [].

Fixpoint dict_lookup (k : string) (d : list (string * Json)) : option Json :=
  match d with
  | [] => None
  | (k', v) :: rest => if String.eqb k k' then Some v else dict_lookup k rest
  end.

(** [x.get(k, default)]: only a dict has [.get]. *)
Definition py_get_default (x : Json) (k : string) (default : Json) : res Json :=
  match x with
  | JObj kvs => Ok (match dict_lookup k (py_dict kvs) with Some v => v | None => default end)
  | _ => Raise (AttributeError "get")
  end.

(** [x.get(k)]: the default is [None]. *)
Definition py_get (x : Json) (k : string) : res Json := py_get_default x k JNull.

(** The characters of a string, each a one-character string. *)
Fixpoint str_chars (s : string) : list Json :=
  match s with
  | EmptyString => []
  | String c rest => JStr (String c EmptyString) :: str_chars rest
  end.

(** [for x in v]: a list yields its items, a dict its keys, a string its
    characters; anything else raises [TypeError]. *)
Definition py_iter (x : Json) : res (list Json) :=
  match x with
  | JArr l => Ok l
  | JObj kvs => Ok (map (fun kv => JStr kv.1) (py_dict kvs))
  | JStr s => Ok (str_chars s)
  | _ => Raise (TypeError "object is not iterable")
  end.

(** [len(v)]. *)
Definition py_len (x : Json) : res Z :=
  match py_iter x with
  | Ok l => Ok (Z.of_nat (length l))
  | Raise _ => Raise (TypeError "object has no len()")
  end.

(** [d.items()]: only a dict has it. *)
Definition py_items (x : Json) : res (list (string * Json)) :=
  match x with
  | JObj kvs => Ok (py_dict kvs)
  | _ => Raise (AttributeError "items")
  end.

(** [not s.strip()]: the string is empty or only whitespace (the ASCII
    characters Python's [str.isspace] accepts). *)
Definition py_isspace (c : Ascii.ascii) : bool :=
  match Ascii.nat_of_ascii c with
  | 9 | 10 | 11 | 12 | 13 | 28 | 29 | 30 | 31 | 32 => true
  | _ => false
  end%nat.

Fixpoint py_strip_empty (s : string) : bool :=
  match s with
  | EmptyString => true
  | String c rest => py_isspace c && py_strip_empty rest
  end.

(** [f"Chapter {index}"]. *)
Definition chapter_default_title (index : Z) : string := "Chapter " +:+ pretty index.

(** Python truthiness of a JSON value, for [if chars:]. *)
Definition py_truthy (x : Json) : bool :=
  match x with
  | JNull => false
  | JBool b => b
  | JNum q => negb (Qeq_bool q 0)
  | JStr s => negb (String.eqb s "")
  | JArr l => negb (bool_decide (l = []))
  | JObj kvs => negb (bool_decide (kvs = []))
  end.

Lemma dict_lookup_insert_eq (k : string) (v : Json) (d : list (string * Json)) :
  dict_lookup k (dict_insert k v d) = Some v.
Proof.
  induction d as [|[k' v'] rest IH]; simpl.
  - now rewrite String.eqb_refl.
  - destruct (String.eqb_spec k k') as [<-|Hne]; simpl.
    + now rewrite String.eqb_refl.
    + apply String.eqb_neq in Hne. now rewrite Hne.
Qed.

End PyJson.
