(* ===== verification/Store.v ===== *)
(** * Persistence, Generation Log, task queue and realtime outbox

    The rows the generation core reads and writes ([models/*.py]), the
    generation log ([models/GenerationLog.py]) with its two queries, the
    SQLAlchemy session (pending writes become durable only at
    [db.session.commit()], [rollback()] and [remove()] drop them), the Celery
    queue of job descriptors ([.delay(...)]) and the Socket.IO outbox
    ([notify] and [socketio.emit] of [helpers.py] and [tasks.py]).

    A world is generic in the lock store [L] (see [Lock.LockStore]). *)

From Stdlib Require Import ZArith QArith Lia.
From stdpp Require Import base gmap strings list.
From S2P Require Import Prelude Pricing Ledger Lock PyJson.

Local Open Scope Z_scope.

Module Store.
Import Pricing Ledger Lock PyJson.

(** ** Rows *)

(** [models/Character.py], [models/Location.py], [models/StoryArc.py]: the
    text columns hold what the task read from the decoded JSON ([JNull] is
    a stored [None]). *)
Record Character := {
  char_name : Json;
  char_description : Json;
  char_example_dialogue : Json
}.

Record Location := {
  loc_name : Json;
  loc_description : Json
}.

Record StoryArc := {
  arc_text : Json;
  arc_order : Z
}.

(** [models/Chapter.py]. *)
Record Chapter := {
  ch_id : Z;
  chapter_number : Z;
  ch_title : Json;
  ch_content : option string;
  ch_summary : Json;
  chapter_image_key : option string;
  chapter_image_prompt : option string
}.

(** [models/ChapterGuide.py]: one part of a chapter's guide, keyed by the
    chapter title. *)
Record ChapterGuide := {
  cg_chapter_title : string;
  cg_part_index : Json;
  cg_part_text : Json;
  cg_characters : Json;
  cg_locations : Json
}.

(** [models/Story.py], with the rows that belong to the story. *)
Record Story := {
  story_user_id : Z;
  chapters_count : Z;
  story_characters : list Character;
  story_locations : list Location;
  story_arcs : list StoryArc;
  story_chapters : list Chapter;
  cover_image_key : option string;
  cover_image_prompt : option string
}.

(** [GenerationLog.status]: "pending", "succeeded" or "failed". *)
Inductive Status := Pending | Succeeded | Failed.

#[export] Instance Status_eq_dec : EqDecision Status.
Proof. solve_decision. Defined.

(** [models/GenerationLog.py]. *)
Record GenerationLog := {
  gl_id : Z;
  gl_user_id : Z;
  gl_task_id : Z;
  gl_generation_type : GenKind;
  gl_predicted_cost : option Q;
  gl_real_cost : option Q;
  gl_status : Status;
  gl_error_message : option PyExc;
  gl_model : option string;
  gl_input_tokens : Z;
  gl_output_tokens : Z
}.

(** The database: users' counters, stories, chapter-guide rows by story
    id (the guide task writes them without loading the story), the log in
    id order, the id counters and the two pricing tables. *)
Record DB := {
  users : gmap Z UserCredits;
  stories : gmap Z Story;
  guides : gmap Z (list ChapterGuide);
  logs : list GenerationLog;
  next_log_id : Z;
  next_chapter_id : Z;
  token_config : option TokenCostConfig;
  credit_configs : list CreditConfig
}.

(** ** Job descriptors and events *)

(** The arguments each [*.delay(...)] call of [api/generation.py] passes to
    the worker. *)
Inductive TaskSpec :=
  | ImageTask (story_id : Z) (image_key : string) (prompt : string) (user_id : Z)
      (credit_cost : Q) (chapter_id : option Z)
  | MetaTask (story_id : Z) (prompt : string) (user_id : Z) (predicted_input_tokens : Z)
  | StoryArcsTask (story_id : Z) (prompt : string) (user_id : Z) (predicted_input_tokens : Z)
  | SummariesTask (story_id : Z) (prompt : string) (user_id : Z) (predicted_input_tokens : Z)
  | ChapterGuideTask (story_id : Z) (full_prompt : string) (user_id : Z)
      (predicted_input_tokens : Z)
  | ChapterTask (story_id : Z) (prompt : string) (chapter_number : Z) (user_id : Z)
      (predicted_input_tokens : Z).

Definition task_user (t : TaskSpec) : Z :=
  match t with
  | ImageTask _ _ _ u _ _ | MetaTask _ _ u _ | StoryArcsTask _ _ u _
  | SummariesTask _ _ u _ | ChapterGuideTask _ _ u _ | ChapterTask _ _ _ u _ => u
  end.

(** The [generation_type] under which the worker looks its log row up. *)
Definition task_kind (t : TaskSpec) : GenKind :=
  match t with
  | ImageTask _ _ _ _ _ _ => KImage
  | MetaTask _ _ _ _ => KMeta
  | StoryArcsTask _ _ _ _ => KStoryArcs
  | SummariesTask _ _ _ _ => KSummaries
  | ChapterGuideTask _ _ _ _ => KChapterGuide
  | ChapterTask _ _ _ _ _ => KChapter
  end.

(** [notify(message, user_id)] and [socketio.emit(name, payload, room=user_id)]. *)
Inductive Event :=
  | Notify (user_id : Z) (message : string)
  | Emit (user_id : Z) (name : string) (story_id : Z).

(** ** The world *)

(** [w_db] is what is committed; [w_work] is the session's view, with the
    pending writes of the running request or task. *)
Record World (L : Type) := {
  w_db : DB;
  w_work : DB;
  w_locks : L;
  w_queue : list (Z * TaskSpec);
  w_events : list Event;
  w_now : Z;
  w_next_task_id : Z
}.
Arguments w_db {L}. Arguments w_work {L}. Arguments w_locks {L}.
Arguments w_queue {L}. Arguments w_events {L}. Arguments w_now {L}.
Arguments w_next_task_id {L}.

(** ** Record updates *)

Definition db_with_users (d : DB) (us : gmap Z UserCredits) : DB :=
  {| users := us; stories := stories d; guides := guides d; logs := logs d;
     next_log_id := next_log_id d; next_chapter_id := next_chapter_id d;
     token_config := token_config d; credit_configs := credit_configs d |}.
Definition db_with_stories (d : DB) (ss : gmap Z Story) : DB :=
  {| users := users d; stories := ss; guides := guides d; logs := logs d;
     next_log_id := next_log_id d; next_chapter_id := next_chapter_id d;
     token_config := token_config d; credit_configs := credit_configs d |}.
Definition db_with_guides (d : DB) (gs : gmap Z (list ChapterGuide)) : DB :=
  {| users := users d; stories := stories d; guides := gs; logs := logs d;
     next_log_id := next_log_id d; next_chapter_id := next_chapter_id d;
     token_config := token_config d; credit_configs := credit_configs d |}.
Definition db_with_logs (d : DB) (ls : list GenerationLog) (next : Z) : DB :=
  {| users := users d; stories := stories d; guides := guides d; logs := ls;
     next_log_id := next; next_chapter_id := next_chapter_id d;
     token_config := token_config d; credit_configs := credit_configs d |}.
Definition db_with_next_chapter_id (d : DB) (n : Z) : DB :=
  {| users := users d; stories := stories d; guides := guides d; logs := logs d;
     next_log_id := next_log_id d; next_chapter_id := n;
     token_config := token_config d; credit_configs := credit_configs d |}.

Definition db_with_token_config (d : DB) (c : option TokenCostConfig) : DB :=
  {| users := users d; stories := stories d; guides := guides d; logs := logs d;
     next_log_id := next_log_id d; next_chapter_id := next_chapter_id d;
     token_config := c; credit_configs := credit_configs d |}.
Definition db_with_credit_configs (d : DB) (rows : list CreditConfig) : DB :=
  {| users := users d; stories := stories d; guides := guides d; logs := logs d;
     next_log_id := next_log_id d; next_chapter_id := next_chapter_id d;
     token_config := token_config d; credit_configs := rows |}.

(** Story row updates. *)
Definition story_with_meta (s : Story) (cs : list Character) (ls : list Location) : Story :=
  {| story_user_id := story_user_id s; chapters_count := chapters_count s;
     story_characters := cs; story_locations := ls; story_arcs := story_arcs s;
     story_chapters := story_chapters s; cover_image_key := cover_image_key s;
     cover_image_prompt := cover_image_prompt s |}.
Definition story_with_arcs (s : Story) (arcs : list StoryArc) : Story :=
  {| story_user_id := story_user_id s; chapters_count := chapters_count s;
     story_characters := story_characters s; story_locations := story_locations s;
     story_arcs := arcs; story_chapters := story_chapters s;
     cover_image_key := cover_image_key s; cover_image_prompt := cover_image_prompt s |}.
Definition story_with_chapters (s : Story) (chs : list Chapter) : Story :=
  {| story_user_id := story_user_id s; chapters_count := chapters_count s;
     story_characters := story_characters s; story_locations := story_locations s;
     story_arcs := story_arcs s; story_chapters := chs;
     cover_image_key := cover_image_key s; cover_image_prompt := cover_image_prompt s |}.
Definition story_with_cover (s : Story) (key : option string) : Story :=
  {| story_user_id := story_user_id s; chapters_count := chapters_count s;
     story_characters := story_characters s; story_locations := story_locations s;
     story_arcs := story_arcs s; story_chapters := story_chapters s;
     cover_image_key := key; cover_image_prompt := cover_image_prompt s |}.

Definition story_with_cover_prompt (s : Story) (p : option string) : Story :=
  {| story_user_id := story_user_id s; chapters_count := chapters_count s;
     story_characters := story_characters s; story_locations := story_locations s;
     story_arcs := story_arcs s; story_chapters := story_chapters s;
     cover_image_key := cover_image_key s; cover_image_prompt := p |}.

(** [Chapter.query.filter_by(story_id=.., chapter_number=index).first()]. *)
Definition find_chapter_by_number (d : DB) (sid n : Z) : option Chapter :=
  match stories d !! sid with
  | Some s => List.find (fun c => chapter_number c =? n) (story_chapters s)
  | None => None
  end.

(** [Chapter.query.filter_by(story_id=.., id=..).first()]. *)
Definition find_chapter_by_id (d : DB) (sid cid : Z) : option Chapter :=
  match stories d !! sid with
  | Some s => List.find (fun c => ch_id c =? cid) (story_chapters s)
  | None => None
  end.

Section WorldOps.
Context {L : Type} `{LockStore L}.

Definition world_with_work (w : World L) (d : DB) : World L :=
  {| w_db := w_db w; w_work := d; w_locks := w_locks w; w_queue := w_queue w;
     w_events := w_events w; w_now := w_now w; w_next_task_id := w_next_task_id w |}.
Definition world_with_db (w : World L) (d : DB) : World L :=
  {| w_db := d; w_work := w_work w; w_locks := w_locks w; w_queue := w_queue w;
     w_events := w_events w; w_now := w_now w; w_next_task_id := w_next_task_id w |}.
Definition world_with_locks (w : World L) (l : L) : World L :=
  {| w_db := w_db w; w_work := w_work w; w_locks := l; w_queue := w_queue w;
     w_events := w_events w; w_now := w_now w; w_next_task_id := w_next_task_id w |}.
Definition world_with_events (w : World L) (es : list Event) : World L :=
  {| w_db := w_db w; w_work := w_work w; w_locks := w_locks w; w_queue := w_queue w;
     w_events := es; w_now := w_now w; w_next_task_id := w_next_task_id w |}.
Definition world_with_queue (w : World L) (q : list (Z * TaskSpec)) (next : Z) : World L :=
  {| w_db := w_db w; w_work := w_work w; w_locks := w_locks w; w_queue := q;
     w_events := w_events w; w_now := w_now w; w_next_task_id := next |}.

(** ** Session operations *)

(** A pending write through the session. *)
Definition work (f : DB -> DB) : st (World L) unit :=
  st_modify (fun w => world_with_work w (f (w_work w))).

(** [db.session.commit()]. *)
Definition commit : st (World L) unit :=
  st_modify (fun w => world_with_db w (w_work w)).

(** [db.session.rollback()] and [db.session.remove()]: pending writes are
    dropped. *)
Definition rollback : st (World L) unit :=
  st_modify (fun w => world_with_work w (w_db w)).

Definition session_remove : st (World L) unit := rollback.

(** A request or a job starts with a fresh session. *)
Definition begin_session : st (World L) unit :=
  st_modify (fun w => world_with_work w (w_db w)).

Definition read_work {A} (f : DB -> A) : st (World L) A :=
  fun w => (Ok (f (w_work w)), w).

Definition modify_story (sid : Z) (f : Story -> Story) : st (World L) unit :=
  work (fun d => db_with_stories d (alter f sid (stories d))).

Definition replace_chapter (sid : Z) (c : Chapter) : st (World L) unit :=
  modify_story sid (fun s =>
    story_with_chapters s (map (fun c' => if ch_id c' =? ch_id c then c else c') (story_chapters s))).

(** [db.session.add(Chapter(...))] and the [flush] that gives the row its
    id: the chapter built from the next chapter id is appended to the
    story's chapters, and the id is returned. *)
Definition insert_chapter (sid : Z) (mk : Z -> Chapter) : st (World L) Z :=
  fun w => let d := w_work w in
    (Ok (next_chapter_id d),
     world_with_work w (db_with_stories (db_with_next_chapter_id d (next_chapter_id d + 1))
       (alter (fun s => story_with_chapters s (story_chapters s ++ [mk (next_chapter_id d)])) sid
              (stories d)))).

(** [notify(...)] and [socketio.emit(...)]: best effort, never raises. *)
Definition emit (e : Event) : st (World L) unit :=
  st_modify (fun w => world_with_events w (w_events w ++ [e])).

(** [clear_user_generation_lock(user_id)]. *)
Definition clear_user_generation_lock (u : Z) : st (World L) unit :=
  st_modify (fun w => world_with_locks w (clear_lock (w_locks w) u)).

(** [set_user_generation_lock(user_id)] with its default expiry. *)
Definition set_user_generation_lock (u : Z) : st (World L) bool :=
  fun w => let '(ok, l) := set_lock (w_locks w) (w_now w) u default_expire in
           (Ok ok, world_with_locks w l).

(** ** The generation log *)

(** [GenerationLog.query.filter_by(task_id=.., user_id=.., generation_type=..).first()]. *)
Definition find_log (d : DB) (task_id user_id : Z) (k : GenKind) : option GenerationLog :=
  List.find (fun g => (gl_task_id g =? task_id) && (gl_user_id g =? user_id)
                      && bool_decide (gl_generation_type g = k)) (logs d).

(** [log_entry.field = value] on the row with the given id. *)
Definition update_log (id : Z) (f : GenerationLog -> GenerationLog) : st (World L) unit :=
  work (fun d => db_with_logs d (map (fun g => if gl_id g =? id then f g else g) (logs d))
                              (next_log_id d)).

(** [db.session.add(GenerationLog(...))]: the next id is assigned. *)
Definition add_log (user_id task_id : Z) (k : GenKind) (predicted real : option Q) : st (World L) unit :=
  work (fun d =>
    db_with_logs d (logs d ++ [{| gl_id := next_log_id d; gl_user_id := user_id;
                                  gl_task_id := task_id; gl_generation_type := k;
                                  gl_predicted_cost := predicted; gl_real_cost := real;
                                  gl_status := Pending; gl_error_message := None;
                                  gl_model := None; gl_input_tokens := 0;
                                  gl_output_tokens := 0 |}])
                 (next_log_id d + 1)).

(** [spend_credits(user_id, credit_type, cost)]: load the user, subtract,
    commit.  A missing user raises only when a counter is touched. *)
Definition spend_credits (u : Z) (credit_type : string) (cost : Q) : st (World L) unit :=
  d <- read_work id ;;
  match credit_type_of_string credit_type, users d !! u with
  | Some _, None => st_raise (AttributeError "credits")
  | Some _, Some uc => work (fun d => db_with_users d (<[u := spend_on uc credit_type cost]> (users d)))
  | None, _ => st_ret tt
  end ;;
  commit.
End WorldOps.

(** The most recent log row of a user: [order_by(desc(GenerationLog.id)).first()]. *)
Definition last_log_of_user (d : DB) (u : Z) : option GenerationLog :=
  List.find (fun g => gl_user_id g =? u) (rev (logs d)).

(** [is_last_generation_and_negative_creds(user, _type)]: the last job of the
    user has this kind and the kind's counter is at most zero. *)
Definition is_last_generation_and_negative_creds (d : DB) (u : Z) (uc : UserCredits) (k : GenKind) : bool :=
  match last_log_of_user d u with
  | None => false
  | Some g =>
    if bool_decide (gl_generation_type g = k) then
      match k with
      | KImage => Qle_bool (image_credits uc) 0
      | _ => Qle_bool (text_credits uc) 0
      end
    else false
  end.

(** ** A small database for the witnesses *)

Definition sample_chapter (cid n : Z) (title : string) : Chapter :=
  {| ch_id := cid; chapter_number := n; ch_title := JStr title; ch_content := None;
     ch_summary := JStr ("summary of " +:+ title); chapter_image_key := None;
     chapter_image_prompt := None |}.

Definition sample_story : Story :=
  {| story_user_id := 1; chapters_count := 2; story_characters := []; story_locations := [];
     story_arcs := []; story_chapters := [sample_chapter 100 1 "Opening"; sample_chapter 101 2 "Storm"];
     cover_image_key := None; cover_image_prompt := None |}.

(** A pending log row of the given kind for user 1 and task [task]. *)
Definition sample_log (id task : Z) (k : GenKind) (predicted : Q) : GenerationLog :=
  {| gl_id := id; gl_user_id := 1; gl_task_id := task; gl_generation_type := k;
     gl_predicted_cost := Some predicted; gl_real_cost := None; gl_status := Pending;
     gl_error_message := None; gl_model := None; gl_input_tokens := 0; gl_output_tokens := 0 |}.

(** User 1 with 100 text and 10 image credits, owner of story 10, with one
    pending job (task 7) of kind [k] in the log. *)
Definition sample_db (text_credits0 : Q) (k : GenKind) : DB :=
  {| users := <[1 := {| text_credits := text_credits0; image_credits := 10; audio_credits := 0 |}]> ∅;
     stories := <[10 := sample_story]> ∅;
     guides := ∅;
     logs := [sample_log 1 7 k 20];
     next_log_id := 2;
     next_chapter_id := 102;
     token_config := Some sample_config;
     credit_configs := [] |}.

Definition sample_world (text_credits0 : Q) (k : GenKind) : World RedisLock :=
  {| w_db := sample_db text_credits0 k; w_work := sample_db text_credits0 k;
     w_locks := ∅; w_queue := []; w_events := []; w_now := 0;
     w_next_task_id := 8 |}.

(** A tokenizer for the witnesses: one token per character. *)
Definition sample_count_tokens (text model : string) : Z := Z.of_nat (String.length text).

(** [order_by(desc(GenerationLog.id)).first()] on the rows of one user
    finds the last of that user's rows in log order. *)
Lemma last_log_of_user_app (d : DB) (u : Z) (l1 l2 : list GenerationLog) (g : GenerationLog) :
  logs d = l1 ++ g :: l2 -> gl_user_id g = u -> Forall (fun g' => gl_user_id g' <> u) l2 ->
  last_log_of_user d u = Some g.
Proof.
  intros Hl Hg Hl2. unfold last_log_of_user. rewrite Hl, rev_app_distr. simpl.
  rewrite <- app_assoc. simpl.
  pose proof (Forall_rev Hl2) as Hr. revert Hr. generalize (rev l2). intros l Hr.
  induction Hr as [|x rest Hx _ IH]; simpl; [rewrite Hg, Z.eqb_refl; reflexivity |].
  rewrite (proj2 (Z.eqb_neq _ _) Hx). exact IH.
Qed.

End Store.
