(* ===== verification/Billing.v ===== *)
(** * Billing and the admin back office

    The Stripe webhook and the checkout sessions of [src/api/profile.py],
    and the admin handlers of [src/api/admin.py] that change credits, the
    credit-package and role catalog, and the price rows the estimator
    reads.  Their state is a [Backoffice]: the database of [Store] (credit
    counters, [TokenCostConfig], [CreditConfig]) and a [Shop] with the
    accounts' billing columns ([User.role_id], [stripe_customer_id],
    [stripe_subscription_id]), the roles, the packages and the revenue rows.
    Stripe's answers are inputs of a handler.  Each handler writes at its
    commit points; an exception before a commit leaves the state as it was,
    as Flask's teardown rolls the session back. *)

From Stdlib Require Import ZArith QArith Lia.
From stdpp Require Import base gmap strings list.
From S2P Require Import Prelude Pricing Ledger Store.

Local Open Scope Z_scope.

Module Billing.
Import Pricing Ledger Store.

(** ** Rows *)

(** [models/Role.py]. *)
Record RoleRow := {
  role_name : string;
  role_defaults : RoleDefaults;
  role_cost : Q;
  role_protected : bool;
  role_stripe_price : option string
}.

(** The billing columns of [models/User.py]; the counters are in [DB]. *)
Record Account := {
  acc_username : string;
  acc_role : Z;
  acc_customer : option string;
  acc_subscription : option string
}.

(** [models/CreditPackage.py]. *)
Record CreditPackage := {
  pk_credit_type : string;
  pk_credits : Z;
  pk_cost : Q;
  pk_stripe_price : option string
}.

Record Shop := {
  accounts : gmap Z Account;
  roles : gmap Z RoleRow;
  packages : gmap Z CreditPackage;
  revenues : list Q;            (* [Revenue.amount], in insertion order *)
  next_role_id : Z;
  next_package_id : Z
}.

Record Backoffice := {
  bo_db : DB;
  bo_shop : Shop
}.

Definition shop_with_accounts (s : Shop) (m : gmap Z Account) : Shop :=
  {| accounts := m; roles := roles s; packages := packages s; revenues := revenues s;
     next_role_id := next_role_id s; next_package_id := next_package_id s |}.
Definition shop_with_roles (s : Shop) (m : gmap Z RoleRow) (next : Z) : Shop :=
  {| accounts := accounts s; roles := m; packages := packages s; revenues := revenues s;
     next_role_id := next; next_package_id := next_package_id s |}.
Definition shop_with_packages (s : Shop) (m : gmap Z CreditPackage) (next : Z) : Shop :=
  {| accounts := accounts s; roles := roles s; packages := m; revenues := revenues s;
     next_role_id := next_role_id s; next_package_id := next |}.
Definition shop_add_revenue (s : Shop) (amount : Q) : Shop :=
  {| accounts := accounts s; roles := roles s; packages := packages s;
     revenues := revenues s ++ [amount]; next_role_id := next_role_id s;
     next_package_id := next_package_id s |}.

Definition with_db (b : Backoffice) (d : DB) : Backoffice := {| bo_db := d; bo_shop := bo_shop b |}.
Definition with_shop (b : Backoffice) (s : Shop) : Backoffice := {| bo_db := bo_db b; bo_shop := s |}.

Definition set_user_credits (b : Backoffice) (uid : Z) (uc : UserCredits) : Backoffice :=
  with_db b (db_with_users (bo_db b) (<[uid := uc]> (users (bo_db b)))).

(** [Model.query.filter_by(...).first()]: the matching row of least id. *)
Definition first_key {A} (p : A -> bool) (m : gmap Z A) : option Z :=
  fold_right (fun '(k, a) acc =>
                if p a then match acc with Some k' => Some (Z.min k k') | None => Some k end
                else acc) None (map_to_list m).

Definition opt_eqb (x y : option string) : bool :=
  match x, y with
  | Some a, Some b => String.eqb a b
  | None, None => true
  | _, _ => false
  end.

Inductive AdminResponse :=
  | Redirect (flash : option string)      (* redirect(...), after flash(...) *)
  | JsonError (msg : string)              (* jsonify({"error": ...}), 400 *)
  | JsonMessage (msg : string)
  | CheckoutSession (user_id package_id : Z) (credit_type : string)
  | SubscriptionSession (user_id role_id : Z)
  | WebhookAnswer (status : Z) (body : string).

(** ** The price rows ([api/admin.py]) *)

(** [update_token_config] (lines 362-420).  [form] is [None] when one of
    the seven [float(...)] conversions fails.  With no row yet, the
    constructor call reads [o1_cost_per_token], a name the function never
    binds. *)
Definition update_token_config (form : option TokenCostConfig) (b : Backoffice)
    : res AdminResponse * Backoffice :=
  match form with
  | None => (Ok (Redirect (Some "Invalid input. Please ensure all values are numbers.")), b)
  | Some cfg =>
    match token_config (bo_db b) with
    | None => (Raise (NameError "o1_cost_per_token"), b)
    | Some _ => (Ok (Redirect (Some "Token configuration updated successfully.")),
                 with_db b (db_with_token_config (bo_db b) (Some cfg)))
    end
  end.

(** [config.modifier = modifier] on the first row of the action. *)
Fixpoint set_first_modifier (rows : list CreditConfig) (action : string) (m : Q) : list CreditConfig :=
  match rows with
  | [] => []
  | c :: rest =>
    if String.eqb (cc_action c) action
    then {| cc_type := cc_type c; cc_action := cc_action c; cc_modifier := m |} :: rest
    else c :: set_first_modifier rest action m
  end.

(** [update_credit_config] (lines 585-613).  A new row is built without
    its NOT NULL [type] column, so the commit raises. *)
Definition update_credit_config (action : string) (modifier : option Q) (b : Backoffice)
    : res AdminResponse * Backoffice :=
  match modifier with
  | None => (Raise (ValueError "modifier"), b)
  | Some m =>
    match credit_config_first (credit_configs (bo_db b)) action with
    | Some _ => (Ok (Redirect (Some "Credit Config Updated")),
                 with_db b (db_with_credit_configs (bo_db b)
                              (set_first_modifier (credit_configs (bo_db b)) action m)))
    | None => (Raise (IntegrityError "credit_config.type"), b)
    end
  end.

(** ** Credits and roles of a user *)

(** [adjust_credits] (lines 615-645). *)
Definition adjust_credits (uid : Z) (credit_type : string) (credits : option Z) (b : Backoffice)
    : res AdminResponse * Backoffice :=
  match credits with
  | None => (Raise (ValueError "credits"), b)
  | Some c =>
    match users (bo_db b) !! uid with
    | None => (Raise NotFound, b)
    | Some uc => (Ok (Redirect (Some "User Credits Adjusted")),
                  set_user_credits b uid (adjust_on uc credit_type c))
    end
  end.

(** [update_user_role] (lines 647-683): the new role's allowance is
    added to the counters, unless the role is unchanged or the admin edits
    their own account. *)
Definition update_user_role (current_username : string) (uid : Z) (new_role_name : string)
    (b : Backoffice) : res AdminResponse * Backoffice :=
  let s := bo_shop b in
  match first_key (fun r => String.eqb (role_name r) new_role_name) (roles s) with
  | None => (Ok (JsonError "Role not found."), b)
  | Some rid =>
    match accounts s !! uid, users (bo_db b) !! uid, roles s !! rid with
    | Some a, Some uc, Some r =>
      if negb (acc_role a =? rid) && negb (String.eqb (acc_username a) current_username) then
        let b1 := set_user_credits b uid (renew_subscription uc (role_defaults r)) in
        (Ok (Redirect (Some "User Role Updated")),
         with_shop b1 (shop_with_accounts s (<[uid := {| acc_username := acc_username a; acc_role := rid;
                                                         acc_customer := acc_customer a;
                                                         acc_subscription := acc_subscription a |}]>
                                               (accounts s))))
      else (Ok (Redirect (Some "Could not update role")), b)
    | _, _, _ => (Raise NotFound, b)
    end
  end.

(** ** The credit-package catalog *)

(** [create_credit_package] (lines 120-166).  The package is committed
    before Stripe is asked for a price; if Stripe fails, it is deleted. *)
Definition create_credit_package (credit_type : string) (credits : option Z) (cost : option Q)
    (stripe_price : res string) (b : Backoffice) : res AdminResponse * Backoffice :=
  let s := bo_shop b in
  match credits, cost with
  | None, _ => (Raise (ValueError "credits"), b)
  | _, None => (Raise (ValueError "cost"), b)
  | Some n, Some c =>
    match first_key (fun p => String.eqb (pk_credit_type p) credit_type && (pk_credits p =? n))
                    (packages s) with
    | Some _ => (Ok (JsonError "Credit package already exists."), b)
    | None =>
      let pid := next_package_id s in
      let row price := {| pk_credit_type := credit_type; pk_credits := n; pk_cost := c;
                          pk_stripe_price := price |} in
      match stripe_price with
      | Ok price =>
        (Ok (Redirect (Some "Credit Package Created")),
         with_shop b (shop_with_packages s (<[pid := row (Some price)]> (packages s)) (pid + 1)))
      | Raise _ =>
        (Ok (Redirect (Some "An error occurred")),
         with_shop b (shop_with_packages s (delete pid (<[pid := row None]> (packages s))) (pid + 1)))
      end
    end
  end.

(** [delete_credit_package] (lines 168-203): deactivating the Stripe
    product is best effort; the row is deleted in every case. *)
Definition delete_credit_package (pid : Z) (deactivate : res unit) (b : Backoffice)
    : res AdminResponse * Backoffice :=
  let s := bo_shop b in
  match packages s !! pid with
  | None => (Raise NotFound, b)
  | Some _ => (Ok (JsonMessage "Credit Package Deleted"),
               with_shop b (shop_with_packages s (delete pid (packages s)) (next_package_id s)))
  end.

(** [update_credit_package] (lines 205-249): a field missing from the form
    keeps its value; a change asks Stripe for a new price. *)
Definition update_credit_package (pid : Z) (credits : option Z) (cost : option Q)
    (credit_type : option string) (stripe_price : res string) (b : Backoffice)
    : res AdminResponse * Backoffice :=
  let s := bo_shop b in
  match packages s !! pid with
  | None => (Raise NotFound, b)
  | Some p =>
    let n := default (pk_credits p) credits in
    let c := default (pk_cost p) cost in
    let t := default (pk_credit_type p) credit_type in
    let changed := negb (Qeq_bool c (pk_cost p)) || negb (n =? pk_credits p)
                   || negb (String.eqb t (pk_credit_type p)) in
    let row price := {| pk_credit_type := t; pk_credits := n; pk_cost := c; pk_stripe_price := price |} in
    let b1 := with_shop b (shop_with_packages s (<[pid := row (pk_stripe_price p)]> (packages s))
                                              (next_package_id s)) in
    if changed then
      match stripe_price with
      | Ok price => (Ok (Redirect (Some "Credit Package Updated")),
                     with_shop b (shop_with_packages s (<[pid := row (Some price)]> (packages s))
                                                     (next_package_id s)))
      | Raise _ => (Ok (Redirect (Some "Stripe error updating package")), b1)
      end
    else (Ok (Redirect (Some "Credit Package Updated")), b1)
  end.

(** ** The role catalog *)

(** [create_role] (lines 685-739). *)
Definition create_role (name : string) (defaults : RoleDefaults) (cost : Q) (stripe_price : res string)
    (b : Backoffice) : res AdminResponse * Backoffice :=
  let s := bo_shop b in
  match first_key (fun r => String.eqb (role_name r) name) (roles s) with
  | Some _ => (Ok (JsonError "Role already exists."), b)
  | None =>
    let rid := next_role_id s in
    let row price := {| role_name := name; role_defaults := defaults; role_cost := cost;
                        role_protected := false; role_stripe_price := price |} in
    match stripe_price with
    | Ok price => (Ok (Redirect (Some "User Role Created and Stripe Price configured")),
                   with_shop b (shop_with_roles s (<[rid := row (Some price)]> (roles s)) (rid + 1)))
    | Raise _ => (Ok (Redirect (Some "Stripe error")),
                  with_shop b (shop_with_roles s (delete rid (<[rid := row None]> (roles s))) (rid + 1)))
    end
  end.

(** [delete_role] (lines 741-781): a protected role, or one some user
    holds, is kept; the row is deleted only once Stripe has archived its
    product. *)
Definition delete_role (rid : Z) (archive : res unit) (b : Backoffice) : res AdminResponse * Backoffice :=
  let s := bo_shop b in
  match roles s !! rid with
  | None => (Raise NotFound, b)
  | Some r =>
    if role_protected r then (Ok (Redirect (Some "This role cannot be deleted.")), b)
    else match first_key (fun a => acc_role a =? rid) (accounts s) with
    | Some _ => (Ok (Redirect (Some "User currently has role so it cannot be deleted.")), b)
    | None =>
      match role_stripe_price r, archive with
      | Some _, Ok _ => (Ok (Redirect (Some "User Role Deleted")),
                         with_shop b (shop_with_roles s (delete rid (roles s)) (next_role_id s)))
      | Some _, Raise _ => (Ok (Redirect (Some "Error archiving Stripe product")), b)
      | None, _ => (Ok (Redirect (Some "Couldn't find stripe_price_id")), b)
      end
    end
  end.

(** [edit_role] (lines 783-842): the row is committed first; Stripe then
    renames the product and, when the cost changed, creates a new price. *)
Definition edit_role (rid : Z) (name : option string) (defaults : option RoleDefaults) (cost : option Q)
    (modify : res unit) (new_price : res string) (b : Backoffice) : res AdminResponse * Backoffice :=
  let s := bo_shop b in
  match roles s !! rid with
  | None => (Raise NotFound, b)
  | Some r =>
    let c := default (role_cost r) cost in
    let row price := {| role_name := default (role_name r) name;
                        role_defaults := default (role_defaults r) defaults; role_cost := c;
                        role_protected := role_protected r; role_stripe_price := price |} in
    let b1 := with_shop b (shop_with_roles s (<[rid := row (role_stripe_price r)]> (roles s))
                                           (next_role_id s)) in
    match role_stripe_price r with
    | None => (Ok (Redirect (Some "Role updated successfully")), b1)
    | Some _ =>
      match modify with
      | Raise _ => (Ok (Redirect (Some "Stripe error updating role")), b1)
      | Ok _ =>
        if negb (Qeq_bool c (role_cost r)) then
          match new_price with
          | Ok p => (Ok (Redirect (Some "Role updated successfully")),
                     with_shop b (shop_with_roles s (<[rid := row (Some p)]> (roles s)) (next_role_id s)))
          | Raise _ => (Ok (Redirect (Some "Stripe error updating role")), b1)
          end
        else (Ok (Redirect (Some "Role updated successfully")), b1)
      end
    end
  end.

(** ** Stripe ([api/profile.py]) *)

(** The metadata a checkout session carries back to the webhook. *)
Inductive StripeEvent :=
  | InvoicePaymentSucceeded (subscription : option string) (amount_paid : Z)
  | CheckoutCompleted (user_id role_id package_id : option Z) (credit_type : option string)
                      (subscription : option string) (amount_total : Z)
  | SubscriptionDeleted (customer : option string)
  | OtherEvent.

(** [stripe.Webhook.construct_event]: the payload decodes and its
    signature verifies, or not. *)
Inductive WebhookInput :=
  | BadPayload
  | BadSignature
  | Event (e : StripeEvent).

(** ['invoice.payment_succeeded'] (lines 95-105): the user whose
    [stripe_subscription_id] equals the invoice's gets the role's allowance
    on every counter, and the revenue is recorded. *)
Definition invoice_paid (subscription : option string) (amount_paid : Z) (b : Backoffice)
    : res unit * Backoffice :=
  let s := bo_shop b in
  match first_key (fun a => opt_eqb (acc_subscription a) subscription) (accounts s) with
  | None => (Ok tt, b)
  | Some uid =>
    match accounts s !! uid, users (bo_db b) !! uid with
    | Some a, Some uc =>
      match roles s !! acc_role a with
      | Some r => (Ok tt, with_shop (set_user_credits b uid (renew_subscription uc (role_defaults r)))
                                    (shop_add_revenue s (inject_Z amount_paid / 100)))
      | None => (Raise (AttributeError "default_text_credits"), b)
      end
    | _, _ => (Raise (AttributeError "text_credits"), b)
    end
  end.

(** ['checkout.session.completed'] (lines 106-135): with a [package_id] in
    the metadata, the package's credits go to the counter the metadata
    names; without, the user's role and subscription are set. *)
Definition checkout_completed (user_id role_id package_id : option Z) (credit_type : option string)
    (subscription : option string) (amount_total : Z) (b : Backoffice) : res unit * Backoffice :=
  let s := bo_shop b in
  match package_id with
  | Some pid =>
    match user_id with
    | None => (Ok tt, b)
    | Some uid =>
      match users (bo_db b) !! uid, packages s !! pid with
      | Some uc, Some p =>
        (Ok tt, with_shop (set_user_credits b uid
                             (add_package_credits uc (default "" credit_type) (pk_credits p)))
                          (shop_add_revenue s (inject_Z amount_total / 100)))
      | _, _ => (Ok tt, b)
      end
    end
  | None =>
    match user_id, role_id with
    | Some uid, Some rid =>
      match accounts s !! uid, roles s !! rid with
      | Some a, Some _ =>
        (Ok tt, with_shop b (shop_with_accounts s (<[uid := {| acc_username := acc_username a;
                                                             acc_role := rid;
                                                             acc_customer := acc_customer a;
                                                             acc_subscription := subscription |}]>
                                                     (accounts s))))
      | _, _ => (Ok tt, b)
      end
    | _, _ => (Ok tt, b)
    end
  end.

(** ['customer.subscription.deleted'] (lines 137-149): the user falls back
    to the role named "user", and every counter is reset to its allowance. *)
Definition subscription_deleted (customer : option string) (b : Backoffice) : res unit * Backoffice :=
  let s := bo_shop b in
  match first_key (fun a => opt_eqb (acc_customer a) customer) (accounts s) with
  | None => (Ok tt, b)
  | Some uid =>
    match first_key (fun r => String.eqb (role_name r) "user") (roles s) with
    | None => (Ok tt, b)
    | Some rid =>
      match accounts s !! uid, roles s !! rid with
      | Some a, Some r =>
        let b1 := set_user_credits b uid (reset_to_role (role_defaults r)) in
        (Ok tt, with_shop b1 (shop_with_accounts s (<[uid := {| acc_username := acc_username a;
                                                              acc_role := rid;
                                                              acc_customer := acc_customer a;
                                                              acc_subscription := None |}]>
                                                      (accounts s))))
      | _, _ => (Ok tt, b)
      end
    end
  end.

(** [stripe_webhook] (lines 65-150). *)
Definition stripe_webhook (input : WebhookInput) (b : Backoffice) : res AdminResponse * Backoffice :=
  match input with
  | BadPayload => (Ok (WebhookAnswer 400 "Invalid payload"), b)
  | BadSignature => (Ok (WebhookAnswer 400 "Invalid signature"), b)
  | Event e =>
    let '(r, b') := match e with
      | InvoicePaymentSucceeded sub amount => invoice_paid sub amount b
      | CheckoutCompleted uid rid pid ct sub amount => checkout_completed uid rid pid ct sub amount b
      | SubscriptionDeleted customer => subscription_deleted customer b
      | OtherEvent => (Ok tt, b)
      end in
    match r with
    | Ok _ => (Ok (WebhookAnswer 200 ""), b')
    | Raise ex => (Raise ex, b')
    end
  end.

(** [if not user.stripe_customer_id: ... user.stripe_customer_id =
    customer.id; db.session.commit()], shared by the two checkout endpoints. *)
Definition ensure_customer (uid : Z) (a : Account) (new_customer : res string) (b : Backoffice)
    : res Backoffice :=
  match acc_customer a with
  | Some _ => Ok b
  | None =>
    match new_customer with
    | Ok cid => Ok (with_shop b (shop_with_accounts (bo_shop b)
                                 (<[uid := {| acc_username := acc_username a; acc_role := acc_role a;
                                              acc_customer := Some cid;
                                              acc_subscription := acc_subscription a |}]>
                                    (accounts (bo_shop b)))))
    | Raise e => Raise e
    end
  end.

(** [create_one_time_checkout_session] (lines 190-237): the session's
    metadata records the package and its credit type at this moment. *)
Definition create_one_time_checkout_session (uid pid : Z) (new_customer : res string)
    (session : res unit) (b : Backoffice) : res AdminResponse * Backoffice :=
  match packages (bo_shop b) !! pid, accounts (bo_shop b) !! uid with
  | None, _ => (Raise NotFound, b)
  | _, None => (Raise (AttributeError "stripe_customer_id"), b)
  | Some p, Some a =>
    match ensure_customer uid a new_customer b with
    | Raise e => (Raise e, b)
    | Ok b1 =>
      match session with
      | Ok _ => (Ok (CheckoutSession uid pid (pk_credit_type p)), b1)
      | Raise _ => (Ok (JsonError "checkout session"), b1)
      end
    end
  end.

(** [str.lower()] on ASCII. *)
Definition ascii_lower (c : Ascii.ascii) : Ascii.ascii :=
  let n := Ascii.nat_of_ascii c in
  if (65 <=? n)%nat && (n <=? 90)%nat then Ascii.ascii_of_nat (n + 32) else c.

Fixpoint py_lower (s : string) : string :=
  match s with
  | EmptyString => EmptyString
  | String c rest => String (ascii_lower c) (py_lower rest)
  end.

(** [create_checkout_session] (lines 239-289): the subscription checkout,
    refused for the roles named admin and user. *)
Definition create_checkout_session (uid rid : Z) (new_customer : res string) (session : res unit)
    (b : Backoffice) : res AdminResponse * Backoffice :=
  match roles (bo_shop b) !! rid, accounts (bo_shop b) !! uid with
  | None, _ => (Raise NotFound, b)
  | _, None => (Raise (AttributeError "stripe_customer_id"), b)
  | Some r, Some a =>
    if String.eqb (py_lower (role_name r)) "admin" || String.eqb (py_lower (role_name r)) "user"
    then (Ok (Redirect None), b)
    else
      match ensure_customer uid a new_customer b with
      | Raise e => (Raise e, b)
      | Ok b1 =>
        match session with
        | Ok _ => (Ok (SubscriptionSession uid rid), b1)
        | Raise e => (Raise e, b1)
        end
      end
  end.

(** ** The back office as a transition system *)

Inductive AdminReq :=
  | ReqUpdateTokenConfig (form : option TokenCostConfig)
  | ReqUpdateCreditConfig (action : string) (modifier : option Q)
  | ReqAdjustCredits (uid : Z) (credit_type : string) (credits : option Z)
  | ReqUpdateUserRole (current_username : string) (uid : Z) (role_name : string)
  | ReqCreatePackage (credit_type : string) (credits : option Z) (cost : option Q) (stripe_price : res string)
  | ReqDeletePackage (pid : Z) (deactivate : res unit)
  | ReqUpdatePackage (pid : Z) (credits : option Z) (cost : option Q) (credit_type : option string)
                     (stripe_price : res string)
  | ReqCreateRole (name : string) (defaults : RoleDefaults) (cost : Q) (stripe_price : res string)
  | ReqDeleteRole (rid : Z) (archive : res unit)
  | ReqEditRole (rid : Z) (name : option string) (defaults : option RoleDefaults) (cost : option Q)
                (modify : res unit) (new_price : res string)
  | ReqWebhook (input : WebhookInput)
  | ReqCheckoutPackage (uid pid : Z) (new_customer : res string) (session : res unit)
  | ReqCheckoutSubscription (uid rid : Z) (new_customer : res string) (session : res unit).

Definition handle_admin (req : AdminReq) : Backoffice -> res AdminResponse * Backoffice :=
  match req with
  | ReqUpdateTokenConfig form => update_token_config form
  | ReqUpdateCreditConfig a m => update_credit_config a m
  | ReqAdjustCredits uid t c => adjust_credits uid t c
  | ReqUpdateUserRole cur uid name => update_user_role cur uid name
  | ReqCreatePackage t n c sp => create_credit_package t n c sp
  | ReqDeletePackage pid de => delete_credit_package pid de
  | ReqUpdatePackage pid n c t sp => update_credit_package pid n c t sp
  | ReqCreateRole name df c sp => create_role name df c sp
  | ReqDeleteRole rid ar => delete_role rid ar
  | ReqEditRole rid name df c md np => edit_role rid name df c md np
  | ReqWebhook input => stripe_webhook input
  | ReqCheckoutPackage uid pid nc se => create_one_time_checkout_session uid pid nc se
  | ReqCheckoutSubscription uid rid nc se => create_checkout_session uid rid nc se
  end.

Inductive bo_step : Backoffice -> Backoffice -> Prop :=
  | BoStep (b : Backoffice) (req : AdminReq) : bo_step b (snd (handle_admin req b)).

(** Every account's role exists (the foreign key [user.role_id]), and the
    ids of roles and packages are below the next id their table hands out. *)
Definition wf_shop (s : Shop) : Prop :=
  (forall uid a, accounts s !! uid = Some a -> is_Some (roles s !! acc_role a))
  /\ (forall rid, is_Some (roles s !! rid) -> rid < next_role_id s)
  /\ (forall pid, is_Some (packages s !! pid) -> pid < next_package_id s).

(** ** Lemmas *)

Lemma first_key_Some {A} (p : A -> bool) (m : gmap Z A) (k : Z) :
  first_key p m = Some k -> exists a, m !! k = Some a /\ p a = true.
Proof.
  unfold first_key. intros Hk.
  assert (Hl : exists a, (k, a) ∈ map_to_list m /\ p a = true).
  { revert k Hk. induction (map_to_list m) as [|[k0 a0] l IH]; intros k Hk; simpl in Hk; [discriminate |].
    destruct (p a0) eqn:Hp.
    - destruct (fold_right _ None l) as [k'|] eqn:Hf.
      + destruct (Z.min_spec k0 k') as [[_ Hm]|[_ Hm]]; rewrite Hm in Hk; inv_clear Hk.
        * exists a0. split; [left | exact Hp].
        * destruct (IH k eq_refl) as (a & Ha & Hpa). exists a. split; [right; exact Ha | exact Hpa].
      + inv_clear Hk. exists a0. split; [left | exact Hp].
    - destruct (IH k Hk) as (a & Ha & Hpa). exists a. split; [right; exact Ha | exact Hpa]. }
  destruct Hl as (a & Ha & Hpa). exists a. split; [apply elem_of_map_to_list, Ha | exact Hpa].
Qed.

Lemma first_key_None {A} (p : A -> bool) (m : gmap Z A) (k : Z) (a : A) :
  first_key p m = None -> m !! k = Some a -> p a = false.
Proof.
  unfold first_key. intros Hn Hk. apply elem_of_map_to_list in Hk. revert Hn Hk.
  induction (map_to_list m) as [|[k0 a0] l IH]; intros Hn Hk; [inversion Hk |].
  simpl in Hn. destruct (p a0) eqn:Hp; [destruct (fold_right _ None l); discriminate |].
  inversion Hk; subst; [exact Hp | apply IH; assumption].
Qed.

Section WfShop.
Variable s : Shop.
Hypothesis Hwf : wf_shop s.

Lemma wf_insert_account (uid : Z) (a : Account) :
  is_Some (roles s !! acc_role a) -> wf_shop (shop_with_accounts s (<[uid := a]> (accounts s))).
Proof.
  destruct Hwf as (Hr & Hn1 & Hn2). intros Ha. split; [| split; [exact Hn1 | exact Hn2]].
  intros uid' a'. simpl. destruct (decide (uid = uid')) as [<-|Hne].
  - rewrite lookup_insert_eq. intros [= <-]. exact Ha.
  - rewrite lookup_insert_ne by exact Hne. apply Hr.
Qed.

Lemma wf_add_revenue (q : Q) : wf_shop (shop_add_revenue s q).
Proof. exact Hwf. Qed.

Lemma wf_insert_role (rid : Z) (r : RoleRow) (next : Z) :
  next_role_id s <= next -> rid < next ->
  wf_shop (shop_with_roles s (<[rid := r]> (roles s)) next).
Proof.
  destruct Hwf as (Hr & Hn1 & Hn2). intros Hle Hlt. split; [| split; [| exact Hn2]]; simpl.
  - intros uid a Ha. destruct (decide (rid = acc_role a)) as [<-|Hne];
      [rewrite lookup_insert_eq; eauto | rewrite lookup_insert_ne by exact Hne; eauto].
  - intros rid'. destruct (decide (rid = rid')) as [<-|Hne]; [intros _; exact Hlt |].
    rewrite lookup_insert_ne by exact Hne. intros Hs. specialize (Hn1 rid' Hs). lia.
Qed.

Lemma wf_delete_role (rid : Z) (m : gmap Z RoleRow) (next : Z) :
  (forall k, k <> rid -> m !! k = roles s !! k) -> next_role_id s <= next ->
  (forall uid a, accounts s !! uid = Some a -> acc_role a <> rid) ->
  wf_shop (shop_with_roles s (delete rid m) next).
Proof.
  destruct Hwf as (Hr & Hn1 & Hn2). intros Hm Hle Hacc. split; [| split; [| exact Hn2]]; simpl.
  - intros uid a Ha. rewrite lookup_delete_ne by (symmetry; eapply Hacc, Ha).
    rewrite Hm by (eapply Hacc, Ha). eapply Hr, Ha.
  - intros rid'. destruct (decide (rid = rid')) as [<-|Hne]; [rewrite lookup_delete_eq; intros [? Hx]; discriminate |].
    rewrite lookup_delete_ne, Hm by congruence. intros Hs. specialize (Hn1 rid' Hs). lia.
Qed.

Lemma wf_packages (m : gmap Z CreditPackage) (next : Z) :
  next_package_id s <= next -> (forall pid, is_Some (m !! pid) -> pid < next) ->
  wf_shop (shop_with_packages s m next).
Proof. destruct Hwf as (Hr & Hn1 & Hn2). intros _ Hm. split; [exact Hr | split; [exact Hn1 | exact Hm]]. Qed.

Lemma wf_packages_insert (pid : Z) (p : CreditPackage) (next : Z) :
  next_package_id s <= next -> pid < next ->
  (forall k, k <> pid -> is_Some (packages s !! k) -> k < next) ->
  forall m, (m = <[pid := p]> (packages s) \/ m = delete pid (<[pid := p]> (packages s))) ->
  wf_shop (shop_with_packages s m next).
Proof.
  intros Hle Hlt Hk m Hm. apply wf_packages; [exact Hle |]. intros k.
  destruct (decide (pid = k)) as [<-|Hne]; [intros _; exact Hlt |].
  destruct Hm as [-> | ->]; [rewrite lookup_insert_ne by exact Hne | rewrite lookup_delete_ne, lookup_insert_ne by exact Hne];
    apply Hk; congruence.
Qed.
End WfShop.

Lemma handle_admin_wf (req : AdminReq) (b : Backoffice) :
  wf_shop (bo_shop b) -> wf_shop (bo_shop (snd (handle_admin req b))).
Proof.
  intros Hwf. destruct req; simpl;
    unfold update_token_config, update_credit_config, adjust_credits, update_user_role,
      create_credit_package, delete_credit_package, update_credit_package, create_role, delete_role,
      edit_role, stripe_webhook, invoice_paid, checkout_completed, subscription_deleted,
      create_one_time_checkout_session, create_checkout_session, ensure_customer;
    repeat (case_match; simplify_eq/=); try exact Hwf.
  all: pose proof Hwf as (Hr & Hn1 & Hn2).
  all: first
    [ apply wf_insert_account; [exact Hwf | simpl; first [eexists; eassumption | eapply Hr; eassumption]]
    | eapply (wf_packages_insert _ Hwf); cycle 3;
        [ first [left; reflexivity | right; reflexivity] | lia
        | first [lia | apply Hn2; eexists; eassumption]
        | intros k _ Hk; specialize (Hn2 k Hk); lia ]
    | apply wf_packages; [exact Hwf | lia |]; intros k Hk; apply Hn2;
        destruct (decide (pid = k)) as [<-|Hne];
        [rewrite lookup_delete_eq in Hk; destruct Hk as [? Hx]; discriminate
        | rewrite lookup_delete_ne in Hk by exact Hne; exact Hk]
    | apply wf_insert_role; [exact Hwf | lia | first [lia | apply Hn1; eexists; eassumption]]
    | apply wf_delete_role; [exact Hwf | intros k Hk; simpl; rewrite lookup_insert_ne by congruence; reflexivity
        | lia | intros ?uid ?acc Ha; destruct (Hr _ _ Ha) as [x Hx]; specialize (Hn1 _ (mk_is_Some _ _ Hx)); lia]
    | apply wf_delete_role; [exact Hwf | intros; reflexivity | lia |];
        intros ?uid ?acc Ha Heq; match goal with Hf : first_key _ _ = None |- _ =>
          pose proof (first_key_None _ _ _ _ Hf Ha) as Hb end; simpl in Hb; rewrite Heq, Z.eqb_refl in Hb;
        discriminate ].
Qed.

Lemma handle_admin_protected (req : AdminReq) (b : Backoffice) (rid : Z) (r : RoleRow) :
  wf_shop (bo_shop b) -> roles (bo_shop b) !! rid = Some r -> role_protected r = true ->
  exists r', roles (bo_shop (snd (handle_admin req b))) !! rid = Some r' /\ role_protected r' = true.
Proof.
  intros (Hr & Hn1 & Hn2) Hrid Hprot.
  assert (Hlt : rid < next_role_id (bo_shop b)) by (apply Hn1; eexists; exact Hrid).
  destruct req; simpl;
    unfold update_token_config, update_credit_config, adjust_credits, update_user_role,
      create_credit_package, delete_credit_package, update_credit_package, create_role, delete_role,
      edit_role, stripe_webhook, invoice_paid, checkout_completed, subscription_deleted,
      create_one_time_checkout_session, create_checkout_session, ensure_customer;
    repeat (case_match; simplify_eq/=); eauto;
    first
      [ rewrite lookup_insert_ne by lia; eauto
      | rewrite lookup_delete_ne, lookup_insert_ne by lia; eauto
      | match goal with H : roles _ !! ?k = Some _ |- context [<[?k := _]> _] =>
          destruct (decide (k = rid)) as [->|Hne];
          [rewrite lookup_insert_eq; simplify_eq/=; eexists; split; [reflexivity | assumption]
          | rewrite lookup_insert_ne by exact Hne; eauto] end
      | match goal with H : roles _ !! ?k = Some _ |- context [delete ?k _] =>
          destruct (decide (k = rid)) as [->|Hne];
          [simplify_eq/=; congruence | rewrite lookup_delete_ne by exact Hne; eauto] end ].
Qed.

Lemma set_first_modifier_lookup (rows : list CreditConfig) (action a : string) (m : Q) :
  credit_config_first rows action <> None ->
  lookup_modifier (set_first_modifier rows action m) a
    = if String.eqb a action then m else lookup_modifier rows a.
Proof.
  unfold lookup_modifier. induction rows as [|c rest IH]; intros Hs; simpl in *; [congruence |].
  destruct (String.eqb (cc_action c) action) eqn:Ec; simpl.
  - apply String.eqb_eq in Ec. subst action. rewrite (String.eqb_sym a).
    destruct (String.eqb (cc_action c) a); reflexivity.
  - destruct (String.eqb (cc_action c) a) eqn:Ea; [| apply IH, Hs].
    apply String.eqb_eq in Ea. subst a. rewrite Ec. reflexivity.
Qed.

(** The well-formedness of a shop, decided. *)
Definition wf_shop_b (s : Shop) : bool :=
  forallb (fun '(_, a) => bool_decide (is_Some (roles s !! acc_role a))) (map_to_list (accounts s))
  && forallb (fun '(k, _) => k <? next_role_id s) (map_to_list (roles s))
  && forallb (fun '(k, _) => k <? next_package_id s) (map_to_list (packages s)).

Lemma forallb_map_to_list {A} (f : Z * A -> bool) (m : gmap Z A) (k : Z) (a : A) :
  forallb f (map_to_list m) = true -> m !! k = Some a -> f (k, a) = true.
Proof.
  intros Hf Hk. rewrite forallb_forall in Hf. apply Hf.
  apply list_elem_of_In, elem_of_map_to_list, Hk.
Qed.

Lemma wf_shop_b_sound (s : Shop) : wf_shop_b s = true -> wf_shop s.
Proof.
  unfold wf_shop_b. intros H. apply andb_true_iff in H as [H H3]. apply andb_true_iff in H as [H1 H2].
  split; [| split].
  - intros uid a Ha. exact (bool_decide_eq_true_1 _ (forallb_map_to_list _ _ _ _ H1 Ha)).
  - intros rid [r Hr]. apply Z.ltb_lt, (forallb_map_to_list _ _ _ _ H2 Hr).
  - intros pid [p Hp]. apply Z.ltb_lt, (forallb_map_to_list _ _ _ _ H3 Hp).
Qed.

(** ** Properties of the back office *)

(** C7: the back office keeps the shop well formed.  Along any sequence of
    admin requests, webhook deliveries and checkouts, every account's role
    exists and role and package ids stay below their tables' next id. *)
Theorem bo_reachable_wf (b0 b : Backoffice) :
  rtc bo_step b0 b -> wf_shop (bo_shop b0) -> wf_shop (bo_shop b).
Proof.
  induction 1 as [|x y z Hs _ IH]; [exact id |].
  intros H0. apply IH. destruct Hs as [x req]. apply handle_admin_wf, H0.
Qed.

(** C8: protected roles are never deleted.  A role marked [protected] in
    a well-formed shop is still present, and still protected, after any
    sequence of back-office steps. *)
Theorem bo_protected_role_persists (b0 b : Backoffice) (rid : Z) (r : RoleRow) :
  rtc bo_step b0 b -> wf_shop (bo_shop b0) ->
  roles (bo_shop b0) !! rid = Some r -> role_protected r = true ->
  exists r', roles (bo_shop b) !! rid = Some r' /\ role_protected r' = true.
Proof.
  intros Hrt. revert r. induction Hrt as [x|x y z Hs _ IH]; intros r Hwf Hr Hp; [eauto |].
  destruct Hs as [x req].
  destruct (handle_admin_protected req x rid r Hwf Hr Hp) as (r' & Hr' & Hp').
  exact (IH r' (handle_admin_wf req x Hwf) Hr' Hp').
Qed.

(** C14: a completed package checkout adds exactly the package's credits to
    the counter the session's metadata names, records the amount paid in
    dollars as revenue, and answers 200. *)
Theorem webhook_package_purchase (b : Backoffice) (uid pid amount : Z) (rid : option Z)
    (credit_type : string) (sub : option string) (uc : UserCredits) (p : CreditPackage) :
  users (bo_db b) !! uid = Some uc -> packages (bo_shop b) !! pid = Some p ->
  let '(r, b') := stripe_webhook (Event (CheckoutCompleted (Some uid) rid (Some pid) (Some credit_type)
                                                           sub amount)) b in
  r = Ok (WebhookAnswer 200 "")
  /\ users (bo_db b') = <[uid := add_package_credits uc credit_type (pk_credits p)]> (users (bo_db b))
  /\ revenues (bo_shop b') = revenues (bo_shop b) ++ [(inject_Z amount / 100)%Q]
  /\ accounts (bo_shop b') = accounts (bo_shop b).
Proof. intros Hu Hp. simpl. rewrite Hu, Hp. repeat split. Qed.

(** A missing price row makes the admin's price form fail.  With no
    [TokenCostConfig] row yet, [update_token_config] with a well-formed
    form raises [NameError] and creates nothing. *)
Theorem token_config_creation_raises (b : Backoffice) (cfg : TokenCostConfig) :
  token_config (bo_db b) = None ->
  update_token_config (Some cfg) b = (Raise (NameError "o1_cost_per_token"), b).
Proof. intros H. unfold update_token_config. rewrite H. reflexivity. Qed.

(** C15: editing a modifier is read back by the estimator.  When a row for
    the action exists, [update_credit_config] succeeds, the estimator's
    [lookup_modifier] then returns the new modifier for that action and the
    old one for every other action. *)
Theorem credit_config_update_roundtrip (b : Backoffice) (action : string) (m : Q) :
  credit_config_first (credit_configs (bo_db b)) action <> None ->
  let '(r, b') := update_credit_config action (Some m) b in
  r = Ok (Redirect (Some "Credit Config Updated"))
  /\ forall a, lookup_modifier (credit_configs (bo_db b')) a
               = if String.eqb a action then m else lookup_modifier (credit_configs (bo_db b)) a.
Proof.
  intros Hs. unfold update_credit_config.
  destruct (credit_config_first (credit_configs (bo_db b)) action) eqn:E; [| congruence].
  split; [reflexivity |]. intros a. apply set_first_modifier_lookup. congruence.
Qed.

(** A modifier for a new action cannot be created.  The new
    [CreditConfig] row has no [type], a NOT NULL column, so the commit
    raises and no row is added; the estimator keeps the fallback 2. *)
Theorem credit_config_creation_raises (b : Backoffice) (action : string) (m : Q) :
  credit_config_first (credit_configs (bo_db b)) action = None ->
  update_credit_config action (Some m) b = (Raise (IntegrityError "credit_config.type"), b).
Proof. intros H. unfold update_credit_config. rewrite H. reflexivity. Qed.

(** [adjust_credits] overwrites the named counter with the form's
    value and leaves the other two. *)
Theorem adjust_credits_sets_balance (b : Backoffice) (uid c : Z) (s : string) (t : CreditType)
    (uc : UserCredits) :
  users (bo_db b) !! uid = Some uc -> credit_type_of_string s = Some t ->
  exists uc', users (bo_db (snd (adjust_credits uid s (Some c) b))) !! uid = Some uc'
    /\ balance uc' t = inject_Z c
    /\ forall t', t' <> t -> balance uc' t' = balance uc t'.
Proof.
  intros Hu Ht. unfold adjust_credits. rewrite Hu. simpl. rewrite lookup_insert_eq.
  eexists. split; [reflexivity |]. unfold adjust_on. rewrite Ht. split.
  - apply balance_set_balance_eq.
  - intros t' Hne. apply balance_set_balance_ne. congruence.
Qed.

(** C31: cancelling a subscription resets the counters.  The user whose
    [stripe_customer_id] the event names gets the role named "user", no
    subscription, and every counter set to that role's allowance: what
    was left, or owed, is discarded. *)
Theorem subscription_deleted_resets (b : Backoffice) (cust : string) (uid rid : Z) (a : Account)
    (uc : UserCredits) (r : RoleRow) :
  first_key (fun a => opt_eqb (acc_customer a) (Some cust)) (accounts (bo_shop b)) = Some uid ->
  first_key (fun r => String.eqb (role_name r) "user") (roles (bo_shop b)) = Some rid ->
  accounts (bo_shop b) !! uid = Some a -> roles (bo_shop b) !! rid = Some r ->
  let b' := snd (stripe_webhook (Event (SubscriptionDeleted (Some cust))) b) in
  users (bo_db b') = <[uid := reset_to_role (role_defaults r)]> (users (bo_db b))
  /\ option_map acc_role (accounts (bo_shop b') !! uid) = Some rid
  /\ option_map acc_subscription (accounts (bo_shop b') !! uid) = Some None.
Proof.
  intros Hu Hr Ha Hrr. simpl. unfold subscription_deleted. rewrite Hu, Hr, Ha, Hrr. simpl.
  rewrite lookup_insert_eq. repeat split.
Qed.

(** ** A small back office for the witnesses *)

Definition sample_roles : gmap Z RoleRow :=
  <[1 := {| role_name := "admin"; role_defaults := {| default_text_credits := 0; default_image_credits := 0;
                                                        default_audio_credits := 0 |};
            role_cost := 0; role_protected := true; role_stripe_price := None |}]>
  (<[2 := {| role_name := "user"; role_defaults := {| default_text_credits := 100; default_image_credits := 10;
                                                        default_audio_credits := 0 |};
             role_cost := 0; role_protected := true; role_stripe_price := None |}]>
  (<[3 := {| role_name := "Pro"; role_defaults := {| default_text_credits := 1000; default_image_credits := 100;
                                                       default_audio_credits := 10 |};
             role_cost := 10; role_protected := false; role_stripe_price := Some "price_pro" |}]> ∅)).

Definition sample_shop : Shop :=
  {| accounts := <[1 := {| acc_username := "ada"; acc_role := 3; acc_customer := Some "cus_1";
                           acc_subscription := Some "sub_1" |}]>
                 (<[2 := {| acc_username := "bob"; acc_role := 2; acc_customer := None;
                            acc_subscription := None |}]> ∅);
     roles := sample_roles;
     packages := <[1 := {| pk_credit_type := "text"; pk_credits := 500; pk_cost := 5;
                           pk_stripe_price := Some "price_500" |}]> ∅;
     revenues := []; next_role_id := 4; next_package_id := 2 |}.

Definition sample_backoffice : Backoffice :=
  {| bo_db := db_with_credit_configs
                (db_with_users (sample_db 100 KMeta)
                   (<[1 := {| text_credits := 100; image_credits := 10; audio_credits := 0 |}]>
                   (<[2 := {| text_credits := -3; image_credits := 0; audio_credits := 0 |}]> ∅)))
                [{| cc_type := "text"; cc_action := "meta_input"; cc_modifier := 2 |}];
     bo_shop := sample_shop |}.

Lemma sample_shop_wf : wf_shop sample_shop.
Proof. apply wf_shop_b_sound. vm_compute. reflexivity. Qed.

(** A package edited between checkout and payment.  User 1 opens a
    checkout for the 500-text-credit package ($5); before Stripe reports
    the payment, the admin turns the package into 5000 image credits.  The
    webhook then adds 5000 credits to the text counter: neither what was
    paid for nor what the package now sells. *)
Theorem package_edit_between_checkout_and_payment :
  let '(r1, b1) := create_one_time_checkout_session 1 1 (Ok "cus_new") (Ok tt) sample_backoffice in
  let b2 := snd (update_credit_package 1 (Some 5000) None (Some "image") (Ok "price_5000") b1) in
  let b3 := snd (stripe_webhook (Event (CheckoutCompleted (Some 1) None (Some 1) (Some "text") None 500)) b2) in
  r1 = Ok (CheckoutSession 1 1 "text")
  /\ option_map text_credits (users (bo_db b3) !! 1) = Some (100 + 5000)%Q
  /\ option_map image_credits (users (bo_db b3) !! 1) = Some 10%Q.
Proof. vm_compute. repeat split. Qed.

(** An invoice without a subscription credits an unsubscribed user.
    [filter_by(stripe_subscription_id=None)] selects the users with no
    subscription, so a paid invoice that belongs to no subscription gives
    the first of them (user 2, on the "user" role) that role's allowance. *)
Theorem invoice_without_subscription_credits_unsubscribed :
  let b' := snd (stripe_webhook (Event (InvoicePaymentSucceeded None 999)) sample_backoffice) in
  option_map text_credits (users (bo_db b') !! 2) = Some (-3 + 100)%Q
  /\ revenues (bo_shop b') = [(999 # 100)%Q].
Proof. vm_compute. repeat split. Qed.

Lemma bo_reachable_wf_witness :
  wf_shop (bo_shop sample_backoffice) /\
  wf_shop (bo_shop (snd (handle_admin (ReqDeleteRole 3 (Ok tt)) sample_backoffice))).
Proof.
  split; [exact sample_shop_wf |].
  apply (bo_reachable_wf sample_backoffice); [apply rtc_once; constructor | exact sample_shop_wf].
Defined.

Lemma bo_protected_role_persists_witness :
  roles (bo_shop sample_backoffice) !! 2 = Some {| role_name := "user";
     role_defaults := {| default_text_credits := 100; default_image_credits := 10; default_audio_credits := 0 |};
     role_cost := 0; role_protected := true; role_stripe_price := None |} /\
  exists r', roles (bo_shop (snd (handle_admin (ReqDeleteRole 2 (Ok tt)) sample_backoffice))) !! 2 = Some r'
             /\ role_protected r' = true.
Proof.
  split; [reflexivity |].
  apply (bo_protected_role_persists sample_backoffice _ 2 _ (rtc_once _ _ (BoStep _ _))
           sample_shop_wf eq_refl eq_refl).
Defined.

Lemma webhook_package_purchase_witness :
  fst (stripe_webhook (Event (CheckoutCompleted (Some 1) None (Some 1) (Some "text") None 500))
                      sample_backoffice) = Ok (WebhookAnswer 200 "").
Proof.
  pose proof (webhook_package_purchase sample_backoffice 1 1 500 None "text" None
                {| text_credits := 100; image_credits := 10; audio_credits := 0 |}
                {| pk_credit_type := "text"; pk_credits := 500; pk_cost := 5;
                   pk_stripe_price := Some "price_500" |} eq_refl eq_refl) as Hw.
  destruct (stripe_webhook _ _) as [r b']. exact (proj1 Hw).
Defined.

Lemma token_config_creation_raises_witness :
  update_token_config (Some sample_config)
    (with_db sample_backoffice (db_with_token_config (bo_db sample_backoffice) None))
  = (Raise (NameError "o1_cost_per_token"),
     with_db sample_backoffice (db_with_token_config (bo_db sample_backoffice) None)).
Proof. apply token_config_creation_raises. reflexivity. Defined.

Lemma credit_config_update_roundtrip_witness :
  lookup_modifier (credit_configs (bo_db (snd (update_credit_config "meta_input" (Some 50%Q) sample_backoffice))))
    "meta_input" = 50%Q.
Proof.
  pose proof (credit_config_update_roundtrip sample_backoffice "meta_input" 50 ltac:(discriminate)) as Hr.
  destruct (update_credit_config _ _ _) as [r b']. simpl. rewrite (proj2 Hr). reflexivity.
Defined.

Lemma credit_config_creation_raises_witness :
  update_credit_config "chapter_output" (Some 3%Q) sample_backoffice
  = (Raise (IntegrityError "credit_config.type"), sample_backoffice).
Proof. apply credit_config_creation_raises. reflexivity. Defined.

Lemma adjust_credits_sets_balance_witness :
  exists uc', users (bo_db (snd (adjust_credits 2 "text" (Some 40) sample_backoffice))) !! 2 = Some uc'
    /\ balance uc' Text = inject_Z 40
    /\ forall t', t' <> Text -> balance uc' t' = balance {| text_credits := -3; image_credits := 0;
                                                             audio_credits := 0 |} t'.
Proof. apply adjust_credits_sets_balance; reflexivity. Defined.

Lemma subscription_deleted_resets_witness :
  users (bo_db (snd (stripe_webhook (Event (SubscriptionDeleted (Some "cus_1"))) sample_backoffice)))
    !! 1 = Some (reset_to_role {| default_text_credits := 100; default_image_credits := 10;
                                  default_audio_credits := 0 |}).
Proof.
  destruct (subscription_deleted_resets sample_backoffice "cus_1" 1 2
              {| acc_username := "ada"; acc_role := 3; acc_customer := Some "cus_1";
                 acc_subscription := Some "sub_1" |}
              {| text_credits := 100; image_credits := 10; audio_credits := 0 |}
              {| role_name := "user"; role_defaults := {| default_text_credits := 100;
                   default_image_credits := 10; default_audio_credits := 0 |};
                 role_cost := 0; role_protected := true; role_stripe_price := None |}
              eq_refl eq_refl eq_refl eq_refl) as [Hu _].
  rewrite Hu. apply lookup_insert_eq.
Defined.

End Billing.
