(* ===== verification/Auth.v ===== *)
(** * Accounts, sign-in and tokens

    [src/views/auth.py] (registration, login with its lockout, password
    reset), [src/api/auth.py] (email verification, resending it),
    the token and password helpers of [src/helpers.py]
    ([generate_verification_token], [is_valid_password],
    [get_current_user], the decorators [is_unauthenticated],
    [is_authenticated], [is_admin]) and the admin handlers of
    [src/api/admin.py] that lock, review or delete a user.

    The sign-in columns of [models/User.py] are a [Credential]; the state
    [Site] pairs them with the back office of [Billing] (accounts, roles,
    credit counters), which registration and deletion also write.  A JWT is
    its claims ([Claims]): the signature is not modelled, so a token is one
    the application created; [decode_token] checks its expiry.  bcrypt is
    modelled by the password it hashes: [check_password] is equality.
    Times are seconds ([datetime.utcnow()]); strings are ASCII. *)

From Stdlib Require Import ZArith QArith Lia.
From stdpp Require Import base gmap strings list.
From S2P Require Import Prelude Pricing Ledger Store Billing.

Local Open Scope Z_scope.

Module Auth.
Import Pricing Ledger Store Billing.

(** ** Rows and tokens *)

(** The sign-in columns of [models/User.py]. *)
Record Credential := {
  cr_username : string;
  cr_email : string;
  cr_password : string;          (* [password_hash]: bcrypt of this password *)
  cr_verified : bool;            (* [is_verified] *)
  cr_failed : Z;                 (* [failed_attempts] *)
  cr_last_failed : option Z;     (* [last_failed_attempt] *)
  cr_locked_until : option Z;    (* [locked_until] *)
  cr_is_locked : bool;           (* [is_locked]: the admin's lock *)
  cr_under_review : bool;        (* [under_review] *)
  cr_last_ip : option string;    (* [last_login_ip] *)
  cr_show_mature : bool          (* [show_mature] *)
}.

(** The claims of a token made by [create_access_token]. *)
Record Claims := {
  tk_sub : Z;                    (* [identity=str(user.id)] *)
  tk_action : option string;     (* [additional_claims={"action": ...}] *)
  tk_exp : Z                     (* [now + expires_delta] *)
}.

Definition create_token (uid : Z) (action : option string) (now expires : Z) : Claims :=
  {| tk_sub := uid; tk_action := action; tk_exp := now + expires |}.

(** [decode_token]: [None] is a missing or malformed token; an expired one
    raises, which every caller catches. *)
Definition decode_token (now : Z) (tok : option Claims) : option Claims :=
  match tok with
  | Some c => if now <? tk_exp c then Some c else None
  | None => None
  end.

Definition verify_expires : Z := 48 * 3600.   (* [timedelta(hours=48)] *)
Definition reset_expires : Z := 24 * 3600.    (* [timedelta(hours=24)] *)
Definition lockout_window : Z := 15 * 60.     (* [timedelta(minutes=15)] *)
Definition failure_memory : Z := 24 * 3600.   (* [timedelta(hours=24)] *)
Definition max_attempts : Z := 5.

(** The whole site: the back office and the sign-in columns, keyed by user
    id, with the next id the [user] table hands out. *)
Record Site := {
  site_bo : Backoffice;
  creds : gmap Z Credential;
  next_user_id : Z
}.

Definition site_with_creds (s : Site) (cs : gmap Z Credential) : Site :=
  {| site_bo := site_bo s; creds := cs; next_user_id := next_user_id s |}.

(** ** [is_valid_password] (helpers.py, lines 303-321)

    [re.compile(r"^(?=.*[a-z])(?=.*[A-Z])(?=.*\d)(?=.*[\W_]).{8,}$").match].
    [.] does not match a newline and [$] matches at the end or before a
    final newline, so the password is a line of at least eight characters,
    optionally followed by one newline; the four lookaheads search that
    line, except that [[\W_]] may also match the newline itself. *)

Definition ascii_between (lo hi : nat) (c : Ascii.ascii) : bool :=
  let n := Ascii.nat_of_ascii c in (lo <=? n)%nat && (n <=? hi)%nat.

Definition is_lower_ch : Ascii.ascii -> bool := ascii_between 97 122.
Definition is_upper_ch : Ascii.ascii -> bool := ascii_between 65 90.
Definition is_digit_ch : Ascii.ascii -> bool := ascii_between 48 57.
(** [[\W_]]: not a letter and not a digit ([_] is a word character, listed
    separately). *)
Definition is_special_ch (c : Ascii.ascii) : bool :=
  negb (is_lower_ch c || is_upper_ch c || is_digit_ch c).

Definition newline : Ascii.ascii := Ascii.ascii_of_nat 10.

Fixpoint str_any (p : Ascii.ascii -> bool) (s : string) : bool :=
  match s with
  | EmptyString => false
  | String c rest => p c || str_any p rest
  end.

(** The text before the first newline, and the rest from it. *)
Fixpoint split_line (s : string) : string * string :=
  match s with
  | EmptyString => (EmptyString, EmptyString)
  | String c rest =>
    if Ascii.eqb c newline then (EmptyString, s)
    else let '(l, r) := split_line rest in (String c l, r)
  end.

Definition is_valid_password (password : string) : bool :=
  let '(line, rest) := split_line password in
  let final_newline := String.eqb rest (String newline EmptyString) in
  (String.eqb rest EmptyString || final_newline)
  && (8 <=? String.length line)%nat
  && str_any is_lower_ch line && str_any is_upper_ch line && str_any is_digit_ch line
  && (str_any is_special_ch line || final_newline).

(** ** Looking users up *)

Definition user_by_name (cs : gmap Z Credential) (name : string) : option Z :=
  first_key (fun c => String.eqb (cr_username c) name) cs.

Definition user_by_email (cs : gmap Z Credential) (email : string) : option Z :=
  first_key (fun c => String.eqb (cr_email c) email) cs.

(** [get_current_user] (lines 340-365): the cookie's token, decoded, names
    an existing user.  Neither the token's [action] nor the account's
    state is looked at. *)
Definition get_current_user (cs : gmap Z Credential) (now : Z) (cookie : option Claims) : option Z :=
  match decode_token now cookie with
  | Some c => if bool_decide (is_Some (cs !! tk_sub c)) then Some (tk_sub c) else None
  | None => None
  end.

(** [is_admin] (lines 412-432): the current user's role is named "admin". *)
Definition is_admin_user (s : Site) (now : Z) (cookie : option Claims) : option Z :=
  match get_current_user (creds s) now cookie with
  | Some uid =>
    match accounts (bo_shop (site_bo s)) !! uid with
    | Some a =>
      match roles (bo_shop (site_bo s)) !! acc_role a with
      | Some r => if String.eqb (role_name r) "admin" then Some uid else None
      | None => None
      end
    | None => None
    end
  | None => None
  end.

(** ** Writes to a credential *)

Definition cred_with_failures (c : Credential) (failed : Z) (last : option Z) (until : option Z)
    : Credential :=
  {| cr_username := cr_username c; cr_email := cr_email c; cr_password := cr_password c;
     cr_verified := cr_verified c; cr_failed := failed; cr_last_failed := last;
     cr_locked_until := until; cr_is_locked := cr_is_locked c; cr_under_review := cr_under_review c;
     cr_last_ip := cr_last_ip c; cr_show_mature := cr_show_mature c |}.

Definition cred_with_flags (c : Credential) (verified locked review : bool) (password : string)
    (ip : option string) : Credential :=
  {| cr_username := cr_username c; cr_email := cr_email c; cr_password := password;
     cr_verified := verified; cr_failed := cr_failed c; cr_last_failed := cr_last_failed c;
     cr_locked_until := cr_locked_until c; cr_is_locked := locked; cr_under_review := review;
     cr_last_ip := ip; cr_show_mature := cr_show_mature c |}.

(** ** [login] (views/auth.py, lines 143-205) *)

Inductive LoginResponse :=
  | LoginToDashboard                 (* [is_unauthenticated]: already signed in *)
  | LoginUnknownUser                 (* "Login Failed" *)
  | LoginUnverified                  (* "Please verify your account" *)
  | LoginLocked                      (* "Your account is locked..." *)
  | LoginOk (access_token : Claims)  (* the cookie [access_token] *)
  | LoginFailed                      (* "Login Failed. Please check your credentials." *)
  | LoginLockedNow.                  (* "...locked for 15 minutes..." *)

(** Lines 167-169: a failure older than 24 hours is forgotten (committed
    before the lock check). *)
Definition forget_old_failures (c : Credential) (now : Z) : Credential :=
  match cr_last_failed c with
  | Some lf => if failure_memory <? now - lf then cred_with_failures c 0 (cr_last_failed c) (cr_locked_until c)
               else c
  | None => c
  end.

Definition is_locked_at (c : Credential) (now : Z) : bool :=
  cr_is_locked c || match cr_locked_until c with Some lu => now <? lu | None => false end.

(** Lines 192-195. *)
Definition record_failure (c : Credential) (now : Z) : Credential :=
  let n := cr_failed c + 1 in
  cred_with_failures c n (Some now)
    (if max_attempts <=? n then Some (now + lockout_window) else cr_locked_until c).

(** Lines 176-183. *)
Definition record_success (c : Credential) (ip : string) : Credential :=
  cred_with_flags (cred_with_failures c 0 None None) (cr_verified c) (cr_is_locked c)
    (cr_under_review c) (cr_password c) (Some ip).

(** Lines 164-200, once the user is found: the verification check, the
    24-hour memory, the lock, the password.  [access_expires] is
    [JWT_ACCESS_TOKEN_EXPIRES], configured outside the repository. *)
Definition login_attempt (uid : Z) (c : Credential) (password : string) (now : Z) (ip : string)
    (access_expires : Z) : LoginResponse * Credential :=
  if negb (cr_verified c) then (LoginUnverified, c)
  else
    let c1 := forget_old_failures c now in
    if is_locked_at c1 now then (LoginLocked, c1)
    else if String.eqb password (cr_password c1) then
      (LoginOk (create_token uid None now access_expires), record_success c1 ip)
    else
      ((if max_attempts <=? cr_failed c1 + 1 then LoginLockedNow else LoginFailed), record_failure c1 now).

Definition login (cs : gmap Z Credential) (cookie : option Claims) (username password : string)
    (now : Z) (ip : string) (access_expires : Z) : LoginResponse * gmap Z Credential :=
  match get_current_user cs now cookie with
  | Some _ => (LoginToDashboard, cs)
  | None =>
    match user_by_name cs (py_lower username) with
    | None => (LoginUnknownUser, cs)
    | Some uid =>
      match cs !! uid with
      | None => (LoginUnknownUser, cs)
      | Some c => let '(r, c') := login_attempt uid c password now ip access_expires in
                  (r, <[uid := c']> cs)
      end
    end
  end.

(** ** [register] (views/auth.py, lines 87-141) *)

Inductive RegisterResponse :=
  | RegToDashboard | RegDisabled | RegUsernameTaken | RegEmailTaken | RegBadPassword | RegNoRole
  | RegOk (verification_token : Claims).

Definition new_credential (username email password : string) : Credential :=
  {| cr_username := username; cr_email := email; cr_password := password; cr_verified := false;
     cr_failed := 0; cr_last_failed := None; cr_locked_until := None; cr_is_locked := false;
     cr_under_review := false; cr_last_ip := None;
     cr_show_mature := false |}.

Definition zero_credits : UserCredits := {| text_credits := 0; image_credits := 0; audio_credits := 0 |}.

(** [User(username=..., email=..., role=default_role)], [add], [commit]:
    the credential, the account on the role, and the counters at their
    column defaults. *)
Definition add_user (s : Site) (username email password : string) (rid : Z) : Site :=
  let uid := next_user_id s in
  let b := site_bo s in
  {| site_bo := with_shop (with_db b (db_with_users (bo_db b) (<[uid := zero_credits]> (users (bo_db b)))))
                  (shop_with_accounts (bo_shop b)
                     (<[uid := {| acc_username := username; acc_role := rid; acc_customer := None;
                                  acc_subscription := None |}]> (accounts (bo_shop b))));
     creds := <[uid := new_credential username email password]> (creds s);
     next_user_id := uid + 1 |}.

(** [registration_disabled] is [app.config["REGISTRATION_DISABLED"]],
    which [check_maintenance_mode] refreshes before every request. *)
Definition register (s : Site) (cookie : option Claims) (registration_disabled : bool)
    (username password email : string) (now : Z) : RegisterResponse * Site :=
  match get_current_user (creds s) now cookie with
  | Some _ => (RegToDashboard, s)
  | None =>
    if registration_disabled then (RegDisabled, s)
    else
      let u := py_lower username in
      if bool_decide (is_Some (user_by_name (creds s) u)) then (RegUsernameTaken, s)
      else if bool_decide (is_Some (user_by_email (creds s) email)) then (RegEmailTaken, s)
      else if negb (is_valid_password password) then (RegBadPassword, s)
      else
        match first_key (fun r => String.eqb (role_name r) "user") (roles (bo_shop (site_bo s))) with
        | None => (RegNoRole, s)
        | Some rid =>
          (RegOk (create_token (next_user_id s) (Some "verify_email") now verify_expires),
           add_user s u email password rid)
        end
  end.

(** ** Email verification and password reset *)

Inductive TokenResponse := TokInvalidLink | TokWrongAction | TokNoUser | TokBadPassword | TokOk.

(** [verify_email] (api/auth.py, lines 40-74). *)
Definition verify_email (s : Site) (token : option Claims) (now : Z) : TokenResponse * Site :=
  match decode_token now token with
  | None => (TokInvalidLink, s)
  | Some c =>
    if negb (opt_eqb (tk_action c) (Some "verify_email")) then (TokWrongAction, s)
    else match creds s !! tk_sub c with
      | None => (TokNoUser, s)
      | Some cr => (TokOk, site_with_creds s (<[tk_sub c := cred_with_flags cr true (cr_is_locked cr)
                                                 (cr_under_review cr) (cr_password cr) (cr_last_ip cr)]> (creds s)))
      end
  end.

(** [reset_password] (views/auth.py, lines 45-85), the POST. *)
Definition reset_password (s : Site) (token : option Claims) (now : Z) (new_password : string)
    : TokenResponse * Site :=
  match decode_token now token with
  | None => (TokInvalidLink, s)
  | Some c =>
    if negb (opt_eqb (tk_action c) (Some "reset_password")) then (TokWrongAction, s)
    else match creds s !! tk_sub c with
      | None => (TokNoUser, s)
      | Some cr =>
        if negb (is_valid_password new_password) then (TokBadPassword, s)
        else (TokOk, site_with_creds s (<[tk_sub c := cred_with_flags cr (cr_verified cr) (cr_is_locked cr)
                                                     (cr_under_review cr) new_password (cr_last_ip cr)]> (creds s)))
      end
  end.

(** [forgot_password] (views/auth.py, lines 9-43): the emailed token. *)
Definition forgot_password (s : Site) (email : string) (now : Z) : option Claims :=
  match user_by_email (creds s) email with
  | Some uid => Some (create_token uid (Some "reset_password") now reset_expires)
  | None => None
  end.

(** [resend_verification] (api/auth.py, lines 8-38): the username is
    looked up as given. *)
Definition resend_verification (s : Site) (cookie : option Claims) (username : string) (now : Z)
    : option Claims :=
  match get_current_user (creds s) now cookie with
  | Some _ => None
  | None =>
    if String.eqb username "" then None
    else match user_by_name (creds s) username with
      | Some uid => Some (create_token uid (Some "verify_email") now verify_expires)
      | None => None
      end
  end.

(** ** [update_profile] (api/profile.py, lines 22-63) *)

(** The form: the password section (its three fields, as posted), the
    mature-content section (whether the box is ticked), or neither. *)
Inductive ProfileForm :=
  | FormPassword (current_password new_password confirm_password : string)
  | FormMature (show_mature : bool)
  | FormNone.

Inductive ProfileResponse :=
  | ProfRedirectLogin | ProfMismatch | ProfWrongPassword | ProfBadPassword | ProfPasswordUpdated
  | ProfMatureUpdated | ProfNothing.

Definition cred_with_mature (c : Credential) (show : bool) : Credential :=
  {| cr_username := cr_username c; cr_email := cr_email c; cr_password := cr_password c;
     cr_verified := cr_verified c; cr_failed := cr_failed c; cr_last_failed := cr_last_failed c;
     cr_locked_until := cr_locked_until c; cr_is_locked := cr_is_locked c; cr_under_review := cr_under_review c;
     cr_last_ip := cr_last_ip c; cr_show_mature := show |}.

Definition update_profile (s : Site) (cookie : option Claims) (now : Z) (form : ProfileForm)
    : ProfileResponse * Site :=
  match get_current_user (creds s) now cookie with
  | None => (ProfRedirectLogin, s)
  | Some u =>
    match creds s !! u with
    | None => (ProfRedirectLogin, s)
    | Some c =>
      match form with
      | FormPassword cur new conf =>
        if negb (String.eqb new conf) then (ProfMismatch, s)
        else if negb (String.eqb cur (cr_password c)) then (ProfWrongPassword, s)
        else if negb (is_valid_password new) then (ProfBadPassword, s)
        else (ProfPasswordUpdated,
              site_with_creds s (<[u := cred_with_flags c (cr_verified c) (cr_is_locked c) (cr_under_review c)
                                          new (cr_last_ip c)]> (creds s)))
      | FormMature b => (ProfMatureUpdated, site_with_creds s (<[u := cred_with_mature c b]> (creds s)))
      | FormNone => (ProfNothing, s)
      end
    end
  end.

(** ** The admin's handlers on users ([api/admin.py]) *)

Inductive AdminUserResponse := AdmRedirectIndex | AdmSelf | AdmDone | AdmActiveSubscription.

(** [toggle_under_review] (lines 276-306) and [toggle_lock_user] (lines
    308-332): an admin other than the user flips the flag. *)
Definition toggle_user_flag (lock : bool) (s : Site) (cookie : option Claims) (now uid : Z)
    : res AdminUserResponse * Site :=
  match is_admin_user s now cookie with
  | None => (Ok AdmRedirectIndex, s)
  | Some admin =>
    match creds s !! uid with
    | None => (Raise NotFound, s)
    | Some c =>
      if admin =? uid then (Ok AdmSelf, s)
      else (Ok AdmDone, site_with_creds s (<[uid := if lock
          then cred_with_flags c (cr_verified c) (negb (cr_is_locked c)) (cr_under_review c) (cr_password c) (cr_last_ip c)
          else cred_with_flags c (cr_verified c) (cr_is_locked c) (negb (cr_under_review c)) (cr_password c) (cr_last_ip c)]>
          (creds s)))
    end
  end.

Definition toggle_lock_user := toggle_user_flag true.
Definition toggle_under_review := toggle_user_flag false.

(** [delete_user] (lines 524-555).  The user's stories are on the
    [User.stories] relationship without a delete cascade: the session sets
    their NOT NULL [user_id] to NULL, and the commit raises.  Rows that
    refer to the user without a relationship ([generation_log.user_id])
    are left to the database's foreign keys, which the model does not
    enforce. *)
Definition delete_user (s : Site) (cookie : option Claims) (now uid : Z) : res AdminUserResponse * Site :=
  match is_admin_user s now cookie with
  | None => (Ok AdmRedirectIndex, s)
  | Some admin =>
    if admin =? uid then (Ok AdmSelf, s)
    else
      let b := site_bo s in
      match accounts (bo_shop b) !! uid with
      | None => (Raise NotFound, s)
      | Some a =>
        if bool_decide (is_Some (acc_subscription a)) then (Ok AdmActiveSubscription, s)
        else if bool_decide (map_Exists (fun _ st => story_user_id st = uid) (stories (bo_db b)))
        then (Raise (IntegrityError "story.user_id"), s)
        else (Ok AdmDone,
              {| site_bo := with_shop (with_db b (db_with_users (bo_db b) (delete uid (users (bo_db b)))))
                              (shop_with_accounts (bo_shop b) (delete uid (accounts (bo_shop b))));
                 creds := delete uid (creds s);
                 next_user_id := next_user_id s |})
      end
  end.

(** ** The site as a transition system *)

Inductive AuthReq :=
  | AReqLogin (cookie : option Claims) (username password : string) (now : Z) (ip : string) (expires : Z)
  | AReqRegister (cookie : option Claims) (disabled : bool) (username password email : string) (now : Z)
  | AReqVerify (token : option Claims) (now : Z)
  | AReqReset (token : option Claims) (now : Z) (new_password : string)
  | AReqToggleLock (cookie : option Claims) (now uid : Z)
  | AReqToggleReview (cookie : option Claims) (now uid : Z)
  | AReqDeleteUser (cookie : option Claims) (now uid : Z)
  | AReqUpdateProfile (cookie : option Claims) (now : Z) (form : ProfileForm)
  | AReqBackoffice (req : AdminReq).

Definition handle_auth (req : AuthReq) (s : Site) : Site :=
  match req with
  | AReqLogin ck u p now ip ex => site_with_creds s (snd (login (creds s) ck u p now ip ex))
  | AReqRegister ck dis u p e now => snd (register s ck dis u p e now)
  | AReqVerify tok now => snd (verify_email s tok now)
  | AReqReset tok now p => snd (reset_password s tok now p)
  | AReqToggleLock ck now uid => snd (toggle_lock_user s ck now uid)
  | AReqToggleReview ck now uid => snd (toggle_under_review s ck now uid)
  | AReqDeleteUser ck now uid => snd (delete_user s ck now uid)
  | AReqUpdateProfile ck now form => snd (update_profile s ck now form)
  | AReqBackoffice req => {| site_bo := snd (handle_admin req (site_bo s)); creds := creds s;
                             next_user_id := next_user_id s |}
  end.

Inductive auth_step : Site -> Site -> Prop :=
  | AuthStep (s : Site) (req : AuthReq) : auth_step s (handle_auth req s).

(** No two users share a username, or an email (the columns' [unique=True],
    which [register] checks first); user ids are below the next id; and the
    shop is well formed. *)
Definition unique_by (f : Credential -> string) (cs : gmap Z Credential) : Prop :=
  forall i j ci cj, cs !! i = Some ci -> cs !! j = Some cj -> f ci = f cj -> i = j.

Definition wf_site (s : Site) : Prop :=
  unique_by cr_username (creds s) /\ unique_by cr_email (creds s)
  /\ (forall i, is_Some (creds s !! i) -> i < next_user_id s)
  /\ wf_shop (bo_shop (site_bo s)).

(** [cs'] has the same users as [cs], with the same usernames and emails. *)
Definition same_keys (cs cs' : gmap Z Credential) : Prop :=
  forall i, (is_Some (cs' !! i) <-> is_Some (cs !! i))
    /\ forall ci', cs' !! i = Some ci' ->
       exists ci, cs !! i = Some ci /\ cr_username ci' = cr_username ci /\ cr_email ci' = cr_email ci.

Lemma same_keys_refl (cs : gmap Z Credential) : same_keys cs cs.
Proof. intros i. split; [reflexivity | intros ci' H; exists ci'; auto]. Qed.

Lemma same_keys_insert (cs : gmap Z Credential) (uid : Z) (c c' : Credential) :
  cs !! uid = Some c -> cr_username c' = cr_username c -> cr_email c' = cr_email c ->
  same_keys cs (<[uid := c']> cs).
Proof.
  intros Hc Hu He i. destruct (decide (i = uid)) as [->|Hne].
  - rewrite lookup_insert_eq, Hc. split; [split; eauto |]. intros ci' [= <-]. eauto.
  - rewrite lookup_insert_ne by congruence. split; [reflexivity | eauto].
Qed.

Lemma unique_same_keys (f : Credential -> string) (cs cs' : gmap Z Credential) :
  (forall ci ci', cr_username ci' = cr_username ci -> cr_email ci' = cr_email ci -> f ci' = f ci) ->
  same_keys cs cs' -> unique_by f cs -> unique_by f cs'.
Proof.
  intros Hf Hs Hu i j ci' cj' Hi Hj E.
  destruct (proj2 (Hs i) _ Hi) as (ci & Hi0 & Ui & Ei).
  destruct (proj2 (Hs j) _ Hj) as (cj & Hj0 & Uj & Ej).
  apply (Hu i j ci cj Hi0 Hj0). rewrite <- (Hf _ _ Ui Ei), <- (Hf _ _ Uj Ej). exact E.
Qed.

Lemma wf_site_same_keys (s s' : Site) :
  same_keys (creds s) (creds s') -> next_user_id s' = next_user_id s ->
  bo_shop (site_bo s') = bo_shop (site_bo s) -> wf_site s -> wf_site s'.
Proof.
  intros Hs Hn Hb (Hu & He & Hid & Hw). split; [| split; [| split]].
  - apply (unique_same_keys _ _ _ (fun _ _ U _ => U) Hs Hu).
  - apply (unique_same_keys _ _ _ (fun _ _ _ E => E) Hs He).
  - intros i Hi. rewrite Hn. apply Hid, (proj1 (Hs i)), Hi.
  - rewrite Hb. exact Hw.
Qed.

Lemma unique_insert_fresh (f : Credential -> string) (cs : gmap Z Credential) (uid : Z) (c : Credential) :
  unique_by f cs -> cs !! uid = None -> (forall j cj, cs !! j = Some cj -> f cj <> f c) ->
  unique_by f (<[uid := c]> cs).
Proof.
  intros Hu Hn Hf i j ci cj Hi Hj E.
  apply lookup_insert_Some in Hi as [[<- <-] | [Hi Hi']]; apply lookup_insert_Some in Hj as [[<- <-] | [Hj Hj']];
    [reflexivity | exfalso; exact (Hf _ _ Hj' (eq_sym E)) | exfalso; exact (Hf _ _ Hi' E) | exact (Hu _ _ _ _ Hi' Hj' E)].
Qed.

Lemma unique_delete (f : Credential -> string) (cs : gmap Z Credential) (uid : Z) :
  unique_by f cs -> unique_by f (delete uid cs).
Proof.
  intros Hu i j ci cj Hi Hj. apply lookup_delete_Some in Hi as [_ Hi].
  apply lookup_delete_Some in Hj as [_ Hj]. apply (Hu _ _ _ _ Hi Hj).
Qed.

Lemma first_key_unique {A} (p : A -> bool) (m : gmap Z A) (k : Z) (a : A) :
  m !! k = Some a -> p a = true -> (forall k' a', m !! k' = Some a' -> p a' = true -> k' = k) ->
  first_key p m = Some k.
Proof.
  intros Hk Hp Hu. destruct (first_key p m) as [k'|] eqn:E.
  - destruct (first_key_Some _ _ _ E) as (a' & Ha' & Hp'). f_equal. exact (Hu _ _ Ha' Hp').
  - rewrite (first_key_None _ _ _ _ E Hk) in Hp. discriminate.
Qed.

(** With unique usernames, [filter_by(username=...).first()] finds the
    user of that name. *)
Lemma user_by_name_unique (cs : gmap Z Credential) (uid : Z) (c : Credential) :
  unique_by cr_username cs -> cs !! uid = Some c -> user_by_name cs (cr_username c) = Some uid.
Proof.
  intros Hu Hc. apply (first_key_unique _ _ _ c Hc); [apply String.eqb_refl |].
  intros k' a' Hk' E. apply String.eqb_eq in E. exact (Hu _ _ _ _ Hk' Hc E).
Qed.

Lemma wf_delete_account (sh : Shop) (uid : Z) :
  wf_shop sh -> wf_shop (shop_with_accounts sh (delete uid (accounts sh))).
Proof.
  intros (Ha & Hr & Hp). split; [| split; assumption].
  intros u a Hu. simpl in Hu. apply lookup_delete_Some in Hu as [_ Hu]. exact (Ha _ _ Hu).
Qed.

(** Each handler keeps the invariant. *)
Lemma login_attempt_keys uid c p now ip ex :
  cr_username (snd (login_attempt uid c p now ip ex)) = cr_username c
  /\ cr_email (snd (login_attempt uid c p now ip ex)) = cr_email c.
Proof. unfold login_attempt, forget_old_failures. repeat case_match; split; reflexivity. Qed.

Lemma login_same_keys cs ck u p now ip ex : same_keys cs (snd (login cs ck u p now ip ex)).
Proof.
  unfold login. repeat case_match; simpl; try apply same_keys_refl.
  match goal with H : login_attempt ?uid ?c ?p ?now ?ip ?ex = _ |- _ =>
    pose proof (login_attempt_keys uid c p now ip ex) as [Hu He]; rewrite H in Hu, He end.
  eapply same_keys_insert; eauto.
Qed.

Lemma register_wf (s : Site) ck dis u p e now : wf_site s -> wf_site (snd (register s ck dis u p e now)).
Proof.
  intros Hwf. unfold register. repeat case_match; simpl; try exact Hwf.
  destruct Hwf as (Hu & He & Hid & Hw).
  assert (Hfresh : creds s !! next_user_id s = None).
  { destruct (creds s !! next_user_id s) eqn:E; [| reflexivity].
    specialize (Hid _ (ltac:(eexists; exact E))). lia. }
  split; [| split; [| split]]; simpl.
  - apply unique_insert_fresh; [exact Hu | exact Hfresh |]. intros j cj Hj Eq.
    destruct (user_by_name (creds s) (py_lower u)) eqn:En; [simpl in *; discriminate |].
    pose proof (first_key_None _ _ _ _ En Hj) as Hf. simpl in Hf. rewrite Eq, String.eqb_refl in Hf. discriminate.
  - apply unique_insert_fresh; [exact He | exact Hfresh |]. intros j cj Hj Eq.
    destruct (user_by_email (creds s) e) eqn:En; [simpl in *; discriminate |].
    pose proof (first_key_None _ _ _ _ En Hj) as Hf. simpl in Hf. rewrite Eq, String.eqb_refl in Hf. discriminate.
  - intros i [ci Hi]. apply lookup_insert_Some in Hi as [[<- _] | [_ Hi]]; [lia |].
    specialize (Hid i (ltac:(eexists; exact Hi))). lia.
  - apply wf_insert_account; [exact Hw |]. simpl.
    match goal with H : first_key _ _ = Some ?rid |- _ =>
      destruct (first_key_Some _ _ _ H) as (r & Hr & _); rewrite Hr; eauto end.
Qed.

Lemma handle_auth_wf (req : AuthReq) (s : Site) : wf_site s -> wf_site (handle_auth req s).
Proof.
  intros Hwf. destruct req; simpl.
  - apply (wf_site_same_keys s); [apply login_same_keys | reflexivity | reflexivity | exact Hwf].
  - apply register_wf, Hwf.
  - unfold verify_email. repeat case_match; simpl; try exact Hwf.
    apply (wf_site_same_keys s); [eapply same_keys_insert; eauto | reflexivity | reflexivity | exact Hwf].
  - unfold reset_password. repeat case_match; simpl; try exact Hwf.
    apply (wf_site_same_keys s); [eapply same_keys_insert; eauto | reflexivity | reflexivity | exact Hwf].
  - unfold toggle_lock_user, toggle_user_flag. repeat case_match; simpl; try exact Hwf.
    apply (wf_site_same_keys s); [eapply same_keys_insert; eauto | reflexivity | reflexivity | exact Hwf].
  - unfold toggle_under_review, toggle_user_flag. repeat case_match; simpl; try exact Hwf.
    apply (wf_site_same_keys s); [eapply same_keys_insert; eauto | reflexivity | reflexivity | exact Hwf].
  - unfold delete_user. repeat case_match; simpl; try exact Hwf.
    destruct Hwf as (Hu & He & Hid & Hw). split; [| split; [| split]]; simpl.
    + apply unique_delete, Hu.
    + apply unique_delete, He.
    + intros i [ci Hi]. apply lookup_delete_Some in Hi as [_ Hi]. apply Hid. eauto.
    + apply wf_delete_account, Hw.
  - unfold update_profile. repeat case_match; simpl; try exact Hwf;
      (apply (wf_site_same_keys s); [eapply same_keys_insert; eauto | reflexivity | reflexivity | exact Hwf]).
  - destruct Hwf as (Hu & He & Hid & Hw). split; [| split; [| split]]; simpl; try assumption.
    apply handle_admin_wf, Hw.
Qed.

(** The password changes only with the current one: [update_profile]
    leaves every credential as it was when the current password given is
    not the stored one. *)
Lemma update_profile_needs_password (s : Site) (cookie : option Claims) (now u : Z) (c : Credential)
    (cur new conf : string) :
  get_current_user (creds s) now cookie = Some u -> creds s !! u = Some c -> cur <> cr_password c ->
  snd (update_profile s cookie now (FormPassword cur new conf)) = s.
Proof.
  intros Hu Hc Hne. unfold update_profile. rewrite Hu, Hc.
  destruct (String.eqb new conf); [| reflexivity]. simpl.
  rewrite (proj2 (String.eqb_neq _ _) Hne). reflexivity.
Qed.

(** ** Repeated sign-in attempts *)

(** A client's attempts without a cookie: [POST /login] with the same
    username, each at a time with a password. *)
Fixpoint login_run (cs : gmap Z Credential) (username ip : string) (ex : Z)
    (attempts : list (Z * string)) : list LoginResponse * gmap Z Credential :=
  match attempts with
  | [] => ([], cs)
  | (now, p) :: rest =>
    let '(r, cs') := login cs None username p now ip ex in
    let '(rs, cs'') := login_run cs' username ip ex rest in (r :: rs, cs'')
  end.

(** The responses that checked a password and found it wrong. *)
Definition is_failed_check (r : LoginResponse) : bool :=
  match r with LoginFailed | LoginLockedNow => true | _ => false end.

Fixpoint failed_checks (rs : list LoginResponse) : Z :=
  match rs with
  | [] => 0
  | r :: rest => (if is_failed_check r then 1 else 0) + failed_checks rest
  end.

Lemma login_found (cs : gmap Z Credential) (username p ip : string) (now ex uid : Z) (c : Credential) :
  user_by_name cs (py_lower username) = Some uid -> cs !! uid = Some c ->
  login cs None username p now ip ex =
    let '(r, c') := login_attempt uid c p now ip ex in (r, <[uid := c']> cs).
Proof. intros Hn Hc. unfold login. simpl. rewrite Hn, Hc. reflexivity. Qed.

Section Lockout.
(** Attempts between [t0] and [t1], less than 24 hours apart, none with
    the password [pw]. *)
Context (t0 t1 : Z) (pw : string).
Hypothesis Hwindow : t1 <= t0 + failure_memory.

(** [n] failures counted so far, the last at [L], and the account locked
    for 15 minutes after it once there are five. *)
Definition lock_inv (n : Z) (c : Credential) : Prop :=
  0 <= n /\ cr_failed c = n /\ cr_verified c = true /\ cr_password c = pw /\
  (1 <= n -> exists L, cr_last_failed c = Some L /\ t0 <= L <= t1
     /\ n <= max_attempts + (L - t0) / lockout_window
     /\ (max_attempts <= n -> cr_locked_until c = Some (L + lockout_window))).

Lemma lock_inv_forget (n t : Z) (c : Credential) :
  t <= t1 -> lock_inv n c -> lock_inv n (forget_old_failures c t).
Proof.
  intros Ht Hi. unfold forget_old_failures. destruct (cr_last_failed c) as [lf|] eqn:El; [| exact Hi].
  destruct (failure_memory <? t - lf) eqn:Eb; [| exact Hi].
  apply Z.ltb_lt in Eb. destruct Hi as (H0 & Hf & Hv & Hp & Hl).
  destruct (Z.eq_dec n 0) as [->|Hn].
  - split; [lia | split; [reflexivity | split; [exact Hv | split; [exact Hp | lia]]]].
  - destruct (Hl ltac:(lia)) as (L & EL & HL & _). rewrite El in EL. injection EL as <-. lia.
Qed.

Lemma lock_inv_step (uid : Z) (c : Credential) (n t : Z) (p ip : string) (ex : Z) :
  lock_inv n c -> t0 <= t <= t1 -> p <> pw ->
  lock_inv (n + if is_failed_check (fst (login_attempt uid c p t ip ex)) then 1 else 0)
           (snd (login_attempt uid c p t ip ex)).
Proof.
  intros Hi Ht Hp. pose proof (lock_inv_forget n t c ltac:(lia) Hi) as Hi1.
  unfold login_attempt. destruct Hi as (_ & _ & -> & _). simpl.
  remember (forget_old_failures c t) as c1 eqn:Ec1; clear Ec1.
  destruct (is_locked_at c1 t) eqn:Elk; [simpl; rewrite Z.add_0_r; exact Hi1 |].
  destruct Hi1 as (H0 & Hf & Hv & Hpw & Hl).
  destruct (String.eqb_spec p (cr_password c1)) as [E|_]; [congruence |].
  assert (Hinc : n + 1 <= max_attempts + (t - t0) / lockout_window).
  { destruct (Z.le_gt_cases (n + 1) max_attempts) as [Hle|Hgt].
    - assert (0 <= (t - t0) / lockout_window) by (apply Z.div_pos; unfold lockout_window; lia). lia.
    - destruct (Hl ltac:(unfold max_attempts in *; lia)) as (L & _ & HL & Hn & Hu).
      unfold is_locked_at in Elk. rewrite (Hu ltac:(lia)) in Elk.
      apply orb_false_iff in Elk as [_ Elk]. apply Z.ltb_ge in Elk.
      assert ((L - t0) / lockout_window + 1 <= (t - t0) / lockout_window).
      { rewrite <- Z.div_add by (unfold lockout_window; lia).
        apply Z.div_le_mono; unfold lockout_window in *; lia. }
      lia. }
  unfold record_failure. rewrite Hf.
  destruct (max_attempts <=? n + 1) eqn:Em; simpl;
    (split; [lia | split; [reflexivity | split; [exact Hv | split; [exact Hpw |]]]]);
    intros _; exists t; (split; [reflexivity | split; [lia | split; [exact Hinc |]]]);
    [reflexivity | intros Hm; apply Z.leb_gt in Em; lia].
Qed.

Lemma login_run_inv (username ip : string) (ex uid : Z) (attempts : list (Z * string)) :
  forall (cs : gmap Z Credential) (c : Credential) (n : Z),
  unique_by cr_username cs -> cs !! uid = Some c -> cr_username c = py_lower username ->
  lock_inv n c -> Forall (fun a => t0 <= fst a <= t1 /\ snd a <> pw) attempts ->
  exists c', snd (login_run cs username ip ex attempts) !! uid = Some c'
    /\ lock_inv (n + failed_checks (fst (login_run cs username ip ex attempts))) c'.
Proof.
  induction attempts as [|[t p] rest IH]; intros cs c n Hu Hc Hname Hi Ha.
  - exists c. simpl. rewrite Z.add_0_r. auto.
  - inversion Ha as [|? ? [Ht Hp] Hrest]; subst. simpl in Ht, Hp.
    assert (Hn : user_by_name cs (py_lower username) = Some uid)
      by (rewrite <- Hname; exact (user_by_name_unique _ _ _ Hu Hc)).
    simpl. rewrite (login_found _ _ _ _ t ex _ _ Hn Hc).
    pose proof (lock_inv_step uid c n t p ip ex Hi Ht Hp) as Hi'.
    pose proof (login_attempt_keys uid c p t ip ex) as [Ku Ke].
    destruct (login_attempt uid c p t ip ex) as [r c'] eqn:E. simpl in Hi', Ku, Ke.
    destruct (IH (<[uid := c']> cs) c' _
                 (unique_same_keys _ _ _ (fun _ _ U _ => U) (same_keys_insert _ _ _ _ Hc Ku Ke) Hu)
                 (lookup_insert_eq _ _ _) ltac:(congruence) Hi' Hrest) as (c'' & Hc'' & Hi'').
    destruct (login_run (<[uid := c']> cs) username ip ex rest) as [rs cs''].
    exists c''. split; [exact Hc'' |]. simpl. rewrite Z.add_assoc. exact Hi''.
Qed.

Lemma lock_inv_bound (n : Z) (c : Credential) :
  t0 <= t1 -> lock_inv n c -> n <= max_attempts + (t1 - t0) / lockout_window.
Proof.
  intros Hle (H0 & _ & _ & _ & Hl).
  assert (0 <= (t1 - t0) / lockout_window) by (apply Z.div_pos; unfold lockout_window; lia).
  destruct (Z.eq_dec n 0) as [->|Hn]; [unfold max_attempts; lia |].
  destruct (Hl ltac:(lia)) as (L & _ & HL & Hb & _).
  assert ((L - t0) / lockout_window <= (t1 - t0) / lockout_window)
    by (apply Z.div_le_mono; unfold lockout_window; lia).
  lia.
Qed.

End Lockout.

(** ** Lemmas on the handlers *)

Lemma is_locked_forget (c : Credential) (t t' : Z) :
  is_locked_at (forget_old_failures c t) t' = is_locked_at c t'.
Proof. unfold forget_old_failures. repeat case_match; reflexivity. Qed.

Lemma get_current_user_none (cs : gmap Z Credential) (now : Z) : get_current_user cs now None = None.
Proof. reflexivity. Qed.

Lemma get_current_user_some (cs : gmap Z Credential) (now : Z) (tok : Claims) :
  now < tk_exp tok -> is_Some (cs !! tk_sub tok) -> get_current_user cs now (Some tok) = Some (tk_sub tok).
Proof.
  intros Ht Hs. unfold get_current_user, decode_token.
  rewrite (proj2 (Z.ltb_lt _ _) Ht), bool_decide_eq_true_2 by exact Hs. reflexivity.
Qed.

Lemma is_upper_ascii_lower (a : Ascii.ascii) : is_upper_ch (ascii_lower a) = false.
Proof.
  destruct a as [b0 b1 b2 b3 b4 b5 b6 b7].
  destruct b0, b1, b2, b3, b4, b5, b6, b7; reflexivity.
Qed.

Lemma py_lower_no_upper (u : string) : str_any is_upper_ch (py_lower u) = false.
Proof. induction u as [|a u IH]; [reflexivity |]. simpl. rewrite is_upper_ascii_lower, IH. reflexivity. Qed.

(** What a successful registration did: the verification token names the
    next id, and the site gained that user with the lowercased name. *)
Lemma register_ok (s : Site) (username password email : string) (now : Z) (tok : Claims) :
  fst (register s None false username password email now) = RegOk tok ->
  exists rid, tok = create_token (next_user_id s) (Some "verify_email") now verify_expires
    /\ snd (register s None false username password email now) = add_user s (py_lower username) email password rid.
Proof.
  unfold register. rewrite get_current_user_none. simpl.
  repeat case_match; simpl; intros E; try discriminate. injection E as <-. eauto.
Qed.

Lemma wf_site_fresh (s : Site) : wf_site s -> creds s !! next_user_id s = None.
Proof.
  intros (_ & _ & Hid & _). destruct (creds s !! next_user_id s) eqn:E; [| reflexivity].
  specialize (Hid _ (ltac:(eexists; exact E))). lia.
Qed.

Lemma add_user_creds (s : Site) (u e p : string) (rid : Z) :
  creds (add_user s u e p rid) !! next_user_id s = Some (new_credential u e p).
Proof. apply lookup_insert_eq. Qed.

(** The lookup [login] makes, on a well-formed site. *)
Lemma login_lookup (s : Site) (uid : Z) (c : Credential) (username : string) :
  wf_site s -> creds s !! uid = Some c -> cr_username c = py_lower username ->
  user_by_name (creds s) (py_lower username) = Some uid.
Proof. intros (Hu & _) Hc <-. exact (user_by_name_unique _ _ _ Hu Hc). Qed.

(** ** A small site for the witnesses *)

Definition ada_cred : Credential :=
  {| cr_username := "ada"; cr_email := "ada@example.com"; cr_password := "Secret1!"; cr_verified := true;
     cr_failed := 0; cr_last_failed := None; cr_locked_until := None; cr_is_locked := false;
     cr_under_review := false; cr_last_ip := None;
     cr_show_mature := false |}.

Definition root_cred : Credential :=
  {| cr_username := "Root"; cr_email := "root@example.com"; cr_password := "Adm1n!pw"; cr_verified := true;
     cr_failed := 0; cr_last_failed := None; cr_locked_until := None; cr_is_locked := false;
     cr_under_review := false; cr_last_ip := None;
     cr_show_mature := false |}.

Definition sample_creds : gmap Z Credential :=
  <[1 := ada_cred]> (<[2 := new_credential "bob" "bob@example.com" "Hunter22!"]> ∅).

Definition sample_site : Site :=
  {| site_bo := sample_backoffice; creds := sample_creds; next_user_id := 3 |}.

(** User 3, "Root", holds the admin role. *)
Definition admin_site : Site :=
  let s := add_user sample_site "Root" "root@example.com" "Adm1n!pw" 1 in
  site_with_creds s (<[3 := root_cred]> (creds s)).

Definition admin_session : Claims := create_token 3 None 0 3600.

Lemma sample_site_wf : wf_site sample_site.
Proof.
  split; [| split; [| split]]; simpl.
  - intros i j ci cj Hi Hj E. unfold sample_creds in Hi, Hj.
    rewrite !lookup_insert_Some, lookup_empty in Hi, Hj. naive_solver.
  - intros i j ci cj Hi Hj E. unfold sample_creds in Hi, Hj.
    rewrite !lookup_insert_Some, lookup_empty in Hi, Hj. naive_solver.
  - intros i [ci Hi]. unfold sample_creds in Hi. rewrite !lookup_insert_Some, lookup_empty in Hi. naive_solver lia.
  - exact sample_shop_wf.
Qed.

Definition guesses : list (Z * string) :=
  [(0, "secret1!"); (60, "Secret1"); (120, "Secret!1"); (180, "Secret2!"); (240, "Secret1?");
   (300, "Secret1!!"); (360, "S3cret1!")].

(** ** Properties *)

(** The site's well-formedness is an invariant.  Along any run of
    sign-ins, registrations, verifications, resets, the admin's locks,
    reviews and deletions, and the back office's requests, usernames and
    emails stay unique, user ids stay below the next id, and every account
    keeps an existing role. *)
Theorem auth_reachable_wf (s0 s : Site) : rtc auth_step s0 s -> wf_site s0 -> wf_site s.
Proof.
  induction 1 as [|x y z Hxy _ IH]; intros Hwf; [exact Hwf |].
  apply IH. inversion Hxy; subst. apply handle_auth_wf, Hwf.
Qed.

(** C4: the lockout bounds password guessing.  Attempts to sign in as a
    verified user with no failures on record, made within 24 hours and
    none with the right password, check at most five passwords plus one
    per 15 minutes of the window, whatever their order and timing. *)
Theorem failed_password_checks_bound (cs : gmap Z Credential) (username ip : string) (ex uid : Z)
    (c : Credential) (attempts : list (Z * string)) (t0 t1 : Z) :
  unique_by cr_username cs -> cs !! uid = Some c -> cr_username c = py_lower username ->
  cr_verified c = true -> cr_failed c = 0 -> t0 <= t1 -> t1 <= t0 + failure_memory ->
  Forall (fun a => t0 <= fst a <= t1 /\ snd a <> cr_password c) attempts ->
  failed_checks (fst (login_run cs username ip ex attempts)) <= max_attempts + (t1 - t0) / lockout_window.
Proof.
  intros Hu Hc Hname Hv Hf Hle Hw Ha.
  assert (Hi : lock_inv t0 t1 (cr_password c) 0 c) by (repeat split; auto; lia).
  destruct (login_run_inv t0 t1 (cr_password c) Hw username ip ex uid attempts cs c 0 Hu Hc Hname Hi Ha)
    as (c' & _ & Hi'). exact (lock_inv_bound t0 t1 (cr_password c) _ _ Hle Hi').
Qed.

(** C9: a locked account does not reveal its password.  While a verified
    user is locked (by the admin or for 15 minutes after the fifth
    failure), [login] answers the same for every password: "locked", with
    no failure counted. *)
Theorem login_locked_ignores_password (cs : gmap Z Credential) (username p1 p2 ip : string)
    (now ex uid : Z) (c : Credential) :
  user_by_name cs (py_lower username) = Some uid -> cs !! uid = Some c -> cr_verified c = true ->
  is_locked_at c now = true ->
  login cs None username p1 now ip ex = login cs None username p2 now ip ex
  /\ login cs None username p1 now ip ex = (LoginLocked, <[uid := forget_old_failures c now]> cs).
Proof.
  intros Hn Hc Hv Hl. rewrite !(login_found _ _ _ _ now ex _ _ Hn Hc).
  unfold login_attempt. rewrite Hv, is_locked_forget, Hl. split; reflexivity.
Qed.

(** C10: registration, verification and sign-in round trip.  After a
    successful registration, the emailed token verifies the account within
    48 hours, and the user then signs in with the same password under any
    capitalisation of the username, receiving a session for the new id. *)
Theorem register_verify_login (s : Site) (username username' password email ip : string)
    (now t ex : Z) (tok : Claims) :
  wf_site s -> fst (register s None false username password email now) = RegOk tok ->
  t < now + verify_expires -> py_lower username' = py_lower username ->
  fst (verify_email (snd (register s None false username password email now)) (Some tok) t) = TokOk
  /\ fst (login (creds (snd (verify_email (snd (register s None false username password email now)) (Some tok) t)))
                None username' password t ip ex)
     = LoginOk (create_token (tk_sub tok) None t ex).
Proof.
  intros Hwf Hr Ht Hname.
  pose proof (register_wf s None false username password email now Hwf) as Hwf1.
  destruct (register_ok _ _ _ _ _ _ Hr) as (rid & -> & Hs1). rewrite Hs1 in Hwf1 |- *.
  unfold verify_email, decode_token. simpl.
  rewrite (proj2 (Z.ltb_lt _ _) Ht), lookup_insert_eq. split; [reflexivity |].
  set (s2 := site_with_creds _ _).
  assert (Hc : creds s2 !! next_user_id s = Some (cred_with_flags (new_credential (py_lower username) email password)
                                                     true false false password None)) by apply lookup_insert_eq.
  assert (Hwf2 : wf_site s2).
  { apply (wf_site_same_keys (add_user s (py_lower username) email password rid)); [| reflexivity | reflexivity | exact Hwf1].
    eapply same_keys_insert; [apply (add_user_creds s _ _ _ rid) | reflexivity | reflexivity]. }
  rewrite (login_found _ _ _ _ t ex _ _ (login_lookup _ _ _ _ Hwf2 Hc ltac:(symmetry; exact Hname)) Hc).
  unfold login_attempt. simpl. rewrite String.eqb_refl. reflexivity.
Qed.

(** C21: the emailed verification token is a session.  [get_current_user]
    accepts any unexpired token the application created, whatever its
    [action] claim: right after registering, the token of the verification
    email authenticates the new user for 48 hours, while [login] answers
    that the account is not verified. *)
Theorem verification_token_is_session (s : Site) (username password email ip : string)
    (now t ex : Z) (tok : Claims) :
  wf_site s -> fst (register s None false username password email now) = RegOk tok ->
  t < now + verify_expires ->
  get_current_user (creds (snd (register s None false username password email now))) t (Some tok)
    = Some (tk_sub tok)
  /\ fst (login (creds (snd (register s None false username password email now))) None username password t ip ex)
     = LoginUnverified.
Proof.
  intros Hwf Hr Ht.
  pose proof (register_wf s None false username password email now Hwf) as Hwf1.
  destruct (register_ok _ _ _ _ _ _ Hr) as (rid & -> & Hs1). rewrite Hs1 in Hwf1 |- *.
  split; [apply get_current_user_some; [exact Ht | simpl; rewrite lookup_insert_eq; eauto] |].
  rewrite (login_found _ _ _ _ t ex _ _ (login_lookup _ _ _ _ Hwf1 (add_user_creds _ _ _ _ _) eq_refl)
             (add_user_creds _ _ _ _ _)).
  reflexivity.
Qed.

(** C34: locking a user does not end their sessions.  When the admin locks
    a user, the user's unexpired access token still authenticates them:
    the lock is only checked by [login]. *)
Theorem session_survives_lock (s : Site) (cookie : option Claims) (now t uid : Z) (c : Credential)
    (tok : Claims) :
  creds s !! uid = Some c -> cr_is_locked c = false -> fst (toggle_lock_user s cookie now uid) = Ok AdmDone ->
  tk_sub tok = uid -> t < tk_exp tok ->
  (exists c', creds (snd (toggle_lock_user s cookie now uid)) !! uid = Some c' /\ cr_is_locked c' = true)
  /\ get_current_user (creds (snd (toggle_lock_user s cookie now uid))) t (Some tok) = Some uid.
Proof.
  intros Hc Hl. unfold toggle_lock_user, toggle_user_flag. rewrite Hc.
  repeat case_match; simpl; intros E Hsub Ht; try discriminate.
  assert (Hc' : <[uid := cred_with_flags c (cr_verified c) (negb (cr_is_locked c)) (cr_under_review c)
                           (cr_password c) (cr_last_ip c)]> (creds s) !! uid
                = Some (cred_with_flags c (cr_verified c) true (cr_under_review c) (cr_password c) (cr_last_ip c)))
    by (rewrite Hl; apply lookup_insert_eq).
  split; [eexists; split; [exact Hc' | reflexivity] |].
  rewrite <- Hsub. apply get_current_user_some; [exact Ht | rewrite Hsub, Hc'; eauto].
Qed.

(** A username with a capital letter can never sign in.  [login]
    looks up the lowercased username, so no session is ever issued for a
    user whose stored name has an uppercase letter (registration
    lowercases names; the admin account created at startup does not). *)
Theorem uppercase_username_never_signs_in (cs : gmap Z Credential) (cookie : option Claims)
    (username password ip : string) (now ex uid : Z) (c : Credential) (tok : Claims) :
  cs !! uid = Some c -> str_any is_upper_ch (cr_username c) = true ->
  fst (login cs cookie username password now ip ex) = LoginOk tok -> tk_sub tok <> uid.
Proof.
  intros Hc Hup. unfold login. repeat case_match; simpl; intros E; try discriminate.
  match goal with H : login_attempt ?u ?c0 _ _ _ _ = _ |- _ =>
    unfold login_attempt in H; repeat case_match; simplify_eq; simpl; intros -> end.
  match goal with H : user_by_name _ _ = Some _ |- _ => destruct (first_key_Some _ _ _ H) as (c1 & Hc1 & Hp) end.
  simplify_eq. apply String.eqb_eq in Hp. rewrite Hp, py_lower_no_upper in Hup. discriminate.
Qed.

(** ** Witnesses *)

Lemma auth_reachable_wf_witness :
  wf_site sample_site
  /\ wf_site (handle_auth (AReqRegister None false "Carol" "Passw0rd!" "carol@example.com" 0) sample_site).
Proof.
  split; [exact sample_site_wf |].
  apply (auth_reachable_wf sample_site); [apply rtc_once; constructor | exact sample_site_wf].
Defined.

Lemma failed_password_checks_bound_witness :
  failed_checks (fst (login_run sample_creds "Ada" "10.0.0.1" 3600 guesses)) = 5
  /\ failed_checks (fst (login_run sample_creds "Ada" "10.0.0.1" 3600 guesses))
     <= max_attempts + (600 - 0) / lockout_window.
Proof.
  split; [vm_compute; reflexivity |].
  apply (failed_password_checks_bound sample_creds "Ada" "10.0.0.1" 3600 1 ada_cred guesses 0 600);
    [exact (proj1 sample_site_wf) | reflexivity | reflexivity | reflexivity | reflexivity | lia
    | unfold failure_memory; lia |].
  repeat constructor; simpl; lia || discriminate.
Defined.

Lemma login_locked_ignores_password_witness :
  login (<[1 := cred_with_flags ada_cred true true false "Secret1!" None]> sample_creds) None "ada" "Secret1!" 0 "" 3600
  = login (<[1 := cred_with_flags ada_cred true true false "Secret1!" None]> sample_creds) None "ada" "nope" 0 "" 3600.
Proof.
  apply (login_locked_ignores_password _ "ada" "Secret1!" "nope" "" 0 3600 1
           (cred_with_flags ada_cred true true false "Secret1!" None)); vm_compute; reflexivity.
Defined.

Lemma register_verify_login_witness :
  fst (register sample_site None false "Carol" "Passw0rd!" "carol@example.com" 0)
    = RegOk (create_token 3 (Some "verify_email") 0 verify_expires)
  /\ fst (login (creds (snd (verify_email (snd (register sample_site None false "Carol" "Passw0rd!" "carol@example.com" 0))
                                          (Some (create_token 3 (Some "verify_email") 0 verify_expires)) 100)))
             None "CAROL" "Passw0rd!" 100 "10.0.0.2" 3600)
     = LoginOk (create_token 3 None 100 3600).
Proof.
  split; [vm_compute; reflexivity |].
  apply (register_verify_login sample_site "Carol" "CAROL" "Passw0rd!" "carol@example.com" "10.0.0.2" 0 100 3600);
    [exact sample_site_wf | vm_compute; reflexivity | vm_compute; reflexivity | reflexivity].
Defined.

Lemma verification_token_is_session_witness :
  get_current_user (creds (snd (register sample_site None false "Carol" "Passw0rd!" "carol@example.com" 0))) 100
    (Some (create_token 3 (Some "verify_email") 0 verify_expires)) = Some 3.
Proof.
  apply (verification_token_is_session sample_site "Carol" "Passw0rd!" "carol@example.com" "" 0 100 3600);
    [exact sample_site_wf | vm_compute; reflexivity | vm_compute; reflexivity].
Defined.

Lemma session_survives_lock_witness :
  get_current_user (creds (snd (toggle_lock_user admin_site (Some admin_session) 10 1))) 20
    (Some (create_token 1 None 0 3600)) = Some 1.
Proof.
  apply (session_survives_lock admin_site (Some admin_session) 10 20 1 ada_cred (create_token 1 None 0 3600));
    vm_compute; reflexivity.
Defined.

Lemma uppercase_username_never_signs_in_witness :
  fst (login (creds admin_site) None "Root" "Adm1n!pw" 0 "" 3600) = LoginUnknownUser
  /\ forall tok, fst (login (creds admin_site) None "Root" "Adm1n!pw" 0 "" 3600) = LoginOk tok -> tk_sub tok <> 3.
Proof.
  split; [vm_compute; reflexivity |].
  intros tok. apply (uppercase_username_never_signs_in _ None "Root" "Adm1n!pw" "" 0 3600 3 root_cred tok);
    vm_compute; reflexivity.
Defined.

End Auth.
