(* ===== verification/Site.v ===== *)
(** * The application: startup, the maintenance gate, site settings

    [src/app.py]: the seeding done at startup (lines 73-122), the
    [before_request] hook [check_maintenance_mode] (lines 175-206) and the
    [maintenance] route (lines 208-223); [update_site_config] of
    [src/api/admin.py] (lines 500-522) and the [SiteConfig] model.

    [App] is the Auth site with the [SiteConfig] table and the two process
    globals [app.config["REGISTRATION_DISABLED"]] and
    [app.config["MAINTENANCE_MODE"]] that the hook refreshes before every
    request.  A request is its cookie, its time and its route; [serve] runs
    the hook, then the route's handler (with its decorator) when the hook
    lets the request through.  The static part of a route's path stands
    for [request.path]: every prefix the hook tests is decided by it. *)

From Stdlib Require Import ZArith QArith Lia.
From stdpp Require Import base gmap strings list.
From S2P Require Import Prelude Pricing Ledger Store Billing Auth.

Local Open Scope Z_scope.

Module Site.
Import Pricing Ledger Store Billing Auth.

(** ** State *)

(** [models/SiteConfig.py]. *)
Record SiteConfigRow := {
  sc_registration_disabled : bool;
  sc_maintenance_mode : bool
}.

Record App := {
  app_site : Site;
  site_configs : gmap Z SiteConfigRow;
  next_site_config_id : Z;
  registration_disabled : bool;   (* app.config["REGISTRATION_DISABLED"] *)
  maintenance_mode : bool         (* app.config["MAINTENANCE_MODE"] *)
}.

Definition app_with_site (a : App) (s : Site) : App :=
  {| app_site := s; site_configs := site_configs a; next_site_config_id := next_site_config_id a;
     registration_disabled := registration_disabled a; maintenance_mode := maintenance_mode a |}.

Definition app_with_configs (a : App) (m : gmap Z SiteConfigRow) (next : Z) : App :=
  {| app_site := app_site a; site_configs := m; next_site_config_id := next;
     registration_disabled := registration_disabled a; maintenance_mode := maintenance_mode a |}.

Definition app_with_flags (a : App) (rd mm : bool) : App :=
  {| app_site := app_site a; site_configs := site_configs a; next_site_config_id := next_site_config_id a;
     registration_disabled := rd; maintenance_mode := mm |}.

(** [SiteConfig.query.first()]. *)
Definition site_config_first (a : App) : option SiteConfigRow :=
  match first_key (fun _ => true) (site_configs a) with
  | Some i => site_configs a !! i
  | None => None
  end.

(** ** [check_maintenance_mode] (app.py, lines 175-206) *)

(** Lines 189-195: the flags of the first row, or [False]. *)
Definition config_flags (a : App) : bool * bool :=
  match site_config_first a with
  | Some r => (sc_registration_disabled r, sc_maintenance_mode r)
  | None => (false, false)
  end.

(** Line 196, [user and user.role.name.lower() == "admin"]: unlike the
    [is_admin] decorator, the role name is lowercased.  The row's role
    always exists (the foreign key [role_id] is NOT NULL). *)
Definition maintenance_admin (s : Site) (now : Z) (cookie : option Claims) : bool :=
  match get_current_user (creds s) now cookie with
  | Some uid =>
    match accounts (bo_shop (site_bo s)) !! uid with
    | Some acc =>
      match roles (bo_shop (site_bo s)) !! acc_role acc with
      | Some r => String.eqb (py_lower (role_name r)) "admin"
      | None => false
      end
    | None => false
    end
  | None => false
  end.

Inductive Gate :=
  | GatePass                    (* the hook returns None: the route runs *)
  | GateMaintenanceJson         (* {"error": "Site is under maintenance."}, 503 *)
  | GateRedirectMaintenance.    (* redirect(url_for("maintenance")) *)

Definition check_maintenance_mode (now : Z) (cookie : option Claims) (path endpoint : string) (a : App)
    : Gate * App :=
  let '(rd, mm) := config_flags a in
  let a1 := app_with_flags a rd mm in
  if mm && negb (maintenance_admin (app_site a) now cookie) then
    if String.prefix "/logout" path then (GatePass, a1)
    else if String.prefix "/login" path then (GatePass, a1)
    else if String.prefix "/api" path then (GateMaintenanceJson, a1)
    else if negb (String.eqb endpoint "maintenance") && negb (String.prefix "/static" path)
    then (GateRedirectMaintenance, a1)
    else (GatePass, a1)
  else (GatePass, a1).

(** The [maintenance] route (lines 208-223). *)
Inductive MaintenancePage := MaintenanceToIndex | MaintenancePage503.

Definition maintenance (a : App) : MaintenancePage :=
  if maintenance_mode a then MaintenancePage503 else MaintenanceToIndex.

(** ** [update_site_config] (api/admin.py, lines 500-522) *)

(** [bool(request.form.get(...))]: whether the box was ticked. *)
Definition update_site_config (now : Z) (cookie : option Claims) (rd mm : bool) (a : App) : App :=
  match is_admin_user (app_site a) now cookie with
  | None => a
  | Some _ =>
    let row := {| sc_registration_disabled := rd; sc_maintenance_mode := mm |} in
    match first_key (fun _ => true) (site_configs a) with
    | Some i => app_with_configs a (<[i := row]> (site_configs a)) (next_site_config_id a)
    | None => app_with_configs a (<[next_site_config_id a := row]> (site_configs a)) (next_site_config_id a + 1)
    end
  end.

(** ** Routes *)

Inductive Route :=
  | RLogin (username password ip : string) (expires : Z)
  | RLogout
  | RRegister (username password email : string)
  | RVerify (token : option Claims)
  | RReset (token : option Claims) (new_password : string)
  | RToggleLock (uid : Z)
  | RToggleReview (uid : Z)
  | RDeleteUser (uid : Z)
  | RUpdateProfile (form : ProfileForm)
  | RSiteConfig (registration_disabled maintenance_mode : bool)
  | RBackoffice (req : AdminReq)
  | RMaintenance
  | RStatic.

Record Request := { rq_cookie : option Claims; rq_now : Z; rq_route : Route }.

(** The static part of each route's [@bp.route] path. *)
Definition backoffice_path (r : AdminReq) : string :=
  match r with
  | ReqUpdateTokenConfig _ => "/admin/update_token_config"
  | ReqUpdateCreditConfig _ _ => "/admin/update_credit_config"
  | ReqAdjustCredits _ _ _ => "/admin/adjust_credits/"
  | ReqUpdateUserRole _ _ _ => "/admin/update_user_role/"
  | ReqCreatePackage _ _ _ _ => "/admin/credit_packages/create"
  | ReqDeletePackage _ _ => "/admin/credit_packages/delete/"
  | ReqUpdatePackage _ _ _ _ _ => "/admin/update_credit_package/"
  | ReqCreateRole _ _ _ _ => "/admin/create_role"
  | ReqDeleteRole _ _ => "/admin/delete_role/"
  | ReqEditRole _ _ _ _ _ _ => "/admin/edit_role/"
  | ReqWebhook _ => "/stripe/webhook"
  | ReqCheckoutPackage _ _ _ _ => "/create-one-time-checkout-session/"
  | ReqCheckoutSubscription _ _ _ _ => "/create-checkout-session/"
  end.

Definition route_path (r : Route) : string :=
  match r with
  | RLogin _ _ _ _ => "/login"
  | RLogout => "/logout"
  | RRegister _ _ _ => "/register"
  | RVerify _ => "/verify-email/"
  | RReset _ _ => "/reset-password/"
  | RToggleLock _ => "/admin/toggle_lock/"
  | RToggleReview _ => "/admin/toggle_under_review/"
  | RDeleteUser _ => "/admin/delete_user/"
  | RUpdateProfile _ => "/update_profile"
  | RSiteConfig _ _ => "/admin/update_site_config"
  | RBackoffice req => backoffice_path req
  | RMaintenance => "/maintenance"
  | RStatic => "/static/"
  end.

(** [request.endpoint]; only the [maintenance] view's matters to the hook. *)
Definition route_endpoint (r : Route) : string :=
  match r with
  | RMaintenance => "maintenance"
  | RStatic => "static"
  | RLogin _ _ _ _ => "auth_views.login"
  | RLogout => "auth.logout"
  | RRegister _ _ _ => "auth_views.register"
  | RVerify _ => "auth.verify_email"
  | RReset _ _ => "auth_views.reset_password"
  | RBackoffice (ReqWebhook _) => "profile.stripe_webhook"
  | RBackoffice (ReqCheckoutPackage _ _ _ _) => "profile.create_one_time_checkout_session"
  | RBackoffice (ReqCheckoutSubscription _ _ _ _) => "profile.create_checkout_session"
  | _ => "admin"      (* the admin blueprint's views, [admin.<function>] *)
  end.

(** The decorators of the back-office routes: [@is_admin] on the admin
    pages, [@is_authenticated] on the checkouts (which act for the current
    user), none on the webhook. *)
Definition backoffice_allowed (s : Site) (now : Z) (cookie : option Claims) (r : AdminReq) : bool :=
  match r with
  | ReqWebhook _ => true
  | ReqCheckoutPackage uid _ _ _ | ReqCheckoutSubscription uid _ _ _ =>
      bool_decide (get_current_user (creds s) now cookie = Some uid)
  | _ => bool_decide (is_Some (is_admin_user s now cookie))
  end.

(** The route's handler, on the state the hook left. *)
Definition handle_route (now : Z) (cookie : option Claims) (r : Route) (a : App) : App :=
  let s := app_site a in
  match r with
  | RLogin u p ip ex => app_with_site a (handle_auth (AReqLogin cookie u p now ip ex) s)
  | RRegister u p e => app_with_site a (handle_auth (AReqRegister cookie (registration_disabled a) u p e now) s)
  | RVerify tok => app_with_site a (handle_auth (AReqVerify tok now) s)
  | RReset tok p => app_with_site a (handle_auth (AReqReset tok now p) s)
  | RToggleLock uid => app_with_site a (handle_auth (AReqToggleLock cookie now uid) s)
  | RToggleReview uid => app_with_site a (handle_auth (AReqToggleReview cookie now uid) s)
  | RDeleteUser uid => app_with_site a (handle_auth (AReqDeleteUser cookie now uid) s)
  | RUpdateProfile form => app_with_site a (handle_auth (AReqUpdateProfile cookie now form) s)
  | RSiteConfig rd mm => update_site_config now cookie rd mm a
  | RBackoffice req =>
      if backoffice_allowed s now cookie req then app_with_site a (handle_auth (AReqBackoffice req) s) else a
  | RLogout | RMaintenance | RStatic => a
  end.

Definition serve (rq : Request) (a : App) : Gate * App :=
  let r := rq_route rq in
  let '(g, a1) := check_maintenance_mode (rq_now rq) (rq_cookie rq) (route_path r) (route_endpoint r) a in
  match g with
  | GatePass => (GatePass, handle_route (rq_now rq) (rq_cookie rq) r a1)
  | _ => (g, a1)
  end.

Inductive app_step : App -> App -> Prop :=
  | AppStep (a : App) (rq : Request) : app_step a (snd (serve rq a)).

(** ** Startup (app.py, lines 73-122) *)

Definition seed_token_config : TokenCostConfig :=
  {| cost_per_credit := 999 # 1000000; cost_per_1m_input := 150 # 1000; cost_per_1m_output := 600 # 1000;
     o1_cost_per_credit := 999 # 1000000; o1_cost_per_1m_input := 15; o1_cost_per_1m_output := 60;
     dall_e_price_per_image := 8 # 100 |}.

Definition seed_credit_configs : list CreditConfig :=
  map (fun '(action, type, modifier) => {| cc_type := type; cc_action := action; cc_modifier := modifier |})
    [("image", "image", 50%Q); ("meta_input", "text", 50%Q); ("meta_output", "text", 50%Q);
     ("summary_input", "text", 2%Q); ("summary_output", "text", 2%Q);
     ("arcs_input", "text", 2%Q); ("arcs_output", "text", 2%Q);
     ("chapter_guide_input", "text", 2%Q); ("chapter_guide_output", "text", 2%Q);
     ("chapter_input", "text", 2%Q); ("chapter_output", "text", 2%Q)].

Definition admin_role_row : RoleRow :=
  {| role_name := "admin";
     role_defaults := {| default_text_credits := 1000; default_image_credits := 1000; default_audio_credits := 1000 |};
     role_cost := 0; role_protected := true; role_stripe_price := None |}.

Definition user_role_row : RoleRow :=
  {| role_name := "user";
     role_defaults := {| default_text_credits := 0; default_image_credits := 0; default_audio_credits := 0 |};
     role_cost := 0; role_protected := false; role_stripe_price := None |}.

Definition admin_email : string := "admin@example.com".

(** Lines 106-115: the role named [name], found or added with the next id. *)
Definition ensure_role (name : string) (row : RoleRow) (sh : Shop) : Z * Shop :=
  match first_key (fun r => String.eqb (role_name r) name) (roles sh) with
  | Some rid => (rid, sh)
  | None => (next_role_id sh, shop_with_roles sh (<[next_role_id sh := row]> (roles sh)) (next_role_id sh + 1))
  end.

(** Lines 116-121: the admin row, created from [ADMIN_USERNAME] and
    [ADMIN_PASSWORD] (configuration read outside the repository). *)
Definition admin_credential (admin_username admin_password : string) : Credential :=
  {| cr_username := admin_username; cr_email := admin_email; cr_password := admin_password;
     cr_verified := true; cr_failed := 0; cr_last_failed := None; cr_locked_until := None;
     cr_is_locked := false; cr_under_review := false; cr_last_ip := None;
     cr_show_mature := false |}.

(** Lines 76-105: the price rows, when their tables are empty. *)
Definition seed_configs (d : DB) : DB :=
  let d1 := match token_config d with None => db_with_token_config d (Some seed_token_config) | Some _ => d end in
  match credit_configs d1 with [] => db_with_credit_configs d1 seed_credit_configs | _ => d1 end.

(** Lines 106-115: the two roles; the admin role's id. *)
Definition seed_roles (sh : Shop) : Z * Shop :=
  let '(admin_rid, sh1) := ensure_role "admin" admin_role_row sh in
  let '(_, sh2) := ensure_role "user" user_role_row sh1 in
  (admin_rid, sh2).

(** The whole block runs in one session: [db.session.commit()] at line 122
    writes all of it or, when a UNIQUE column would repeat, raises, and
    the application does not start.  Lines 116-121: the admin is looked up
    by the name ['admin'] but created with the name [ADMIN_USERNAME]. *)
Definition bootstrap (admin_username admin_password : string) (a : App) : res App :=
  let s := app_site a in
  let d2 := seed_configs (bo_db (site_bo s)) in
  let '(admin_rid, sh2) := seed_roles (bo_shop (site_bo s)) in
  match user_by_name (creds s) "admin" with
  | Some _ => Ok (app_with_site a {| site_bo := {| bo_db := d2; bo_shop := sh2 |}; creds := creds s;
                                     next_user_id := next_user_id s |})
  | None =>
    if bool_decide (is_Some (user_by_name (creds s) admin_username)) then Raise (IntegrityError "user.username")
    else if bool_decide (is_Some (user_by_email (creds s) admin_email)) then Raise (IntegrityError "user.email")
    else
      let uid := next_user_id s in
      Ok (app_with_site a
        {| site_bo := {| bo_db := db_with_users d2 (<[uid := {| text_credits := 10000; image_credits := 1000;
                                                                audio_credits := 1000 |}]> (users d2));
                         bo_shop := shop_with_accounts sh2
                           (<[uid := {| acc_username := admin_username; acc_role := admin_rid;
                                        acc_customer := None; acc_subscription := None |}]> (accounts sh2)) |};
           creds := <[uid := admin_credential admin_username admin_password]> (creds s);
           next_user_id := uid + 1 |})
  end.

(** ** A small application for the witnesses *)

Definition sample_app (maintenance_on : bool) : App :=
  {| app_site := sample_site;
     site_configs := <[1 := {| sc_registration_disabled := false; sc_maintenance_mode := maintenance_on |}]> ∅;
     next_site_config_id := 2; registration_disabled := false; maintenance_mode := false |}.

Definition admin_app : App := app_with_site (sample_app false) admin_site.

(** Stripe's notification that user 1 paid for package 1 (500 text credits). *)
Definition webhook_request : Request :=
  {| rq_cookie := None; rq_now := 0;
     rq_route := RBackoffice (ReqWebhook (Event (CheckoutCompleted (Some 1) None (Some 1) (Some "text") None 500))) |}.

(** ** Lemmas on [first_key] *)

Lemma first_key_is_Some {A} (p : A -> bool) (m : gmap Z A) (k : Z) (a : A) :
  m !! k = Some a -> p a = true -> is_Some (first_key p m).
Proof.
  intros Hk Hp. destruct (first_key p m) eqn:E; [eauto |].
  rewrite (first_key_None _ _ _ _ E Hk) in Hp. discriminate.
Qed.

Lemma first_key_None_insert {A} (p : A -> bool) (m : gmap Z A) (i : Z) (x : A) :
  first_key p m = None -> p x = false -> first_key p (<[i := x]> m) = None.
Proof.
  intros Hn Hx. destruct (first_key p (<[i := x]> m)) as [k|] eqn:E; [| reflexivity].
  destruct (first_key_Some _ _ _ E) as (a & Ha & Hp).
  apply lookup_insert_Some in Ha as [[_ <-] | [_ Ha]]; [congruence |].
  rewrite (first_key_None _ _ _ _ Hn Ha) in Hp. discriminate.
Qed.

(** [first_key] answers the least matching key. *)
Lemma first_key_below {A} (p : A -> bool) (m : gmap Z A) (k' : Z) (a' : A) :
  m !! k' = Some a' -> p a' = true -> exists k, first_key p m = Some k /\ k <= k'.
Proof.
  unfold first_key. intros Hk' Hp. apply elem_of_map_to_list in Hk'. revert Hk'.
  induction (map_to_list m) as [|[k0 a0] l IH]; intros Hin; [inversion Hin |].
  simpl. apply elem_of_cons in Hin as [[= -> ->] | Hin].
  - rewrite Hp. destruct (fold_right _ None l) as [k1|]; eexists; split; [reflexivity | lia | reflexivity | lia].
  - destruct (IH Hin) as (k1 & -> & Hle). destruct (p a0); eexists; split; [reflexivity | lia | reflexivity | lia].
Qed.

Lemma first_key_least {A} (p : A -> bool) (m : gmap Z A) (k : Z) :
  first_key p m = Some k -> forall k' a', m !! k' = Some a' -> p a' = true -> k <= k'.
Proof.
  intros Hk k' a' Hk' Hp. destruct (first_key_below _ _ _ _ Hk' Hp) as (k1 & E & Hle). congruence.
Qed.

Lemma first_key_min {A} (p : A -> bool) (m : gmap Z A) (k : Z) (a : A) :
  m !! k = Some a -> p a = true -> (forall k' a', m !! k' = Some a' -> p a' = true -> k <= k') ->
  first_key p m = Some k.
Proof.
  intros Hk Hp Hmin. destruct (first_key_is_Some _ _ _ _ Hk Hp) as [k1 E]. rewrite E. f_equal.
  destruct (first_key_Some _ _ _ E) as (a1 & Ha1 & Hp1).
  pose proof (first_key_least _ _ _ E _ _ Hk Hp). pose proof (Hmin _ _ Ha1 Hp1). lia.
Qed.

(** ** Lemmas on the settings and the hook *)

(** After the admin saves the settings, the first row holds them. *)
Lemma update_site_config_first (now : Z) (cookie : option Claims) (rd mm : bool) (a : App) (adm : Z) :
  is_admin_user (app_site a) now cookie = Some adm ->
  site_config_first (update_site_config now cookie rd mm a)
    = Some {| sc_registration_disabled := rd; sc_maintenance_mode := mm |}.
Proof.
  intros Hadm. unfold update_site_config. rewrite Hadm.
  destruct (first_key (fun _ => true) (site_configs a)) as [i|] eqn:E; unfold site_config_first; simpl.
  - destruct (first_key_Some _ _ _ E) as (r0 & Hr0 & _).
    rewrite (first_key_min _ _ i _ (lookup_insert_eq _ _ _) eq_refl), lookup_insert_eq; [reflexivity |].
    intros k' a' Hk' _. apply lookup_insert_Some in Hk' as [[<- _] | [_ Hk']]; [lia |].
    exact (first_key_least _ _ _ E _ _ Hk' eq_refl).
  - rewrite (first_key_min _ _ (next_site_config_id a) _ (lookup_insert_eq _ _ _) eq_refl), lookup_insert_eq;
      [reflexivity |].
    intros k' a' Hk' _. apply lookup_insert_Some in Hk' as [[<- _] | [_ Hk']]; [lia |].
    pose proof (first_key_None _ _ _ _ E Hk'). discriminate.
Qed.

Lemma update_site_config_site (now : Z) (cookie : option Claims) (rd mm : bool) (a : App) :
  app_site (update_site_config now cookie rd mm a) = app_site a.
Proof. unfold update_site_config. repeat case_match; reflexivity. Qed.

(** The hook only refreshes the two flags. *)
Lemma check_maintenance_mode_state (now : Z) (cookie : option Claims) (path ep : string) (a : App) :
  snd (check_maintenance_mode now cookie path ep a)
    = app_with_flags a (fst (config_flags a)) (snd (config_flags a)).
Proof. unfold check_maintenance_mode. destruct (config_flags a). repeat case_match; reflexivity. Qed.

Lemma handle_route_wf (now : Z) (cookie : option Claims) (r : Route) (a : App) :
  wf_site (app_site a) -> wf_site (app_site (handle_route now cookie r a)).
Proof.
  intros Hwf. destruct r; cbn [handle_route app_site app_with_site]; try apply handle_auth_wf; try exact Hwf.
  - rewrite update_site_config_site. exact Hwf.
  - case_match; cbn [app_site app_with_site]; [apply handle_auth_wf |]; exact Hwf.
Qed.

Lemma serve_wf (rq : Request) (a : App) : wf_site (app_site a) -> wf_site (app_site (snd (serve rq a))).
Proof.
  intros Hwf. unfold serve.
  pose proof (check_maintenance_mode_state (rq_now rq) (rq_cookie rq) (route_path (rq_route rq))
                (route_endpoint (rq_route rq)) a) as Hs.
  destruct (check_maintenance_mode _ _ _ _ a) as [g a1]. simpl in Hs. subst a1.
  destruct g; simpl; [apply handle_route_wf | |]; exact Hwf.
Qed.

(** ** Lemmas on startup *)

Section EnsureRole.
Context (name : string) (row : RoleRow) (sh : Shop).
Hypothesis Hname : role_name row = name.

Lemma ensure_role_wf : wf_shop sh -> wf_shop (snd (ensure_role name row sh)).
Proof.
  intros Hw. unfold ensure_role. case_match; simpl; [exact Hw |]. apply wf_insert_role; [exact Hw | lia | lia].
Qed.

Lemma ensure_role_has : roles (snd (ensure_role name row sh)) !! fst (ensure_role name row sh) <> None
  /\ exists r, roles (snd (ensure_role name row sh)) !! fst (ensure_role name row sh) = Some r /\ role_name r = name.
Proof.
  unfold ensure_role. destruct (first_key _ _) as [rid|] eqn:E; simpl.
  - destruct (first_key_Some _ _ _ E) as (r & Hr & Hp). apply String.eqb_eq in Hp.
    rewrite Hr. split; [discriminate | eauto].
  - rewrite lookup_insert_eq. split; [discriminate | eauto].
Qed.

Lemma ensure_role_keeps (k : Z) (r : RoleRow) : wf_shop sh -> roles sh !! k = Some r ->
  roles (snd (ensure_role name row sh)) !! k = Some r.
Proof.
  intros (_ & Hn & _) Hk. unfold ensure_role. case_match; simpl; [exact Hk |].
  rewrite lookup_insert_ne; [exact Hk |]. specialize (Hn k (ltac:(eexists; exact Hk))). lia.
Qed.

Lemma ensure_role_found : (exists k r, roles sh !! k = Some r /\ role_name r = name) ->
  snd (ensure_role name row sh) = sh.
Proof.
  intros (k & r & Hk & Hr). unfold ensure_role.
  destruct (first_key_is_Some (fun r => String.eqb (role_name r) name) _ _ _ Hk) as [rid E];
    [apply String.eqb_eq, Hr |]. rewrite E. reflexivity.
Qed.

Lemma ensure_role_accounts : accounts (snd (ensure_role name row sh)) = accounts sh.
Proof. unfold ensure_role. case_match; reflexivity. Qed.

End EnsureRole.

Definition has_role (sh : Shop) (name : string) : Prop :=
  exists k r, roles sh !! k = Some r /\ role_name r = name.

Lemma seed_configs_done (d : DB) :
  token_config (seed_configs d) <> None /\ credit_configs (seed_configs d) <> [].
Proof. unfold seed_configs, seed_credit_configs. repeat case_match; simpl in *; split; congruence. Qed.

Lemma seed_configs_id (d : DB) : token_config d <> None -> credit_configs d <> [] -> seed_configs d = d.
Proof.
  intros Ht Hc. unfold seed_configs. destruct (token_config d); [| congruence].
  destruct (credit_configs d); [congruence | reflexivity].
Qed.

Lemma seed_roles_wf (sh : Shop) : wf_shop sh ->
  wf_shop (snd (seed_roles sh)) /\ is_Some (roles (snd (seed_roles sh)) !! fst (seed_roles sh))
  /\ has_role (snd (seed_roles sh)) "admin" /\ has_role (snd (seed_roles sh)) "user".
Proof.
  intros Hw. unfold seed_roles.
  pose proof (ensure_role_wf "admin" admin_role_row sh Hw) as Hw1.
  pose proof (ensure_role_has "admin" admin_role_row sh eq_refl) as [_ (ra & Hra & Hna)].
  destruct (ensure_role "admin" admin_role_row sh) as [rid sh1] eqn:E1. simpl in Hw1, Hra.
  pose proof (ensure_role_wf "user" user_role_row sh1 Hw1) as Hw2.
  pose proof (ensure_role_has "user" user_role_row sh1 eq_refl) as [_ (ru & Hru & Hnu)].
  pose proof (ensure_role_keeps "user" user_role_row sh1 rid ra Hw1 Hra) as Hka.
  destruct (ensure_role "user" user_role_row sh1) as [x sh2] eqn:E2. simpl in *.
  split; [exact Hw2 | split; [eauto | split; eexists _, _; eauto]].
Qed.

Lemma seed_roles_id (sh : Shop) : has_role sh "admin" -> has_role sh "user" -> snd (seed_roles sh) = sh.
Proof.
  intros Ha Hu. unfold seed_roles.
  pose proof (ensure_role_found "admin" admin_role_row sh Ha) as E1.
  destruct (ensure_role "admin" admin_role_row sh) as [rid sh1]. simpl in E1. subst sh1.
  pose proof (ensure_role_found "user" user_role_row sh Hu) as E2.
  destruct (ensure_role "user" user_role_row sh) as [x sh2]. simpl in *. exact E2.
Qed.

Lemma app_site_eta (a : App) :
  app_with_site a {| site_bo := {| bo_db := bo_db (site_bo (app_site a)); bo_shop := bo_shop (site_bo (app_site a)) |};
                     creds := creds (app_site a); next_user_id := next_user_id (app_site a) |} = a.
Proof. destruct a as [[[d sh] cs n] c nx rd mm]. reflexivity. Qed.

(** The state a successful startup leaves: price rows, both roles, and a
    user named [admin]. *)
Definition bootstrap_done (a : App) : Prop :=
  token_config (bo_db (site_bo (app_site a))) <> None /\ credit_configs (bo_db (site_bo (app_site a))) <> []
  /\ has_role (bo_shop (site_bo (app_site a))) "admin" /\ has_role (bo_shop (site_bo (app_site a))) "user"
  /\ is_Some (user_by_name (creds (app_site a)) "admin").

Lemma bootstrap_done_fixed (u p : string) (a : App) : bootstrap_done a -> bootstrap u p a = Ok a.
Proof.
  intros (Ht & Hc & Ha & Hu & [k Hk]). unfold bootstrap. rewrite (seed_configs_id _ Ht Hc).
  pose proof (seed_roles_id _ Ha Hu) as E. destruct (seed_roles _) as [rid sh2]. simpl in E. subst sh2.
  rewrite Hk. f_equal. apply app_site_eta.
Qed.

Lemma user_by_absent (f : Credential -> string) (cs : gmap Z Credential) (v : string) :
  bool_decide (is_Some (first_key (fun c => String.eqb (f c) v) cs)) = false ->
  forall j cj, cs !! j = Some cj -> f cj <> v.
Proof.
  intros H j cj Hj E. apply bool_decide_eq_false_1 in H. apply H.
  apply (first_key_is_Some _ _ _ _ Hj). apply String.eqb_eq, E.
Qed.

Lemma bootstrap_wf (u p : string) (a a' : App) :
  wf_site (app_site a) -> bootstrap u p a = Ok a' -> wf_site (app_site a').
Proof.
  intros Hwf. pose proof (wf_site_fresh _ Hwf) as Hfresh. destruct Hwf as (Hu & He & Hid & Hw).
  unfold bootstrap. pose proof (seed_roles_wf _ Hw) as (Hw2 & Hrid & _).
  destruct (seed_roles _) as [rid sh2]. simpl in Hw2, Hrid.
  repeat case_match; intros E; simplify_eq; simpl; [split; [exact Hu | split; [exact He | split; [exact Hid | exact Hw2]]] |].
  split; [| split; [| split]].
  - apply unique_insert_fresh; [exact Hu | exact Hfresh |]. intros j cj Hj. exact (user_by_absent _ _ _ H0 j cj Hj).
  - apply unique_insert_fresh; [exact He | exact Hfresh |]. intros j cj Hj. exact (user_by_absent _ _ _ H1 j cj Hj).
  - intros i [ci Hi]. simpl in *. apply lookup_insert_Some in Hi as [[<- _] | [_ Hi]]; [lia |].
    specialize (Hid i (ltac:(eauto))). lia.
  - apply wf_insert_account; [exact Hw2 | exact Hrid].
Qed.

Lemma bootstrap_establishes (p : string) (a a' : App) :
  wf_site (app_site a) -> bootstrap "admin" p a = Ok a' -> bootstrap_done a'.
Proof.
  intros (_ & _ & _ & Hw). unfold bootstrap.
  pose proof (seed_configs_done (bo_db (site_bo (app_site a)))) as [Ht Hc].
  pose proof (seed_roles_wf _ Hw) as (_ & _ & Ha & Hu).
  destruct (seed_roles _) as [rid sh2]. simpl in Ha, Hu.
  repeat case_match; intros E; simplify_eq; (split; [exact Ht | split; [exact Hc | split; [exact Ha | split; [exact Hu |]]]]);
    simpl; [eauto |].
  apply (first_key_is_Some _ _ _ _ (lookup_insert_eq _ _ _)). apply String.eqb_refl.
Qed.

(** The hook's decision for each route, during maintenance, for a
    visitor who is not an admin. *)
Lemma maintenance_gate (now : Z) (cookie : option Claims) (r : Route) (a : App) :
  snd (config_flags a) = true -> maintenance_admin (app_site a) now cookie = false ->
  fst (check_maintenance_mode now cookie (route_path r) (route_endpoint r) a)
    = match r with
      | RLogin _ _ _ _ | RLogout | RMaintenance | RStatic => GatePass
      | _ => GateRedirectMaintenance
      end.
Proof.
  intros Hm Hadm. unfold check_maintenance_mode. destruct (config_flags a) as [rd mm]. simpl in Hm. subst mm.
  rewrite Hadm. destruct r; try reflexivity. destruct req; reflexivity.
Qed.

Lemma prefix_cons_inv (c : Ascii.ascii) (s p : string) :
  String.prefix (String c s) p = true -> exists p', p = String c p' /\ String.prefix s p' = true.
Proof.
  destruct p as [|c' p]; simpl; [discriminate |].
  destruct (Ascii.ascii_dec c c') as [<-|_]; [eauto | discriminate].
Qed.

(** A path under [/api] is neither [/login...] nor [/logout...]. *)
Lemma api_path_not_login (path : string) :
  String.prefix "/api" path = true -> String.prefix "/logout" path = false /\ String.prefix "/login" path = false.
Proof.
  intros H. apply prefix_cons_inv in H as (p1 & -> & H). apply prefix_cons_inv in H as (p2 & -> & _).
  split; reflexivity.
Qed.

(** ** Properties *)

(** C5: the application's well-formedness holds from startup on.  When
    startup succeeds on a well-formed database, every later run of
    requests through the maintenance hook and the routes keeps usernames
    and emails unique, user ids below the next id, and every account's
    role in the role table. *)
Theorem app_lifecycle_wf (u p : string) (a0 a1 a : App) :
  wf_site (app_site a0) -> bootstrap u p a0 = Ok a1 -> rtc app_step a1 a -> wf_site (app_site a).
Proof.
  intros Hwf Hb Hr. pose proof (bootstrap_wf _ _ _ _ Hwf Hb) as Hwf1. clear Hwf Hb.
  induction Hr as [|x y z Hxy _ IH]; [exact Hwf1 |]. apply IH. inversion Hxy; subst. apply serve_wf, Hwf1.
Qed.

(** C24: startup is idempotent when the admin is named "admin".  With
    [ADMIN_USERNAME] set to "admin", running the startup block again on
    what it left changes nothing. *)
Theorem bootstrap_idempotent (p p' : string) (a a' : App) :
  wf_site (app_site a) -> bootstrap "admin" p a = Ok a' -> bootstrap "admin" p' a' = Ok a'.
Proof. intros Hwf Hb. apply bootstrap_done_fixed, (bootstrap_establishes p a a' Hwf Hb). Qed.

(** C25: a restart fails when the admin is not named "admin".  Startup
    looks the admin up by the name 'admin' but creates it as
    [ADMIN_USERNAME]: with any other name, the first start creates the
    admin and the next start creates it again, and the commit raises on
    the UNIQUE username. *)
Theorem bootstrap_restart_fails (u p p' : string) (a a' : App) :
  u <> "admin" -> user_by_name (creds (app_site a)) "admin" = None -> bootstrap u p a = Ok a' ->
  bootstrap u p' a' = Raise (IntegrityError "user.username").
Proof.
  intros Hu Hn. unfold bootstrap at 1. rewrite Hn. destruct (seed_roles _) as [rid sh2].
  repeat case_match; intros E; simplify_eq. unfold bootstrap. simpl. destruct (seed_roles _) as [rid' sh2'].
  unfold user_by_name. rewrite first_key_None_insert; [| exact Hn | apply String.eqb_neq; exact Hu].
  rewrite bool_decide_eq_true_2; [reflexivity |].
  apply (first_key_is_Some _ _ _ _ (lookup_insert_eq _ _ _)). apply String.eqb_refl.
Qed.

(** C11: during maintenance, nobody but an admin changes anything except
    by signing in.  While the first [SiteConfig] row has
    [maintenance_mode] set, a request from a visitor whose role is not
    "admin" (in any case) leaves the users, the back office and the
    settings as they were, unless it is the login form. *)
Theorem maintenance_blocks_non_admin (rq : Request) (a : App) :
  snd (config_flags a) = true -> maintenance_admin (app_site a) (rq_now rq) (rq_cookie rq) = false ->
  (forall u p ip ex, rq_route rq <> RLogin u p ip ex) ->
  app_site (snd (serve rq a)) = app_site a /\ site_configs (snd (serve rq a)) = site_configs a.
Proof.
  intros Hm Hadm Hnl. destruct rq as [ck now r]. simpl in *. unfold serve. simpl.
  pose proof (maintenance_gate now ck r a Hm Hadm) as Hg.
  pose proof (check_maintenance_mode_state now ck (route_path r) (route_endpoint r) a) as Hs.
  destruct (check_maintenance_mode _ _ _ _ a) as [g a1]. simpl in Hg, Hs. subst a1 g.
  destruct r; try (split; reflexivity). exfalso. eapply Hnl. reflexivity.
Qed.

(** C26: a Stripe payment notified during maintenance is not recorded.
    Stripe posts to [/stripe/webhook] without a session cookie.  That
    path is neither a login path nor under [/api], and its endpoint is not
    [maintenance], so whenever the maintenance flag of the first
    [SiteConfig] row is on, the hook redirects the POST to the maintenance
    page, whatever event it carries and at every time: no handler runs and
    the site (accounts, counters, packages, subscriptions) is the one
    before.  Stripe gets a redirect instead of a 2xx, and the purchase or
    renewal is lost. *)
Theorem maintenance_drops_webhook (a : App) (now : Z) (input : WebhookInput) :
  snd (config_flags a) = true ->
  let rq := {| rq_cookie := None; rq_now := now; rq_route := RBackoffice (ReqWebhook input) |} in
  fst (serve rq a) = GateRedirectMaintenance /\ app_site (snd (serve rq a)) = app_site a.
Proof.
  intros Hm. unfold serve, check_maintenance_mode. simpl.
  destruct (config_flags a) as [rd mm]. simpl in Hm. subst mm. simpl. split; reflexivity.
Qed.

(** C36: During maintenance the API answers 503.  The hook's docstring
    lets API paths through; the code answers every non-admin request
    under [/api] (all the generation, prediction and story endpoints)
    with the JSON maintenance error, before any handler runs. *)
Theorem maintenance_api_json (now : Z) (cookie : option Claims) (path ep : string) (a : App) :
  snd (config_flags a) = true -> maintenance_admin (app_site a) now cookie = false ->
  String.prefix "/api" path = true ->
  check_maintenance_mode now cookie path ep a
    = (GateMaintenanceJson, app_with_flags a (fst (config_flags a)) true).
Proof.
  intros Hm Hadm Hapi. unfold check_maintenance_mode. destruct (config_flags a) as [rd mm]. simpl in *. subst mm.
  rewrite Hadm. destruct (api_path_not_login path Hapi) as [-> ->]. rewrite Hapi. reflexivity.
Qed.

(** Closing registration takes effect on the next request.  Once an
    admin saves the settings with registration disabled (and no
    maintenance), a registration request that follows creates no user:
    the hook reloads the flag from the row before the view reads it. *)
Theorem registration_closed_after_update (a : App) (now now' adm : Z) (cookie cookie' : option Claims)
    (username password email : string) :
  is_admin_user (app_site a) now cookie = Some adm ->
  app_site (snd (serve {| rq_cookie := cookie'; rq_now := now'; rq_route := RRegister username password email |}
                       (update_site_config now cookie true false a)))
  = app_site a.
Proof.
  intros Hadm. unfold serve, check_maintenance_mode, config_flags. simpl.
  rewrite (update_site_config_first _ _ _ _ _ _ Hadm). simpl. unfold register.
  rewrite update_site_config_site. case_match; reflexivity.
Qed.

(** ** Witnesses *)

Lemma app_lifecycle_wf_witness :
  match bootstrap "admin" "Adm1n!pw" (sample_app false) with
  | Ok a1 => wf_site (app_site (snd (serve webhook_request a1)))
  | Raise _ => False
  end.
Proof.
  destruct (bootstrap "admin" "Adm1n!pw" (sample_app false)) as [a1|e] eqn:E; [| vm_compute in E; discriminate].
  apply (app_lifecycle_wf "admin" "Adm1n!pw" (sample_app false) a1); [exact sample_site_wf | exact E |].
  apply rtc_once. constructor.
Defined.

Lemma bootstrap_idempotent_witness :
  match bootstrap "admin" "Adm1n!pw" (sample_app false) with
  | Ok a1 => bootstrap "admin" "changed" a1 = Ok a1
  | Raise _ => False
  end.
Proof.
  destruct (bootstrap "admin" "Adm1n!pw" (sample_app false)) as [a1|e] eqn:E; [| vm_compute in E; discriminate].
  exact (bootstrap_idempotent "Adm1n!pw" "changed" (sample_app false) a1 sample_site_wf E).
Defined.

Lemma bootstrap_restart_fails_witness :
  match bootstrap "root" "Adm1n!pw" (sample_app false) with
  | Ok a1 => bootstrap "root" "Adm1n!pw" a1 = Raise (IntegrityError "user.username")
  | Raise _ => False
  end.
Proof.
  destruct (bootstrap "root" "Adm1n!pw" (sample_app false)) as [a1|e] eqn:E; [| vm_compute in E; discriminate].
  apply (bootstrap_restart_fails "root" "Adm1n!pw" "Adm1n!pw" (sample_app false) a1); [discriminate | vm_compute; reflexivity | exact E].
Defined.

Lemma maintenance_blocks_non_admin_witness :
  app_site (snd (serve {| rq_cookie := None; rq_now := 0; rq_route := RRegister "eve" "Passw0rd!" "eve@example.com" |}
                       (sample_app true))) = sample_site.
Proof.
  apply (maintenance_blocks_non_admin {| rq_cookie := None; rq_now := 0; rq_route := RRegister "eve" "Passw0rd!" "eve@example.com" |}
           (sample_app true)); [vm_compute; reflexivity | vm_compute; reflexivity | intros; discriminate].
Defined.

Lemma maintenance_api_json_witness :
  fst (check_maintenance_mode 0 None "/api/generate_chapter" "generation.api_generate_chapter" (sample_app true))
  = GateMaintenanceJson.
Proof.
  rewrite (maintenance_api_json 0 None "/api/generate_chapter" "generation.api_generate_chapter" (sample_app true));
    [reflexivity | vm_compute; reflexivity | vm_compute; reflexivity | reflexivity].
Defined.

Lemma registration_closed_after_update_witness :
  app_site (snd (serve {| rq_cookie := None; rq_now := 5; rq_route := RRegister "eve" "Passw0rd!" "eve@example.com" |}
                       (update_site_config 0 (Some admin_session) true false admin_app)))
  = admin_site.
Proof. apply (registration_closed_after_update admin_app 0 5 3). vm_compute. reflexivity. Defined.

(** Stripe's notification of package 1 for user 1: dropped in maintenance,
    credited (500 text credits on top of 100) outside it. *)
Lemma maintenance_drops_webhook_witness :
  snd (config_flags (sample_app true)) = true
  /\ fst (serve webhook_request (sample_app true)) = GateRedirectMaintenance
  /\ app_site (snd (serve webhook_request (sample_app true))) = app_site (sample_app true)
  /\ option_map text_credits (users (bo_db (site_bo (app_site (snd (serve webhook_request (sample_app false))))))
                               !! 1) = Some (100 + 500)%Q.
Proof.
  assert (Hm : snd (config_flags (sample_app true)) = true) by reflexivity.
  split; [exact Hm |]. split; [| split].
  - exact (proj1 (maintenance_drops_webhook (sample_app true) 0 _ Hm)).
  - exact (proj2 (maintenance_drops_webhook (sample_app true) 0 _ Hm)).
  - vm_compute. reflexivity.
Defined.

End Site.
