(* ===== verification/Social.v ===== *)
(** * Favorites, flags, comments and notifications

    The community features of [src/api/story.py] ([toggle_favorite],
    [flag_story], [new_comment], [edit_comment], [delete_comment]), the
    decorator [is_comment_author_or_admin] of [src/helpers.py], the admin's
    [unflag_story] and [toggle_spotlight] ([src/api/admin.py]) and the
    notification endpoints of [src/api/profile.py].

    The state [Community] is the Auth site (users and the back office,
    whose database holds the stories and their owners) with the Story
    columns these handlers use ([SocialCols], a story without a row here
    has the columns' defaults), the association tables [favorites] and
    [story_flags] as the set of users per story, and the [Comment] and
    [Notification] tables.  The model files of [Comment] and
    [Notification] are not in the repository: their rows are the columns
    the handlers construct.  [notify] only emits a Socket.IO event and
    changes no table. *)

From Stdlib Require Import ZArith QArith Lia.
From stdpp Require Import base gmap strings list.
From S2P Require Import Prelude Pricing Ledger PyJson Store Billing Auth.

Local Open Scope Z_scope.

Module Social.
Import PyJson Store Billing Auth.

(** ** State *)

(** The columns of [models/Story.py] the community handlers read and write. *)
Record SocialCols := {
  so_title : string;
  so_shared : bool;
  so_spotlight : bool;
  so_flagged : bool;
  so_favorites_count : Z;
  so_is_mature : bool;
  so_tags : list string          (* the names of [story.tags] *)
}.

Definition social_default : SocialCols :=
  {| so_title := ""; so_shared := false; so_spotlight := false; so_flagged := false; so_favorites_count := 0;
     so_is_mature := false; so_tags := [] |}.

(** [Comment(story_id=..., user_id=..., username=..., message=...)]. *)
Record Comment := {
  cm_story : Z;
  cm_user : Z;
  cm_username : string;
  cm_message : string
}.

(** [Notification(user_id=..., story_id=..., message=...)], unread. *)
Record Notification := {
  nt_user : Z;
  nt_story : Z;
  nt_message : string;
  nt_read : bool
}.

Record Community := {
  cm_site : Site;
  social : gmap Z SocialCols;
  favorites : gmap Z (gset Z);     (* story id -> the users whose favorite_stories hold it *)
  story_flags : gmap Z (gset Z);   (* story id -> Story.flaggers *)
  comments : gmap Z Comment;
  next_comment_id : Z;
  notifications : gmap Z Notification;
  next_notification_id : Z
}.

Definition social_of (c : Community) (sid : Z) : SocialCols := default social_default (social c !! sid).
Definition favs_of (c : Community) (sid : Z) : gset Z := default ∅ (favorites c !! sid).
Definition flags_of (c : Community) (sid : Z) : gset Z := default ∅ (story_flags c !! sid).

(** [Story.query.get_or_404(story_id).user_id]. *)
Definition story_owner (c : Community) (sid : Z) : option Z :=
  option_map story_user_id (stories (bo_db (site_bo (cm_site c))) !! sid).

Definition with_social (c : Community) (sid : Z) (so : SocialCols) (fs fl : gset Z) : Community :=
  {| cm_site := cm_site c; social := <[sid := so]> (social c); favorites := <[sid := fs]> (favorites c);
     story_flags := <[sid := fl]> (story_flags c); comments := comments c; next_comment_id := next_comment_id c;
     notifications := notifications c; next_notification_id := next_notification_id c |}.

Definition with_site (c : Community) (s : Site) : Community :=
  {| cm_site := s; social := social c; favorites := favorites c; story_flags := story_flags c;
     comments := comments c; next_comment_id := next_comment_id c;
     notifications := notifications c; next_notification_id := next_notification_id c |}.

Definition with_comments (c : Community) (cs : gmap Z Comment) (next : Z) : Community :=
  {| cm_site := cm_site c; social := social c; favorites := favorites c; story_flags := story_flags c;
     comments := cs; next_comment_id := next; notifications := notifications c;
     next_notification_id := next_notification_id c |}.

Definition with_notifications (c : Community) (ns : gmap Z Notification) (next : Z) : Community :=
  {| cm_site := cm_site c; social := social c; favorites := favorites c; story_flags := story_flags c;
     comments := comments c; next_comment_id := next_comment_id c; notifications := ns;
     next_notification_id := next |}.

Definition so_with (so : SocialCols) (shared flagged spotlight : bool) (count : Z) : SocialCols :=
  {| so_title := so_title so; so_shared := shared; so_spotlight := spotlight; so_flagged := flagged;
     so_favorites_count := count; so_is_mature := so_is_mature so; so_tags := so_tags so |}.

(** [user.role.name], and the two ways the code compares it with "admin". *)
Definition user_role_name (s : Site) (uid : Z) : option string :=
  match accounts (bo_shop (site_bo s)) !! uid with
  | Some a => option_map role_name (roles (bo_shop (site_bo s)) !! acc_role a)
  | None => None
  end.

Definition role_is (s : Site) (uid : Z) (lower : bool) : bool :=
  match user_role_name s uid with
  | Some n => String.eqb (if lower then py_lower n else n) "admin"
  | None => false
  end.

Inductive SocialResponse :=
  | SRedirectLogin                          (* redirect(url_for("auth_views.login")) *)
  | SError (msg : string)                   (* jsonify({"error": msg}) or a plain 403 body *)
  | SFavorite (favorite : bool) (count : Z) (* {"favorite": ..., "favorites_count": ...} *)
  | SFlag (msg : string) (count : Z)        (* {"message": ..., "flag_count": ...} *)
  | SRedirect (flash : string)              (* flash(...); redirect(...) *)
  | SJson (spotlight : bool).               (* {"spotlight": ...} *)

(** ** Handlers *)

(** [toggle_favorite] (api/story.py, lines 681-719). *)
Definition toggle_favorite (now : Z) (cookie : option Claims) (sid : Z) (c : Community)
    : res SocialResponse * Community :=
  match get_current_user (creds (cm_site c)) now cookie with
  | None => (Ok SRedirectLogin, c)
  | Some u =>
    match story_owner c sid with
    | None => (Raise NotFound, c)
    | Some owner =>
      let so := social_of c sid in
      if u =? owner then (Ok (SError "You cannot favorite your own story."), c)
      else if negb (so_shared so) then (Ok (SError "You do not have permission to favorite this story."), c)
      else
        let fs := favs_of c sid in
        if bool_decide (u ∈ fs) then
          let n := so_favorites_count so - 1 in
          (Ok (SFavorite false n),
           with_social c sid (so_with so (so_shared so) (so_flagged so) (so_spotlight so) n) (fs ∖ {[u]}) (flags_of c sid))
        else
          let n := so_favorites_count so + 1 in
          (Ok (SFavorite true n),
           with_social c sid (so_with so (so_shared so) (so_flagged so) (so_spotlight so) n) ({[u]} ∪ fs) (flags_of c sid))
    end
  end.

(** Lines 760-762: [author.under_review = True], when the author exists. *)
Definition put_under_review (s : Site) (uid : Z) : Site :=
  match creds s !! uid with
  | Some cr => site_with_creds s (<[uid := cred_with_flags cr (cr_verified cr) (cr_is_locked cr) true
                                              (cr_password cr) (cr_last_ip cr)]> (creds s))
  | None => s
  end.

(** [flag_story] (api/story.py, lines 721-767). *)
Definition flag_story (now : Z) (cookie : option Claims) (sid : Z) (c : Community)
    : res SocialResponse * Community :=
  match get_current_user (creds (cm_site c)) now cookie with
  | None => (Ok SRedirectLogin, c)
  | Some u =>
    match story_owner c sid with
    | None => (Raise NotFound, c)
    | Some owner =>
      let so := social_of c sid in
      if negb (so_shared so) then (Ok (SError "This story is not shared publicly."), c)
      else if owner =? u then (Ok (SError "You cannot flag your own story."), c)
      else
        let fl := flags_of c sid in
        if bool_decide (u ∈ fl) then
          (Ok (SFlag "Flag removed." (Z.of_nat (size (fl ∖ {[u]})))),
           with_social c sid so (favs_of c sid) (fl ∖ {[u]}))
        else
          let fl' := {[u]} ∪ fl in
          if 5 <=? Z.of_nat (size fl') then
            (Ok (SFlag "Story has been flagged and removed from public view." 0),
             with_site (with_social c sid (so_with so false true (so_spotlight so) (so_favorites_count so))
                          (favs_of c sid) ∅)
                       (put_under_review (cm_site c) owner))
          else (Ok (SFlag "Story flagged." (Z.of_nat (size fl'))), with_social c sid so (favs_of c sid) fl')
    end
  end.

(** [new_comment] (api/story.py, lines 769-811).  [message] is
    [request.form.get("message")]; [if not message] refuses [None] and "". *)
Definition new_comment (now : Z) (cookie : option Claims) (sid : Z) (message : option string) (c : Community)
    : res SocialResponse * Community :=
  match get_current_user (creds (cm_site c)) now cookie with
  | None => (Ok SRedirectLogin, c)
  | Some u =>
    match story_owner c sid with
    | None => (Raise NotFound, c)
    | Some owner =>
      let so := social_of c sid in
      if negb (so_shared so) && negb (u =? owner) && negb (role_is (cm_site c) u true)
      then (Ok (SError "This story is private."), c)
      else match message with
        | None | Some "" => (Ok (SRedirect "Comment cannot be empty."), c)
        | Some m =>
          let username := match creds (cm_site c) !! u with Some cr => cr_username cr | None => "" end in
          let c1 := with_comments c (<[next_comment_id c := {| cm_story := sid; cm_user := u;
                                       cm_username := username; cm_message := m |}]> (comments c))
                                    (next_comment_id c + 1) in
          if negb (owner =? u) then
            (Ok (SRedirect "Comment posted."),
             with_notifications c1 (<[next_notification_id c1 := {| nt_user := owner; nt_story := sid;
                 nt_message := username +:+ " commented on your story '" +:+ so_title so +:+ "'.";
                 nt_read := false |}]> (notifications c1)) (next_notification_id c1 + 1))
          else (Ok (SRedirect "Comment posted."), c1)
        end
    end
  end.

(** [is_comment_author_or_admin] (helpers.py, lines 434-473), with the
    comment id from the URL. *)
Definition comment_guard (now : Z) (cookie : option Claims) (cid : Z) (c : Community)
    : option (res SocialResponse) :=
  match get_current_user (creds (cm_site c)) now cookie with
  | None => Some (Ok SRedirectLogin)
  | Some u =>
    match comments c !! cid with
    | None => Some (Ok (SError "Story not found"))
    | Some cm => if negb (cm_user cm =? u) && negb (role_is (cm_site c) u false)
                 then Some (Ok (SError "Unauthorized")) else None
    end
  end.

(** [edit_comment] (api/story.py, lines 813-845). *)
Definition edit_comment (now : Z) (cookie : option Claims) (cid : Z) (message : option string) (c : Community)
    : res SocialResponse * Community :=
  match comment_guard now cookie cid c with
  | Some r => (r, c)
  | None =>
    match comments c !! cid, message with
    | None, _ => (Raise NotFound, c)
    | Some _, (None | Some "") => (Ok (SRedirect "Comment cannot be empty."), c)
    | Some cm, Some m =>
      (Ok (SRedirect "Comment updated."),
       with_comments c (<[cid := {| cm_story := cm_story cm; cm_user := cm_user cm; cm_username := cm_username cm;
                                    cm_message := m |}]> (comments c)) (next_comment_id c))
    end
  end.

(** [delete_comment] (api/story.py, lines 847-874). *)
Definition delete_comment (now : Z) (cookie : option Claims) (cid : Z) (c : Community)
    : res SocialResponse * Community :=
  match comment_guard now cookie cid c with
  | Some r => (r, c)
  | None =>
    match comments c !! cid with
    | None => (Raise NotFound, c)
    | Some _ => (Ok (SRedirect "Comment deleted."), with_comments c (delete cid (comments c)) (next_comment_id c))
    end
  end.

(** [mark_all_notifications_read] (api/profile.py, lines 291-309). *)
Definition mark_all_read (now : Z) (cookie : option Claims) (c : Community) : res SocialResponse * Community :=
  match get_current_user (creds (cm_site c)) now cookie with
  | None => (Ok SRedirectLogin, c)
  | Some u =>
    (Ok (SRedirect "All notifications marked as read."),
     with_notifications c ((fun n => if (nt_user n =? u) && negb (nt_read n)
                                     then {| nt_user := nt_user n; nt_story := nt_story n; nt_message := nt_message n;
                                             nt_read := true |}
                                     else n) <$> notifications c) (next_notification_id c))
  end.

(** [clear_notifications] (api/profile.py, lines 312-330). *)
Definition clear_notifications (now : Z) (cookie : option Claims) (c : Community) : res SocialResponse * Community :=
  match get_current_user (creds (cm_site c)) now cookie with
  | None => (Ok SRedirectLogin, c)
  | Some u =>
    (Ok (SRedirect "Notifications cleared."),
     with_notifications c (filter (fun '(_, n) => nt_user n <> u) (notifications c)) (next_notification_id c))
  end.

(** [unflag_story] (api/admin.py, lines 251-274): only [flagged] is reset. *)
Definition unflag_story (now : Z) (cookie : option Claims) (sid : Z) (c : Community) : res SocialResponse * Community :=
  match is_admin_user (cm_site c) now cookie with
  | None => (Ok (SRedirect "index"), c)
  | Some _ =>
    match story_owner c sid with
    | None => (Raise NotFound, c)
    | Some _ =>
      let so := social_of c sid in
      (Ok (SRedirect "Story has been unflagged."),
       with_social c sid (so_with so (so_shared so) false (so_spotlight so) (so_favorites_count so))
         (favs_of c sid) (flags_of c sid))
    end
  end.

(** [toggle_spotlight] (api/admin.py, lines 557-583). *)
Definition toggle_spotlight (now : Z) (cookie : option Claims) (sid : Z) (c : Community) : res SocialResponse * Community :=
  match is_admin_user (cm_site c) now cookie with
  | None => (Ok (SRedirect "index"), c)
  | Some _ =>
    match story_owner c sid with
    | None => (Raise NotFound, c)
    | Some _ =>
      let so := social_of c sid in
      if negb (so_shared so) then (Ok (SError "Story must be public to be spotlighted."), c)
      else (Ok (SJson (negb (so_spotlight so))),
            with_social c sid (so_with so (so_shared so) (so_flagged so) (negb (so_spotlight so)) (so_favorites_count so))
              (favs_of c sid) (flags_of c sid))
    end
  end.

(** The admin's [delete_user] (Auth) on the community: SQLAlchemy deletes
    the user's rows of the two association tables ([favorites] through
    [User.favorite_stories], [story_flags] through the [flagged_stories]
    backref); the stories' [favorites_count] columns are not touched. *)
Definition delete_user_community (now : Z) (cookie : option Claims) (uid : Z) (c : Community)
    : res AdminUserResponse * Community :=
  match delete_user (cm_site c) cookie now uid with
  | (Ok AdmDone, s') =>
    (Ok AdmDone, {| cm_site := s'; social := social c; favorites := (fun fs => fs ∖ {[uid]}) <$> favorites c;
                    story_flags := (fun fl => fl ∖ {[uid]}) <$> story_flags c; comments := comments c;
                    next_comment_id := next_comment_id c; notifications := notifications c;
                    next_notification_id := next_notification_id c |})
  | (r, s') => (r, with_site c s')
  end.

(** ** The community as a transition system *)

Inductive SocialReq :=
  | QToggleFavorite (cookie : option Claims) (now sid : Z)
  | QFlagStory (cookie : option Claims) (now sid : Z)
  | QNewComment (cookie : option Claims) (now sid : Z) (message : option string)
  | QEditComment (cookie : option Claims) (now cid : Z) (message : option string)
  | QDeleteComment (cookie : option Claims) (now cid : Z)
  | QMarkAllRead (cookie : option Claims) (now : Z)
  | QClearNotifications (cookie : option Claims) (now : Z)
  | QUnflagStory (cookie : option Claims) (now sid : Z)
  | QToggleSpotlight (cookie : option Claims) (now sid : Z).

Definition handle_social (q : SocialReq) (c : Community) : Community :=
  match q with
  | QToggleFavorite ck now sid => snd (toggle_favorite now ck sid c)
  | QFlagStory ck now sid => snd (flag_story now ck sid c)
  | QNewComment ck now sid m => snd (new_comment now ck sid m c)
  | QEditComment ck now cid m => snd (edit_comment now ck cid m c)
  | QDeleteComment ck now cid => snd (delete_comment now ck cid c)
  | QMarkAllRead ck now => snd (mark_all_read now ck c)
  | QClearNotifications ck now => snd (clear_notifications now ck c)
  | QUnflagStory ck now sid => snd (unflag_story now ck sid c)
  | QToggleSpotlight ck now sid => snd (toggle_spotlight now ck sid c)
  end.

Inductive social_step : Community -> Community -> Prop :=
  | SocialStep (c : Community) (q : SocialReq) : social_step c (handle_social q c).

(** ** Invariant: the favorites counter counts the favorites, and a story
    has fewer than five flags *)

Definition favorites_consistent (c : Community) : Prop :=
  forall sid, so_favorites_count (social_of c sid) = Z.of_nat (size (favs_of c sid)).

Definition flags_below (c : Community) : Prop := forall sid, (size (flags_of c sid) < 5)%nat.

Definition social_inv (c : Community) : Prop := favorites_consistent c /\ flags_below c.

(** [c'] has the social columns and association tables of [c]. *)
Definition social_frame (c c' : Community) : Prop :=
  social c' = social c /\ favorites c' = favorites c /\ story_flags c' = story_flags c.

Lemma social_inv_frame (c c' : Community) : social_frame c c' -> social_inv c -> social_inv c'.
Proof.
  intros (Hs & Hf & Hl) [Hc Hb]. unfold social_inv, favorites_consistent, flags_below, social_of, favs_of, flags_of.
  rewrite Hs, Hf, Hl. split; [exact Hc | exact Hb].
Qed.

Lemma social_of_with (c : Community) (sid sid' : Z) (so : SocialCols) (fs fl : gset Z) :
  social_of (with_social c sid so fs fl) sid' = (if decide (sid = sid') then so else social_of c sid')
  /\ favs_of (with_social c sid so fs fl) sid' = (if decide (sid = sid') then fs else favs_of c sid')
  /\ flags_of (with_social c sid so fs fl) sid' = (if decide (sid = sid') then fl else flags_of c sid').
Proof.
  unfold social_of, favs_of, flags_of. simpl.
  destruct (decide (sid = sid')) as [<-|Hne]; [rewrite !lookup_insert_eq | rewrite !lookup_insert_ne by exact Hne];
    repeat split.
Qed.

Lemma social_inv_with (c : Community) (sid : Z) (so : SocialCols) (fs fl : gset Z) :
  social_inv c -> so_favorites_count so = Z.of_nat (size fs) -> (size fl < 5)%nat ->
  social_inv (with_social c sid so fs fl).
Proof.
  intros [Hc Hb] Hso Hfl. split; intros sid'; destruct (social_of_with c sid sid' so fs fl) as (E1 & E2 & E3);
    rewrite ?E1, ?E2, ?E3; destruct (decide (sid = sid')); auto.
Qed.

Lemma social_inv_site (c : Community) (s : Site) : social_inv c -> social_inv (with_site c s).
Proof. apply social_inv_frame. repeat split. Qed.

Lemma size_remove (u : Z) (X : gset Z) : u ∈ X -> Z.of_nat (size (X ∖ {[u]})) = Z.of_nat (size X) - 1.
Proof.
  intros Hu. pose proof (size_difference X {[u]} ltac:(set_solver)) as E. rewrite size_singleton in E.
  assert (size X <> 0%nat) by (intros Hz; apply size_empty_inv in Hz; set_solver). lia.
Qed.

Lemma size_add (u : Z) (X : gset Z) : u ∉ X -> Z.of_nat (size ({[u]} ∪ X)) = Z.of_nat (size X) + 1.
Proof. intros Hu. rewrite size_union by set_solver. rewrite size_singleton. lia. Qed.

Lemma size_remove_le (u : Z) (X : gset Z) : (size (X ∖ {[u]}) <= size X)%nat.
Proof. apply subseteq_size. set_solver. Qed.

Lemma toggle_favorite_inv (now : Z) (ck : option Claims) (sid : Z) (c : Community) :
  social_inv c -> social_inv (snd (toggle_favorite now ck sid c)).
Proof.
  intros Hi. pose proof Hi as [Hc Hb]. unfold toggle_favorite. repeat (case_bool_decide || case_match); simpl;
    try exact Hi; apply social_inv_with; try exact Hi; try apply Hb; simpl; rewrite (Hc sid).
  - rewrite size_remove by assumption. reflexivity.
  - rewrite size_add by assumption. reflexivity.
Qed.

Lemma flag_story_inv (now : Z) (ck : option Claims) (sid : Z) (c : Community) :
  social_inv c -> social_inv (snd (flag_story now ck sid c)).
Proof.
  intros Hi. pose proof Hi as [Hc Hb]. unfold flag_story. repeat (case_bool_decide || case_match); simpl; try exact Hi.
  - apply social_inv_with; [exact Hi | apply Hc |].
    match goal with |- (size (?X ∖ {[?v]}) < 5)%nat => pose proof (size_remove_le v X) end. pose proof (Hb sid). lia.
  - apply social_inv_site, social_inv_with; [exact Hi | apply Hc | rewrite size_empty; lia].
  - apply social_inv_with; [exact Hi | apply Hc |].
    match goal with H : (5 <=? _) = false |- _ => apply Z.leb_gt in H end. lia.
Qed.

Lemma handle_social_inv (q : SocialReq) (c : Community) : social_inv c -> social_inv (handle_social q c).
Proof.
  intros Hi. destruct q; simpl; [apply toggle_favorite_inv, Hi | apply flag_story_inv, Hi | ..].
  all: try (unfold unflag_story, toggle_spotlight; repeat case_match; simpl; try exact Hi;
            apply social_inv_with; [exact Hi | apply (proj1 Hi) | apply (proj2 Hi)]).
  all: apply (social_inv_frame c); [| exact Hi].
  all: unfold new_comment, edit_comment, delete_comment, mark_all_read, clear_notifications;
       repeat case_match; repeat split.
Qed.

(** ** Reading views ([src/views/story.py]) *)

Inductive ViewResponse :=
  | VRedirectLogin
  | VPrivate                               (* "This story is private.", 403 *)
  | VStory (st : Story)                    (* story/read.html with the story and its chapters *)
  | VComments (cs : gmap Z Comment).       (* story/story_comments.html: these rows, newest first, five a page *)

(** [story.author = User.query.get(story.user_id).username]: an
    AttributeError when the author's row is gone. *)
Definition author_name (c : Community) (owner : Z) : res string :=
  match creds (cm_site c) !! owner with
  | Some cr => Ok (cr_username cr)
  | None => Raise (AttributeError "username")
  end.

(** [read_story] (lines 220-245). *)
Definition read_story (now : Z) (cookie : option Claims) (sid : Z) (c : Community) : res ViewResponse :=
  match get_current_user (creds (cm_site c)) now cookie with
  | None => Ok VRedirectLogin
  | Some u =>
    match stories (bo_db (site_bo (cm_site c))) !! sid with
    | None => Raise NotFound
    | Some st =>
      match author_name c (story_user_id st) with
      | Raise e => Raise e
      | Ok _ =>
        if negb (so_shared (social_of c sid)) && negb (u =? story_user_id st) && negb (role_is (cm_site c) u true)
        then Ok VPrivate else Ok (VStory st)
      end
    end
  end.

(** [story_comments] (lines 247-269): no check of [story.shared]. *)
Definition story_comments (now : Z) (cookie : option Claims) (sid : Z) (c : Community) : res ViewResponse :=
  match get_current_user (creds (cm_site c)) now cookie with
  | None => Ok VRedirectLogin
  | Some u =>
    match story_owner c sid with
    | None => Raise NotFound
    | Some owner =>
      match author_name c owner with
      | Raise e => Raise e
      | Ok _ => Ok (VComments (filter (fun '(_, cm) => cm_story cm = sid) (comments c)))
      end
    end
  end.


(** ** [api_search_public_stories] (api/story.py, lines 876-940) *)

(** [str.strip()]. *)
Fixpoint py_lstrip (s : string) : string :=
  match s with
  | String c rest => if py_isspace c then py_lstrip rest else s
  | EmptyString => EmptyString
  end.

Definition py_strip (s : string) : string :=
  String.string_of_list_ascii (rev (String.list_ascii_of_string (py_lstrip
    (String.string_of_list_ascii (rev (String.list_ascii_of_string (py_lstrip s))))))).

(** [s.split(",")]. *)
Fixpoint py_split (sep : Ascii.ascii) (s : string) : list string :=
  match s with
  | EmptyString => [EmptyString]
  | String c rest =>
    if Ascii.eqb c sep then EmptyString :: py_split sep rest
    else match py_split sep rest with
         | w :: ws => String c w :: ws
         | [] => [String c EmptyString]
         end
  end.

(** SQL [LIKE]: [%] (character 37) matches any run of characters, [_]
    (character 95) any one. *)
Fixpoint sql_like (p s : string) : bool :=
  match p with
  | EmptyString => match s with EmptyString => true | _ => false end
  | String c p' =>
    if Ascii.eqb c (Ascii.ascii_of_nat 37) then
      (fix any (s : string) : bool :=
         sql_like p' s || match s with EmptyString => false | String _ s' => any s' end) s
    else match s with
      | EmptyString => false
      | String d s' => ((Ascii.eqb c (Ascii.ascii_of_nat 95)) || Ascii.eqb c d) && sql_like p' s'
      end
  end.

(** [Tag.name.ilike(f"%{t}%")]: [LIKE] on the lowercased operands. *)
Definition ilike (name pattern : string) : bool := sql_like (py_lower pattern) (py_lower name).

(** Lines 907-914: the filters.  [tags] is [request.args.get('tags', '')]. *)
Definition tag_terms (tags : string) : list string :=
  List.filter (fun t => negb (String.eqb t "")) (map py_strip (py_split (Ascii.ascii_of_nat 44) tags)).

Definition search_match (show_mature : bool) (tags : string) (st : Story) (so : SocialCols) : bool :=
  so_shared so && negb (bool_decide (story_chapters st = []))
  && (show_mature || negb (so_is_mature so))
  && forallb (fun t => existsb (fun n => ilike n ("%" +:+ t +:+ "%")) (so_tags so)) (tag_terms tags).

(** The stories found, before the [order_by] and the pages of nine
    ([paginate]) split them; [None] is the redirect of [@is_authenticated]. *)
Definition search_public_stories (now : Z) (cookie : option Claims) (tags : string) (c : Community)
    : option (gmap Z Story) :=
  match get_current_user (creds (cm_site c)) now cookie with
  | None => None
  | Some u =>
    let show := match creds (cm_site c) !! u with Some cr => cr_show_mature cr | None => false end in
    Some (filter (fun '(sid, st) => search_match show tags st (social_of c sid) = true)
                 (stories (bo_db (site_bo (cm_site c)))))
  end.

(** Every story found is shared, has a chapter, is not marked mature
    unless the user shows mature stories, and has, for every tag term, a
    tag whose name contains it (case aside). *)
Lemma search_public_stories_sound (now : Z) (cookie : option Claims) (tags : string) (c : Community)
    (found : gmap Z Story) (sid : Z) (st : Story) (u : Z) (cr : Credential) :
  get_current_user (creds (cm_site c)) now cookie = Some u -> creds (cm_site c) !! u = Some cr ->
  search_public_stories now cookie tags c = Some found -> found !! sid = Some st ->
  so_shared (social_of c sid) = true /\ story_chapters st <> []
  /\ (so_is_mature (social_of c sid) = true -> cr_show_mature cr = true)
  /\ Forall (fun t => exists n, In n (so_tags (social_of c sid)) /\ ilike n ("%" +:+ t +:+ "%") = true)
            (tag_terms tags).
Proof.
  intros Hu Hcr. unfold search_public_stories. rewrite Hu, Hcr. intros [= <-] Hf.
  apply map_lookup_filter_Some in Hf as [_ Hm]. unfold search_match in Hm.
  apply andb_true_iff in Hm as [Hm Ht]. apply andb_true_iff in Hm as [Hm Hmat].
  apply andb_true_iff in Hm as [Hsh Hch]. apply negb_true_iff, bool_decide_eq_false_1 in Hch.
  split; [exact Hsh | split; [exact Hch | split]].
  - intros Hm. rewrite Hm in Hmat. destruct (cr_show_mature cr); [reflexivity | discriminate].
  - apply Forall_forall. intros t Hin. apply list_elem_of_In in Hin.
    rewrite forallb_forall in Ht. apply existsb_exists, (Ht t Hin).
Qed.

(** ** A small community for the witnesses *)

(** Story 10 of [sample_backoffice] belongs to ada (user 1); bob (user 2)
    has it among his favorites; users 2, 4, 5 and 6 have flagged it. *)
Definition sample_community (shared : bool) : Community :=
  {| cm_site := admin_site;
     social := <[10 := {| so_title := "Storm"; so_shared := shared; so_spotlight := false; so_flagged := false;
                          so_favorites_count := 1; so_is_mature := false; so_tags := ["Fantasy"] |}]> ∅;
     favorites := <[10 := {[2]}]> ∅;
     story_flags := <[10 := {[2; 4; 5; 6]}]> ∅;
     comments := ∅; next_comment_id := 1; notifications := ∅; next_notification_id := 1 |}.

Definition bob_session : Claims := create_token 2 None 0 3600.

(** Searching " fantasy, " finds ada's shared story 10, tagged "Fantasy";
    searching "sci_fi" finds nothing. *)
Example search_sample :
  option_map (fun m => map fst (map_to_list m))
    (search_public_stories 10 (Some bob_session) " fantasy, " (sample_community true)) = Some [10]
  /\ option_map (fun m => map fst (map_to_list m))
    (search_public_stories 10 (Some bob_session) "sci_fi" (sample_community true)) = Some [].
Proof. split; vm_compute; reflexivity. Qed.

(** ** Properties *)

(** C23: the community's counters stay true.  Along any run of favorite
    toggles, flags, comments, notification updates, unflags and spotlight
    toggles, every story's [favorites_count] equals the number of users
    who have it among their favorites, and no story keeps five flags. *)
Theorem social_reachable_inv (c0 c : Community) : rtc social_step c0 c -> social_inv c0 -> social_inv c.
Proof.
  induction 1 as [|x y z Hxy _ IH]; intros Hi; [exact Hi |].
  apply IH. inversion Hxy; subst. apply handle_social_inv, Hi.
Qed.

(** A favorite of a story that is no longer shared cannot be removed.
    [toggle_favorite] refuses a story that is not shared before it looks
    at the user's favorites, so once a story is unshared (by its author,
    or by five flags) the users who favorited it keep it for good. *)
Theorem unshared_favorite_stuck (now : Z) (cookie : option Claims) (sid u owner : Z) (c : Community) :
  get_current_user (creds (cm_site c)) now cookie = Some u -> story_owner c sid = Some owner -> u <> owner ->
  so_shared (social_of c sid) = false -> u ∈ favs_of c sid ->
  toggle_favorite now cookie sid c = (Ok (SError "You do not have permission to favorite this story."), c).
Proof.
  intros Hu Ho Hne Hs _. unfold toggle_favorite. rewrite Hu, Ho, Hs, (proj2 (Z.eqb_neq _ _) Hne). reflexivity.
Qed.

(** C35: deleting a user leaves the favorites counters too high.  When
    the counters agree with the favorites table and the admin deletes a
    user who had a story among their favorites, the user's row of the
    favorites table goes with them ([delete_user] relies on the
    association table's cascade) but the story's [favorites_count] is not
    decremented: it counts one more favorite than the table holds. *)
Theorem delete_favoriter_overcounts (now : Z) (ck : option Claims) (uid sid : Z) (c : Community) :
  favorites_consistent c -> uid ∈ favs_of c sid ->
  fst (delete_user_community now ck uid c) = Ok AdmDone ->
  let c' := snd (delete_user_community now ck uid c) in
  so_favorites_count (social_of c' sid) = Z.of_nat (size (favs_of c' sid)) + 1.
Proof.
  intros Hc Hin Hok. unfold delete_user_community in *.
  destruct (delete_user (cm_site c) ck now uid) as [r s'].
  destruct r as [[] | e]; simpl in Hok |- *; try discriminate.
  transitivity (so_favorites_count (social_of c sid)); [reflexivity |]. rewrite (Hc sid).
  unfold favs_of in *. simpl. rewrite lookup_fmap.
  destruct (favorites c !! sid) as [fs|]; simpl in *; [| set_solver].
  rewrite size_remove by exact Hin. lia.
Qed.

(** C33: the fifth flag takes a story down.  When a user who has not
    flagged a shared story, and is not its author, adds the fifth flag,
    the story stops being shared and is marked flagged, its flags are
    cleared and its author is put under review. *)
Theorem fifth_flag_unpublishes (now : Z) (cookie : option Claims) (sid u owner : Z) (c : Community)
    (cr : Credential) :
  get_current_user (creds (cm_site c)) now cookie = Some u -> story_owner c sid = Some owner -> owner <> u ->
  so_shared (social_of c sid) = true -> u ∉ flags_of c sid -> size (flags_of c sid) = 4%nat ->
  creds (cm_site c) !! owner = Some cr ->
  fst (flag_story now cookie sid c) = Ok (SFlag "Story has been flagged and removed from public view." 0)
  /\ so_shared (social_of (snd (flag_story now cookie sid c)) sid) = false
  /\ so_flagged (social_of (snd (flag_story now cookie sid c)) sid) = true
  /\ flags_of (snd (flag_story now cookie sid c)) sid = ∅
  /\ exists cr', creds (cm_site (snd (flag_story now cookie sid c))) !! owner = Some cr' /\ cr_under_review cr' = true.
Proof.
  intros Hu Ho Hne Hs Hnin Hsz Hcr. unfold flag_story. rewrite Hu, Ho, Hs, (proj2 (Z.eqb_neq _ _) Hne). simpl.
  rewrite bool_decide_eq_false_2 by exact Hnin.
  rewrite (proj2 (Z.leb_le 5 _)) by (rewrite size_union by set_solver; rewrite size_singleton; lia).
  unfold put_under_review. rewrite Hcr. cbn [fst snd]. split; [reflexivity |].
  unfold social_of, flags_of. cbn [with_site with_social social story_flags cm_site creds site_with_creds].
  rewrite !lookup_insert_eq. cbn. repeat split. eexists; split; reflexivity.
Qed.

(** C22: the comments of a private story are shown to everyone.  A
    signed-in user who is neither the author nor an admin is refused a
    story that is not shared by [read_story], but [story_comments] has no
    such check and shows them all of the story's comments. *)
Theorem private_story_comments_leak (now : Z) (cookie : option Claims) (sid u : Z) (st : Story) (c : Community) :
  get_current_user (creds (cm_site c)) now cookie = Some u -> stories (bo_db (site_bo (cm_site c))) !! sid = Some st ->
  is_Some (creds (cm_site c) !! story_user_id st) -> so_shared (social_of c sid) = false ->
  u <> story_user_id st -> role_is (cm_site c) u true = false ->
  read_story now cookie sid c = Ok VPrivate
  /\ story_comments now cookie sid c = Ok (VComments (filter (fun '(_, cm) => cm_story cm = sid) (comments c))).
Proof.
  intros Hu Hst [cr Hcr] Hs Hne Hadm. unfold read_story, story_comments, story_owner, author_name.
  rewrite Hu, Hst. simpl. rewrite Hcr, Hs, Hadm, (proj2 (Z.eqb_neq _ _) Hne). split; reflexivity.
Qed.

(** ** Witnesses *)

Lemma sample_community_inv : social_inv (sample_community true).
Proof.
  split; intros sid; unfold social_of, favs_of, flags_of; simpl;
    destruct (decide (sid = 10)) as [->|Hne];
    [rewrite !lookup_insert_eq | rewrite !lookup_insert_ne, !lookup_empty by congruence
    | rewrite !lookup_insert_eq | rewrite !lookup_insert_ne, !lookup_empty by congruence];
    vm_compute; (reflexivity || lia).
Qed.

Lemma social_reachable_inv_witness :
  social_inv (sample_community true)
  /\ social_inv (handle_social (QToggleFavorite (Some bob_session) 10 10) (sample_community true)).
Proof.
  split; [exact sample_community_inv |].
  apply (social_reachable_inv (sample_community true));
    [apply rtc_once; constructor | exact sample_community_inv].
Defined.

(** The admin deletes bob (user 2), who had ada's story 10 among his
    favorites: the table is empty afterwards, the counter still says 1. *)
Lemma delete_favoriter_overcounts_witness :
  let c' := snd (delete_user_community 10 (Some admin_session) 2 (sample_community true)) in
  fst (delete_user_community 10 (Some admin_session) 2 (sample_community true)) = Ok AdmDone
  /\ favs_of c' 10 = ∅
  /\ so_favorites_count (social_of c' 10) = Z.of_nat (size (favs_of c' 10)) + 1.
Proof.
  assert (Hok : fst (delete_user_community 10 (Some admin_session) 2 (sample_community true)) = Ok AdmDone)
    by (vm_compute; reflexivity).
  split; [exact Hok |]. split; [vm_compute; reflexivity |].
  apply (delete_favoriter_overcounts 10 (Some admin_session) 2 10 (sample_community true));
    [exact (proj1 sample_community_inv) | vm_compute; set_solver | exact Hok].
Defined.

Lemma unshared_favorite_stuck_witness :
  toggle_favorite 10 (Some bob_session) 10 (sample_community false)
  = (Ok (SError "You do not have permission to favorite this story."), sample_community false).
Proof.
  apply (unshared_favorite_stuck 10 (Some bob_session) 10 2 1); [vm_compute; reflexivity | vm_compute; reflexivity
    | lia | vm_compute; reflexivity | vm_compute; set_solver].
Defined.

Lemma fifth_flag_unpublishes_witness :
  fst (flag_story 10 (Some admin_session) 10 (sample_community true))
  = Ok (SFlag "Story has been flagged and removed from public view." 0).
Proof.
  apply (fifth_flag_unpublishes 10 (Some admin_session) 10 3 1 (sample_community true) ada_cred);
    [vm_compute; reflexivity | vm_compute; reflexivity | lia | vm_compute; reflexivity
    | vm_compute; set_solver | vm_compute; reflexivity | vm_compute; reflexivity].
Defined.

Definition commented_community : Community :=
  with_comments (sample_community false)
    (<[1 := {| cm_story := 10; cm_user := 1; cm_username := "ada"; cm_message := "Notes for chapter 3" |}]> ∅) 2.

Lemma private_story_comments_leak_witness :
  read_story 10 (Some bob_session) 10 commented_community = Ok VPrivate
  /\ story_comments 10 (Some bob_session) 10 commented_community
     = Ok (VComments (filter (fun '(_, cm) => cm_story cm = 10) (comments commented_community))).
Proof.
  apply (private_story_comments_leak 10 (Some bob_session) 10 2 sample_story);
    [vm_compute; reflexivity | vm_compute; reflexivity | vm_compute; eexists; reflexivity | vm_compute; reflexivity
    | vm_compute; lia | vm_compute; reflexivity].
Defined.

End Social.
