(* ===== verification/Worker.v ===== *)
(** * Async Worker: the Celery tasks of [src/tasks.py]

    Each task looks its log row up, then runs [try: ... except Exception as e:
    ... finally: clear_user_generation_lock(user_id); db.session.remove()].
    The body calls the model provider (the [Reply] of the run: a text or an
    exception), decodes the output with the [json_loads] collaborator,
    replaces or updates the story's rows through the session, reconciles the
    cost with the estimator of [Pricing], debits the ledger, marks the log
    row and emits realtime events.  The handler marks the row failed and
    commits, which also makes durable whatever the body wrote before it
    raised. *)

From Stdlib Require Import ZArith QArith Lia.
From stdpp Require Import base gmap strings list.
From S2P Require Import Prelude Pricing Ledger Lock PyJson Store.

Local Open Scope Z_scope.

Module Worker.
Import Pricing Ledger Lock PyJson Store.

(** What the outside world answers during one run: the model provider's
    reply, and for images the download of the generated file and its upload
    to object storage. *)
Record Reply := {
  model_reply : res string;
  image_download : res unit;
  image_upload : res unit
}.

(** The value a task returns to Celery. *)
Inductive TaskReturn :=
  | RetSuccess
  | RetError (e : PyExc)
  | RetNotFound (what : string)
  | RetNone.

(** Marks of the log row. *)
Definition mark_succeeded (real : Q) (input_tokens output_tokens : Z) (model : string)
    (g : GenerationLog) : GenerationLog :=
  {| gl_id := gl_id g; gl_user_id := gl_user_id g; gl_task_id := gl_task_id g;
     gl_generation_type := gl_generation_type g; gl_predicted_cost := gl_predicted_cost g;
     gl_real_cost := Some real; gl_status := Succeeded; gl_error_message := gl_error_message g;
     gl_model := Some model; gl_input_tokens := input_tokens; gl_output_tokens := output_tokens |}.

Definition mark_image_succeeded (g : GenerationLog) : GenerationLog :=
  {| gl_id := gl_id g; gl_user_id := gl_user_id g; gl_task_id := gl_task_id g;
     gl_generation_type := gl_generation_type g; gl_predicted_cost := gl_predicted_cost g;
     gl_real_cost := gl_real_cost g; gl_status := Succeeded; gl_error_message := gl_error_message g;
     gl_model := Some "dall-e-3"; gl_input_tokens := gl_input_tokens g;
     gl_output_tokens := gl_output_tokens g |}.

Definition mark_failed (e : PyExc) (g : GenerationLog) : GenerationLog :=
  {| gl_id := gl_id g; gl_user_id := gl_user_id g; gl_task_id := gl_task_id g;
     gl_generation_type := gl_generation_type g; gl_predicted_cost := gl_predicted_cost g;
     gl_real_cost := gl_real_cost g; gl_status := Failed; gl_error_message := Some e;
     gl_model := gl_model g; gl_input_tokens := gl_input_tokens g;
     gl_output_tokens := gl_output_tokens g |}.

Section Tasks.
Context {L : Type} `{LockStore L}.
(** [count_tokens(text, model)] and [json.loads(text)] ([None]: the text
    does not decode). *)
Variable count_tokens : string -> string -> Z.
Variable json_loads : string -> option Json.

(** The [except Exception as e:] block shared by the text tasks. *)
Definition fail_task (log : option GenerationLog) (user_id story_id : Z)
    (failed_msg : string) (e : PyExc) : st (World L) TaskReturn :=
  match log with
  | Some g => update_log (gl_id g) (mark_failed e) ;; commit
  | None => st_ret tt
  end ;;
  emit (Notify user_id failed_msg) ;;
  emit (Emit user_id "generation_error" story_id) ;;
  st_ret (RetError e).

(** The [finally:] block of every task. *)
Definition task_finally (user_id : Z) : st (World L) unit :=
  clear_user_generation_lock user_id ;; session_remove.

(** The reconciliation block shared by the text tasks (e.g. lines
    169-178): actual cost from the measured output, debit of the real
    total, log row marked succeeded. *)
Definition reconcile_and_log
    (estimator : option TokenCostConfig -> list CreditConfig -> Z -> Z -> res CostBreakdown)
    (model : string) (log : option GenerationLog) (user_id predicted_input_tokens : Z)
    (output_text : string) : st (World L) unit :=
  d <- read_work id ;;
  actual <- st_of_res (estimator (token_config d) (credit_configs d) predicted_input_tokens
                                 (count_tokens output_text model)) ;;
  spend_credits user_id "text" (inject_Z (cb_total_credit_cost actual)) ;;
  match log with
  | Some g => update_log (gl_id g) (mark_succeeded (inject_Z (cb_total_credit_cost actual))
                                      (cb_input_tokens actual) (cb_output_tokens actual) model) ;;
              commit
  | None => st_ret tt
  end.

(** ** [generate_meta_task] (lines 114-199) *)

Definition meta_character (item : Json) : st (World L) Character :=
  name <- st_of_res (py_get item "name") ;;
  description <- st_of_res (py_get item "description") ;;
  dialogue <- st_of_res (py_get item "example_dialogue") ;;
  st_ret {| char_name := name; char_description := description;
            char_example_dialogue := dialogue |}.

Definition meta_location (item : Json) : st (World L) Location :=
  name <- st_of_res (py_get item "name") ;;
  description <- st_of_res (py_get item "description") ;;
  st_ret {| loc_name := name; loc_description := description |}.

(** Delete the story's characters and locations, then add one row per
    decoded item, each [db.session.add] a pending write. *)
Definition replace_meta (sid : Z) (result : Json) : st (World L) unit :=
  modify_story sid (fun s => story_with_meta s [] []) ;;
  chars <- st_of_res (py_get_default result "characters" (JArr [])) ;;
  items <- st_of_res (py_iter chars) ;;
  st_for items (fun item =>
    c <- meta_character item ;;
    modify_story sid (fun s => story_with_meta s (story_characters s ++ [c]) (story_locations s))) ;;
  locs <- st_of_res (py_get_default result "locations" (JArr [])) ;;
  litems <- st_of_res (py_iter locs) ;;
  st_for litems (fun item =>
    l <- meta_location item ;;
    modify_story sid (fun s => story_with_meta s (story_characters s) (story_locations s ++ [l]))) ;;
  commit.

(** [len(result.get("locations")) == 0 and len(result.get("characters")) == 0],
    with Python's short-circuit. *)
Definition meta_is_empty (result : Json) : res bool :=
  match py_get result "locations" with
  | Raise e => Raise e
  | Ok locs =>
    match py_len locs with
    | Raise e => Raise e
    | Ok nl =>
      if nl =? 0 then
        match py_get result "characters" with
        | Raise e => Raise e
        | Ok chars => match py_len chars with Raise e => Raise e | Ok nc => Ok (nc =? 0) end
        end
      else Ok false
    end
  end.

Definition meta_default_result : Json :=
  JObj [("locations", JArr []); ("characters", JArr [])].

(** [try: result = json.loads(text) except Exception: result = {...}]. *)
Definition meta_decode (text : string) : Json :=
  match json_loads text with Some j => j | None => meta_default_result end.

Definition generate_meta_task (task_id story_id : Z) (prompt : string) (user_id : Z)
    (predicted_input_tokens : Z) (r : Reply) : st (World L) TaskReturn :=
  d0 <- read_work id ;;
  let log := find_log d0 task_id user_id KMeta in
  try_except_finally
    (result_text <- st_of_res (model_reply r) ;;
     let result := meta_decode result_text in
     empty <- st_of_res (meta_is_empty result) ;;
     if empty then
       emit (Notify user_id "Metadata Generation Failed") ;;
       clear_user_generation_lock user_id ;;
       st_ret RetNone
     else
       d <- read_work id ;;
       let story := stories d !! story_id in
       match story with
       | Some _ => replace_meta story_id result
       | None => st_ret tt
       end ;;
       reconcile_and_log calculate_actual_meta_cost "gpt-4o-mini" log user_id
         predicted_input_tokens result_text ;;
       emit (Notify user_id "Metadata Generation Successful") ;;
       _ <- st_some "id" story ;;
       emit (Emit user_id "meta_generated" story_id) ;;
       st_ret RetSuccess)
    (fail_task log user_id story_id "Metadata Generation Failed")
    (task_finally user_id).

(** ** [generate_story_arcs_task] (lines 201-257) *)

Definition generate_story_arcs_task (task_id story_id : Z) (prompt : string) (user_id : Z)
    (predicted_input_tokens : Z) (r : Reply) : st (World L) TaskReturn :=
  d0 <- read_work id ;;
  let log := find_log d0 task_id user_id KStoryArcs in
  try_except_finally
    (arcs_text <- st_of_res (model_reply r) ;;
     arcs <- st_of_res (match json_loads arcs_text with
                        | Some j => Ok j | None => Raise JSONDecodeError end) ;;
     d <- read_work id ;;
     match stories d !! story_id with
     | Some _ =>
         modify_story story_id (fun s => story_with_arcs s []) ;;
         items <- st_of_res (py_iter arcs) ;;
         st_enumerate 0 items (fun index arc =>
           modify_story story_id (fun s =>
             story_with_arcs s (story_arcs s ++ [{| arc_text := arc; arc_order := index + 1 |}]))) ;;
         commit
     | None => st_ret tt
     end ;;
     reconcile_and_log calculate_actual_story_arcs_cost "o1-mini" log user_id
       predicted_input_tokens arcs_text ;;
     emit (Notify user_id "Story Arcs Generation Successful") ;;
     emit (Emit user_id "arcs_generated" story_id) ;;
     st_ret RetSuccess)
    (fail_task log user_id story_id "Story Arcs Generation Failed")
    (task_finally user_id).

(** ** [generate_summaries_task] (lines 259-338) *)

(** One entry of the decoded summaries: update the chapter of that
    number, or add a new one with the next id. *)
Definition upsert_summary (story : option Story) (story_id : Z) (index : Z) (chapter_data : Json)
    : st (World L) unit :=
  _ <- st_some "id" story ;;
  d <- read_work id ;;
  match find_chapter_by_number d story_id index with
  | None =>
      title <- st_of_res (py_get_default chapter_data "title" (JStr (chapter_default_title index))) ;;
      summary <- st_of_res (py_get_default chapter_data "summary" (JStr "")) ;;
      insert_chapter story_id (fun id =>
        {| ch_id := id; chapter_number := index; ch_title := title;
           ch_content := None; ch_summary := summary; chapter_image_key := None;
           chapter_image_prompt := None |}) ;;
      st_ret tt
  | Some c =>
      title <- st_of_res (py_get_default chapter_data "title" (ch_title c)) ;;
      summary <- st_of_res (py_get_default chapter_data "summary" (ch_summary c)) ;;
      replace_chapter story_id
        {| ch_id := ch_id c; chapter_number := chapter_number c; ch_title := title;
           ch_content := ch_content c; ch_summary := summary;
           chapter_image_key := chapter_image_key c; chapter_image_prompt := chapter_image_prompt c |}
  end.

Definition generate_summaries_task (task_id story_id : Z) (prompt : string) (user_id : Z)
    (predicted_input_tokens : Z) (r : Reply) : st (World L) TaskReturn :=
  d0 <- read_work id ;;
  let log := find_log d0 task_id user_id KSummaries in
  try_except_finally
    (d <- read_work id ;;
     let story := stories d !! story_id in
     text <- st_of_res (model_reply r) ;;
     (if py_strip_empty text
      then st_raise (ValueError "Empty response received for Chapter Summaries.")
      else st_ret tt) ;;
     summaries <- st_of_res (match json_loads text with
                             | Some j => Ok j
                             | None => Raise (ValueError "Failed to parse Chapter Summaries JSON")
                             end) ;;
     items <- st_of_res (py_iter summaries) ;;
     st_enumerate 1 items (upsert_summary story story_id) ;;
     commit ;;
     reconcile_and_log calculate_actual_summaries_cost "o1-mini" log user_id
       predicted_input_tokens text ;;
     emit (Notify user_id "Summaries Generation Successful") ;;
     _ <- st_some "chapters" story ;;
     emit (Emit user_id "summaries_generated" story_id) ;;
     st_ret RetSuccess)
    (fail_task log user_id story_id "Summaries Generation Failed")
    (task_finally user_id).

(** ** [generate_chapter_guide_task] (lines 340-435) *)

(** One part of one chapter: skipped when [arc] or [arc_text] is [None]. *)
Definition add_guide_part (story_id : Z) (chapter_title : string) (arc_obj : Json)
    : st (World L) unit :=
  arc_number <- st_of_res (py_get arc_obj "arc") ;;
  arc_text <- st_of_res (py_get arc_obj "arc_text") ;;
  characters <- st_of_res (py_get_default arc_obj "characters" (JArr [])) ;;
  locations <- st_of_res (py_get_default arc_obj "locations" (JArr [])) ;;
  match arc_text, arc_number with
  | JNull, _ | _, JNull => st_ret tt
  | _, _ =>
    work (fun d => db_with_guides d (<[story_id := default [] (guides d !! story_id) ++
      [{| cg_chapter_title := chapter_title; cg_part_index := arc_number;
          cg_part_text := arc_text; cg_characters := characters;
          cg_locations := locations |}]]> (guides d)))
  end.

Definition generate_chapter_guide_task (task_id story_id : Z) (full_prompt : string) (user_id : Z)
    (predicted_input_tokens : Z) (r : Reply) : st (World L) TaskReturn :=
  d0 <- read_work id ;;
  let log := find_log d0 task_id user_id KChapterGuide in
  try_except_finally
    (text <- st_of_res (model_reply r) ;;
     guide <- st_of_res (match json_loads text with
                         | Some j => Ok j | None => Raise JSONDecodeError end) ;;
     work (fun d => db_with_guides d (delete story_id (guides d))) ;;
     entries <- st_of_res (py_items guide) ;;
     st_for entries (fun '(chapter_title, arcs_list) =>
       parts <- st_of_res (py_iter arcs_list) ;;
       st_for parts (add_guide_part story_id chapter_title)) ;;
     commit ;;
     reconcile_and_log calculate_actual_chapter_guide_cost "o1-mini" log user_id
       predicted_input_tokens text ;;
     emit (Notify user_id "Detailed Story Arcs Generation Successful") ;;
     emit (Emit user_id "chapter_guide_generated" story_id) ;;
     st_ret RetSuccess)
    (fail_task log user_id story_id "Detailed Story Arcs Generation Failed")
    (task_finally user_id).

(** ** [generate_chapter_task] (lines 437-496) *)

Definition generate_chapter_task (task_id story_id : Z) (prompt : string) (chapter_number : Z)
    (user_id : Z) (predicted_input_tokens : Z) (r : Reply) : st (World L) TaskReturn :=
  d0 <- read_work id ;;
  let log := find_log d0 task_id user_id KChapter in
  try_except_finally
    (content <- st_of_res (model_reply r) ;;
     d <- read_work id ;;
     let chapter := find_chapter_by_number d story_id chapter_number in
     match chapter with
     | Some c => replace_chapter story_id
         {| ch_id := ch_id c; chapter_number := Store.chapter_number c; ch_title := ch_title c;
            ch_content := Some content; ch_summary := ch_summary c;
            chapter_image_key := chapter_image_key c; chapter_image_prompt := chapter_image_prompt c |}
     | None => st_ret tt
     end ;;
     commit ;;
     reconcile_and_log calculate_actual_chapter_cost "o1-mini" log user_id
       predicted_input_tokens content ;;
     emit (Notify user_id "Chapter Generation Successful") ;;
     _ <- st_some "title" chapter ;;
     emit (Emit user_id "chapter_generated" story_id) ;;
     st_ret RetSuccess)
    (fail_task log user_id story_id "Chapter Generation Failed")
    (task_finally user_id).

(** ** [generate_image_task] (lines 38-112) *)

Definition generate_image_task (task_id story_id : Z) (image_key : string) (prompt : string)
    (user_id : Z) (credit_cost : Q) (chapter_id : option Z) (r : Reply)
    : st (World L) TaskReturn :=
  d0 <- read_work id ;;
  let log := find_log d0 task_id user_id KImage in
  try_except_finally
    (_ <- st_of_res (image_download r) ;;
     d <- read_work id ;;
     found <- match chapter_id with
       | None =>
         match stories d !! story_id with
         | None => emit (Notify user_id "Story not found") ;; st_ret false
         | Some _ =>
           _ <- st_of_res (image_upload r) ;;
           modify_story story_id (fun s => story_with_cover s (Some image_key)) ;;
           st_ret true
         end
       | Some cid =>
         match find_chapter_by_id d story_id cid with
         | None => emit (Notify user_id "Chapter not found") ;; st_ret false
         | Some c =>
           _ <- st_of_res (image_upload r) ;;
           replace_chapter story_id
             {| ch_id := ch_id c; chapter_number := chapter_number c; ch_title := ch_title c;
                ch_content := ch_content c; ch_summary := ch_summary c;
                chapter_image_key := Some image_key;
                chapter_image_prompt := chapter_image_prompt c |} ;;
           st_ret true
         end
       end ;;
     if negb found then
       st_ret (RetNotFound (match chapter_id with None => "Story not found." | Some _ => "Chapter not found." end))
     else
       commit ;;
       spend_credits user_id "image" credit_cost ;;
       match log with
       | Some g => update_log (gl_id g) mark_image_succeeded ;; commit
       | None => st_ret tt
       end ;;
       emit (Notify user_id "Image Generation Complete") ;;
       emit (Emit user_id "image_generated" story_id) ;;
       st_ret RetSuccess)
    (fun e =>
       rollback ;;
       match log with
       | Some g => update_log (gl_id g) (mark_failed e) ;; commit
       | None => st_ret tt
       end ;;
       emit (Notify user_id "Image Generation Failed") ;;
       emit (Emit user_id "generation_error" story_id) ;;
       st_ret (RetError e))
    (task_finally user_id).

(** ** The worker entry point: one queued job, run in a fresh session. *)

Definition run_task (task_id : Z) (t : TaskSpec) (r : Reply) : st (World L) TaskReturn :=
  begin_session ;;
  match t with
  | ImageTask sid key prompt u cost cid => generate_image_task task_id sid key prompt u cost cid r
  | MetaTask sid prompt u toks => generate_meta_task task_id sid prompt u toks r
  | StoryArcsTask sid prompt u toks => generate_story_arcs_task task_id sid prompt u toks r
  | SummariesTask sid prompt u toks => generate_summaries_task task_id sid prompt u toks r
  | ChapterGuideTask sid prompt u toks => generate_chapter_guide_task task_id sid prompt u toks r
  | ChapterTask sid prompt n u toks => generate_chapter_task task_id sid prompt n u toks r
  end.

End Tasks.

(** ** Properties of the worker *)

(** Symbolic execution of a task: unfold the monad and the session
    operations, leaving the queries ([find_*], [lookup]) and the estimators
    folded so that hypotheses about them can be rewritten. *)
Ltac st_unfold :=
  repeat progress unfold begin_session, try_except_finally, st_bind, st_ret,
    st_of_res, st_raise, st_modify, read_work, work, commit, session_remove, rollback, emit,
    clear_user_generation_lock, task_finally, reconcile_and_log, fail_task, replace_chapter,
    modify_story, spend_credits, update_log, st_some.

(** The first call to the outside world a job makes. *)
Definition provider_result (t : TaskSpec) (r : Reply) : res unit :=
  match t with
  | ImageTask _ _ _ _ _ _ => image_download r
  | _ => match model_reply r with Ok _ => Ok tt | Raise e => Raise e end
  end.

Section WorkerProperties.
Context {L : Type} `{LockStoreLaws L}.
Variable count_tokens : string -> string -> Z.
Variable json_loads : string -> option Json.

(** The [finally] block leaves the user's lock absent, whatever ran
    before it. *)
Lemma task_finally_clears {A} (body : st (World L) A) (h : PyExc -> st (World L) A)
    (u t : Z) (w : World L) :
  lock_held (w_locks (snd (try_except_finally body h (task_finally u) w))) t u = false.
Proof.
  destruct (try_finally_runs body h (task_finally u) w) as [w2 ->].
  simpl. apply clear_lock_frees.
Qed.

(** C1: the lock-release guarantee.  However a job ends (success, an
    exception anywhere in its body, malformed or empty output, a missing
    story or chapter), the generation lock of its user is absent when the
    worker returns, at every time. *)
Theorem run_task_releases_lock (task_id : Z) (t : TaskSpec) (r : Reply) (w : World L) (now : Z) :
  lock_held (w_locks (snd (run_task count_tokens json_loads task_id t r w))) now (task_user t)
    = false.
Proof.
  destruct t; simpl; apply task_finally_clears.
Qed.

(** C2: a failing provider call costs nothing.  When the model provider
    (or, for an image, the download) raises, the committed database after
    the run is the one before it with only the job's log row marked
    [failed] with the exception: no counter is debited, no story row
    changes. *)
Theorem provider_failure_no_debit (task_id : Z) (t : TaskSpec) (r : Reply) (w : World L) (e : PyExc) :
  provider_result t r = Raise e ->
  w_db (snd (run_task count_tokens json_loads task_id t r w))
    = match find_log (w_db w) task_id (task_user t) (task_kind t) with
      | Some g => db_with_logs (w_db w) (map (fun g' => if gl_id g' =? gl_id g then mark_failed e g' else g')
                                           (logs (w_db w))) (next_log_id (w_db w))
      | None => w_db w
      end.
Proof.
  unfold provider_result, run_task, generate_image_task, generate_meta_task,
    generate_story_arcs_task, generate_summaries_task, generate_chapter_guide_task,
    generate_chapter_task. intros Hr.
  destruct t; simpl in Hr |- *;
    [ rewrite Hr
    | .. ];
    try (destruct (model_reply r) as [?|e'] eqn:Em; [discriminate | injection Hr as ->]);
    cbn; destruct (find_log (w_db w) _ _ _); reflexivity.
Qed.

(** C3: cost conservation on success.  When the chapter job's provider
    call returns [content], the chapter exists, the estimator reconciles to
    [actual] and the user and the log row exist, the committed ledger is
    the old one with the user debited exactly the reconciled total, and
    the log row is marked succeeded with that total and the token counts
    the estimator used. *)
Theorem chapter_task_debits_actual_cost (task_id sid n u toks : Z) (prompt content : string)
    (r : Reply) (w : World L) (c : Chapter) (actual : CostBreakdown) (uc : UserCredits)
    (g : GenerationLog) :
  model_reply r = Ok content ->
  find_chapter_by_number (w_db w) sid n = Some c ->
  calculate_actual_chapter_cost (token_config (w_db w)) (credit_configs (w_db w)) toks
    (count_tokens content "o1-mini") = Ok actual ->
  users (w_db w) !! u = Some uc ->
  find_log (w_db w) task_id u KChapter = Some g ->
  let w' := snd (run_task count_tokens json_loads task_id (ChapterTask sid prompt n u toks) r w) in
  users (w_db w') = <[u := spend_on uc "text" (inject_Z (cb_total_credit_cost actual))]> (users (w_db w))
  /\ logs (w_db w') = map (fun g' => if gl_id g' =? gl_id g
                                    then mark_succeeded (inject_Z (cb_total_credit_cost actual))
                                           toks (count_tokens content "o1-mini") "o1-mini" g'
                                    else g') (logs (w_db w)).
Proof.
  intros Hr Hc Ha Hu Hg.
  pose proof Ha as Ha'. apply credit_cost_ok in Ha' as (_ & _ & _ & _ & _ & _ & _ & _ & _ & Hin & Hout).
  unfold run_task, generate_chapter_task. st_unfold.
  rewrite Hr. simpl. rewrite Hc, Hg. simpl. rewrite Ha. simpl. rewrite Hu. simpl.
  rewrite Hin, Hout. split; reflexivity.
Qed.

(** C20: a chapter job whose chapter is missing is billed and then marked
    failed.  The body debits the user, marks the row succeeded and commits,
    then reads [chapter.title] on [None]; the handler re-marks the same row
    [failed], so the status goes [succeeded -> failed] and the user pays
    for a job reported as failed. *)
Theorem chapter_task_missing_chapter_billed_then_failed (task_id sid n u toks : Z)
    (prompt content : string) (r : Reply) (w : World L) (actual : CostBreakdown)
    (uc : UserCredits) (g : GenerationLog) :
  model_reply r = Ok content ->
  find_chapter_by_number (w_db w) sid n = None ->
  calculate_actual_chapter_cost (token_config (w_db w)) (credit_configs (w_db w)) toks
    (count_tokens content "o1-mini") = Ok actual ->
  users (w_db w) !! u = Some uc ->
  find_log (w_db w) task_id u KChapter = Some g ->
  let w' := snd (run_task count_tokens json_loads task_id (ChapterTask sid prompt n u toks) r w) in
  users (w_db w') = <[u := spend_on uc "text" (inject_Z (cb_total_credit_cost actual))]> (users (w_db w))
  /\ logs (w_db w') =
       map (fun g' => if gl_id g' =? gl_id g
                      then mark_failed (AttributeError "title")
                             (mark_succeeded (inject_Z (cb_total_credit_cost actual))
                                toks (count_tokens content "o1-mini") "o1-mini" g')
                      else g') (logs (w_db w))
  /\ w_events w' = w_events w ++ [Notify u "Chapter Generation Successful";
                                  Notify u "Chapter Generation Failed";
                                  Emit u "generation_error" sid].
Proof.
  intros Hr Hc Ha Hu Hg.
  pose proof Ha as Ha'. apply credit_cost_ok in Ha' as (_ & _ & _ & _ & _ & _ & _ & _ & _ & Hin & Hout).
  unfold run_task, generate_chapter_task. st_unfold.
  rewrite Hr. simpl. rewrite Hc, Hg. simpl. rewrite Ha. simpl. rewrite Hu. simpl.
  rewrite Hin, Hout. split; [reflexivity | split].
  - rewrite map_map. apply map_ext. intros g'.
    destruct (gl_id g' =? gl_id g) eqn:E; simpl; rewrite ?E; reflexivity.
  - now rewrite <- !app_assoc.
Qed.

(** C37: An empty metadata result is not recorded as a failure.  When the
    decoded output (or the fallback for undecodable text) has no characters
    and no locations, the task notifies the user and returns [None]: nothing
    is committed, so the log row keeps the status it had ([pending]) and no
    credit is debited. *)
Theorem meta_task_empty_result_leaves_log_pending (task_id sid u toks : Z) (prompt text : string)
    (r : Reply) (w : World L) :
  model_reply r = Ok text ->
  meta_is_empty (meta_decode json_loads text) = Ok true ->
  let res_w := run_task count_tokens json_loads task_id (MetaTask sid prompt u toks) r w in
  fst res_w = Ok RetNone /\ w_db (snd res_w) = w_db w
  /\ w_events (snd res_w) = w_events w ++ [Notify u "Metadata Generation Failed"].
Proof.
  intros Hr He.
  unfold run_task, generate_meta_task. st_unfold.
  rewrite Hr. simpl. rewrite He. simpl. repeat split.
Qed.

End WorkerProperties.

(** A decoder for the witnesses that knows a few outputs (["empty-metadata"] stands for
    the JSON text of an object with two empty lists, ["partial-metadata"]
    for one whose second character is the number 3). *)

Definition sample_json_loads (text : string) : option Json :=
  if String.eqb text "{}" then Some (JObj [])
  else if String.eqb text "empty-metadata"
  then Some (JObj [("characters", JArr []); ("locations", JArr [])])
  else if String.eqb text "partial-metadata"
  then Some (JObj [("characters", JArr [JObj [("name", JStr "Ada")]; JNum 3]);
                   ("locations", JArr [JObj [("name", JStr "Harbour")]])])
  else None.

Definition reply_text (text : string) : Reply :=
  {| model_reply := Ok text; image_download := Ok tt; image_upload := Ok tt |}.

Definition reply_raises (e : PyExc) : Reply :=
  {| model_reply := Raise e; image_download := Raise e; image_upload := Raise e |}.

Lemma run_task_releases_lock_witness :
  lock_held (w_locks (snd (run_task sample_count_tokens sample_json_loads 7 (ChapterTask 10 "prompt" 1 1 5000)
                             (reply_text "Chapter text.")
                             (world_with_locks (sample_world 100 KChapter) {[1 := 2000]})))) 0 1 = false.
Proof.
  exact (run_task_releases_lock sample_count_tokens sample_json_loads 7 (ChapterTask 10 "prompt" 1 1 5000)
           (reply_text "Chapter text.") (world_with_locks (sample_world 100 KChapter) {[1 := 2000]}) 0).
Defined.

Lemma provider_failure_no_debit_witness :
  provider_result (ChapterTask 10 "prompt" 1 1 5000) (reply_raises (ModelCallError "timeout"))
    = Raise (ModelCallError "timeout") /\
  users (w_db (snd (run_task sample_count_tokens sample_json_loads 7 (ChapterTask 10 "prompt" 1 1 5000)
                      (reply_raises (ModelCallError "timeout")) (sample_world 100 KChapter))))
    = users (sample_db 100 KChapter).
Proof.
  split; [reflexivity |].
  rewrite (provider_failure_no_debit sample_count_tokens sample_json_loads 7 (ChapterTask 10 "prompt" 1 1 5000)
             (reply_raises (ModelCallError "timeout")) (sample_world 100 KChapter) (ModelCallError "timeout")
             eq_refl).
  reflexivity.
Defined.

Lemma chapter_task_debits_actual_cost_witness :
  match calculate_actual_chapter_cost (Some sample_config) [] 5000
          (sample_count_tokens "It was a dark and stormy night." "o1-mini") with
  | Ok actual =>
    let w' := snd (run_task sample_count_tokens sample_json_loads 7 (ChapterTask 10 "prompt" 1 1 5000)
                     (reply_text "It was a dark and stormy night.") (sample_world 100 KChapter)) in
    users (w_db w') = <[1 := spend_on {| text_credits := 100; image_credits := 10; audio_credits := 0 |}
                              "text" (inject_Z (cb_total_credit_cost actual))]>
                        (users (sample_db 100 KChapter))
  | Raise _ => False
  end.
Proof.
  destruct (calculate_actual_chapter_cost (Some sample_config) [] 5000
              (sample_count_tokens "It was a dark and stormy night." "o1-mini")) as [actual|] eqn:E;
    [| vm_compute in E; discriminate].
  apply (chapter_task_debits_actual_cost sample_count_tokens sample_json_loads 7 10 1 1 5000 "prompt"
           "It was a dark and stormy night." (reply_text "It was a dark and stormy night.")
           (sample_world 100 KChapter) (sample_chapter 100 1 "Opening") actual
           {| text_credits := 100; image_credits := 10; audio_credits := 0 |}
           (sample_log 1 7 KChapter 20)); [reflexivity | reflexivity | exact E | reflexivity | reflexivity].
Defined.

Lemma chapter_task_missing_chapter_billed_then_failed_witness :
  match calculate_actual_chapter_cost (Some sample_config) [] 5000
          (sample_count_tokens "Chapter text." "o1-mini") with
  | Ok actual =>
    let w' := snd (run_task sample_count_tokens sample_json_loads 7 (ChapterTask 10 "prompt" 5 1 5000)
                     (reply_text "Chapter text.") (sample_world 100 KChapter)) in
    users (w_db w') = <[1 := spend_on {| text_credits := 100; image_credits := 10; audio_credits := 0 |}
                              "text" (inject_Z (cb_total_credit_cost actual))]>
                        (users (sample_db 100 KChapter))
  | Raise _ => False
  end.
Proof.
  destruct (calculate_actual_chapter_cost (Some sample_config) [] 5000
              (sample_count_tokens "Chapter text." "o1-mini")) as [actual|] eqn:E;
    [| vm_compute in E; discriminate].
  apply (chapter_task_missing_chapter_billed_then_failed sample_count_tokens sample_json_loads
           7 10 5 1 5000 "prompt" "Chapter text." (reply_text "Chapter text.")
           (sample_world 100 KChapter) actual
           {| text_credits := 100; image_credits := 10; audio_credits := 0 |}
           (sample_log 1 7 KChapter 20)); [reflexivity | reflexivity | exact E | reflexivity | reflexivity].
Defined.

Lemma meta_task_empty_result_leaves_log_pending_witness :
  model_reply (reply_text "empty-metadata") = Ok "empty-metadata" /\
  meta_is_empty (meta_decode sample_json_loads "empty-metadata") = Ok true /\
  w_db (snd (run_task sample_count_tokens sample_json_loads 7 (MetaTask 10 "prompt" 1 800)
                (reply_text "empty-metadata") (sample_world 100 KMeta))) = sample_db 100 KMeta.
Proof.
  split; [reflexivity | split; [vm_compute; reflexivity |]].
  apply (meta_task_empty_result_leaves_log_pending sample_count_tokens sample_json_loads 7 10 1 800
           "prompt" "empty-metadata" (reply_text "empty-metadata") (sample_world 100 KMeta));
    [reflexivity | vm_compute; reflexivity].
Defined.

(** Scenario D of the specification does not hold: the replacement of
    a story's metadata is not all-or-nothing.  When the second decoded
    character is not an object, [.get] raises after the old rows were
    deleted and the first new character added; the handler's commit makes
    that half-applied replacement durable, the row is marked failed and no
    credit is debited. *)
Theorem meta_task_partial_replacement_committed :
  let w' := snd (run_task sample_count_tokens sample_json_loads 7 (MetaTask 10 "prompt" 1 800)
                   (reply_text "partial-metadata") (sample_world 100 KMeta)) in
  option_map story_characters (stories (w_db w') !! 10)
    = Some [{| char_name := JStr "Ada"; char_description := JNull; char_example_dialogue := JNull |}]
  /\ option_map story_locations (stories (w_db w') !! 10) = Some []
  /\ users (w_db w') = users (sample_db 100 KMeta)
  /\ map gl_status (logs (w_db w')) = [Failed].
Proof. vm_compute. repeat split. Qed.

End Worker.
