(* ===== verification/Dispatch.v ===== *)
(** * Job Dispatcher: the generation endpoints of [src/api/generation.py]

    Each endpoint is a handler in the world monad: the decorator
    [is_story_author_or_admin] ([helpers.py]), the overdraft guard
    [is_last_generation_and_negative_creds], the story lookup, for some kinds
    the generation lock, the estimate, the affordability check, then
    [try: task = X.delay(...); GenerationLog(...); commit ... except: clear
    the lock; 500].  An exception a handler does not catch is Flask's 500
    response: the handler's result is then [Raise e].

    The prompt text is the rendering collaborator [render_prompt]; its token
    count is [count_tokens].  The broker's answer to [.delay] is the
    [enqueue_ok] outcome of the request. *)

From Stdlib Require Import ZArith QArith Lia.
From stdpp Require Import base gmap strings list pretty.
From S2P Require Import Prelude Pricing Ledger Lock PyJson Store.

Local Open Scope Z_scope.

Module Dispatch.
Import Pricing Ledger Lock PyJson Store.

(** The HTTP responses of the endpoints. *)
Inductive Response :=
  | RespRedirectLogin                                (* no current user *)
  | RespBadRequest (msg : string)                    (* 400 *)
  | RespNotFound (msg : string)                      (* 404 *)
  | RespForbidden                                    (* 403 "Unauthorized" *)
  | RespTopUp                                        (* {"error": True} *)
  | RespNotEnoughCredits (required : Q) (available : option Q)  (* 400 *)
  | RespInProgress                                   (* 400 *)
  | RespQueued (task_id : option Z) (predicted : Q)  (* "status": "queued" *)
  | RespServerError (e : PyExc)                      (* 500 from an [except] *)
  | RespPredicted (total : Q)                        (* the predict_* endpoints *)
  | RespMessage (msg : string).                      (* jsonify({"message": ...}) *)

(** The request: the current user (from the access token), whether the
    user's role is "admin", and the JSON body's fields. *)
Record Request := {
  rq_user : Z;
  rq_admin : bool;
  rq_story_id : option Z
}.

(** Chapters in [chapter_number] order ([order_by(Chapter.chapter_number)]). *)
Fixpoint insert_by_number (c : Chapter) (l : list Chapter) : list Chapter :=
  match l with
  | [] => [c]
  | c' :: rest => if chapter_number c <? chapter_number c' then c :: l
                  else c' :: insert_by_number c rest
  end.

Definition sorted_chapters (s : Story) : list Chapter :=
  fold_right insert_by_number [] (story_chapters s).

Section Handlers.
Context {L : Type} `{LockStore L}.
(** The rendered prompt of a kind for a story (and a chapter index), and
    [count_tokens(text, model)]. *)
Variable render_prompt : GenKind -> DB -> Z -> Z -> string.
Variable count_tokens : string -> string -> Z.

Definition prompt_tokens (k : GenKind) (d : DB) (sid idx : Z) (model : string) : Z :=
  count_tokens (render_prompt k d sid idx) model.

(** [@is_story_author_or_admin] ([helpers.py], lines 475-512): a current
    user, a story id, the story, and ownership or the admin role; it
    hands the handler the user's counters and the story. *)
Definition decorator (d : DB) (rq : Request) : Response + (UserCredits * Z * Story) :=
  match users d !! rq_user rq with
  | None => inl RespRedirectLogin
  | Some uc =>
    match rq_story_id rq with
    | None => inl (RespBadRequest "story_id not provided")
    | Some sid =>
      match stories d !! sid with
      | None => inl (RespNotFound "Story not found")
      | Some s => if (story_user_id s =? rq_user rq) || rq_admin rq then inr (uc, sid, s)
                  else inl RespForbidden
      end
    end
  end.

(** [task = X.delay(...)]: the broker assigns the next task id. *)
Definition enqueue (enqueue_ok : res unit) (t : TaskSpec) : st (World L) Z :=
  _ <- st_of_res enqueue_ok ;;
  fun w => (Ok (w_next_task_id w),
            world_with_queue w (w_queue w ++ [(w_next_task_id w, t)]) (w_next_task_id w + 1)).

(** The [try:] block closing every single-job endpoint: enqueue, log the
    job as pending with its prediction, commit, notify; on an exception,
    notify, clear the user's lock and answer 500. *)
Definition queue_and_log (enqueue_ok : res unit) (u : Z) (t : TaskSpec) (k : GenKind)
    (predicted : Q) (real : option Q) (generating failed : string) (resp_task_id : bool)
    : st (World L) Response :=
  try_except_finally
    (tid <- enqueue enqueue_ok t ;;
     add_log u tid k (Some predicted) real ;;
     commit ;;
     emit (Notify u generating) ;;
     st_ret (RespQueued (if resp_task_id then Some tid else None) predicted))
    (fun e => emit (Notify u failed) ;; clear_user_generation_lock u ;; st_ret (RespServerError e))
    (st_ret tt).

(** The opening shared by the generation endpoints: the decorator, then
    [if is_last_generation_and_negative_creds(user, kind): notify(...);
    return {"error": True}]. *)
Definition guarded (rq : Request) (k : GenKind)
    (body : DB -> UserCredits -> Z -> Story -> st (World L) Response) : st (World L) Response :=
  d <- read_work id ;;
  match decorator d rq with
  | inl resp => st_ret resp
  | inr (uc, sid, s) =>
    if is_last_generation_and_negative_creds d (rq_user rq) uc k
    then emit (Notify (rq_user rq) "Top up your credits to see generation") ;; st_ret RespTopUp
    else body d uc sid s
  end.

(** [if not can_spend_credits(user, "text", total): notify(...); return 400]. *)
Definition not_enough (u : Z) (uc : UserCredits) (total : Q) : st (World L) Response :=
  emit (Notify u "You Don't Have Enough Credits!") ;;
  st_ret (RespNotEnoughCredits total (Some (text_credits uc))).

(** ** [api_generate_meta] (lines 358-415): no lock. *)
Definition api_generate_meta (enqueue_ok : res unit) (rq : Request) : st (World L) Response :=
  guarded rq KMeta (fun d uc sid s =>
    let u := rq_user rq in
    let toks := prompt_tokens KMeta d sid 0 "gpt-4o-mini" in
    prediction <- st_of_res (calculate_predicted_meta_cost (token_config d) (credit_configs d) toks) ;;
    let total := inject_Z (cb_total_credit_cost prediction) in
    if negb (can_spend_credits uc "text" total) then not_enough u uc total
    else queue_and_log enqueue_ok u (MetaTask sid (render_prompt KMeta d sid 0) u toks) KMeta
           total None "Generating Metadata..." "Metadata Generation Failed" true).

(** ** [api_generate_arcs] (lines 417-486): no lock. *)
Definition api_generate_arcs (enqueue_ok : res unit) (rq : Request) : st (World L) Response :=
  guarded rq KStoryArcs (fun d uc sid s =>
    let u := rq_user rq in
    let toks := prompt_tokens KStoryArcs d sid 0 "o1-mini" in
    prediction <- st_of_res (calculate_predicted_story_arcs_cost (token_config d) (credit_configs d) toks) ;;
    let total := inject_Z (cb_total_credit_cost prediction) in
    if negb (can_spend_credits uc "text" total) then not_enough u uc total
    else queue_and_log enqueue_ok u (StoryArcsTask sid (render_prompt KStoryArcs d sid 0) u toks)
           KStoryArcs total None "Generating Story Arcs..." "Story Arcs Generation Failed" true).

(** ** [api_generate_summaries] (lines 488-552): the lock is taken before
    the estimate and is not released when the credits do not suffice. *)
Definition api_generate_summaries (enqueue_ok : res unit) (rq : Request) : st (World L) Response :=
  guarded rq KSummaries (fun d uc sid s =>
    let u := rq_user rq in
    ok <- set_user_generation_lock u ;;
    if negb ok then
      emit (Notify u "A generation task is already in progress") ;; st_ret RespInProgress
    else
      let toks := prompt_tokens KSummaries d sid 0 "o1-mini" in
      prediction <- st_of_res (calculate_predicted_summaries_cost (token_config d) (credit_configs d)
                                 toks (chapters_count s)) ;;
      let total := inject_Z (cb_total_credit_cost prediction) in
      if negb (can_spend_credits uc "text" total) then not_enough u uc total
      else queue_and_log enqueue_ok u (SummariesTask sid (render_prompt KSummaries d sid 0) u toks)
             KSummaries total None "Generating Summaries..." "Summaries Generation Failed" true).

(** ** [api_generate_chapter_guide] (lines 554-633): no lock. *)
Definition api_generate_chapter_guide (enqueue_ok : res unit) (rq : Request) : st (World L) Response :=
  guarded rq KChapterGuide (fun d uc sid s =>
    let u := rq_user rq in
    let toks := prompt_tokens KChapterGuide d sid 0 "o1-mini" in
    prediction <- st_of_res (calculate_predicted_chapter_guide_cost (token_config d) (credit_configs d) toks) ;;
    let total := inject_Z (cb_total_credit_cost prediction) in
    if negb (can_spend_credits uc "text" total) then not_enough u uc total
    else queue_and_log enqueue_ok u (ChapterGuideTask sid (render_prompt KChapterGuide d sid 0) u toks)
           KChapterGuide total None "Generating Detailed Story Arcs..."
           "Detailed Story Arcs Generation Failed" true).

(** ** [api_generate_chapter] (lines 635-755): the lock is released on
    every early return the handler writes; an exception it does not catch
    (an [IndexError] from [chapters[chapter_number - 1]]) leaves it held. *)
Definition api_generate_chapter (enqueue_ok : res unit) (rq : Request) (chapter_number : Z)
    : st (World L) Response :=
  guarded rq KChapter (fun d uc sid s =>
    let u := rq_user rq in
    ok <- set_user_generation_lock u ;;
    if negb ok then
      emit (Notify u "A generation task is already in progress") ;; st_ret RespInProgress
    else
      let n := Z.of_nat (length (sorted_chapters s)) in
      if (n =? 0) || (n <? chapter_number) then
        clear_user_generation_lock u ;; st_ret (RespBadRequest "Chapter data not found.")
      else
        (if py_index_ok n (chapter_number - 1) then st_ret tt else st_raise IndexError) ;;
        let toks := prompt_tokens KChapter d sid (chapter_number - 1) "o1-mini" in
        prediction <- st_of_res (calculate_predicted_chapter_cost (token_config d) (credit_configs d)
                                   n (chapter_number - 1) toks) ;;
        let total := inject_Z (cb_total_credit_cost prediction) in
        if negb (can_spend_credits uc "text" total) then
          emit (Notify u "You Don't Have Enough Credits!") ;;
          clear_user_generation_lock u ;;
          st_ret (RespNotEnoughCredits total (Some (text_credits uc)))
        else queue_and_log enqueue_ok u
               (ChapterTask sid (render_prompt KChapter d sid (chapter_number - 1)) chapter_number u toks)
               KChapter total None "Generating Chapter..." "Chapter Generation Failed" true).

(** ** [api_generate_all_chapters] (lines 757-874) *)

(** The loop of lines 806-868: one job and one log row per chapter, the
    [i]-th job asking for chapter number [i + 1]. *)
Fixpoint dispatch_chapters (enqueue_ok : res unit) (u sid : Z) (d : DB) (n : Z)
    (chs : list Chapter) (i : Z) : st (World L) unit :=
  match chs with
  | [] => st_ret tt
  | _ :: rest =>
    let toks := prompt_tokens KChapter d sid i "o1-mini" in
    chapter_prediction <- st_of_res (calculate_predicted_chapter_cost (token_config d)
                                       (credit_configs d) n i toks) ;;
    tid <- enqueue enqueue_ok (ChapterTask sid (render_prompt KChapter d sid i) (i + 1) u toks) ;;
    add_log u tid KChapter (Some (inject_Z (cb_total_credit_cost chapter_prediction))) None ;;
    commit ;;
    dispatch_chapters enqueue_ok u sid d n rest (i + 1)
  end.

Definition api_generate_all_chapters (enqueue_ok : res unit) (rq : Request) : st (World L) Response :=
  guarded rq KChapter (fun d uc sid s =>
    let u := rq_user rq in
    ok <- set_user_generation_lock u ;;
    if negb ok then
      emit (Notify u "A generation task is already in progress") ;; st_ret RespInProgress
    else
      let chs := sorted_chapters s in
      let n := Z.of_nat (length chs) in
      prediction_all <- st_of_res (calculate_predicted_all_chapters_cost (token_config d)
                         (credit_configs d) (map (fun i => prompt_tokens KChapter d sid i "o1-mini")
                                                 (seqZ 0 n))) ;;
      let total := inject_Z prediction_all.1 in
      if negb (can_spend_credits uc "text" total) then
        emit (Notify u "You Don't Have Enough Credits!") ;;
        clear_user_generation_lock u ;;
        st_ret (RespNotEnoughCredits total (Some (text_credits uc)))
      else
        dispatch_chapters enqueue_ok u sid d n chs 0 ;;
        emit (Notify u "Generating All Chapters...") ;;
        st_ret (RespQueued None total)).

(** ** [api_generate_cover_image] (lines 231-293): no lock; the log row
    gets [real_cost = prediction] at creation. *)
Definition api_generate_cover_image (enqueue_ok : res unit) (rq : Request) (cover_prompt : string)
    : st (World L) Response :=
  guarded rq KImage (fun d uc sid s =>
    let u := rq_user rq in
    modify_story sid (fun s => story_with_cover_prompt s (Some cover_prompt)) ;;
    commit ;;
    prediction <- st_of_res (calculate_image_cost (token_config d) (credit_configs d)) ;;
    let total := ic_total_credit_cost prediction in
    if negb (can_spend_credits uc "image" total) then
      emit (Notify u "You don't have enough credits!") ;; st_ret (RespNotEnoughCredits total None)
    else queue_and_log enqueue_ok u
           (ImageTask sid ("stories/" +:+ pretty sid +:+ "/cover.jpg") cover_prompt u total None)
           KImage total (Some total) "Generating Cover Image..." "Cover Image Generation Failed" false).

(** ** [api_generate_chapter_image] (lines 296-356) *)
Definition api_generate_chapter_image (enqueue_ok : res unit) (rq : Request) (chapter_id : Z)
    (chapter_prompt : string) : st (World L) Response :=
  guarded rq KImage (fun d uc sid s =>
    let u := rq_user rq in
    match find_chapter_by_id d sid chapter_id with
    | None => st_ret (RespNotFound "404 Not Found")
    | Some c =>
      replace_chapter sid
        {| ch_id := ch_id c; chapter_number := chapter_number c; ch_title := ch_title c;
           ch_content := ch_content c; ch_summary := ch_summary c;
           chapter_image_key := chapter_image_key c; chapter_image_prompt := Some chapter_prompt |} ;;
      commit ;;
      prediction <- st_of_res (calculate_image_cost (token_config d) (credit_configs d)) ;;
      let total := ic_total_credit_cost prediction in
      if negb (can_spend_credits uc "image" total) then
        emit (Notify u "You don't have enough credits!") ;; st_ret (RespNotEnoughCredits total None)
      else queue_and_log enqueue_ok u
             (ImageTask sid ("stories/" +:+ pretty sid +:+ "/chapters/" +:+ pretty chapter_id +:+ ".jpg")
                chapter_prompt u total (Some chapter_id))
             KImage total None "Generating Chapter Image..." "Chapter Image Generation Failed" false
    end).

(** ** The [predict_*_cost] endpoints (lines 64-229): the estimate of the
    kind, without a job. *)
Definition predict_cost (rq : Request) (k : GenKind) (chapter_number : Z) : st (World L) Response :=
  d <- read_work id ;;
  match decorator d rq with
  | inl resp => st_ret resp
  | inr (_, sid, s) =>
    let n := Z.of_nat (length (sorted_chapters s)) in
    let toks m idx := prompt_tokens k d sid idx m in
    let cfg := token_config d in
    let rows := credit_configs d in
    total <- st_of_res (match k with
      | KMeta => match calculate_predicted_meta_cost cfg rows (toks "gpt-4o-mini" 0) with
                 | Ok b => Ok (inject_Z (cb_total_credit_cost b)) | Raise e => Raise e end
      | KStoryArcs => match calculate_predicted_story_arcs_cost cfg rows (toks "o1-mini" 0) with
                 | Ok b => Ok (inject_Z (cb_total_credit_cost b)) | Raise e => Raise e end
      | KChapterGuide => match calculate_predicted_chapter_guide_cost cfg rows (toks "o1-mini" 0) with
                 | Ok b => Ok (inject_Z (cb_total_credit_cost b)) | Raise e => Raise e end
      | KSummaries => match calculate_predicted_summaries_cost cfg rows (toks "o1-mini" 0)
                              (chapters_count s) with
                 | Ok b => Ok (inject_Z (cb_total_credit_cost b)) | Raise e => Raise e end
      | KChapter => match calculate_predicted_chapter_cost cfg rows n (chapter_number - 1)
                            (toks "o1-mini" (chapter_number - 1)) with
                 | Ok b => Ok (inject_Z (cb_total_credit_cost b)) | Raise e => Raise e end
      | KImage => match calculate_image_cost cfg rows with
                 | Ok ic => Ok (ic_total_credit_cost ic) | Raise e => Raise e end
      end) ;;
    st_ret (RespPredicted total)
  end.

(** [predict_all_chapters_cost] (lines 185-207). *)
Definition predict_all_chapters_cost (rq : Request) : st (World L) Response :=
  d <- read_work id ;;
  match decorator d rq with
  | inl resp => st_ret resp
  | inr (_, sid, s) =>
    let n := Z.of_nat (length (sorted_chapters s)) in
    prediction_all <- st_of_res (calculate_predicted_all_chapters_cost (token_config d)
                       (credit_configs d) (map (fun i => prompt_tokens KChapter d sid i "o1-mini")
                                               (seqZ 0 n))) ;;
    st_ret (RespPredicted (inject_Z prediction_all.1))
  end.

(** Flask runs a handler in a fresh session and removes the session at
    teardown, whether the handler returned or raised. *)
Definition flask_request (h : st (World L) Response) : st (World L) Response :=
  begin_session ;; try_except_finally h (fun e => st_raise e) session_remove.

End Handlers.

(** ** Properties of the dispatcher *)

Ltac dispatch_unfold :=
  repeat progress unfold flask_request, guarded, not_enough, queue_and_log, enqueue,
    begin_session, try_except_finally, st_bind, st_ret, st_of_res, st_raise, st_modify, read_work,
    work, commit, session_remove, rollback, emit, clear_user_generation_lock,
    set_user_generation_lock, add_log, modify_story, replace_chapter.

Section DispatchProperties.
Context {L : Type} `{LockStoreLaws L}.
Variable render_prompt : GenKind -> DB -> Z -> Z -> string.
Variable count_tokens : string -> string -> Z.

(** C13: Scenario B.  A chapter request whose prediction exceeds the text
    balance is answered [Not enough credits] with the required and the
    available amounts; no job is queued, no log row is written, and the
    lock the request took is released before it returns. *)
Theorem chapter_dispatch_insufficient_credits (enqueue_ok : res unit) (rq : Request)
    (chapter_number : Z) (w : World L) (uc : UserCredits) (sid : Z) (s : Story) (b : CostBreakdown) :
  let n := Z.of_nat (length (sorted_chapters s)) in
  decorator (w_db w) rq = inr (uc, sid, s) ->
  is_last_generation_and_negative_creds (w_db w) (rq_user rq) uc KChapter = false ->
  lock_held (w_locks w) (w_now w) (rq_user rq) = false ->
  1 <= chapter_number <= n ->
  calculate_predicted_chapter_cost (token_config (w_db w)) (credit_configs (w_db w)) n
    (chapter_number - 1) (prompt_tokens render_prompt count_tokens KChapter (w_db w) sid
                            (chapter_number - 1) "o1-mini") = Ok b ->
  can_spend_credits uc "text" (inject_Z (cb_total_credit_cost b)) = false ->
  let '(r, w') := flask_request (api_generate_chapter render_prompt count_tokens enqueue_ok rq
                                   chapter_number) w in
  r = Ok (RespNotEnoughCredits (inject_Z (cb_total_credit_cost b)) (Some (text_credits uc)))
  /\ w_db w' = w_db w /\ w_queue w' = w_queue w
  /\ lock_held (w_locks w') (w_now w') (rq_user rq) = false.
Proof.
  intros n Hd Hg Hl Hn Hp Hc.
  unfold api_generate_chapter. dispatch_unfold. simpl.
  rewrite Hd, Hg. simpl.
  destruct (set_lock (w_locks w) (w_now w) (rq_user rq) default_expire) as [ok l'] eqn:Es.
  pose proof (set_lock_free (w_locks w) (w_now w) (rq_user rq) default_expire Hl ltac:(reflexivity))
    as [Hok _].
  rewrite Es in Hok. simpl in Hok. subst ok. simpl.
  fold n.
  replace ((n =? 0) || (n <? chapter_number)) with false by (symmetry; apply orb_false_iff; split; lia).
  replace (py_index_ok n (chapter_number - 1)) with true
    by (symmetry; unfold py_index_ok; apply andb_true_iff; split; lia).
  simpl. rewrite Hp. simpl. rewrite Hc. simpl.
  repeat split. apply clear_lock_frees.
Qed.

(** C19: the summaries endpoint leaks its lock.  It takes the generation
    lock before estimating, and its [Not enough credits] return does not
    clear it: the rejected request leaves the user's lock held, so every
    locking endpoint answers [already in progress] until the lock expires. *)
Theorem summaries_dispatch_insufficient_credits_keeps_lock (enqueue_ok : res unit) (rq : Request)
    (w : World L) (uc : UserCredits) (sid : Z) (s : Story) (b : CostBreakdown) :
  decorator (w_db w) rq = inr (uc, sid, s) ->
  is_last_generation_and_negative_creds (w_db w) (rq_user rq) uc KSummaries = false ->
  lock_held (w_locks w) (w_now w) (rq_user rq) = false ->
  calculate_predicted_summaries_cost (token_config (w_db w)) (credit_configs (w_db w))
    (prompt_tokens render_prompt count_tokens KSummaries (w_db w) sid 0 "o1-mini")
    (chapters_count s) = Ok b ->
  can_spend_credits uc "text" (inject_Z (cb_total_credit_cost b)) = false ->
  let '(r, w') := flask_request (api_generate_summaries render_prompt count_tokens enqueue_ok rq) w in
  r = Ok (RespNotEnoughCredits (inject_Z (cb_total_credit_cost b)) (Some (text_credits uc)))
  /\ w_db w' = w_db w /\ w_queue w' = w_queue w
  /\ lock_held (w_locks w') (w_now w') (rq_user rq) = true.
Proof.
  intros Hd Hg Hl Hp Hc.
  unfold api_generate_summaries. dispatch_unfold. simpl.
  rewrite Hd, Hg. simpl.
  pose proof (set_lock_free (w_locks w) (w_now w) (rq_user rq) default_expire Hl ltac:(reflexivity))
    as [Hok Hheld].
  destruct (set_lock (w_locks w) (w_now w) (rq_user rq) default_expire) as [ok l'] eqn:Es.
  simpl in Hok, Hheld. subst ok. simpl.
  rewrite Hp. simpl. rewrite Hc. simpl.
  repeat split. exact Hheld.
Qed.

(** C27: Scenario C.  While the user's lock is held, a request to a
    locking endpoint (summaries, one chapter, all chapters) is answered
    [already in progress]: no job is queued, no log row is written, and
    the lock is left as it was. *)
Theorem locking_dispatch_lock_held_rejected (enqueue_ok : res unit) (rq : Request) (chapter_number : Z)
    (w : World L) (uc : UserCredits) (sid : Z) (s : Story) (k : GenKind) :
  decorator (w_db w) rq = inr (uc, sid, s) ->
  is_last_generation_and_negative_creds (w_db w) (rq_user rq) uc k = false ->
  lock_held (w_locks w) (w_now w) (rq_user rq) = true ->
  forall h, h = api_generate_summaries render_prompt count_tokens enqueue_ok rq /\ k = KSummaries
         \/ h = api_generate_chapter render_prompt count_tokens enqueue_ok rq chapter_number /\ k = KChapter
         \/ h = api_generate_all_chapters render_prompt count_tokens enqueue_ok rq /\ k = KChapter ->
  let '(r, w') := flask_request h w in
  r = Ok RespInProgress /\ w_db w' = w_db w /\ w_queue w' = w_queue w /\ w_locks w' = w_locks w.
Proof.
  intros Hd Hg Hl h Hh.
  destruct Hh as [[-> ->] | [[-> ->] | [-> ->]]];
    unfold api_generate_summaries, api_generate_chapter, api_generate_all_chapters;
    dispatch_unfold; simpl; rewrite Hd, Hg; simpl;
    rewrite (set_lock_held (w_locks w) (w_now w) (rq_user rq) default_expire Hl);
    simpl; repeat split.
Qed.

(** C28: the overdraft guard.  When the user's most recent log row (the
    last of their rows in the log) has the requested kind and the counter
    of that kind (image credits for an image, text credits otherwise) is
    at most zero, zero included, every generation endpoint answers
    [{"error": True}] with a top-up notification and changes nothing
    else. *)
Theorem overdraft_guard_blocks (rq : Request) (k : GenKind) (w : World L) (uc : UserCredits)
    (sid : Z) (s : Story) (body : DB -> UserCredits -> Z -> Story -> st (World L) Response)
    (l1 l2 : list GenerationLog) (g : GenerationLog) :
  decorator (w_db w) rq = inr (uc, sid, s) ->
  logs (w_db w) = l1 ++ g :: l2 -> gl_user_id g = rq_user rq ->
  Forall (fun g' => gl_user_id g' <> rq_user rq) l2 ->
  gl_generation_type g = k ->
  (balance uc (if k is KImage then ImageCredits else Text) <= 0)%Q ->
  let '(r, w') := flask_request (guarded rq k body) w in
  r = Ok RespTopUp /\ w_db w' = w_db w /\ w_queue w' = w_queue w /\ w_locks w' = w_locks w
  /\ w_events w' = w_events w ++ [Notify (rq_user rq) "Top up your credits to see generation"].
Proof.
  intros Hd Hl Hu Hl2 Hk Hb.
  assert (Hg : is_last_generation_and_negative_creds (w_db w) (rq_user rq) uc k = true).
  { unfold is_last_generation_and_negative_creds.
    rewrite (last_log_of_user_app _ _ l1 l2 g Hl Hu Hl2), bool_decide_eq_true_2 by exact Hk.
    destruct k; apply Qle_bool_iff; exact Hb. }
  dispatch_unfold. simpl. rewrite Hd, Hg. simpl. repeat split.
Qed.

(** A successful metadata request queues exactly one job and writes
    exactly one log row, [pending], for that job's task id, with the
    predicted total; the lock is not touched (the endpoint takes none). *)
Theorem meta_dispatch_queues_one_pending_job (rq : Request) (w : World L) (uc : UserCredits)
    (sid : Z) (s : Story) (b : CostBreakdown) :
  let d := w_db w in
  let toks := prompt_tokens render_prompt count_tokens KMeta d sid 0 "gpt-4o-mini" in
  decorator d rq = inr (uc, sid, s) ->
  is_last_generation_and_negative_creds d (rq_user rq) uc KMeta = false ->
  calculate_predicted_meta_cost (token_config d) (credit_configs d) toks = Ok b ->
  can_spend_credits uc "text" (inject_Z (cb_total_credit_cost b)) = true ->
  let '(r, w') := flask_request (api_generate_meta render_prompt count_tokens (Ok tt) rq) w in
  r = Ok (RespQueued (Some (w_next_task_id w)) (inject_Z (cb_total_credit_cost b)))
  /\ w_queue w' = w_queue w ++ [(w_next_task_id w, MetaTask sid (render_prompt KMeta d sid 0) (rq_user rq) toks)]
  /\ logs (w_db w') = logs d ++
       [{| gl_id := next_log_id d; gl_user_id := rq_user rq; gl_task_id := w_next_task_id w;
           gl_generation_type := KMeta; gl_predicted_cost := Some (inject_Z (cb_total_credit_cost b));
           gl_real_cost := None; gl_status := Pending; gl_error_message := None; gl_model := None;
           gl_input_tokens := 0; gl_output_tokens := 0 |}]
  /\ users (w_db w') = users d /\ w_locks w' = w_locks w.
Proof.
  intros d toks Hd Hg Hp Hc. unfold toks in *. unfold d in *.
  unfold api_generate_meta. dispatch_unfold. simpl.
  rewrite Hd, Hg. simpl. rewrite Hp. simpl. rewrite Hc. simpl. repeat split.
Qed.

(** The loop of [api_generate_all_chapters] computes, chapter by chapter,
    the same estimates as [calculate_predicted_all_chapters_cost] and logs
    each of them. *)
Lemma dispatch_chapters_logs (u sid : Z) (d : DB) (n : Z) (chs : list Chapter) (i tot0 : Z)
    (bd0 : list ChapterPrediction) (w : World L) (tot : Z) (bd : list ChapterPrediction) :
  w_work w = w_db w ->
  all_chapters_loop (token_config d) (credit_configs d) n
    (map (fun j => prompt_tokens render_prompt count_tokens KChapter d sid j "o1-mini")
         (seqZ i (Z.of_nat (length chs)))) i tot0 bd0 = Ok (tot, bd) ->
  exists w', dispatch_chapters render_prompt count_tokens (Ok tt) u sid d n chs i w = (Ok tt, w')
    /\ w_work w' = w_db w'
    /\ exists new bd1, bd = bd0 ++ bd1 /\ logs (w_db w') = logs (w_db w) ++ new
       /\ map gl_predicted_cost new = map (fun c => Some (inject_Z (cp_predicted_cost c))) bd1.
Proof.
  revert i tot0 bd0 w. induction chs as [|c rest IH]; intros i tot0 bd0 w Hw Hloop.
  - simpl in Hloop. inv_clear Hloop. exists w. split; [reflexivity |]. split; [exact Hw |].
    exists [], []. rewrite !app_nil_r. auto.
  - rewrite seqZ_succ_len in Hloop. simpl in Hloop.
    destruct (calculate_predicted_chapter_cost _ _ n i _) as [info|e] eqn:E; [| discriminate].
    simpl. unfold st_bind, st_of_res, enqueue, add_log, work, commit, st_modify. rewrite E. simpl.
    match goal with |- exists _, dispatch_chapters _ _ _ _ _ _ _ _ _ ?w1 = _ /\ _ =>
      destruct (IH (i + 1) _ _ w1 eq_refl Hloop) as (w' & Heq & Hw' & new & bd1 & Hbd & Hlogs & Hpred) end.
    exists w'. split; [exact Heq |]. split; [exact Hw' |].
    eexists (_ :: new), (_ :: bd1). rewrite Hbd, <- app_assoc. split; [reflexivity |].
    rewrite Hlogs. simpl. rewrite Hw, <- app_assoc. split; [reflexivity |]. simpl. f_equal. exact Hpred.
Qed.

(** The same loop queues one chapter job per chapter, the [i]-th (from
    [0]) for chapter number [i + 1]. *)
Lemma dispatch_chapters_queues (u sid : Z) (d : DB) (n : Z) (chs : list Chapter) (i tot0 : Z)
    (bd0 : list ChapterPrediction) (w : World L) (tot : Z) (bd : list ChapterPrediction) :
  all_chapters_loop (token_config d) (credit_configs d) n
    (map (fun j => prompt_tokens render_prompt count_tokens KChapter d sid j "o1-mini")
         (seqZ i (Z.of_nat (length chs)))) i tot0 bd0 = Ok (tot, bd) ->
  exists w', dispatch_chapters render_prompt count_tokens (Ok tt) u sid d n chs i w = (Ok tt, w')
    /\ exists jobs, w_queue w' = w_queue w ++ jobs
       /\ Forall2 (fun (j : Z * TaskSpec) k => exists p toks, j.2 = ChapterTask sid p k u toks)
            jobs (seqZ (i + 1) (Z.of_nat (length chs))).
Proof.
  revert i tot0 bd0 w. induction chs as [|c rest IH]; intros i tot0 bd0 w Hloop.
  - exists w. split; [reflexivity |]. exists []. rewrite app_nil_r. split; [reflexivity |].
    rewrite seqZ_nil by (simpl; lia). constructor.
  - rewrite seqZ_succ_len in Hloop. rewrite (seqZ_succ_len (i + 1) c rest). simpl in Hloop.
    destruct (calculate_predicted_chapter_cost _ _ n i _) as [info|e] eqn:E; [| discriminate].
    simpl. unfold st_bind, st_of_res, enqueue, add_log, work, commit, st_modify. rewrite E. simpl.
    match goal with |- exists _, dispatch_chapters _ _ _ _ _ _ _ _ _ ?w1 = _ /\ _ =>
      destruct (IH (i + 1) _ _ w1 Hloop) as (w' & Heq & jobs & Hq & Hjobs) end.
    exists w'. split; [exact Heq |]. eexists (_ :: jobs). rewrite Hq. simpl. rewrite <- app_assoc.
    split; [reflexivity |]. constructor; [eauto | exact Hjobs].
Qed.

(** C30: the logged predictions of "generate all chapters" are the
    checked breakdown.  When the aggregate prediction is affordable, the
    endpoint queues one chapter job per chapter and the pending log rows it
    commits carry, in order, exactly the per-chapter predictions of the
    breakdown whose sum is the total the affordability check used. *)
Theorem all_chapters_dispatch_logs_breakdown (rq : Request) (w : World L) (uc : UserCredits)
    (sid : Z) (s : Story) (total : Z) (bd : list ChapterPrediction) :
  let d := w_db w in
  let n := Z.of_nat (length (sorted_chapters s)) in
  decorator d rq = inr (uc, sid, s) ->
  is_last_generation_and_negative_creds d (rq_user rq) uc KChapter = false ->
  lock_held (w_locks w) (w_now w) (rq_user rq) = false ->
  calculate_predicted_all_chapters_cost (token_config d) (credit_configs d)
    (map (fun i => prompt_tokens render_prompt count_tokens KChapter d sid i "o1-mini") (seqZ 0 n))
    = Ok (total, bd) ->
  can_spend_credits uc "text" (inject_Z total) = true ->
  let '(r, w') := flask_request (api_generate_all_chapters render_prompt count_tokens (Ok tt) rq) w in
  r = Ok (RespQueued None (inject_Z total))
  /\ exists new, logs (w_db w') = logs d ++ new
     /\ map gl_predicted_cost new = map (fun c => Some (inject_Z (cp_predicted_cost c))) bd
     /\ total = sumZ (map cp_predicted_cost bd).
Proof.
  intros d n Hd Hg Hl Hp Hc.
  assert (Hsum : total = sumZ (map cp_predicted_cost bd)).
  { apply all_chapters_loop_sum in Hp as [Hs _]. simpl in Hs. lia. }
  unfold calculate_predicted_all_chapters_cost in Hp.
  assert (Hn : 0 <= n) by (unfold n; lia).
  rewrite length_map, length_seqZ, Z2Nat.id in Hp by exact Hn.
  unfold n, d in *.
  unfold api_generate_all_chapters. dispatch_unfold. simpl.
  rewrite Hd, Hg. simpl.
  pose proof (set_lock_free (w_locks w) (w_now w) (rq_user rq) default_expire Hl ltac:(reflexivity))
    as [Hok _].
  destruct (set_lock (w_locks w) (w_now w) (rq_user rq) default_expire) as [ok l'] eqn:Es.
  simpl in Hok. subst ok. simpl.
  unfold calculate_predicted_all_chapters_cost. rewrite length_map, length_seqZ, Z2Nat.id by exact Hn.
  rewrite Hp. simpl. rewrite Hc. simpl.
  match goal with |- context [dispatch_chapters _ _ _ _ _ _ _ _ _ ?w1] =>
    destruct (dispatch_chapters_logs (rq_user rq) sid (w_db w) _ (sorted_chapters s) 0 0 [] w1 total bd
                eq_refl Hp) as (w' & Heq & _ & new & bd1 & Hbd & Hlogs & Hpred) end.
  rewrite Heq. simpl. split; [reflexivity |].
  exists new. simpl in Hbd. subst bd1. split; [exact Hlogs |]. split; [exact Hpred | exact Hsum].
Qed.
(** C32: "generate all chapters" numbers its jobs by position.  When the
    request is affordable, the jobs it queues are chapter jobs of the
    story and of the user, numbered [1, 2, ..., n] for the [n] chapters
    (the loop passes [i + 1]), whatever numbers the chapters carry.  After
    a summaries save that skipped an untitled item
    ([Chapters.update_chapter_summaries] numbers by payload position) the
    numbers have a gap, so a job is queued for a number no chapter has;
    such a job is billed and then marked failed
    ([Worker.chapter_task_missing_chapter_billed_then_failed]). *)
Theorem all_chapters_jobs_numbered_by_position (rq : Request) (w : World L) (uc : UserCredits)
    (sid : Z) (s : Story) (total : Z) (bd : list ChapterPrediction) :
  let d := w_db w in
  let n := Z.of_nat (length (sorted_chapters s)) in
  decorator d rq = inr (uc, sid, s) ->
  is_last_generation_and_negative_creds d (rq_user rq) uc KChapter = false ->
  lock_held (w_locks w) (w_now w) (rq_user rq) = false ->
  calculate_predicted_all_chapters_cost (token_config d) (credit_configs d)
    (map (fun i => prompt_tokens render_prompt count_tokens KChapter d sid i "o1-mini") (seqZ 0 n))
    = Ok (total, bd) ->
  can_spend_credits uc "text" (inject_Z total) = true ->
  let '(r, w') := flask_request (api_generate_all_chapters render_prompt count_tokens (Ok tt) rq) w in
  exists jobs, w_queue w' = w_queue w ++ jobs
    /\ Forall2 (fun (j : Z * TaskSpec) k => exists p toks, j.2 = ChapterTask sid p k (rq_user rq) toks)
         jobs (seqZ 1 n).
Proof.
  intros d n Hd Hg Hl Hp Hc.
  unfold calculate_predicted_all_chapters_cost in Hp.
  assert (Hn : 0 <= n) by (unfold n; lia).
  rewrite length_map, length_seqZ, Z2Nat.id in Hp by exact Hn.
  unfold n, d in *.
  unfold api_generate_all_chapters. dispatch_unfold. simpl.
  rewrite Hd, Hg. simpl.
  pose proof (set_lock_free (w_locks w) (w_now w) (rq_user rq) default_expire Hl ltac:(reflexivity))
    as [Hok _].
  destruct (set_lock (w_locks w) (w_now w) (rq_user rq) default_expire) as [ok l'] eqn:Es.
  simpl in Hok. subst ok. simpl.
  unfold calculate_predicted_all_chapters_cost. rewrite length_map, length_seqZ, Z2Nat.id by exact Hn.
  rewrite Hp. simpl. rewrite Hc. simpl.
  match goal with |- context [dispatch_chapters _ _ _ _ _ _ _ _ _ ?w1] =>
    destruct (dispatch_chapters_queues (rq_user rq) sid (w_db w) _ (sorted_chapters s) 0 0 [] w1 total bd
                Hp) as (w' & Heq & jobs & Hq & Hjobs) end.
  rewrite Heq. simpl. exists jobs. split; [exact Hq | exact Hjobs].
Qed.
End DispatchProperties.

(** The rendering collaborator of the witnesses: a six-token prompt. *)
Definition sample_render_prompt (k : GenKind) (d : DB) (sid idx : Z) : string := "prompt".

Definition sample_request : Request := {| rq_user := 1; rq_admin := false; rq_story_id := Some 10 |}.

Lemma chapter_dispatch_insufficient_credits_witness :
  match calculate_predicted_chapter_cost (Some sample_config) [] 2 0
          (sample_count_tokens "prompt" "o1-mini") with
  | Ok b =>
    cb_total_credit_cost b = 8 /\
    let '(r, w') := flask_request (api_generate_chapter sample_render_prompt sample_count_tokens (Ok tt)
                                     sample_request 1) (sample_world 5 KMeta) in
    r = Ok (RespNotEnoughCredits (inject_Z (cb_total_credit_cost b)) (Some 5%Q))
    /\ w_db w' = sample_db 5 KMeta /\ w_queue w' = []
    /\ lock_held (w_locks w') (w_now w') 1 = false
  | Raise _ => False
  end.
Proof.
  destruct (calculate_predicted_chapter_cost (Some sample_config) [] 2 0
              (sample_count_tokens "prompt" "o1-mini")) as [b|] eqn:E; [| vm_compute in E; discriminate].
  split; [vm_compute in E; injection E as <-; reflexivity |].
  exact (chapter_dispatch_insufficient_credits sample_render_prompt sample_count_tokens (Ok tt)
           sample_request 1 (sample_world 5 KMeta)
           {| text_credits := 5; image_credits := 10; audio_credits := 0 |} 10 sample_story b
           eq_refl eq_refl eq_refl ltac:(vm_compute; split; discriminate) E
           ltac:(vm_compute in E; injection E as <-; reflexivity)).
Defined.

Lemma summaries_dispatch_insufficient_credits_keeps_lock_witness :
  match calculate_predicted_summaries_cost (Some sample_config) [] (sample_count_tokens "prompt" "o1-mini") 2 with
  | Ok b =>
    let '(r, w') := flask_request (api_generate_summaries sample_render_prompt sample_count_tokens (Ok tt)
                                     sample_request) (sample_world 1 KMeta) in
    r = Ok (RespNotEnoughCredits (inject_Z (cb_total_credit_cost b)) (Some 1%Q))
    /\ w_db w' = sample_db 1 KMeta /\ w_queue w' = []
    /\ lock_held (w_locks w') (w_now w') 1 = true
  | Raise _ => False
  end.
Proof.
  destruct (calculate_predicted_summaries_cost (Some sample_config) [] (sample_count_tokens "prompt" "o1-mini") 2)
    as [b|] eqn:E; [| vm_compute in E; discriminate].
  exact (summaries_dispatch_insufficient_credits_keeps_lock sample_render_prompt sample_count_tokens (Ok tt)
           sample_request (sample_world 1 KMeta)
           {| text_credits := 1; image_credits := 10; audio_credits := 0 |} 10 sample_story b
           eq_refl eq_refl eq_refl E ltac:(vm_compute in E; injection E as <-; reflexivity)).
Defined.

Lemma locking_dispatch_lock_held_rejected_witness :
  let w := world_with_locks (sample_world 100 KMeta) (<[1 := 2000]> ∅) in
  let '(r, w') := flask_request (api_generate_chapter sample_render_prompt sample_count_tokens (Ok tt)
                                   sample_request 2) w in
  r = Ok RespInProgress /\ w_db w' = w_db w /\ w_queue w' = w_queue w /\ w_locks w' = w_locks w.
Proof.
  exact (locking_dispatch_lock_held_rejected sample_render_prompt sample_count_tokens (Ok tt) sample_request 2
           (world_with_locks (sample_world 100 KMeta) (<[1 := 2000]> ∅))
           {| text_credits := 100; image_credits := 10; audio_credits := 0 |} 10 sample_story KChapter
           eq_refl eq_refl eq_refl _ (or_intror (or_introl (conj eq_refl eq_refl)))).
Defined.

Lemma overdraft_guard_blocks_witness :
  let w := sample_world 0 KChapter in
  let '(r, w') := flask_request (api_generate_chapter sample_render_prompt sample_count_tokens (Ok tt)
                                   sample_request 1) w in
  r = Ok RespTopUp /\ w_db w' = w_db w /\ w_queue w' = w_queue w /\ w_locks w' = w_locks w
  /\ w_events w' = w_events w ++ [Notify 1 "Top up your credits to see generation"].
Proof.
  unfold api_generate_chapter.
  apply (overdraft_guard_blocks sample_request KChapter (sample_world 0 KChapter)
           {| text_credits := 0; image_credits := 10; audio_credits := 0 |} 10 sample_story _
           [] [] (sample_log 1 7 KChapter 20)).
  - reflexivity.
  - reflexivity.
  - reflexivity.
  - constructor.
  - reflexivity.
  - vm_compute. discriminate.
Defined.

Lemma meta_dispatch_queues_one_pending_job_witness :
  match calculate_predicted_meta_cost (Some sample_config) [] (sample_count_tokens "prompt" "gpt-4o-mini") with
  | Ok b =>
    let '(r, w') := flask_request (api_generate_meta sample_render_prompt sample_count_tokens (Ok tt)
                                     sample_request) (sample_world 100 KChapter) in
    r = Ok (RespQueued (Some 8) (inject_Z (cb_total_credit_cost b)))
    /\ w_queue w' = [(8, MetaTask 10 "prompt" 1 6)]
    /\ length (logs (w_db w')) = 2%nat
    /\ users (w_db w') = users (sample_db 100 KChapter) /\ w_locks w' = ∅
  | Raise _ => False
  end.
Proof.
  destruct (calculate_predicted_meta_cost (Some sample_config) [] (sample_count_tokens "prompt" "gpt-4o-mini"))
    as [b|] eqn:E; [| vm_compute in E; discriminate].
  pose proof (meta_dispatch_queues_one_pending_job sample_render_prompt sample_count_tokens sample_request
                (sample_world 100 KChapter) {| text_credits := 100; image_credits := 10; audio_credits := 0 |}
                10 sample_story b eq_refl eq_refl E ltac:(vm_compute in E; injection E as <-; reflexivity))
    as W.
  destruct (flask_request _ _) as [r w']. destruct W as (Hr & Hq & Hl & Hu & Hk).
  repeat split; [exact Hr | exact Hq | rewrite Hl; reflexivity | exact Hu | exact Hk].
Defined.

Lemma all_chapters_dispatch_logs_breakdown_witness :
  match calculate_predicted_all_chapters_cost (Some sample_config) []
          (map (fun i => prompt_tokens sample_render_prompt sample_count_tokens KChapter
                           (sample_db 100 KMeta) 10 i "o1-mini") (seqZ 0 2)) with
  | Ok (total, bd) =>
    fst (flask_request (api_generate_all_chapters sample_render_prompt sample_count_tokens (Ok tt)
                          sample_request) (sample_world 100 KMeta))
      = Ok (RespQueued None (inject_Z total))
  | Raise _ => False
  end.
Proof.
  destruct (calculate_predicted_all_chapters_cost (Some sample_config) []
              (map (fun i => prompt_tokens sample_render_prompt sample_count_tokens KChapter
                               (sample_db 100 KMeta) 10 i "o1-mini") (seqZ 0 2)))
    as [[total bd]|] eqn:E; [| vm_compute in E; discriminate].
  pose proof (all_chapters_dispatch_logs_breakdown sample_render_prompt sample_count_tokens
                sample_request (sample_world 100 KMeta)
                {| text_credits := 100; image_credits := 10; audio_credits := 0 |} 10 sample_story
                total bd eq_refl eq_refl eq_refl E ltac:(vm_compute in E; injection E as <- _; reflexivity))
    as Ht.
  destruct (flask_request _ _) as [r w']. exact (proj1 Ht).
Defined.

End Dispatch.
