(* ===== verification/Chapters.v ===== *)
(** * The story endpoints that edit chapters

    [src/api/story.py]: [update_chapter_order], [update_chapter_summaries],
    [save_chapter] and [delete_story].  They run behind the decorator
    [is_story_author_or_admin] of [Dispatch] and write the chapter rows the
    generation endpoints and the chapter task read by [chapter_number].
    The request body is given as the decoded JSON values the handler reads;
    the [.get] calls on them raise as Python's do ([PyJson]). *)

From Stdlib Require Import ZArith QArith Lia Permutation.
From stdpp Require Import base gmap strings list.
From S2P Require Import Prelude Pricing Ledger Lock PyJson Store Dispatch.

Local Open Scope Z_scope.

Module Chapters.
Import Pricing Ledger Lock PyJson Store Dispatch.

(** A JSON number that is an integer, as SQLAlchemy binds it to an
    integer column or primary key.  Other values (strings of digits, which
    the database may coerce) are not read as ids. *)
Definition json_int (x : Json) : option Z :=
  match x with
  | JNum q => if (Qden q =? 1)%positive then Some (Qnum q) else None
  | _ => None
  end.

Definition story_with_count (s : Story) (n : Z) : Story :=
  {| story_user_id := story_user_id s; chapters_count := n;
     story_characters := story_characters s; story_locations := story_locations s;
     story_arcs := story_arcs s; story_chapters := story_chapters s;
     cover_image_key := cover_image_key s; cover_image_prompt := cover_image_prompt s |}.

Definition chapter_with (c : Chapter) (number : Z) (title summary : Json) : Chapter :=
  {| ch_id := ch_id c; chapter_number := number; ch_title := title; ch_content := ch_content c;
     ch_summary := summary; chapter_image_key := chapter_image_key c;
     chapter_image_prompt := chapter_image_prompt c |}.

Definition chapter_with_number (c : Chapter) (number : Z) : Chapter :=
  chapter_with c number (ch_title c) (ch_summary c).

Definition chapter_with_content (c : Chapter) (content : option string) : Chapter :=
  {| ch_id := ch_id c; chapter_number := chapter_number c; ch_title := ch_title c;
     ch_content := content; ch_summary := ch_summary c; chapter_image_key := chapter_image_key c;
     chapter_image_prompt := chapter_image_prompt c |}.

(** [Chapter(story_id=..., title=..., summary=..., chapter_number=...)],
    [db.session.add] and [flush]: the row takes the next chapter id. *)
Definition new_chapter (id number : Z) (title summary : Json) (content : option string) : Chapter :=
  {| ch_id := id; chapter_number := number; ch_title := title; ch_content := content;
     ch_summary := summary; chapter_image_key := None; chapter_image_prompt := None |}.

Section Handlers.
Context {L : Type} `{LockStore L}.

(** The decorator alone: these endpoints have no overdraft guard. *)
Definition story_endpoint (rq : Request) (body : DB -> Z -> Story -> st (World L) Response)
    : st (World L) Response :=
  d <- read_work id ;;
  match decorator d rq with
  | inl resp => st_ret resp
  | inr (_, sid, s) => body d sid s
  end.

Definition add_chapter (sid number : Z) (title summary : Json) (content : option string)
    : st (World L) Z :=
  insert_chapter sid (fun id => new_chapter id number title summary content).

(** ** [update_chapter_order] (lines 218-255) *)

(** One item of [new_order]: [Chapter.query.get(chapter_id)], and the
    assignment when the chapter belongs to the story.  A [new_index] that
    is not an integer cannot be stored in [chapter_number]; the model
    raises at the assignment, where the source raises at the commit: no
    write survives in either case. *)
Definition reorder_one (sid : Z) (order : Json) : st (World L) unit :=
  chapter_id <- st_of_res (py_get order "chapter_id") ;;
  new_index <- st_of_res (py_get order "new_index") ;;
  d <- read_work id ;;
  match json_int chapter_id with
  | Some cid =>
    match find_chapter_by_id d sid cid with
    | Some c =>
      match json_int new_index with
      | Some k => replace_chapter sid (chapter_with_number c k)
      | None => st_raise (IntegrityError "chapter.chapter_number")
      end
    | None => st_ret tt
    end
  | None => st_ret tt
  end.

Definition update_chapter_order (rq : Request) (new_order : Json) : st (World L) Response :=
  story_endpoint rq (fun d sid s =>
    if (sid =? 0) || negb (py_truthy new_order) then st_ret (RespBadRequest "Missing data for updating order.")
    else
      orders <- st_of_res (py_iter new_order) ;;
      st_for orders (reorder_one sid) ;;
      commit ;;
      emit (Notify (rq_user rq) "Chapter Order Updated") ;;
      st_ret (RespMessage "Chapter order updated successfully.")).

(** ** [update_chapter_summaries] (lines 583-646) *)

(** The three reads of one payload item: [title], [summary] (default
    [""]) and [id]. *)
Definition summary_fields (chapter_data : Json) : res (Json * Json * Json) :=
  match py_get chapter_data "title", py_get_default chapter_data "summary" (JStr ""),
        py_get chapter_data "id" with
  | Ok title, Ok summary, Ok chapter_id => Ok (title, summary, chapter_id)
  | Raise e, _, _ | Ok _, Raise e, _ | Ok _, Ok _, Raise e => Raise e
  end.

(** The chapter an item names: [if chapter_id:] then
    [Chapter.query.filter_by(id=chapter_id, story_id=story_id).first()]. *)
Definition named_id (chapter_id : Json) : option Z :=
  if py_truthy chapter_id then json_int chapter_id else None.

Definition named_chapter (d : DB) (sid : Z) (chapter_id : Json) : option Chapter :=
  match named_id chapter_id with
  | Some cid => find_chapter_by_id d sid cid
  | None => None
  end.

(** The loop of lines 613-636 over [enumerate(chapters_payload, start=1)],
    threading [updated_chapter_ids]. *)
Fixpoint save_summaries (sid index : Z) (items : list Json) (updated : list Z) : st (World L) (list Z) :=
  match items with
  | [] => st_ret updated
  | chapter_data :: rest =>
    fields <- st_of_res (summary_fields chapter_data) ;;
    let '(title, summary, chapter_id) := fields in
    if negb (py_truthy title) then save_summaries sid (index + 1) rest updated
    else
      d <- read_work id ;;
      match named_chapter d sid chapter_id with
      | Some c =>
        replace_chapter sid (chapter_with c index title summary) ;;
        save_summaries sid (index + 1) rest (ch_id c :: updated)
      | None =>
        id <- add_chapter sid index title summary None ;;
        save_summaries sid (index + 1) rest (id :: updated)
      end
  end.

(** Lines 638-641: the story's chapters whose id is not in the set are
    deleted. *)
Definition keep_updated (updated : list Z) (s : Story) : Story :=
  story_with_chapters s (List.filter (fun c => bool_decide (ch_id c ∈ updated)) (story_chapters s)).

Definition update_chapter_summaries (rq : Request) (chapters_payload : Json) : st (World L) Response :=
  story_endpoint rq (fun d sid s =>
    if sid =? 0 then st_ret (RespBadRequest "Missing story_id.")
    else
      items <- st_of_res (py_iter chapters_payload) ;;
      updated <- save_summaries sid 1 items [] ;;
      modify_story sid (keep_updated updated) ;;
      n <- st_of_res (py_len chapters_payload) ;;
      modify_story sid (fun s => story_with_count s n) ;;
      commit ;;
      emit (Notify (rq_user rq) "Chapter Summaries Saved!") ;;
      st_ret (RespMessage "Chapter Summaries saved.")).

(** ** [save_chapter] (lines 649-679)

    [chapter_number] is [int(data.get("chapter_number"))], which raises
    [ValueError] or [TypeError] on a bad value.  A new row has no title,
    a NOT NULL column, so its commit raises; an existing row is committed,
    and the next line reads [user], a name [save_chapter] never binds. *)
Definition save_chapter (rq : Request) (chapter_number : res Z) (content : option string)
    : st (World L) Response :=
  story_endpoint rq (fun d sid s =>
    n <- st_of_res chapter_number ;;
    d <- read_work id ;;
    match find_chapter_by_number d sid n with
    | Some c =>
      replace_chapter sid (chapter_with_content c content) ;;
      commit ;;
      st_raise (NameError "user")
    | None =>
      _ <- add_chapter sid n JNull JNull content ;;
      st_raise (IntegrityError "chapter.title")
    end).

(** ** [delete_story] (lines 344-374)

    The story row goes with its chapters and arcs (the relationships'
    [delete-orphan] cascade) and the characters and locations it holds;
    the chapter guides are deleted by query.  The S3 clean-up
    ([images]) runs after the commit; a bare [except] swallows whatever it
    raises, and the answer is [{"deleted": True}] in every case. *)
Definition delete_story (rq : Request) (images : res unit) : st (World L) Response :=
  story_endpoint rq (fun d sid s =>
    try_except_finally
      (work (fun d => db_with_guides (db_with_stories d (delete sid (stories d))) (delete sid (guides d))) ;;
       commit ;;
       st_of_res images)
      (fun _ => st_ret tt)
      (st_ret tt) ;;
    st_ret (RespMessage "deleted")).

End Handlers.

(** ** What [update_chapter_summaries] does to the chapter numbers *)

(** The chapter ids of a story are distinct and below the id the next
    [flush] hands out. *)
Definition chapter_ids_ok (chs : list Chapter) (next : Z) : Prop :=
  NoDup (map ch_id chs) /\ Forall (fun c => ch_id c < next) chs.

Definition json_is_obj (x : Json) : bool :=
  match x with JObj _ => true | _ => false end.

Definition item_title (x : Json) : Json :=
  match py_get x "title" with Ok t => t | Raise _ => JNull end.

Definition item_named (x : Json) : option Z :=
  match py_get x "id" with Ok i => named_id i | Raise _ => None end.

(** The positions ([enumerate(.., start=index)]) of the items with a title. *)
Fixpoint titled_positions (index : Z) (items : list Json) : list Z :=
  match items with
  | [] => []
  | x :: rest => (if py_truthy (item_title x) then [index] else []) ++ titled_positions (index + 1) rest
  end.

(** The ids the titled items name. *)
Fixpoint named_ids (items : list Json) : list Z :=
  match items with
  | [] => []
  | x :: rest =>
    (if py_truthy (item_title x) then match item_named x with Some i => [i] | None => [] end else [])
    ++ named_ids rest
  end.

Definition kept_numbers (updated : list Z) (chs : list Chapter) : list Z :=
  map chapter_number (List.filter (fun c => bool_decide (ch_id c ∈ updated)) chs).

Lemma kept_numbers_notin (l : list Chapter) (cid : Z) (updated : list Z) :
  cid ∉ map ch_id l -> kept_numbers (cid :: updated) l = kept_numbers updated l.
Proof.
  unfold kept_numbers. induction l as [|c rest IH]; simpl; intros Hn; [reflexivity |].
  apply not_elem_of_cons in Hn as [Hc Hn].
  assert (E : bool_decide (ch_id c ∈ cid :: updated) = bool_decide (ch_id c ∈ updated)).
  { apply bool_decide_ext. rewrite elem_of_cons. naive_solver. }
  rewrite E. specialize (IH Hn). destruct (bool_decide (ch_id c ∈ updated)); simpl; congruence.
Qed.

Lemma replace_chapter_absent (l : list Chapter) (cid : Z) (c' : Chapter) :
  cid ∉ map ch_id l -> map (fun c => if ch_id c =? cid then c' else c) l = l.
Proof.
  induction l as [|c rest IH]; simpl; intros Hn; [reflexivity |].
  apply not_elem_of_cons in Hn as [Hc Hn]. rewrite (IH Hn).
  destruct (Z.eqb_spec (ch_id c) cid); [congruence | reflexivity].
Qed.

(** Renumbering a chapter not yet kept adds its new number to the kept
    ones. *)
Lemma kept_numbers_replace (l : list Chapter) (c' : Chapter) (updated : list Z) :
  NoDup (map ch_id l) -> ch_id c' ∈ map ch_id l -> ch_id c' ∉ updated ->
  kept_numbers (ch_id c' :: updated) (map (fun c => if ch_id c =? ch_id c' then c' else c) l)
    ≡ₚ kept_numbers updated l ++ [chapter_number c'].
Proof.
  induction l as [|c rest IH]; simpl; intros Hnd Hin Hu; [apply elem_of_nil in Hin; done |].
  apply NoDup_cons in Hnd as [Hnot Hnd].
  destruct (Z.eqb_spec (ch_id c) (ch_id c')) as [E|Hne].
  - rewrite E in Hnot. rewrite replace_chapter_absent by exact Hnot.
    pose proof (kept_numbers_notin rest (ch_id c') updated Hnot) as K.
    unfold kept_numbers in *. simpl. rewrite (bool_decide_true (ch_id c' ∈ ch_id c' :: updated)) by left.
    rewrite E, (bool_decide_false _ Hu). simpl. rewrite K. apply Permutation_cons_append.
  - apply elem_of_cons in Hin as [Hin | Hin]; [congruence |].
    unfold kept_numbers in *. simpl.
    assert (B : bool_decide (ch_id c ∈ ch_id c' :: updated) = bool_decide (ch_id c ∈ updated)).
    { apply bool_decide_ext. rewrite elem_of_cons. naive_solver. }
    rewrite B. destruct (bool_decide (ch_id c ∈ updated)); simpl; [| apply IH; assumption].
    constructor. apply IH; assumption.
Qed.

(** A new row with a fresh id is kept with its number. *)
Lemma kept_numbers_fresh (l : list Chapter) (c' : Chapter) (updated : list Z) :
  ch_id c' ∉ map ch_id l ->
  kept_numbers (ch_id c' :: updated) (l ++ [c']) = kept_numbers updated l ++ [chapter_number c'].
Proof.
  intros Hn. unfold kept_numbers. rewrite List.filter_app, map_app.
  pose proof (kept_numbers_notin l (ch_id c') updated Hn) as K. unfold kept_numbers in K. rewrite K.
  simpl. rewrite bool_decide_true by left. reflexivity.
Qed.

Lemma lookup_alter_same {A} (f : A -> A) (i : Z) (m : gmap Z A) : alter f i m !! i = f <$> m !! i.
Proof. rewrite lookup_alter. case_decide; congruence. Qed.

Lemma summary_fields_obj (x : Json) :
  json_is_obj x = true ->
  exists summary i, summary_fields x = Ok (item_title x, summary, i) /\ item_named x = named_id i.
Proof. destruct x; simpl; try discriminate. intros _. do 2 eexists. split; reflexivity. Qed.

Lemma find_chapter_by_id_Some (d : DB) (sid cid : Z) (s : Story) (c : Chapter) :
  stories d !! sid = Some s -> find_chapter_by_id d sid cid = Some c ->
  c ∈ story_chapters s /\ ch_id c = cid.
Proof.
  unfold find_chapter_by_id. intros -> Hf. apply List.find_some in Hf as [Hin Hc].
  split; [apply list_elem_of_In, Hin | apply Z.eqb_eq, Hc].
Qed.

Lemma chapter_ids_ok_fresh (chs : list Chapter) (next : Z) :
  chapter_ids_ok chs next -> next ∉ map ch_id chs.
Proof.
  intros [_ Hlt] Hin. apply list_elem_of_fmap in Hin as (c & -> & Hc).
  rewrite Forall_forall in Hlt. specialize (Hlt c Hc). lia.
Qed.

Lemma chapter_ids_ok_append (chs : list Chapter) (next : Z) (c : Chapter) :
  chapter_ids_ok chs next -> ch_id c = next -> chapter_ids_ok (chs ++ [c]) (next + 1).
Proof.
  intros Hok Hc. pose proof (chapter_ids_ok_fresh chs next Hok) as Hf. destruct Hok as [Hnd Hlt].
  split.
  - rewrite map_app. apply NoDup_app. split; [exact Hnd | split; [| apply NoDup_singleton]].
    intros x Hx Hin. apply list_elem_of_singleton in Hin. simpl in Hin. subst x. rewrite Hc in Hx. exact (Hf Hx).
  - apply Forall_app. split; [| constructor; [lia | constructor]].
    eapply Forall_impl; [exact Hlt | intros ? Hx; simpl in *; lia].
Qed.

Lemma chapter_ids_ok_replace (chs : list Chapter) (next : Z) (c' : Chapter) :
  chapter_ids_ok chs next -> ch_id c' ∈ map ch_id chs ->
  chapter_ids_ok (map (fun c => if ch_id c =? ch_id c' then c' else c) chs) next.
Proof.
  intros [Hnd Hlt] Hin.
  assert (E : map ch_id (map (fun c => if ch_id c =? ch_id c' then c' else c) chs) = map ch_id chs).
  { rewrite map_map. apply map_ext. intros c. destruct (Z.eqb_spec (ch_id c) (ch_id c')); congruence. }
  split; [rewrite E; exact Hnd |].
  apply Forall_forall. intros c Hc. apply list_elem_of_fmap in Hc as (c0 & -> & Hc0).
  rewrite Forall_forall in Hlt. destruct (Z.eqb_spec (ch_id c0) (ch_id c')) as [E0|].
  - apply list_elem_of_fmap in Hin as (c1 & E1 & Hc1). rewrite E1. apply Hlt, Hc1.
  - apply Hlt, Hc0.
Qed.

Lemma decorator_story (d : DB) (rq : Request) (uc : UserCredits) (sid : Z) (s : Story) :
  decorator d rq = inr (uc, sid, s) -> stories d !! sid = Some s.
Proof.
  unfold decorator. repeat case_match; simplify_eq/=; try discriminate.
  intros; simplify_eq; assumption.
Qed.

(** The components of a conjunction, each a hypothesis. *)
Ltac conj_assumption := repeat (split; [eassumption |]); eassumption.

Section SummariesRun.
Context {L : Type} `{LockStore L}.

(** The loop of [update_chapter_summaries] on well-formed items: it
    returns, the story's chapter ids stay distinct and fresh, and the
    numbers of the chapters it marks as kept are the positions of the
    titled items. *)
Lemma save_summaries_spec (sid : Z) (items : list Json) :
  forall (index : Z) (updated : list Z) (w : World L) (s : Story),
  stories (w_work w) !! sid = Some s ->
  chapter_ids_ok (story_chapters s) (next_chapter_id (w_work w)) ->
  Forall (fun x => json_is_obj x = true) items ->
  NoDup (named_ids items ++ updated) ->
  Forall (fun i => i < next_chapter_id (w_work w)) (named_ids items ++ updated) ->
  exists updated' w' s',
    save_summaries sid index items updated w = (Ok updated', w')
    /\ stories (w_work w') !! sid = Some s'
    /\ chapter_ids_ok (story_chapters s') (next_chapter_id (w_work w'))
    /\ kept_numbers updated' (story_chapters s')
         ≡ₚ kept_numbers updated (story_chapters s) ++ titled_positions index items
    /\ w_db w' = w_db w.
Proof.
  induction items as [|x rest IH]; intros index updated w s Hs Hok Hobj Hnd Hlt.
  { exists updated, w, s. simpl. rewrite List.app_nil_r.
    split; [reflexivity |]. split; [exact Hs |]. split; [exact Hok |]. split; reflexivity. }
  apply Forall_cons in Hobj as [Hx Hobj].
  destruct (summary_fields_obj x Hx) as (summary & i & Hf & Hn).
  cbn [save_summaries]. unfold st_bind at 1, st_of_res at 1. rewrite Hf. cbn [titled_positions named_ids] in *.
  destruct (py_truthy (item_title x)) eqn:Ht; simpl in Hnd, Hlt |- *.
  2:{ destruct (IH (index + 1) updated w s Hs Hok Hobj Hnd Hlt) as (u' & w' & s' & Hr & Hs' & Hok' & Hp & Hd).
      exists u', w', s'. conj_assumption. }
  unfold st_bind at 1, read_work at 1. simpl.
  destruct (named_chapter (w_work w) sid i) as [c|] eqn:Hc.
  - unfold named_chapter in Hc. rewrite <- Hn in Hc. destruct (item_named x) as [z|]; [| discriminate].
    destruct (find_chapter_by_id_Some _ _ _ _ _ Hs Hc) as [Hin Hid]. subst z.
    simpl in Hnd, Hlt. apply NoDup_cons in Hnd as [Hnot Hnd]. apply Forall_cons in Hlt as [Hclt Hlt].
    set (c' := chapter_with c index (item_title x) summary).
    set (s1 := story_with_chapters s (map (fun c0 => if ch_id c0 =? ch_id c' then c' else c0) (story_chapters s))).
    assert (Hin' : ch_id c' ∈ map ch_id (story_chapters s)) by (apply list_elem_of_fmap; exists c; split; [reflexivity | exact Hin]).
    destruct (IH (index + 1) (ch_id c' :: updated)
                (world_with_work w (db_with_stories (w_work w) (alter (fun s0 => story_with_chapters s0
                   (map (fun c0 => if ch_id c0 =? ch_id c' then c' else c0) (story_chapters s0))) sid
                   (stories (w_work w))))) s1)
      as (u' & w' & s' & Hr & Hs' & Hok' & Hp & Hd).
    + simpl. rewrite lookup_alter_same, Hs. reflexivity.
    + apply chapter_ids_ok_replace; assumption.
    + exact Hobj.
    + rewrite <- Permutation_middle. constructor; assumption.
    + rewrite <- Permutation_middle. constructor; assumption.
    + exists u', w', s'. split; [exact Hr |]. split; [exact Hs' |]. split; [exact Hok' |]. split; [| exact Hd].
      rewrite Hp. unfold s1, story_with_chapters. cbn [story_chapters]. rewrite (kept_numbers_replace _ c' updated).
      * rewrite <- app_assoc. reflexivity.
      * exact (proj1 Hok).
      * exact Hin'.
      * intros Hu. apply Hnot, elem_of_app. right. exact Hu.
  - assert (Hnd' : NoDup (named_ids rest ++ updated)).
    { destruct (item_named x); simpl in Hnd; [apply NoDup_cons in Hnd as [_ Hnd] |]; exact Hnd. }
    assert (Hlt' : Forall (fun i => i < next_chapter_id (w_work w)) (named_ids rest ++ updated)).
    { destruct (item_named x); simpl in Hlt; [apply Forall_cons in Hlt as [_ Hlt] |]; exact Hlt. }
    set (next := next_chapter_id (w_work w)).
    set (c' := new_chapter next index (item_title x) summary None).
    set (s1 := story_with_chapters s (story_chapters s ++ [c'])).
    destruct (IH (index + 1) (next :: updated)
                (world_with_work w
                   (db_with_stories (db_with_next_chapter_id (w_work w) (next + 1))
                      (alter (fun s0 => story_with_chapters s0 (story_chapters s0 ++ [c'])) sid
                         (stories (w_work w))))) s1)
      as (u' & w' & s' & Hr & Hs' & Hok' & Hp & Hd).
    + simpl. rewrite lookup_alter_same, Hs. reflexivity.
    + apply chapter_ids_ok_append; [exact Hok | reflexivity].
    + exact Hobj.
    + rewrite <- Permutation_middle. constructor; [| exact Hnd'].
      intros Hin. rewrite Forall_forall in Hlt'. specialize (Hlt' _ Hin). lia.
    + rewrite <- Permutation_middle. simpl. constructor; [lia |].
      eapply Forall_impl; [exact Hlt' | intros ? ?; simpl in *; lia].
    + exists u', w', s'. split; [exact Hr |]. split; [exact Hs' |]. split; [exact Hok' |]. split; [| exact Hd].
      rewrite Hp. unfold s1, story_with_chapters. cbn [story_chapters]. rewrite (kept_numbers_fresh _ c' updated).
      * rewrite <- app_assoc. reflexivity.
      * exact (chapter_ids_ok_fresh _ _ Hok).
Qed.

End SummariesRun.

Lemma chapter_ids_ok_filter (f : Chapter -> bool) (chs : list Chapter) (next : Z) :
  chapter_ids_ok chs next -> chapter_ids_ok (List.filter f chs) next.
Proof.
  intros [Hnd Hlt]. split.
  - induction chs as [|c rest IH]; simpl in *; [constructor |].
    apply NoDup_cons in Hnd as [Hn Hnd]. apply Forall_cons in Hlt as [_ Hlt].
    destruct (f c); simpl; [| apply IH; assumption]. constructor; [| apply IH; assumption].
    intros Hin. apply Hn. apply list_elem_of_fmap in Hin as (c0 & E & Hc0).
    apply list_elem_of_fmap. exists c0. split; [exact E |].
    apply list_elem_of_In in Hc0. apply List.filter_In in Hc0. apply list_elem_of_In, Hc0.
  - apply Forall_forall. intros c Hc. apply list_elem_of_In, List.filter_In in Hc as [Hc _].
    rewrite Forall_forall in Hlt. apply Hlt, list_elem_of_In, Hc.
Qed.

Lemma kept_numbers_nil (l : list Chapter) : kept_numbers [] l = [].
Proof.
  unfold kept_numbers. induction l as [|c rest IH]; simpl; [reflexivity |].
  exact IH.
Qed.

Section SummariesEndpoint.
Context {L : Type} `{LockStore L}.

Lemma update_chapter_summaries_body (rq : Request) (items : list Json) (w : World L) (uc : UserCredits)
    (sid : Z) (s : Story) :
  decorator (w_work w) rq = inr (uc, sid, s) -> sid <> 0 ->
  chapter_ids_ok (story_chapters s) (next_chapter_id (w_work w)) ->
  Forall (fun x => json_is_obj x = true) items ->
  NoDup (named_ids items) -> Forall (fun i => i < next_chapter_id (w_work w)) (named_ids items) ->
  exists w' s', update_chapter_summaries rq (JArr items) w = (Ok (RespMessage "Chapter Summaries saved."), w')
    /\ stories (w_db w') !! sid = Some s'
    /\ map chapter_number (story_chapters s') ≡ₚ titled_positions 1 items
    /\ chapters_count s' = Z.of_nat (length items)
    /\ chapter_ids_ok (story_chapters s') (next_chapter_id (w_db w')).
Proof.
  intros Hdec Hsid Hok Hobj Hnd Hlt.
  destruct (save_summaries_spec sid items 1 [] w s (decorator_story _ _ _ _ _ Hdec) Hok Hobj
              ltac:(rewrite app_nil_r; exact Hnd) ltac:(rewrite app_nil_r; exact Hlt))
    as (u' & w1 & s1 & Hr & Hs1 & Hok1 & Hp & _).
  unfold update_chapter_summaries, story_endpoint. unfold st_bind at 1, read_work at 1. cbv [id].
  rewrite Hdec. rewrite (proj2 (Z.eqb_neq _ _) Hsid).
  unfold st_bind at 1, st_of_res at 1. cbn [py_iter].
  rewrite (st_bind_ok _ _ _ _ _ Hr).
  eexists _, (story_with_count (keep_updated u' s1) (Z.of_nat (length items))).
  split; [reflexivity |]. cbn. split; [| split; [| split]].
  - rewrite !lookup_alter_same, Hs1. reflexivity.
  - rewrite kept_numbers_nil in Hp. exact Hp.
  - reflexivity.
  - apply chapter_ids_ok_filter, Hok1.
Qed.
(** C16: [update_chapter_summaries] numbers the chapters by payload
    position.  On a payload of objects whose named ids are distinct and
    already handed out, a story whose chapter ids are distinct and fresh
    ends, once the request is committed, with one chapter per titled item:
    the chapter numbers are, up to order, the 1-based positions of the
    titled items in the payload (an item without a title is skipped but
    still counted), [chapters_count] is the payload's length, and the
    chapter ids stay distinct and fresh. *)
Theorem update_chapter_summaries_numbers (rq : Request) (items : list Json) (w : World L)
    (uc : UserCredits) (sid : Z) (s : Story) :
  decorator (w_db w) rq = inr (uc, sid, s) -> sid <> 0 ->
  chapter_ids_ok (story_chapters s) (next_chapter_id (w_db w)) ->
  Forall (fun x => json_is_obj x = true) items ->
  NoDup (named_ids items) -> Forall (fun i => i < next_chapter_id (w_db w)) (named_ids items) ->
  exists w' s', flask_request (update_chapter_summaries rq (JArr items)) w
                = (Ok (RespMessage "Chapter Summaries saved."), w')
    /\ stories (w_db w') !! sid = Some s'
    /\ map chapter_number (story_chapters s') ≡ₚ titled_positions 1 items
    /\ chapters_count s' = Z.of_nat (length items)
    /\ chapter_ids_ok (story_chapters s') (next_chapter_id (w_db w')).
Proof.
  intros Hdec Hsid Hok Hobj Hnd Hlt.
  destruct (update_chapter_summaries_body rq items (world_with_work w (w_db w)) uc sid s
              Hdec Hsid Hok Hobj Hnd Hlt) as (w1 & s1 & Hb & Hs1 & Hp & Hc & Hok1).
  exists (world_with_work w1 (w_db w1)), s1. split; [| conj_assumption].
  unfold flask_request. rewrite (st_bind_ok _ _ w _ (world_with_work w (w_db w)) eq_refl).
  apply (try_except_finally_ok _ _ _ _ _ _ _ Hb). reflexivity.
Qed.


End SummariesEndpoint.

(** ** Witnesses *)

(** Three summaries for story 10 of [Store.sample_db]: the first renames
    chapter 100, the second names chapter 101 but has an empty title, the
    third is new. *)
Definition sample_summaries : list Json :=
  [JObj [("id", JNum 100); ("title", JStr "Opening"); ("summary", JStr "The storm rises.")];
   JObj [("id", JNum 101); ("title", JStr "")];
   JObj [("title", JStr "Finale"); ("summary", JStr "The storm ends.")]].

Lemma sample_story_ids_ok : chapter_ids_ok (story_chapters sample_story) 102.
Proof. split; [repeat constructor; set_solver | repeat constructor; simpl; lia]. Qed.

Lemma update_chapter_summaries_numbers_witness :
  exists w' s', flask_request (update_chapter_summaries sample_request (JArr sample_summaries))
                  (sample_world 1000 KMeta) = (Ok (RespMessage "Chapter Summaries saved."), w')
    /\ stories (w_db w') !! 10 = Some s'
    /\ map chapter_number (story_chapters s') ≡ₚ [1; 3]
    /\ chapters_count s' = 3
    /\ chapter_ids_ok (story_chapters s') (next_chapter_id (w_db w')).
Proof.
  apply (update_chapter_summaries_numbers sample_request sample_summaries (sample_world 1000 KMeta)
           {| text_credits := 1000; image_credits := 10; audio_credits := 0 |} 10 sample_story).
  - reflexivity.
  - discriminate.
  - exact sample_story_ids_ok.
  - repeat constructor.
  - vm_compute. repeat constructor; set_solver.
  - vm_compute. repeat constructor.
Defined.

End Chapters.
