(* ===== verification/System.v ===== *)
(** * The whole pipeline as a transition system

    A step is one HTTP request to a generation or prediction endpoint
    ([Dispatch]) or to a story endpoint that edits chapters ([Chapters]),
    one worker run of a queued job taken in any order (Celery
    workers are concurrent; each run is atomic here), the clock advancing
    (lock expiry), or a billing event crediting a user ([Ledger]).  The
    invariant proved over every reachable world is that the generation log
    only grows, keeps each row's identity, and never returns a terminal row
    to [pending]; it rests on a small logic of invariants for the world
    monad ([preserves]).  The concrete worlds at the end are the witnesses
    of System's, Queue's and Dispatch's theorems: a chapter request, a
    metadata request and a worker run of the metadata job, and a summaries
    save with an untitled item before "generate all chapters". *)

From Stdlib Require Import ZArith QArith Lia.
From stdpp Require Import base gmap strings list.
From S2P Require Import Prelude Pricing Ledger Lock PyJson Store Worker Dispatch Chapters.

Local Open Scope Z_scope.

Module System.
Import Pricing Ledger Lock PyJson Store Worker Dispatch Chapters.

(** The endpoints a client can call. *)
Inductive Req :=
  | ReqMeta (rq : Request)
  | ReqArcs (rq : Request)
  | ReqSummaries (rq : Request)
  | ReqChapterGuide (rq : Request)
  | ReqChapter (rq : Request) (chapter_number : Z)
  | ReqAllChapters (rq : Request)
  | ReqCoverImage (rq : Request) (cover_prompt : string)
  | ReqChapterImage (rq : Request) (chapter_id : Z) (chapter_prompt : string)
  | ReqPredict (rq : Request) (k : GenKind) (chapter_number : Z)
  | ReqPredictAllChapters (rq : Request)
  | ReqUpdateChapterOrder (rq : Request) (new_order : Json)
  | ReqUpdateChapterSummaries (rq : Request) (chapters_payload : Json)
  | ReqSaveChapter (rq : Request) (chapter_number : res Z) (content : option string)
  | ReqDeleteStory (rq : Request) (images : res unit).

(** ** Invariants of the world monad *)

Section Preserves.
Context {S : Type} (Inv : S -> Prop).

Definition preserves {A} (m : st S A) : Prop := forall s, Inv s -> Inv (snd (m s)).

Lemma preserves_ret {A} (a : A) : preserves (st_ret a).
Proof. intros s H. exact H. Qed.

Lemma preserves_raise {A} (e : PyExc) : preserves (@st_raise S A e).
Proof. intros s H. exact H. Qed.

Lemma preserves_of_res {A} (r : res A) : preserves (@st_of_res S A r).
Proof. intros s H. exact H. Qed.

Lemma preserves_bind {A B} (m : st S A) (k : A -> st S B) :
  preserves m -> (forall a, preserves (k a)) -> preserves (st_bind m k).
Proof.
  intros Hm Hk s Hs. unfold st_bind.
  specialize (Hm s Hs). destruct (m s) as [[a|e] s']; simpl in *; [apply Hk |]; exact Hm.
Qed.

Lemma preserves_modify (f : S -> S) : (forall s, Inv s -> Inv (f s)) -> preserves (st_modify f).
Proof. intros Hf s Hs. exact (Hf s Hs). Qed.

Lemma preserves_read {A} (f : S -> A) : preserves (fun s => (Ok (f s), s)).
Proof. intros s H. exact H. Qed.

Lemma preserves_some {A} (attr : string) (o : option A) : preserves (st_some attr o).
Proof. intros s H. destruct o; exact H. Qed.

Lemma preserves_tef {A} (body : st S A) (h : PyExc -> st S A) (fin : st S unit) :
  preserves body -> (forall e, preserves (h e)) -> preserves fin ->
  preserves (try_except_finally body h fin).
Proof.
  intros Hb Hh Hf s Hs. unfold try_except_finally.
  specialize (Hb s Hs). destruct (body s) as [r1 s1]; simpl in Hb.
  assert (H2 : Inv (snd (match r1 with Ok a => (Ok a, s1) | Raise e => h e s1 end))).
  { destruct r1; [exact Hb | apply Hh, Hb]. }
  destruct (match r1 with Ok a => (Ok a, s1) | Raise e => h e s1 end) as [r2 s2].
  specialize (Hf s2 H2). destruct (fin s2) as [[] s3]; exact Hf.
Qed.

Lemma preserves_for {A} (l : list A) (body : A -> st S unit) :
  (forall x, preserves (body x)) -> preserves (st_for l body).
Proof.
  intros Hb. induction l as [|x rest IH]; simpl; [apply preserves_ret |].
  apply preserves_bind; [apply Hb | intros _; exact IH].
Qed.

Lemma preserves_enumerate {A} (start : Z) (l : list A) (body : Z -> A -> st S unit) :
  (forall i x, preserves (body i x)) -> preserves (st_enumerate start l body).
Proof.
  intros Hb. revert start. induction l as [|x rest IH]; intros start; simpl; [apply preserves_ret |].
  apply preserves_bind; [apply Hb | intros _; apply IH].
Qed.
End Preserves.

#[export] Hint Resolve preserves_ret preserves_raise preserves_of_res preserves_read preserves_some : novel.

(** ** World invariants that only look at the database *)

Section DbInvariants.
Context {L : Type} `{LockStore L}.
Variable P : DB -> Prop.

(** [P] holds of the committed database and of the session's view. *)
Definition db_inv (w : World L) : Prop := P (w_db w) /\ P (w_work w).

Lemma preserves_work (f : DB -> DB) : (forall d, P d -> P (f d)) -> preserves db_inv (work f).
Proof. intros Hf w [H1 H2]. split; [exact H1 | apply Hf, H2]. Qed.

Lemma preserves_commit : preserves db_inv commit.
Proof. intros w [H1 H2]. split; exact H2. Qed.

Lemma preserves_rollback : preserves db_inv rollback.
Proof. intros w [H1 H2]. split; exact H1. Qed.

Lemma preserves_session_remove : preserves db_inv session_remove.
Proof. apply preserves_rollback. Qed.

Lemma preserves_begin_session : preserves db_inv begin_session.
Proof. intros w [H1 H2]. split; exact H1. Qed.

Lemma preserves_read_work {A} (f : DB -> A) : preserves db_inv (read_work f).
Proof. intros w Hw. exact Hw. Qed.

Lemma preserves_emit (e : Event) : preserves db_inv (emit e).
Proof. intros w Hw. exact Hw. Qed.

Lemma preserves_clear_lock (u : Z) : preserves db_inv (clear_user_generation_lock u).
Proof. intros w Hw. exact Hw. Qed.

Lemma preserves_set_lock (u : Z) : preserves db_inv (set_user_generation_lock u).
Proof.
  intros w Hw. unfold set_user_generation_lock.
  destruct (set_lock (w_locks w) (w_now w) u default_expire). exact Hw.
Qed.

Lemma preserves_enqueue (ok : res unit) (t : TaskSpec) : preserves db_inv (enqueue ok t).
Proof. intros w Hw. unfold enqueue, st_bind, st_of_res. destruct ok; exact Hw. Qed.
End DbInvariants.

#[export] Hint Resolve preserves_commit preserves_rollback preserves_session_remove
  preserves_begin_session preserves_read_work preserves_emit preserves_clear_lock
  preserves_set_lock preserves_enqueue : novel.

(** ** The generation log only evolves *)

(** The identity of a log row: what no later write may change. *)
Definition log_key (g : GenerationLog) : Z * Z * Z * GenKind * option Q :=
  (gl_id g, gl_user_id g, gl_task_id g, gl_generation_type g, gl_predicted_cost g).

Definition row_evolves (g g' : GenerationLog) : Prop :=
  log_key g = log_key g' /\ (gl_status g <> Pending -> gl_status g' <> Pending).

(** [new] keeps every row of [old], in place and with its identity, never
    turns a terminal row back to [pending], and may append rows. *)
Definition logs_evolve (old new : list GenerationLog) : Prop :=
  exists new1 ext, new = new1 ++ ext /\ Forall2 row_evolves old new1.

Lemma row_evolves_refl (g : GenerationLog) : row_evolves g g.
Proof. split; auto. Qed.

Lemma row_evolves_trans (g1 g2 g3 : GenerationLog) :
  row_evolves g1 g2 -> row_evolves g2 g3 -> row_evolves g1 g3.
Proof. intros [K1 S1] [K2 S2]. split; [congruence | auto]. Qed.

Lemma logs_evolve_refl (l : list GenerationLog) : logs_evolve l l.
Proof.
  exists l, []. split; [now rewrite app_nil_r |].
  induction l; constructor; [apply row_evolves_refl | assumption].
Qed.

Lemma Forall2_row_evolves_trans (l1 l2 l3 : list GenerationLog) :
  Forall2 row_evolves l1 l2 -> Forall2 row_evolves l2 l3 -> Forall2 row_evolves l1 l3.
Proof.
  intros H12. revert l3. induction H12 as [|x y l1 l2 Hxy _ IH]; intros l3 H23; inv_clear H23;
    constructor; [eapply row_evolves_trans; eauto | apply IH; assumption].
Qed.

Lemma logs_evolve_trans (l1 l2 l3 : list GenerationLog) :
  logs_evolve l1 l2 -> logs_evolve l2 l3 -> logs_evolve l1 l3.
Proof.
  intros (a & e1 & -> & Ha) (b & e2 & Hb3 & Hb).
  apply Forall2_app_inv_l in Hb as (b1 & b2 & Hb1 & _ & ->).
  exists b1, (b2 ++ e2). split; [rewrite Hb3, app_assoc; reflexivity |].
  eapply Forall2_row_evolves_trans; eassumption.
Qed.

Lemma logs_evolve_app (old new ext : list GenerationLog) :
  logs_evolve old new -> logs_evolve old (new ++ ext).
Proof. intros (a & e & -> & Ha). exists a, (e ++ ext). split; [now rewrite app_assoc | exact Ha]. Qed.

Lemma logs_evolve_map (f : GenerationLog -> GenerationLog) (old new : list GenerationLog) :
  (forall g, row_evolves g (f g)) -> logs_evolve old new -> logs_evolve old (map f new).
Proof.
  intros Hf (a & e & -> & Ha). exists (map f a), (map f e). split; [apply map_app |].
  clear e. induction Ha as [|x y l1 l2 Hxy _ IH]; simpl; constructor; [| exact IH].
  eapply row_evolves_trans; [exact Hxy | apply Hf].
Qed.

Lemma row_evolves_mark_failed (e : PyExc) (g : GenerationLog) : row_evolves g (mark_failed e g).
Proof. split; [reflexivity | simpl; discriminate]. Qed.

Lemma row_evolves_mark_succeeded real i o m (g : GenerationLog) :
  row_evolves g (mark_succeeded real i o m g).
Proof. split; [reflexivity | simpl; discriminate]. Qed.

Lemma row_evolves_mark_image_succeeded (g : GenerationLog) : row_evolves g (mark_image_succeeded g).
Proof. split; [reflexivity | simpl; discriminate]. Qed.

#[export] Hint Resolve row_evolves_mark_failed row_evolves_mark_succeeded
  row_evolves_mark_image_succeeded : novel.

(** [stripe_webhook], ['checkout.session.completed'] with a package
    ([api/profile.py], lines 108-126): when the user exists, the package's
    credits are added to the named counter and committed. *)
Definition credit_package {L : Type} (u : Z) (credit_type : string) (credits : Z) : st (World L) unit :=
  d <- read_work id ;;
  match users d !! u with
  | Some uc => work (fun d => db_with_users d (<[u := add_package_credits uc credit_type credits]> (users d))) ;;
               commit
  | None => st_ret tt
  end.

(** ** Invariants of the generation log

    A predicate on the log rows and the next row id is a [LogInvariant]
    when the two writes the code makes to the log keep it: marking a row
    (a change that keeps the row's identity and never returns it to
    [pending]) and adding a [pending] row with the next id. *)
Class LogInvariant (P : list GenerationLog -> Z -> Prop) := {
  inv_update : forall id f l n,
    (forall g, row_evolves g (f g)) -> P l n ->
    P (map (fun g => if gl_id g =? id then f g else g) l) n;
  inv_add : forall l n row,
    gl_id row = n -> gl_status row = Pending -> P l n -> P (l ++ [row]) (n + 1)
}.

Definition log_pred (P : list GenerationLog -> Z -> Prop) (d : DB) : Prop := P (logs d) (next_log_id d).

Section LogPreservation.
Context {L : Type} `{LockStore L}.
Context (P : list GenerationLog -> Z -> Prop) `{!LogInvariant P}.

Lemma preserves_work_logs (f : DB -> DB) :
  (forall d, logs (f d) = logs d /\ next_log_id (f d) = next_log_id d) ->
  preserves (@db_inv L (log_pred P)) (work f).
Proof.
  intros Hf. apply preserves_work. intros d Hd. unfold log_pred.
  destruct (Hf d) as [-> ->]. exact Hd.
Qed.

Lemma preserves_update_log (id : Z) (f : GenerationLog -> GenerationLog) :
  (forall g, row_evolves g (f g)) -> preserves (@db_inv L (log_pred P)) (update_log id f).
Proof. intros Hf. apply preserves_work. intros d Hd. apply inv_update; assumption. Qed.

Lemma preserves_add_log (u tid : Z) (k : GenKind) (predicted real : option Q) :
  preserves (@db_inv L (log_pred P)) (add_log u tid k predicted real).
Proof. apply preserves_work. intros d Hd. apply inv_add; [reflexivity | reflexivity | exact Hd]. Qed.

Lemma preserves_modify_story (sid : Z) (f : Story -> Story) :
  preserves (@db_inv L (log_pred P)) (modify_story sid f).
Proof. apply preserves_work_logs. split; reflexivity. Qed.

Lemma preserves_insert_chapter (sid : Z) (mk : Z -> Chapter) :
  preserves (@db_inv L (log_pred P)) (insert_chapter sid mk).
Proof. intros w [Hd Hw]. split; [exact Hd | exact Hw]. Qed.

(** A run that starts with a fresh session keeps an invariant of the
    committed database. *)
Lemma begin_then_preserves {A} (Q : DB -> Prop) (m : st (World L) A) (w : World L) :
  preserves (db_inv Q) m -> Q (w_db w) -> Q (w_db (snd ((begin_session ;; m) w))).
Proof.
  intros Hm Hw. unfold st_bind, begin_session, st_modify. cbn.
  exact (proj1 (Hm (world_with_work w (w_db w)) (conj Hw Hw))).
Qed.
End LogPreservation.

#[export] Hint Resolve preserves_add_log preserves_modify_story preserves_insert_chapter : novel.

(** Decomposition of a handler or a task into the primitive operations,
    each discharged by its preservation lemma. *)
Ltac preserve_step :=
  match goal with
  | |- preserves _ (st_bind _ _) => apply preserves_bind; [| intros ?]
  | |- preserves _ (try_except_finally _ _ _) => apply preserves_tef; [| intros ? |]
  | |- preserves _ (st_for _ _) => apply preserves_for; intros ?
  | |- preserves _ (st_enumerate _ _ _) => apply preserves_enumerate; intros ? ?
  | |- preserves _ (update_log _ _) => apply preserves_update_log; [exact _ | intros ?; eauto with novel]
  | |- preserves _ (work _) => apply preserves_work_logs; intros ?; split; reflexivity
  | |- preserves _ (match ?x with _ => _ end) => destruct x
  | |- preserves _ (let _ := _ in _) => cbv zeta
  | |- preserves _ _ => solve [eauto with novel typeclass_instances]
  | |- preserves _ _ => progress unfold replace_chapter, spend_credits, fail_task, task_finally,
      reconcile_and_log, meta_character, meta_location, replace_meta, upsert_summary,
      add_guide_part, generate_meta_task, generate_story_arcs_task, generate_summaries_task,
      generate_chapter_guide_task, generate_chapter_task, generate_image_task, guarded,
      not_enough, queue_and_log, api_generate_meta, api_generate_arcs, api_generate_summaries,
      api_generate_chapter_guide, api_generate_chapter, api_generate_all_chapters,
      api_generate_cover_image, api_generate_chapter_image, predict_cost, predict_all_chapters_cost,
      credit_package, run_task, flask_request, story_endpoint, add_chapter, reorder_one,
      update_chapter_order, update_chapter_summaries, save_chapter, delete_story
  end.

Ltac preserve_tac := repeat preserve_step.

Lemma preserves_dispatch_chapters {L : Type} `{LockStore L}
    (P : list GenerationLog -> Z -> Prop) `{!LogInvariant P}
    render_prompt count_tokens (enqueue_ok : res unit) (u sid : Z) (d : DB) (n : Z)
    (chs : list Chapter) (i : Z) :
  preserves (@db_inv L (log_pred P)) (dispatch_chapters render_prompt count_tokens enqueue_ok u sid d n chs i).
Proof.
  revert i. induction chs as [|c rest IH]; intros i; simpl; preserve_tac.
Qed.

Lemma preserves_save_summaries {L : Type} `{LockStore L}
    (P : list GenerationLog -> Z -> Prop) `{!LogInvariant P} (sid index : Z) (items : list Json)
    (updated : list Z) :
  preserves (@db_inv L (log_pred P)) (save_summaries sid index items updated).
Proof.
  revert index updated. induction items as [|x rest IH]; intros index updated; simpl; preserve_tac.
Qed.

#[export] Hint Resolve preserves_dispatch_chapters preserves_save_summaries : novel.

(** ** The system's steps *)

Section Steps.
Context {L : Type} `{LockStore L}.
Variable render_prompt : GenKind -> DB -> Z -> Z -> string.
Variable count_tokens : string -> string -> Z.
Variable json_loads : string -> option Json.

(** One HTTP request, routed to its endpoint and run by Flask. *)
Definition handle (enqueue_ok : res unit) (req : Req) : st (World L) Response :=
  flask_request (match req with
    | ReqMeta rq => api_generate_meta render_prompt count_tokens enqueue_ok rq
    | ReqArcs rq => api_generate_arcs render_prompt count_tokens enqueue_ok rq
    | ReqSummaries rq => api_generate_summaries render_prompt count_tokens enqueue_ok rq
    | ReqChapterGuide rq => api_generate_chapter_guide render_prompt count_tokens enqueue_ok rq
    | ReqChapter rq n => api_generate_chapter render_prompt count_tokens enqueue_ok rq n
    | ReqAllChapters rq => api_generate_all_chapters render_prompt count_tokens enqueue_ok rq
    | ReqCoverImage rq p => api_generate_cover_image enqueue_ok rq p
    | ReqChapterImage rq cid p => api_generate_chapter_image enqueue_ok rq cid p
    | ReqPredict rq k n => predict_cost render_prompt count_tokens rq k n
    | ReqPredictAllChapters rq => predict_all_chapters_cost render_prompt count_tokens rq
    | ReqUpdateChapterOrder rq o => update_chapter_order rq o
    | ReqUpdateChapterSummaries rq p => update_chapter_summaries rq p
    | ReqSaveChapter rq n c => save_chapter rq n c
    | ReqDeleteStory rq i => delete_story rq i
    end).

Definition world_with_now (w : World L) (now : Z) : World L :=
  {| w_db := w_db w; w_work := w_work w; w_locks := w_locks w; w_queue := w_queue w;
     w_events := w_events w; w_now := now; w_next_task_id := w_next_task_id w |}.

(** A worker takes any queued job (Celery's workers run concurrently, so
    jobs of one user may run in any order) and runs it. *)
Definition take_job (w : World L) (q1 q2 : list (Z * TaskSpec)) : World L :=
  world_with_queue w (q1 ++ q2) (w_next_task_id w).

Inductive step : World L -> World L -> Prop :=
  | StepRequest (w : World L) (enqueue_ok : res unit) (req : Req) :
      step w (snd (handle enqueue_ok req w))
  | StepWorker (w : World L) (q1 q2 : list (Z * TaskSpec)) (tid : Z) (t : TaskSpec) (r : Reply) :
      w_queue w = q1 ++ (tid, t) :: q2 ->
      step w (snd (run_task count_tokens json_loads tid t r (take_job w q1 q2)))
  | StepTick (w : World L) (dt : Z) :
      0 <= dt -> step w (world_with_now w (w_now w + dt))
  | StepCredit (w : World L) (u : Z) (credit_type : string) (credits : Z) :
      step w (snd ((begin_session ;; credit_package u credit_type credits) w)).

Definition reachable (w0 w : World L) : Prop := rtc step w0 w.

Context (P : list GenerationLog -> Z -> Prop) `{!LogInvariant P}.

Lemma step_preserves_log_pred (w w' : World L) :
  step w w' -> log_pred P (w_db w) -> log_pred P (w_db w').
Proof.
  intros Hs. destruct Hs as [w ok req | w q1 q2 tid t r _ | w dt _ | w u ct c].
  - unfold handle, flask_request. apply begin_then_preserves.
    apply preserves_tef; [| intros ?; apply preserves_raise | apply preserves_session_remove].
    destruct req; preserve_tac.
  - intros Hw. unfold run_task. apply begin_then_preserves; [destruct t; preserve_tac | exact Hw].
  - exact id.
  - apply begin_then_preserves. preserve_tac.
Qed.

Lemma reachable_preserves_log_pred (w0 w : World L) :
  reachable w0 w -> log_pred P (w_db w0) -> log_pred P (w_db w).
Proof.
  induction 1 as [|w1 w2 w3 Hs _ IH]; [exact id |].
  intros H0. apply IH, (step_preserves_log_pred _ _ Hs H0).
Qed.
End Steps.

(** ** The two log invariants *)

Lemma row_evolves_id (g g' : GenerationLog) : row_evolves g g' -> gl_id g' = gl_id g.
Proof. intros [K _]. unfold log_key in K. congruence. Qed.

(** The rows of an earlier world, evolved. *)
#[export] Instance logs_evolve_invariant (base : list GenerationLog) :
  LogInvariant (fun l _ => logs_evolve base l).
Proof.
  split.
  - intros id f l n Hf Hl. apply logs_evolve_map; [| exact Hl].
    intros g. destruct (gl_id g =? id); [apply Hf | apply row_evolves_refl].
  - intros l n row _ _ Hl. apply logs_evolve_app, Hl.
Qed.

(** Row ids are distinct and below [next_log_id]: the primary key of
    [generation_log] and its sequence. *)
Definition log_ids_ok (l : list GenerationLog) (n : Z) : Prop :=
  NoDup (map gl_id l) /\ Forall (fun g => gl_id g < n) l.

#[export] Instance log_ids_invariant : LogInvariant log_ids_ok.
Proof.
  split.
  - intros id f l n Hf [Hnd Hlt].
    assert (Hid : forall g, gl_id (if gl_id g =? id then f g else g) = gl_id g)
      by (intros g; destruct (gl_id g =? id); [apply row_evolves_id, Hf | reflexivity]).
    split.
    + assert (Hm : map gl_id (map (fun g => if gl_id g =? id then f g else g) l) = map gl_id l)
        by (rewrite map_map; apply map_ext; exact Hid).
      rewrite Hm. exact Hnd.
    + apply Forall_map. eapply Forall_impl; [exact Hlt |]. intros g Hg. simpl. rewrite Hid. exact Hg.
  - intros l n row Hrow _ [Hnd Hlt]. split.
    + rewrite map_app. apply NoDup_app. split; [exact Hnd | split; [| apply NoDup_singleton]].
      intros x Hx Hin. apply list_elem_of_singleton in Hin. subst x.
      apply list_elem_of_In, in_map_iff in Hx as (g & Hg & Hgl).
      rewrite Forall_forall in Hlt. specialize (Hlt g (proj2 (list_elem_of_In _ _) Hgl)). lia.
    + apply Forall_app. split; [| constructor; [lia | constructor]].
      eapply Forall_impl; [exact Hlt |]. intros g Hg. simpl in Hg |- *. lia.
Qed.

(** ** Properties of the whole system *)

Section SystemProperties.
Context {L : Type} `{LockStore L}.
Variable render_prompt : GenKind -> DB -> Z -> Z -> string.
Variable count_tokens : string -> string -> Z.
Variable json_loads : string -> option Json.

(** C12: the generation log is append-only in its identity.  Along any run
    of requests, worker runs in any order, clock ticks and credit
    purchases, every committed log row keeps its place, id, user, task id,
    kind and predicted cost, a row that left [pending] never returns to
    it, and rows are only appended. *)
Theorem reachable_logs_evolve (w0 w : World L) :
  reachable render_prompt count_tokens json_loads w0 w ->
  logs_evolve (logs (w_db w0)) (logs (w_db w)).
Proof.
  intros Hr. apply (reachable_preserves_log_pred render_prompt count_tokens json_loads
                      (fun l _ => logs_evolve (logs (w_db w0)) l) w0 w Hr).
  apply logs_evolve_refl.
Qed.

End SystemProperties.

(** ** A run where the lock does not exclude a second chapter job

    User 1 asks for chapter 1 (the lock is taken and a chapter job queued),
    then for metadata (no lock, a metadata job queued); a worker runs the
    metadata job first (here its provider call times out), and its
    [finally] clears user 1's lock although the chapter job has not run; a
    second chapter request is then accepted. *)

Definition scenario_chapter_job : Z * TaskSpec := (8, ChapterTask 10 "prompt" 1 1 6).
Definition scenario_meta_job : TaskSpec := MetaTask 10 "prompt" 1 6.

Definition scenario_w0 : World RedisLock := sample_world 100 KChapter.
Definition scenario_w1 : World RedisLock :=
  snd (handle sample_render_prompt sample_count_tokens (Ok tt) (ReqChapter sample_request 1) scenario_w0).
Definition scenario_w2 : World RedisLock :=
  snd (handle sample_render_prompt sample_count_tokens (Ok tt) (ReqMeta sample_request) scenario_w1).
Definition scenario_w3 : World RedisLock :=
  snd (run_task sample_count_tokens sample_json_loads 9 scenario_meta_job
         (reply_raises (ModelCallError "timeout")) (take_job scenario_w2 [scenario_chapter_job] [])).
Definition scenario_w4 : World RedisLock :=
  snd (handle sample_render_prompt sample_count_tokens (Ok tt) (ReqChapter sample_request 2) scenario_w3).

Lemma scenario_reachable :
  reachable sample_render_prompt sample_count_tokens sample_json_loads scenario_w0 scenario_w4.
Proof.
  apply (rtc_l _ _ scenario_w1); [unfold scenario_w1; apply StepRequest |].
  apply (rtc_l _ _ scenario_w2); [unfold scenario_w2; apply StepRequest |].
  apply (rtc_l _ _ scenario_w3); [unfold scenario_w3; apply StepWorker; vm_compute; reflexivity |].
  apply (rtc_l _ _ scenario_w4); [unfold scenario_w4; apply StepRequest |].
  apply rtc_refl.
Qed.

(** A summaries save whose second item has an empty title: chapter 101
    is dropped and the remaining chapters are numbered 1 and 3. *)
Definition edit_w1 : World RedisLock :=
  snd (handle sample_render_prompt sample_count_tokens (Ok tt)
         (ReqUpdateChapterSummaries sample_request (JArr sample_summaries)) (sample_world 1000 KMeta)).

Definition edited_story : Story :=
  default sample_story (stories (w_db edit_w1) !! 10).

Lemma all_chapters_jobs_numbered_by_position_witness :
  map chapter_number (story_chapters edited_story) = [1; 3]
  /\ find_chapter_by_number (w_db edit_w1) 10 2 = None
  /\ let '(r, w') := flask_request (api_generate_all_chapters sample_render_prompt sample_count_tokens
                                     (Ok tt) sample_request) edit_w1 in
     exists jobs, w_queue w' = w_queue edit_w1 ++ jobs
       /\ Forall2 (fun (j : Z * TaskSpec) k => exists p toks, j.2 = ChapterTask 10 p k 1 toks)
            jobs (seqZ 1 (Z.of_nat (length (sorted_chapters edited_story)))).
Proof.
  split; [vm_compute; reflexivity |]. split; [vm_compute; reflexivity |].
  eapply (all_chapters_jobs_numbered_by_position sample_render_prompt sample_count_tokens sample_request
            edit_w1 _ 10 edited_story).
  - vm_compute. reflexivity.
  - vm_compute. reflexivity.
  - vm_compute. reflexivity.
  - vm_compute. reflexivity.
  - vm_compute. reflexivity.
Defined.

Lemma reachable_logs_evolve_witness :
  reachable sample_render_prompt sample_count_tokens sample_json_loads scenario_w0 scenario_w4 /\
  logs_evolve (logs (w_db scenario_w0)) (logs (w_db scenario_w4)).
Proof.
  split; [exact scenario_reachable |].
  exact (reachable_logs_evolve sample_render_prompt sample_count_tokens sample_json_loads
           scenario_w0 scenario_w4 scenario_reachable).
Defined.

End System.
