(* ===== verification/Queue.v ===== *)
(** * The job queue: well-formedness and draining

    The Celery queue ([w_queue]) holds the jobs [.delay] has accepted, each
    with the task id the broker assigned from [w_next_task_id].  This file
    gives invariants that do not look at the database a frame discipline
    ([DbFrame], [LockFrame]) so the operations of [Store], [Worker] and
    [Dispatch] discharge them once, proves that task ids stay distinct and
    fresh along every run, and that a worker taking the jobs in order
    drains the queue in as many steps as there are jobs, leaving the lock
    of every user who had a queued job released.  The last section shows
    that the lock does not cover a queued chapter job: a metadata job,
    dispatched without the lock, frees it when it runs first. *)

From Stdlib Require Import ZArith QArith Lia.
From stdpp Require Import base gmap strings list.
From S2P Require Import Prelude Pricing Ledger Lock PyJson Store Worker Dispatch Chapters System.

Local Open Scope Z_scope.

Module Queue.
Import Pricing Ledger Lock PyJson Store Worker Dispatch Chapters System.

(** ** Invariants that ignore the database *)

Section Frame.
Context {L : Type} `{LockStore L}.

(** An invariant is framed against the database when the session, the
    committed rows and the event log do not matter to it. *)
Class DbFrame (I : World L -> Prop) := {
  frame_work : forall w d, I w -> I (world_with_work w d);
  frame_db : forall w d, I w -> I (world_with_db w d);
  frame_events : forall w es, I w -> I (world_with_events w es)
}.

(** ... and against the lock store when the locks do not matter either. *)
Class LockFrame (I : World L -> Prop) :=
  frame_locks : forall w l, I w -> I (world_with_locks w l).

Context (I : World L -> Prop) `{!DbFrame I}.

Lemma preserves_work_frame (f : DB -> DB) : preserves I (work f).
Proof. intros w Hw. apply frame_work, Hw. Qed.

Lemma preserves_commit_frame : preserves I commit.
Proof. intros w Hw. apply frame_db, Hw. Qed.

Lemma preserves_rollback_frame : preserves I rollback.
Proof. intros w Hw. apply frame_work, Hw. Qed.

Lemma preserves_session_remove_frame : preserves I session_remove.
Proof. apply preserves_rollback_frame. Qed.

Lemma preserves_begin_session_frame : preserves I begin_session.
Proof. apply preserves_rollback_frame. Qed.

Lemma preserves_emit_frame (e : Event) : preserves I (emit e).
Proof. intros w Hw. apply frame_events, Hw. Qed.

Lemma preserves_update_log_frame (id : Z) (f : GenerationLog -> GenerationLog) :
  preserves I (update_log id f).
Proof. apply preserves_work_frame. Qed.

Lemma preserves_add_log_frame u tid k predicted real : preserves I (add_log u tid k predicted real).
Proof. apply preserves_work_frame. Qed.

Lemma preserves_modify_story_frame (sid : Z) (f : Story -> Story) : preserves I (modify_story sid f).
Proof. apply preserves_work_frame. Qed.

Lemma preserves_insert_chapter_frame (sid : Z) (mk : Z -> Chapter) : preserves I (insert_chapter sid mk).
Proof. intros w Hw. apply frame_work, Hw. Qed.

Context `{!LockFrame I}.

Lemma preserves_clear_lock_frame (u : Z) : preserves I (clear_user_generation_lock u).
Proof. intros w Hw. apply frame_locks, Hw. Qed.

Lemma preserves_set_lock_frame (u : Z) : preserves I (set_user_generation_lock u).
Proof.
  intros w Hw. unfold set_user_generation_lock.
  destruct (set_lock (w_locks w) (w_now w) u default_expire). apply frame_locks, Hw.
Qed.
End Frame.

Lemma preserves_read_work_any {L : Type} (I : World L -> Prop) {A} (f : DB -> A) :
  preserves I (read_work f).
Proof. intros w Hw. exact Hw. Qed.

#[export] Hint Resolve preserves_work_frame preserves_commit_frame preserves_rollback_frame
  preserves_session_remove_frame preserves_begin_session_frame preserves_emit_frame
  preserves_update_log_frame preserves_add_log_frame preserves_modify_story_frame
  preserves_insert_chapter_frame
  preserves_clear_lock_frame preserves_set_lock_frame preserves_read_work_any : novel.

(** ** Invariants of the queue *)

Definition queue_pred {L : Type} (Q : list (Z * TaskSpec) -> Z -> Prop) (w : World L) : Prop :=
  Q (w_queue w) (w_next_task_id w).

#[export] Instance queue_pred_db_frame {L : Type} (Q : list (Z * TaskSpec) -> Z -> Prop) :
  DbFrame (@queue_pred L Q).
Proof. split; intros; assumption. Qed.

#[export] Instance queue_pred_lock_frame {L : Type} (Q : list (Z * TaskSpec) -> Z -> Prop) :
  LockFrame (@queue_pred L Q).
Proof. intros w l Hw. exact Hw. Qed.

(** A queue invariant survives [.delay] (a job appended under the next
    task id) and a worker taking any job out. *)
Class QueueInvariant (Q : list (Z * TaskSpec) -> Z -> Prop) := {
  qinv_enqueue : forall q n t, Q q n -> Q (q ++ [(n, t)]) (n + 1);
  qinv_take : forall q1 x q2 n, Q (q1 ++ x :: q2) n -> Q (q1 ++ q2) n
}.

Lemma preserves_enqueue_queue {L : Type} (Q : list (Z * TaskSpec) -> Z -> Prop) `{!QueueInvariant Q}
    (ok : res unit) (t : TaskSpec) : preserves (@queue_pred L Q) (enqueue ok t).
Proof.
  intros w Hw. unfold enqueue, st_bind, st_of_res.
  destruct ok; [apply qinv_enqueue |]; exact Hw.
Qed.

#[export] Hint Resolve preserves_enqueue_queue : novel.

Lemma preserves_dispatch_chapters_queue {L : Type} (Q : list (Z * TaskSpec) -> Z -> Prop)
    `{!QueueInvariant Q} render_prompt count_tokens (enqueue_ok : res unit) (u sid : Z) (d : DB)
    (n : Z) (chs : list Chapter) (i : Z) :
  preserves (@queue_pred L Q) (dispatch_chapters render_prompt count_tokens enqueue_ok u sid d n chs i).
Proof. revert i. induction chs as [|c rest IH]; intros i; simpl; preserve_tac. Qed.

Lemma preserves_save_summaries_frame {L : Type} `{LockStore L} (I : World L -> Prop) `{!DbFrame I}
    (sid index : Z) (items : list Json) (updated : list Z) :
  preserves I (save_summaries sid index items updated).
Proof. revert index updated. induction items as [|x rest IH]; intros index updated; simpl; preserve_tac. Qed.

#[export] Hint Resolve preserves_dispatch_chapters_queue preserves_save_summaries_frame : novel.

(** Task ids in the queue are distinct and below the broker's next id. *)
Definition queue_ids_ok (q : list (Z * TaskSpec)) (n : Z) : Prop :=
  NoDup (map fst q) /\ Forall (fun p => fst p < n) q.

#[export] Instance queue_ids_invariant : QueueInvariant queue_ids_ok.
Proof.
  split.
  - intros q n t [Hnd Hlt]. split.
    + rewrite map_app. apply NoDup_app. split; [exact Hnd | split; [| apply NoDup_singleton]].
      intros x Hx Hin. apply list_elem_of_singleton in Hin. simpl in Hin. subst x.
      apply list_elem_of_In, in_map_iff in Hx as (p & Hp & Hpq).
      rewrite Forall_forall in Hlt. specialize (Hlt p (proj2 (list_elem_of_In _ _) Hpq)). lia.
    + apply Forall_app. split; [| constructor; [simpl; lia | constructor]].
      eapply Forall_impl; [exact Hlt |]. intros p Hp. simpl in *. lia.
  - intros q1 x q2 n [Hnd Hlt]. split.
    + rewrite map_app in Hnd |- *. simpl in Hnd. apply NoDup_app in Hnd as (H1 & H12 & H2).
      apply NoDup_cons in H2 as [_ H2]. apply NoDup_app. split; [exact H1 | split; [| exact H2]].
      intros y Hy1 Hy2. apply (H12 y Hy1). now apply list_elem_of_further.
    + apply Forall_app in Hlt as [H1 H2]. inversion H2; subst. apply Forall_app; split; assumption.
Qed.

(** ** Along every run *)

Section Runs.
Context {L : Type} `{LockStore L}.
Variable render_prompt : GenKind -> DB -> Z -> Z -> string.
Variable count_tokens : string -> string -> Z.
Variable json_loads : string -> option Json.
Context (Q : list (Z * TaskSpec) -> Z -> Prop) `{!QueueInvariant Q}.

Lemma run_task_preserves_frame (I : World L -> Prop) `{!DbFrame I} `{!LockFrame I}
    (tid : Z) (t : TaskSpec) (r : Reply) :
  preserves I (run_task count_tokens json_loads tid t r).
Proof. destruct t; preserve_tac. Qed.

Lemma step_preserves_queue_pred (w w' : World L) :
  step render_prompt count_tokens json_loads w w' -> queue_pred Q w -> queue_pred Q w'.
Proof.
  intros Hs. destruct Hs as [w ok req | w q1 q2 tid t r Hq | w dt _ | w u ct c]; intros Hw.
  - assert (Hp : preserves (@queue_pred L Q) (handle render_prompt count_tokens ok req))
      by (unfold handle; destruct req; preserve_tac).
    exact (Hp w Hw).
  - apply run_task_preserves_frame; [exact _ | exact _ |].
    unfold queue_pred in *. simpl. rewrite Hq in Hw. eapply qinv_take, Hw.
  - exact Hw.
  - assert (Hp : preserves (@queue_pred L Q) (begin_session ;; credit_package u ct c)) by preserve_tac.
    exact (Hp w Hw).
Qed.

Lemma reachable_preserves_queue_pred (w0 w : World L) :
  reachable render_prompt count_tokens json_loads w0 w -> queue_pred Q w0 -> queue_pred Q w.
Proof.
  induction 1 as [|w1 w2 w3 Hs _ IH]; [exact id |].
  intros H0. apply IH, (step_preserves_queue_pred _ _ Hs H0).
Qed.
End Runs.

(** ** Draining the queue *)

(** An invariant of the lock of one user: free at time [now]. *)
Definition lock_free {L : Type} `{LockStore L} (now u : Z) (w : World L) : Prop :=
  lock_held (w_locks w) now u = false.

#[export] Instance lock_free_db_frame {L : Type} `{LockStore L} (now u : Z) :
  DbFrame (@lock_free L _ now u).
Proof. split; intros; assumption. Qed.

Lemma preserves_clear_lock_free {L : Type} `{LockStoreLaws L} (now u v : Z) :
  preserves (lock_free now u) (clear_user_generation_lock v).
Proof.
  intros w Hw. unfold lock_free in *. simpl.
  destruct (decide (v = u)) as [<-|Hne]; [apply clear_lock_frees |].
  rewrite clear_lock_other by exact Hne. exact Hw.
Qed.

#[export] Hint Resolve preserves_clear_lock_free : novel.

Section Drain.
Context {L : Type} `{LockStoreLaws L}.
Variable render_prompt : GenKind -> DB -> Z -> Z -> string.
Variable count_tokens : string -> string -> Z.
Variable json_loads : string -> option Json.
(** What the outside world answers to each job. *)
Variable reply : Z -> TaskSpec -> Reply.

(** One worker taking the jobs in queue order, each run to its end. *)
Fixpoint drain_jobs (jobs : list (Z * TaskSpec)) (w : World L) : World L :=
  match jobs with
  | [] => w
  | (tid, t) :: rest =>
      drain_jobs rest (snd (run_task count_tokens json_loads tid t (reply tid t) (take_job w [] rest)))
  end.

Definition drain (w : World L) : World L := drain_jobs (w_queue w) w.

Lemma run_task_keeps_queue (tid : Z) (t : TaskSpec) (r : Reply) (w : World L) :
  w_queue (snd (run_task count_tokens json_loads tid t r w)) = w_queue w.
Proof.
  exact (run_task_preserves_frame count_tokens json_loads
           (queue_pred (fun q _ => q = w_queue w)) tid t r w eq_refl).
Qed.

(** A job never takes a lock: a free lock stays free through a run. *)
Lemma run_task_keeps_lock_free (now u tid : Z) (t : TaskSpec) (r : Reply) (w : World L) :
  lock_free now u w -> lock_free now u (snd (run_task count_tokens json_loads tid t r w)).
Proof.
  revert w. change (preserves (lock_free now u) (run_task count_tokens json_loads tid t r)).
  destruct t; preserve_tac.
Qed.

Lemma drain_jobs_steps (jobs : list (Z * TaskSpec)) (w : World L) :
  w_queue w = jobs ->
  nsteps (step render_prompt count_tokens json_loads) (length jobs) w (drain_jobs jobs w)
  /\ w_queue (drain_jobs jobs w) = [].
Proof.
  revert w. induction jobs as [|[tid t] rest IH]; intros w Hq; simpl; [split; [apply nsteps_O | exact Hq] |].
  destruct (IH (snd (run_task count_tokens json_loads tid t (reply tid t) (take_job w [] rest))))
    as [Hr He]; [rewrite run_task_keeps_queue; reflexivity |].
  split; [| exact He].
  eapply nsteps_l; [| exact Hr]. apply StepWorker. exact Hq.
Qed.

Lemma drain_jobs_keeps_lock_free (now u : Z) (jobs : list (Z * TaskSpec)) (w : World L) :
  lock_free now u w -> lock_free now u (drain_jobs jobs w).
Proof.
  revert w. induction jobs as [|[tid t] rest IH]; intros w Hw; simpl; [exact Hw |].
  apply IH, run_task_keeps_lock_free. exact Hw.
Qed.

Lemma drain_jobs_frees_queued_users (now u : Z) (jobs : list (Z * TaskSpec)) (w : World L) :
  In u (map (fun p => task_user (snd p)) jobs) -> lock_free now u (drain_jobs jobs w).
Proof.
  revert w. induction jobs as [|[tid t] rest IH]; intros w Hin; simpl in Hin |- *; [contradiction |].
  destruct (in_dec Z.eq_dec u (map (fun p => task_user (snd p)) rest)) as [Hr|Hr]; [apply IH, Hr |].
  destruct Hin as [<-|Hin]; [| contradiction].
  apply drain_jobs_keeps_lock_free. unfold lock_free.
  destruct t; simpl; apply task_finally_clears.
Qed.


(** C6: liveness of the lock.  Once the queue has been drained, the lock
    of every user who had a queued job is free, whatever order of users
    the queue held and however each job ended. *)
Theorem drain_releases_queued_locks (w : World L) (now u : Z) :
  In u (map (fun p => task_user (snd p)) (w_queue w)) ->
  lock_held (w_locks (drain w)) now u = false.
Proof. apply drain_jobs_frees_queued_users. Qed.
End Drain.

Section QueueProperties.
Context {L : Type} `{LockStore L}.
Variable render_prompt : GenKind -> DB -> Z -> Z -> string.
Variable count_tokens : string -> string -> Z.
Variable json_loads : string -> option Json.

(** Task ids stay fresh.  Along any run, the ids of the queued jobs
    stay distinct and below the broker's next id, so [.delay] never hands
    a worker two jobs under one id. *)
Theorem reachable_queue_ids_fresh (w0 w : World L) :
  reachable render_prompt count_tokens json_loads w0 w ->
  queue_ids_ok (w_queue w0) (w_next_task_id w0) -> queue_ids_ok (w_queue w) (w_next_task_id w).
Proof. apply (reachable_preserves_queue_pred render_prompt count_tokens json_loads queue_ids_ok). Qed.
End QueueProperties.

(** ** The lock and jobs that do not take it *)

Section Interleaving.
Context {L : Type} `{LockStoreLaws L}.
Variable render_prompt : GenKind -> DB -> Z -> Z -> string.
Variable count_tokens : string -> string -> Z.
Variable json_loads : string -> option Json.

(** C18: the generation lock does not cover a queued chapter job.  In any
    world where a user holds the generation lock while one of their
    chapter jobs waits in the queue, an affordable metadata request of
    that user is accepted (the endpoint neither checks nor takes the lock),
    and when a worker runs the metadata job first, whatever its provider
    answers, its [finally] leaves the user's lock free although the
    chapter job is still queued, so a second locking request is no longer
    refused. *)
Theorem metadata_job_frees_lock_of_queued_chapter (w : World L) (rq : Request)
    (uc : UserCredits) (sid : Z) (s : Story) (b : CostBreakdown)
    (tid csid n k : Z) (p : string) (r : Reply) (now : Z) :
  let toks := prompt_tokens render_prompt count_tokens KMeta (w_db w) sid 0 "gpt-4o-mini" in
  let mj := MetaTask sid (render_prompt KMeta (w_db w) sid 0) (rq_user rq) toks in
  let w1 := snd (handle render_prompt count_tokens (Ok tt) (ReqMeta rq) w) in
  let w2 := snd (run_task count_tokens json_loads (w_next_task_id w) mj r
                   (take_job w1 (w_queue w) [])) in
  lock_held (w_locks w) (w_now w) (rq_user rq) = true ->
  In (tid, ChapterTask csid p n (rq_user rq) k) (w_queue w) ->
  decorator (w_db w) rq = inr (uc, sid, s) ->
  is_last_generation_and_negative_creds (w_db w) (rq_user rq) uc KMeta = false ->
  calculate_predicted_meta_cost (token_config (w_db w)) (credit_configs (w_db w)) toks = Ok b ->
  can_spend_credits uc "text" (inject_Z (cb_total_credit_cost b)) = true ->
  reachable render_prompt count_tokens json_loads w w2
  /\ lock_held (w_locks w2) now (rq_user rq) = false
  /\ In (tid, ChapterTask csid p n (rq_user rq) k) (w_queue w2).
Proof.
  intros toks mj w1 w2 _ Hin Hd Hg Hp Hc.
  pose proof (meta_dispatch_queues_one_pending_job render_prompt count_tokens rq w uc sid s b Hd Hg Hp Hc)
    as Hm.
  assert (Hq : w_queue w1 = w_queue w ++ [(w_next_task_id w, mj)]).
  { unfold w1, handle. destruct (flask_request _ w) as [r1 w1']. apply Hm. }
  split; [| split].
  - apply (rtc_l _ _ w1); [apply StepRequest |].
    apply (rtc_l _ _ w2); [apply StepWorker; exact Hq |]. apply rtc_refl.
  - unfold w2, mj. simpl. apply task_finally_clears.
  - unfold w2. rewrite run_task_keeps_queue. simpl. rewrite app_nil_r. exact Hin.
Qed.
End Interleaving.

Definition sample_reply (tid : Z) (t : TaskSpec) : Reply := reply_text "Chapter text.".

Lemma reachable_queue_ids_fresh_witness :
  queue_ids_ok (w_queue scenario_w0) (w_next_task_id scenario_w0) /\
  queue_ids_ok (w_queue scenario_w4) (w_next_task_id scenario_w4).
Proof.
  assert (H0 : queue_ids_ok (w_queue scenario_w0) (w_next_task_id scenario_w0))
    by (vm_compute; split; constructor).
  split; [exact H0 |].
  exact (reachable_queue_ids_fresh sample_render_prompt sample_count_tokens sample_json_loads
           scenario_w0 scenario_w4 scenario_reachable H0).
Defined.

Lemma drain_releases_queued_locks_witness :
  In 1 (map (fun p => task_user (snd p)) (w_queue scenario_w1)) /\
  lock_held (w_locks (drain sample_count_tokens sample_json_loads sample_reply scenario_w1)) 0 1 = false.
Proof.
  assert (Hin : In 1 (map (fun p => task_user (snd p)) (w_queue scenario_w1)))
    by (vm_compute; left; reflexivity).
  split; [exact Hin |].
  exact (drain_releases_queued_locks sample_count_tokens sample_json_loads sample_reply
           scenario_w1 0 1 Hin).
Defined.

Lemma metadata_job_frees_lock_of_queued_chapter_witness :
  let toks := prompt_tokens sample_render_prompt sample_count_tokens KMeta (w_db scenario_w1) 10 0
                "gpt-4o-mini" in
  let w2 := snd (run_task sample_count_tokens sample_json_loads (w_next_task_id scenario_w1)
                   (MetaTask 10 (sample_render_prompt KMeta (w_db scenario_w1) 10 0) 1 toks)
                   (reply_raises (ModelCallError "timeout"))
                   (take_job (snd (handle sample_render_prompt sample_count_tokens (Ok tt)
                                     (ReqMeta sample_request) scenario_w1))
                      (w_queue scenario_w1) [])) in
  lock_held (w_locks scenario_w1) (w_now scenario_w1) 1 = true
  /\ reachable sample_render_prompt sample_count_tokens sample_json_loads scenario_w1 w2
  /\ lock_held (w_locks w2) (w_now scenario_w1) 1 = false
  /\ In (8, ChapterTask 10 "prompt" 1 1 6) (w_queue w2).
Proof.
  split; [vm_compute; reflexivity |].
  eapply (metadata_job_frees_lock_of_queued_chapter sample_render_prompt sample_count_tokens
            sample_json_loads scenario_w1 sample_request _ 10 _ _ 8 10 1 6 "prompt"
            (reply_raises (ModelCallError "timeout")) (w_now scenario_w1)).
  - vm_compute. reflexivity.
  - vm_compute. left. reflexivity.
  - vm_compute. reflexivity.
  - vm_compute. reflexivity.
  - vm_compute. reflexivity.
  - vm_compute. reflexivity.
Defined.

End Queue.
